(** * Disha scraping service: persistence and reconciliation utilities

    A shallow embedding of [backend/scraping-service/src/utils.py] and of the
    constants of [src/config.py] it reads, with the properties of the
    deduplicator, the transformer, the incremental writers, the batch
    persister and the remote reconciler.

    Conventions of the embedding:
    - a Python [str] is a [string]; whitespace and case mapping are those of
      the ASCII range (bytes above 127 are neither whitespace nor cased);
    - a Python value is a [pyval]; a [dict] with string keys is a list of
      key/value pairs in insertion order (floats are not modelled);
    - a Python exception is an [exn]; code that may raise returns an
      [outcome]; code with effects runs in the monad [M] over a [world]
      holding the file system, the module-level name cache, the remote
      store and the log;
    - what the third-party libraries decide (the text [str()] gives for a
      container, the cell pandas writes for a value, what [csv.reader] makes
      of a JSON line, [json.loads]) is a field of the class [Platform]. *)

From Stdlib Require Import ZArith Ascii String List Bool Lia.
From stdpp Require Import base option list gmap strings pretty.

Set Warnings "-register-all".

Local Open Scope string_scope.
Local Open Scope list_scope.

(** ** Python strings *)

Module PyStr.

(** [str.isspace] on one character of the ASCII range. *)
Definition is_space (c : ascii) : bool :=
  let n := nat_of_ascii c in
  ((9 <=? n)%nat && (n <=? 13)%nat) || ((28 <=? n)%nat && (n <=? 32)%nat).

(** One of the letters [A] to [Z], one of the letters [a] to [z]: the cased
    characters of the ASCII range. These are not [str.isupper] and
    [str.islower], which also hold of letters outside that range. *)
Definition is_upper (c : ascii) : bool :=
  let n := nat_of_ascii c in (65 <=? n)%nat && (n <=? 90)%nat.

Definition is_lower (c : ascii) : bool :=
  let n := nat_of_ascii c in (97 <=? n)%nat && (n <=? 122)%nat.

(** [c.lower()] and [c.upper()] on the ASCII range: a byte above 127, which
    is part of the encoding of a character outside that range, is left as it
    is, so that nothing is stated of the case of such characters. *)
Definition lower_char (c : ascii) : ascii :=
  if is_upper c then ascii_of_nat (nat_of_ascii c + 32) else c.

Definition upper_char (c : ascii) : ascii :=
  if is_lower c then ascii_of_nat (nat_of_ascii c - 32) else c.

Definition is_empty (s : string) : bool :=
  match s with EmptyString => true | String _ _ => false end.

Fixpoint lstrip (s : string) : string :=
  match s with
  | EmptyString => EmptyString
  | String c s' => if is_space c then lstrip s' else s
  end.

Fixpoint rstrip (s : string) : string :=
  match s with
  | EmptyString => EmptyString
  | String c s' =>
      let r := rstrip s' in
      if is_space c && is_empty r then EmptyString else String c r
  end.

(** [s.strip()] *)
Definition strip (s : string) : string := rstrip (lstrip s).

(** [s.lower()] *)
Fixpoint lower (s : string) : string :=
  match s with
  | EmptyString => EmptyString
  | String c s' => String (lower_char c) (lower s')
  end.

(** [s[:1].upper() + s[1:]] *)
Definition capitalize_first (s : string) : string :=
  match s with
  | EmptyString => EmptyString
  | String c s' => String (upper_char c) s'
  end.

(** [s.split(sep)] for a one-character separator: never the empty list. *)
Fixpoint split (sep : ascii) (s : string) : list string :=
  match s with
  | EmptyString => [EmptyString]
  | String c s' =>
      if Ascii.eqb c sep then EmptyString :: split sep s'
      else match split sep s' with
           | [] => [String c EmptyString]
           | p :: ps => String c p :: ps
           end
  end.

(** [s.split(sep)[0]] *)
Definition split_head (sep : ascii) (s : string) : string :=
  match split sep s with
  | [] => EmptyString
  | p :: _ => p
  end.

Fixpoint starts_with (p s : string) : bool :=
  match p, s with
  | EmptyString, _ => true
  | String a p', String b s' => Ascii.eqb a b && starts_with p' s'
  | String _ _, EmptyString => false
  end.

(** [s.endswith(suffix)] *)
Fixpoint ends_with (suffix s : string) : bool :=
  String.eqb suffix s ||
  match s with
  | EmptyString => false
  | String _ s' => ends_with suffix s'
  end.

(** [s.replace(old, new)] for a non-empty [old]: occurrences are replaced
    from the left and do not overlap; [skip] counts the characters of the
    occurrence just replaced that are still to be dropped. *)
Fixpoint replace_from (old new : string) (skip : nat) (s : string) : string :=
  match s with
  | EmptyString => EmptyString
  | String c s' =>
      match skip with
      | S k => replace_from old new k s'
      | O =>
          if starts_with old s
          then new ++ replace_from old new (String.length old - 1) s'
          else String c (replace_from old new 0 s')
      end
  end.

Definition replace (old new s : string) : string := replace_from old new 0 s.

(** [os.path.join(a, b)] on a POSIX system. *)
Definition path_join (a b : string) : string :=
  if starts_with "/" b then b
  else if is_empty a || ends_with "/" a then a ++ b
  else a ++ "/" ++ b.

End PyStr.

(** ** Python values, dictionaries and exceptions *)

Inductive pyval : Type :=
| PNone
| PBool (b : bool)
| PInt (z : Z)
| PStr (s : string)
| PList (l : list pyval)
| PDict (d : list (string * pyval)).

(** A [dict] with string keys, in insertion order. *)
Abbreviation odict V := (list (string * V)).
Abbreviation pydict := (list (string * pyval)).

Module Dict.
Section Ops.
Context {V : Type}.

(** [d.get(k)], [None] when the key is absent. *)
Fixpoint lookup (d : odict V) (k : string) : option V :=
  match d with
  | [] => None
  | (k', v) :: d' => if String.eqb k' k then Some v else lookup d' k
  end.

(** [d[k] = v]: an existing key keeps its position. *)
Fixpoint set (d : odict V) (k : string) (v : V) : odict V :=
  match d with
  | [] => [(k, v)]
  | (k', v') :: d' =>
      if String.eqb k' k then (k, v) :: d' else (k', v') :: set d' k v
  end.

(** [d.keys()] and [d.values()] *)
Definition keys (d : odict V) : list string := fst <$> d.
Definition values (d : odict V) : list V := snd <$> d.
End Ops.
End Dict.

(** [d.get(k, default)] *)
Definition get (d : pydict) (k : string) (default : pyval) : pyval :=
  match Dict.lookup d k with
  | Some v => v
  | None => default
  end.

Inductive exn : Type :=
| AttributeError (msg : string)
| TypeError (msg : string)
| OSError (msg : string)
| RemoteError (msg : string).

(** [str(e)] *)
Definition exn_str (e : exn) : string :=
  match e with
  | AttributeError m | TypeError m | OSError m | RemoteError m => m
  end.

(** The result of code that may raise. *)
Inductive outcome (A : Type) : Type :=
| Return (a : A)
| Raise (e : exn).
Arguments Return {A} a.
Arguments Raise {A} e.

Definition obind {A B : Type} (o : outcome A) (k : A -> outcome B) : outcome B :=
  match o with
  | Return a => k a
  | Raise e => Raise e
  end.

Declare Scope outcome_scope.
Delimit Scope outcome_scope with outcome.
Notation "'let?' x ':=' c 'in' k" := (obind c (fun x => k))
  (at level 10, x name, c at level 100, k at level 200) : outcome_scope.

(** A [for] loop threading an accumulator, stopped by the first exception. *)
Fixpoint for_fold {A B : Type} (f : A -> B -> outcome A) (l : list B) (acc : A) : outcome A :=
  match l with
  | [] => Return acc
  | x :: l' => obind (f acc x) (for_fold f l')
  end.

(** A list comprehension whose body may raise. *)
Fixpoint for_map {A B : Type} (f : A -> outcome B) (l : list A) : outcome (list B) :=
  match l with
  | [] => Return []
  | x :: l' => obind (f x) (fun y => obind (for_map f l') (fun ys => Return (y :: ys)))
  end.

(** What the libraries under the code decide. *)
Class Platform : Type := {
  (** [str(v)] of a list or a dict *)
  py_repr : pyval -> string;
  (** the cell [DataFrame.to_csv] writes for a value, as [csv.reader] reads it back *)
  csv_cell : pyval -> string;
  (** the rows [csv.reader] yields for the text [json.dump] writes for a value *)
  json_as_csv : pyval -> list (list string);
  (** [json.loads(s)]: [None] when it raises *)
  json_loads : string -> option pyval
}.

(** Truth value of a Python object. *)
Definition truthy (v : pyval) : bool :=
  match v with
  | PNone => false
  | PBool b => b
  | PInt z => negb (z =? 0)%Z
  | PStr s => negb (PyStr.is_empty s)
  | PList l => match l with [] => false | _ => true end
  | PDict d => match d with [] => false | _ => true end
  end.

(** Truth value of an [Optional[str]]. *)
Definition truthy_opt (o : option string) : bool :=
  match o with
  | None => false
  | Some s => negb (PyStr.is_empty s)
  end.

Section Values.
Context `{platform : Platform}.

(** [str(v)] *)
Definition py_str (v : pyval) : string :=
  match v with
  | PNone => "None"
  | PBool true => "True"
  | PBool false => "False"
  | PInt z => pretty z
  | PStr s => s
  | PList _ | PDict _ => py_repr v
  end.

(** [v.strip()]: only a [str] has the method. *)
Definition str_strip (v : pyval) : outcome string :=
  match v with
  | PStr s => Return (PyStr.strip s)
  | _ => Raise (AttributeError "object has no attribute 'strip'")
  end.

(** [v.get]: only a [dict] has the method. *)
Definition as_dict (v : pyval) : outcome pydict :=
  match v with
  | PDict d => Return d
  | _ => Raise (AttributeError "object has no attribute 'get'")
  end.

(** The items a [for] loop draws from a value. *)
Definition py_iter (v : pyval) : outcome (list pyval) :=
  match v with
  | PList l => Return l
  | PDict d => Return (PStr <$> Dict.keys d)
  | PStr s => Return ((fun c => PStr (String c EmptyString)) <$> list_ascii_of_string s)
  | _ => Raise (TypeError "object is not iterable")
  end.

(** ** The deduplicator *)

(** [v and str(v).strip()], as a truth value *)
Definition has_data (v : pyval) : bool :=
  truthy v && negb (PyStr.is_empty (PyStr.strip (py_str v))).

(** [sum(1 for v in college.values() if v and str(v).strip())] *)
Definition richness (college : pydict) : nat :=
  length (filter (fun v => has_data v = true) (Dict.values college)).

(** [college.get('College Name', college.get('name', '')).strip().lower()] *)
Definition college_name (college : pydict) : outcome string :=
  (let? s := str_strip (get college "College Name" (get college "name" (PStr ""))) in
   Return (PyStr.lower s))%outcome.

(** One turn of the loop of [deduplicate_colleges] over the dict [seen]. *)
Definition dedup_step (seen : odict pydict) (college : pydict) : outcome (odict pydict) :=
  (let? name := college_name college in
   if PyStr.is_empty name then Return seen
   else match Dict.lookup seen name with
        | None => Return (Dict.set seen name college)
        | Some existing =>
            let existing_fields := richness existing in
            let new_fields := richness college in
            if (existing_fields <? new_fields)%nat
            then Return (Dict.set seen name college)
            else Return seen
        end)%outcome.

Definition deduplicate_colleges (colleges : list pydict) : outcome (list pydict) :=
  (let? seen := for_fold dedup_step colleges [] in
   Return (Dict.values seen))%outcome.

(** ** The transformer *)

(** The [entrance_exams] list of one course. *)
Definition entrance_exams_of (entrance_exams_raw : pyval) : list pyval :=
  match entrance_exams_raw with
  | PList exams =>
      (fun exam => PStr (PyStr.strip (py_str exam)))
        <$> filter (fun exam => has_data exam = true) exams
  | PStr raw =>
      if negb (PyStr.is_empty (PyStr.strip raw))
      then (fun exam => PStr (PyStr.strip exam))
             <$> filter (fun exam => PyStr.is_empty (PyStr.strip exam) = false)
                        (PyStr.split "," raw)
      else []
  | _ => []
  end.

Definition transform_course (course : pydict) : pydict :=
  let entrance_exams := entrance_exams_of (get course "Entrance Exams" (PStr "")) in
  [ ("name", get course "Course Name" (PStr ""));
    ("annual_fees", get course "Fees" (PStr ""));
    ("duration", get course "Duration" (PStr ""));
    ("degree_level", get course "Degree Type" (PStr ""));
    ("entrance_exams", PList entrance_exams) ].

(** The body of the loop of [transform_college_data] for one college. *)
Definition transform_college (college : pydict) : outcome pydict :=
  (let? location := str_strip (get college "Location" (PStr "")) in
   let city :=
     if negb (PyStr.is_empty location)
     then PyStr.strip (PyStr.split_head "," location)
     else "" in
   let? courses := py_iter (get college "Courses" (PList [])) in
   let? transformed_courses :=
     for_map (fun course => let? c := as_dict course in
                         Return (PDict (transform_course c))) courses in
   Return
     [ ("city", PStr city);
       ("name", get college "College Name" (PStr ""));
       ("type", get college "College Type" (PStr ""));
       ("course_category", get college "Course Category" (PStr ""));
       ("total_courses", get college "Total Courses" (PStr ""));
       ("match_percentage", get college "Match Percentage" (PStr ""));
       ("match_level", get college "Match Level" (PStr ""));
       ("has_website_link", get college "Has Website Link" (PStr ""));
       ("college_id", get college "College ID" (PStr ""));
       ("courses", PList transformed_courses) ])%outcome.

Definition transform_college_data (colleges : list pydict) : outcome (list pydict) :=
  for_map transform_college colleges.

End Values.

(** A platform to run the definitions on: only the shape of its answers
    matters to the examples below. *)
Definition demo_platform : Platform := {|
  py_repr := fun _ => "[...]";
  csv_cell := fun v => match v with PStr s => s | _ => "" end;
  json_as_csv := fun _ => [];
  json_loads := fun _ => None
|}.

(** ** The world the effects act on *)

(** The constants of [src/config.py] that [utils.py] imports. *)
Record config : Type := {
  SUPABASE_URL : option string;
  SUPABASE_KEY : option string;
  SERVERLESS_MODE : bool
}.

(** A file is a sequence of lines: a row written by [DataFrame.to_csv], or
    the text [json.dump] / [json.dumps] gives for a value. *)
Inductive line : Type :=
| CsvRow (cells : list string)
| JsonText (doc : pyval).

(** [fs_denied] holds the paths the operating system refuses to create or to
    open for writing, [fs_unreadable] those it refuses to open for reading. *)
Record filesystem : Type := {
  fs_dirs : gset string;
  fs_files : gmap string (list line);
  fs_denied : gset string;
  fs_unreadable : gset string
}.

(** The calls that can change the file system, as a spy on that layer
    records them. *)
Inductive fs_call : Type :=
| Makedirs (path : string)
| OpenWrite (path : string)
| OpenAppend (path : string).

(** The identity columns of the table [search_criteria]. *)
Inductive column : Type := CareerPath | Specialization | University | Location.

Record sc_row : Type := {
  sc_id : Z;
  sc_career_path : option string;
  sc_specialization : option string;
  sc_university : option string;
  sc_location : option string;
  sc_llm_json : pyval
}.

(** [record_data] of [save_to_supabase]. *)
Record record_data : Type := {
  rd_career_path : option string;
  rd_specialization : option string;
  rd_university : option string;
  rd_location : option string;
  rd_llm_json : pyval
}.

(** A row of the table [scrape_jobs]. *)
Record job_row : Type := {
  job_id : string;
  save_success : option bool;
  save_message : option string
}.

(** The two filters [_apply_filter] builds: [.filter(column, "is", "null")]
    and [.eq(column, value)]. *)
Inductive qfilter : Type :=
| IsNull (c : column)
| Eq (c : column) (value : string).

(** What the remote store does with the next [execute()]: answer, raise, or
    carry out the statement and answer without data. *)
Inductive fault : Type :=
| Healthy
| Fails (msg : string)
| Silent.

Inductive remote_call : Type :=
| Select (filters : list qfilter)
| Update (id : Z) (rd : record_data)
| Insert (rd : record_data)
| JobUpdate (id : string) (success : bool) (message : string).

(** The remote store: its two tables, the id the next insert gets, the
    faults of the coming calls (none once the list is used up), the calls
    issued so far (latest first), and whether [create_client] raises. *)
Record remote : Type := {
  search_criteria : list sc_row;
  scrape_jobs : list job_row;
  next_id : Z;
  faults : list fault;
  remote_calls : list remote_call;
  client_error : option string
}.

Inductive level : Type := DEBUG | INFO | WARNING | ERROR.

(** [_CSV_NAME_CACHE] is the module-level cache; [fs_calls] and [log] list
    the latest entry first. *)
Record world : Type := {
  cfg : config;
  fs : filesystem;
  fs_calls : list fs_call;
  _CSV_NAME_CACHE : gmap string (gset string);
  store : remote;
  log : list (level * string)
}.

Definition with_fs (f : filesystem) (w : world) : world :=
  {| cfg := cfg w; fs := f; fs_calls := fs_calls w;
     _CSV_NAME_CACHE := _CSV_NAME_CACHE w; store := store w; log := log w |}.

Definition with_fs_call (c : fs_call) (w : world) : world :=
  {| cfg := cfg w; fs := fs w; fs_calls := c :: fs_calls w;
     _CSV_NAME_CACHE := _CSV_NAME_CACHE w; store := store w; log := log w |}.

Definition with_cache (c : gmap string (gset string)) (w : world) : world :=
  {| cfg := cfg w; fs := fs w; fs_calls := fs_calls w;
     _CSV_NAME_CACHE := c; store := store w; log := log w |}.

Definition with_store (r : remote) (w : world) : world :=
  {| cfg := cfg w; fs := fs w; fs_calls := fs_calls w;
     _CSV_NAME_CACHE := _CSV_NAME_CACHE w; store := r; log := log w |}.

Definition with_log (entry : level * string) (w : world) : world :=
  {| cfg := cfg w; fs := fs w; fs_calls := fs_calls w;
     _CSV_NAME_CACHE := _CSV_NAME_CACHE w; store := store w; log := entry :: log w |}.

Definition with_files (files : gmap string (list line)) (f : filesystem) : filesystem :=
  {| fs_dirs := fs_dirs f; fs_files := files;
     fs_denied := fs_denied f; fs_unreadable := fs_unreadable f |}.

Definition with_dirs (dirs : gset string) (f : filesystem) : filesystem :=
  {| fs_dirs := dirs; fs_files := fs_files f;
     fs_denied := fs_denied f; fs_unreadable := fs_unreadable f |}.

(** ** The monad of effects: state and exceptions *)

Definition M (A : Type) : Type := world -> outcome A * world.

Definition ret {A : Type} (a : A) : M A := fun w => (Return a, w).

Definition raise {A : Type} (e : exn) : M A := fun w => (Raise e, w).

Definition bind {A B : Type} (m : M A) (k : A -> M B) : M B :=
  fun w =>
    match m w with
    | (Return a, w') => k a w'
    | (Raise e, w') => (Raise e, w')
    end.

(** [try: body except Exception as e: handler] *)
Definition try_except {A : Type} (body : M A) (handler : exn -> M A) : M A :=
  fun w =>
    match body w with
    | (Return a, w') => (Return a, w')
    | (Raise e, w') => handler e w'
    end.

(** Pure code that may raise, run inside an effect. *)
Definition lift {A : Type} (o : outcome A) : M A := fun w => (o, w).

Declare Scope py_scope.
Delimit Scope py_scope with py.
Notation "x <- c1 ;; c2" := (bind c1 (fun x => c2))
  (at level 100, c1 at next level, right associativity) : py_scope.
Notation "c1 ;; c2" := (bind c1 (fun _ => c2))
  (at level 100, right associativity) : py_scope.

Definition logger (lvl : level) (msg : string) : M unit :=
  fun w => (Return tt, with_log (lvl, msg) w).

Definition read_config : M config := fun w => (Return (cfg w), w).

(** *** The file system layer *)

(** [os.makedirs(path, exist_ok=True)] *)
Definition os_makedirs (path : string) : M unit :=
  fun w =>
    let w1 := with_fs_call (Makedirs path) w in
    if decide (path ∈ fs_dirs (fs w)) then (Return tt, w1)
    else if decide (path ∈ fs_denied (fs w))
    then (Raise (OSError ("cannot create directory " ++ path)), w1)
    else (Return tt, with_fs (with_dirs ({[path]} ∪ fs_dirs (fs w)) (fs w)) w1).

(** [os.path.exists(path)] *)
Definition os_path_exists (path : string) : M bool :=
  fun w => (Return (bool_decide (is_Some (fs_files (fs w) !! path) \/ path ∈ fs_dirs (fs w))), w).

(** [open(path, 'w')] followed by the writing of [lines]. *)
Definition write_file (path : string) (lines : list line) : M unit :=
  fun w =>
    let w1 := with_fs_call (OpenWrite path) w in
    if decide (path ∈ fs_denied (fs w))
    then (Raise (OSError ("cannot open " ++ path)), w1)
    else (Return tt, with_fs (with_files (<[path := lines]> (fs_files (fs w))) (fs w)) w1).

(** [open(path, 'a')] followed by the writing of [lines]. *)
Definition append_file (path : string) (lines : list line) : M unit :=
  fun w =>
    let w1 := with_fs_call (OpenAppend path) w in
    if decide (path ∈ fs_denied (fs w))
    then (Raise (OSError ("cannot open " ++ path)), w1)
    else
      let old := default [] (fs_files (fs w) !! path) in
      (Return tt, with_fs (with_files (<[path := old ++ lines]> (fs_files (fs w))) (fs w)) w1).

(** ** The name cache *)

Section Writers.
Context `{platform : Platform}.

(** The rows [csv.reader] yields for the lines of a file. *)
Definition csv_rows (lines : list line) : list (list string) :=
  concat ((fun l => match l with
                    | CsvRow cells => [cells]
                    | JsonText doc => json_as_csv doc
                    end) <$> lines).

(** [open(filepath, newline='', encoding='utf-8')] and [csv.reader]: the
    open raises on a missing or unreadable file. *)
Definition csv_reader (filepath : string) : M (list (list string)) :=
  fun w =>
    if decide (filepath ∈ fs_unreadable (fs w))
    then (Raise (OSError ("cannot read " ++ filepath)), w)
    else match fs_files (fs w) !! filepath with
         | Some lines => (Return (csv_rows lines), w)
         | None => (Raise (OSError ("no such file: " ++ filepath)), w)
         end.

(** [l.index(x)], [None] when [x not in l] *)
Fixpoint index_of (x : string) (l : list string) : option nat :=
  match l with
  | [] => None
  | y :: l' => if String.eqb y x then Some 0 else S <$> index_of x l'
  end.

(** One turn of the loop over the data rows. *)
Definition add_row_name (expected_columns name_index : nat)
    (names : gset string) (row : list string) : gset string :=
  match row with
  | [] => names
  | _ =>
      if negb (length row =? expected_columns)%nat then names
      else match row !! name_index with
           | Some cell =>
               let name := PyStr.strip cell in
               if negb (PyStr.is_empty name) then {[PyStr.lower name]} ∪ names else names
           | None => names
           end
  end.

(** The names [_read_college_names_from_csv] collects from the rows. *)
Definition names_of_rows (rows : list (list string)) : gset string :=
  match rows with
  | [] => ∅
  | [] :: _ => ∅
  | header :: data_rows =>
      let normalized_header := PyStr.strip <$> header in
      match index_of "College Name" normalized_header with
      | None => ∅
      | Some name_index =>
          let expected_columns := length normalized_header in
          foldl (add_row_name expected_columns name_index) ∅ data_rows
      end
  end.

Definition _read_college_names_from_csv (filepath : string) : M (gset string) :=
  try_except
    (rows <- csv_reader filepath ;;
     ret (names_of_rows rows))%py
    (fun exc =>
       logger WARNING ("Failed to read college names from CSV " ++ filepath ++ ": " ++ exn_str exc) ;;
       ret ∅)%py.

Definition cache_lookup (filepath : string) : M (option (gset string)) :=
  fun w => (Return (_CSV_NAME_CACHE w !! filepath), w).

Definition cache_store (filepath : string) (names : gset string) : M unit :=
  fun w => (Return tt, with_cache (<[filepath := names]> (_CSV_NAME_CACHE w)) w).

(** The set returned is the object the cache holds for [filepath]. *)
Definition _get_csv_name_cache (filepath : string) : M (gset string) :=
  (cached <- cache_lookup filepath ;;
   match cached with
   | Some names => ret names
   | None =>
       found <- os_path_exists filepath ;;
       names <- (if found : bool then _read_college_names_from_csv filepath else ret ∅) ;;
       cache_store filepath names ;;
       ret names
   end)%py.

(** ** The incremental writers *)

(** The lines [pd.DataFrame([data]).to_csv(mode='a', header=header)] appends. *)
Definition record_lines (header : bool) (data : pydict) : list line :=
  (if header then [CsvRow (Dict.keys data)] else [])
  ++ [CsvRow (csv_cell <$> Dict.values data)].

(** [data.get('College Name', '').strip().lower()] *)
Definition csv_identity (data : pydict) : outcome string :=
  (let? s := str_strip (get data "College Name" (PStr "")) in
   Return (PyStr.lower s))%outcome.

Definition append_to_csv (data : pydict) (output_dir filename : string) : M bool :=
  (c <- read_config ;;
   if SERVERLESS_MODE c then ret true
   else
     os_makedirs output_dir ;;
     let filepath := PyStr.path_join output_dir filename in
     try_except
       (new_name <- lift (csv_identity data) ;;
        name_cache <- (if negb (PyStr.is_empty new_name)
                       then names <- _get_csv_name_cache filepath ;; ret (Some names)
                       else ret None) ;;
        if match name_cache with
           | Some names => bool_decide (new_name ∈ names)
           | None => false
           end
        then ret true
        else
          found <- os_path_exists filepath ;;
          let header := negb found in
          append_file filepath (record_lines header data) ;;
          match name_cache with
          | Some names =>
              if negb (PyStr.is_empty new_name)
              then cache_store filepath ({[new_name]} ∪ names)
              else ret tt
          | None => ret tt
          end ;;
          ret true)
       (fun e =>
          logger ERROR ("Failed to append to CSV: " ++ exn_str e) ;;
          ret false))%py.

Definition append_to_jsonl (data : pydict) (output_dir filename : string) : M bool :=
  (c <- read_config ;;
   if SERVERLESS_MODE c then ret true
   else
     os_makedirs output_dir ;;
     let filepath := PyStr.path_join output_dir filename in
     try_except
       (append_file filepath [JsonText (PDict data)] ;;
        ret true)
       (fun e =>
          logger ERROR ("Failed to append to JSONL: " ++ exn_str e) ;;
          ret false))%py.

(** ** The batch persister *)

(** The columns of [pd.DataFrame(data)]: the keys of the records in the
    order they first appear. *)
Definition frame_columns (data : list pydict) : list string :=
  foldl (fun cols r =>
           foldl (fun cols k => if bool_decide (k ∈ cols) then cols else cols ++ [k])
                 cols (Dict.keys r))
        [] data.

(** The lines [pd.DataFrame(data).to_csv(index=False)] writes: a missing
    value is an empty cell. *)
Definition frame_lines (data : list pydict) : list line :=
  let cols := frame_columns data in
  CsvRow cols
  :: ((fun r => CsvRow ((fun k => match Dict.lookup r k with
                                  | Some v => csv_cell v
                                  | None => ""
                                  end) <$> cols)) <$> data).

Definition save_to_csv (data : list pydict) (output_dir filename : string) : M (option string) :=
  (c <- read_config ;;
   if SERVERLESS_MODE c
   then
     logger INFO "SERVERLESS_MODE: Skipping CSV file write (read-only file system)" ;;
     ret None
   else
     os_makedirs output_dir ;;
     match data with
     | _ :: _ =>
         logger INFO ("Removing duplicates from " ++ pretty (length data) ++ " records...") ;;
         data <- lift (deduplicate_colleges data) ;;
         logger INFO ("After deduplication: " ++ pretty (length data) ++ " unique records") ;;
         let filepath := PyStr.path_join output_dir filename in
         write_file filepath (frame_lines data) ;;
         logger INFO ("CSV saved to " ++ filepath) ;;
         logger INFO ("Total unique records: " ++ pretty (length data)) ;;
         ret (Some filepath)
     | [] =>
         logger WARNING "No data to save" ;;
         ret None
     end)%py.

End Writers.

(** ** The remote store *)

Definition with_faults (l : list fault) (r : remote) : remote :=
  {| search_criteria := search_criteria r; scrape_jobs := scrape_jobs r;
     next_id := next_id r; faults := l; remote_calls := remote_calls r;
     client_error := client_error r |}.

Definition with_remote_call (c : remote_call) (r : remote) : remote :=
  {| search_criteria := search_criteria r; scrape_jobs := scrape_jobs r;
     next_id := next_id r; faults := faults r; remote_calls := c :: remote_calls r;
     client_error := client_error r |}.

Definition with_search_criteria (rows : list sc_row) (r : remote) : remote :=
  {| search_criteria := rows; scrape_jobs := scrape_jobs r;
     next_id := next_id r; faults := faults r; remote_calls := remote_calls r;
     client_error := client_error r |}.

Definition with_scrape_jobs (rows : list job_row) (r : remote) : remote :=
  {| search_criteria := search_criteria r; scrape_jobs := rows;
     next_id := next_id r; faults := faults r; remote_calls := remote_calls r;
     client_error := client_error r |}.

Definition with_next_id (n : Z) (r : remote) : remote :=
  {| search_criteria := search_criteria r; scrape_jobs := scrape_jobs r;
     next_id := n; faults := faults r; remote_calls := remote_calls r;
     client_error := client_error r |}.

(** [create_client(SUPABASE_URL, SUPABASE_KEY)] *)
Definition create_client : M unit :=
  fun w =>
    match client_error (store w) with
    | Some msg => (Raise (RemoteError msg), w)
    | None => (Return tt, w)
    end.

(** Every [execute()] is recorded and draws the next fault. *)
Definition issue (c : remote_call) : M fault :=
  fun w =>
    let r := with_remote_call c (store w) in
    match faults r with
    | [] => (Return Healthy, with_store r w)
    | f :: l => (Return f, with_store (with_faults l r) w)
    end.

Definition row_value (c : column) (r : sc_row) : option string :=
  match c with
  | CareerPath => sc_career_path r
  | Specialization => sc_specialization r
  | University => sc_university r
  | Location => sc_location r
  end.

(** A row passes [is null] when the attribute is null, and [eq value] when
    the attribute is that very string. *)
Definition passes (r : sc_row) (f : qfilter) : bool :=
  match f with
  | IsNull c => match row_value c r with None => true | Some _ => false end
  | Eq c value => match row_value c r with Some v => String.eqb v value | None => false end
  end.

Definition row_of (id : Z) (rd : record_data) : sc_row :=
  {| sc_id := id; sc_career_path := rd_career_path rd;
     sc_specialization := rd_specialization rd; sc_university := rd_university rd;
     sc_location := rd_location rd; sc_llm_json := rd_llm_json rd |}.

(** [table("search_criteria").select("*") ... .limit(1).execute().data] *)
Definition select_search_criteria (filters : list qfilter) : M (list sc_row) :=
  (f <- issue (Select filters) ;;
   match f with
   | Fails msg => raise (RemoteError msg)
   | Silent => ret []
   | Healthy =>
       fun w =>
         (Return (take 1 (filter (fun r => forallb (passes r) filters = true)
                                 (search_criteria (store w)))), w)
   end)%py.

(** [table("search_criteria").update(record_data).eq("id", record_id).execute()] *)
Definition update_search_criteria (rd : record_data) (record_id : Z) : M unit :=
  (f <- issue (Update record_id rd) ;;
   match f with
   | Fails msg => raise (RemoteError msg)
   | _ =>
       fun w =>
         let rows := (fun r => if (sc_id r =? record_id)%Z then row_of record_id rd else r)
                       <$> search_criteria (store w) in
         (Return tt, with_store (with_search_criteria rows (store w)) w)
   end)%py.

(** [table("search_criteria").insert(record_data).execute().data] *)
Definition insert_search_criteria (rd : record_data) : M (list sc_row) :=
  (f <- issue (Insert rd) ;;
   match f with
   | Fails msg => raise (RemoteError msg)
   | _ =>
       fun w =>
         let row := row_of (next_id (store w)) rd in
         let r := with_next_id (next_id (store w) + 1)
                    (with_search_criteria (search_criteria (store w) ++ [row]) (store w)) in
         (Return (match f with Healthy => [row] | _ => [] end), with_store r w)
   end)%py.

(** [table("scrape_jobs").update({...}).eq("id", job_id).execute()] *)
Definition update_scrape_job (id : string) (success : bool) (message : string) : M unit :=
  (f <- issue (JobUpdate id success message) ;;
   match f with
   | Fails msg => raise (RemoteError msg)
   | _ =>
       fun w =>
         let rows := (fun j => if String.eqb (job_id j) id
                               then {| job_id := id; save_success := Some success;
                                       save_message := Some message |}
                               else j) <$> scrape_jobs (store w) in
         (Return tt, with_store (with_scrape_jobs rows (store w)) w)
   end)%py.

(** ** The remote reconciler *)

Section Reconciler.
Context `{platform : Platform}.

Definition _update_job_status (job_id : option string) (success : bool) (message : string) : M unit :=
  (if truthy_opt job_id
   then
     let id := default "" job_id in
     try_except
       (logger INFO ("Updating job " ++ id ++ " save status -> success=" ++ py_str (PBool success)) ;;
        update_scrape_job id success message ;;
        logger INFO ("Updated job " ++ id ++ " save status to " ++ py_str (PBool success)
                     ++ " with message: " ++ message))
       (fun e => logger ERROR ("Failed to update job status for " ++ id ++ ": " ++ exn_str e))
   else ret tt)%py.

(** [value.strip() if value else None] *)
Definition strip_or_none (value : option string) : option string :=
  if truthy_opt value then PyStr.strip <$> value else None.

Definition _normalize_case (value : option string) : option string :=
  if negb (truthy_opt value) then None
  else
    let cleaned := PyStr.strip (default "" value) in
    if PyStr.is_empty cleaned then None
    else Some (PyStr.capitalize_first cleaned).

Definition _apply_filter (query_obj : list qfilter) (c : column) (value : option string) : list qfilter :=
  match value with
  | None => query_obj ++ [IsNull c]
  | Some v => query_obj ++ [Eq c v]
  end.

(** The dict for the [jsonb] column. *)
Definition llm_json_of (json_data : pyval) : pyval :=
  match json_data with
  | PDict _ => json_data
  | PStr s =>
      match json_loads s with
      | Some v => v
      | None => PDict [("colleges", json_data)]
      end
  | _ => PDict [("colleges", json_data)]
  end.

(** The outermost [except]: [has_client] tells whether the local
    [supabase] was bound when the exception was raised. *)
Definition on_save_error (has_client : bool) (job_id : option string) (e : exn) : M (bool * string) :=
  (let msg := ("Error saving to Supabase: " ++ exn_str e)%string in
   logger ERROR msg ;;
   try_except
     (if has_client && truthy_opt job_id
      then update_scrape_job (default "" job_id) false msg
      else ret tt)
     (fun _ => ret tt) ;;
   ret (false, msg))%py.

Definition save_to_supabase (json_data : pyval)
    (career_path specialization location university job_id : option string) : M (bool * string) :=
  (c <- read_config ;;
   if negb (truthy_opt (SUPABASE_URL c)) || negb (truthy_opt (SUPABASE_KEY c))
   then
     let msg := "Supabase credentials not found. Skipping Supabase save." in
     logger WARNING msg ;;
     ret (false, msg)
   else
     try_except
       (create_client ;;
        try_except
          (let location_value := PyStr.strip (if truthy_opt location then default "" location else "") in
           if PyStr.is_empty location_value
           then
             let msg := "Location is required to save data to Supabase." in
             logger ERROR msg ;;
             _update_job_status job_id false msg ;;
             ret (false, msg)
           else
             let location_str := location_value in
             let llm_json := llm_json_of json_data in
             let normalized_career_path := _normalize_case (strip_or_none career_path) in
             let normalized_specialization := _normalize_case (strip_or_none specialization) in
             let normalized_university := _normalize_case (strip_or_none university) in
             let normalized_location := _normalize_case (Some location_str) in
             let record_data :=
               {| rd_career_path := normalized_career_path;
                  rd_specialization := normalized_specialization;
                  rd_university := normalized_university;
                  rd_location := normalized_location;
                  rd_llm_json := llm_json |} in
             try_except
               (let query := [] in
                let query := _apply_filter query CareerPath normalized_career_path in
                let query := _apply_filter query Specialization normalized_specialization in
                let query := _apply_filter query University normalized_university in
                let query := _apply_filter query Location normalized_location in
                existing <- select_search_criteria query ;;
                updated <- match existing with
                           | row :: _ =>
                               let record_id := sc_id row in
                               if negb (record_id =? 0)%Z
                               then
                                 update_search_criteria record_data record_id ;;
                                 let msg := ("Updated existing record in Supabase (ID: "
                                             ++ pretty record_id ++ ")")%string in
                                 logger INFO msg ;;
                                 _update_job_status job_id true msg ;;
                                 ret (Some (true, msg))
                               else ret None
                           | [] => ret None
                           end ;;
                match updated with
                | Some result => ret result
                | None =>
                    response <- insert_search_criteria record_data ;;
                    match response with
                    | row :: _ =>
                        let msg := ("Inserted new record in Supabase (ID: "
                                    ++ pretty (sc_id row) ++ ")")%string in
                        logger INFO msg ;;
                        _update_job_status job_id true msg ;;
                        ret (true, msg)
                    | [] =>
                        let msg := "Supabase insert returned no data" in
                        logger WARNING msg ;;
                        _update_job_status job_id false msg ;;
                        ret (false, msg)
                    end
                end)
               (fun e =>
                  logger ERROR ("Supabase operation failed: " ++ exn_str e) ;;
                  raise e))
          (on_save_error true job_id))
       (on_save_error false job_id))%py.

(** ** The batch persister, continued *)

Definition save_to_json (data : list pydict) (output_dir filename : string)
    (push_to_supabase : bool)
    (career_path specialization location university job_id : option string)
  : M (option string) :=
  (match data with
   | _ :: _ =>
       logger INFO ("Removing duplicates from " ++ pretty (length data) ++ " records...") ;;
       data <- lift (deduplicate_colleges data) ;;
       logger INFO ("After deduplication: " ++ pretty (length data) ++ " unique records") ;;
       logger INFO "Transforming data to target format..." ;;
       transformed_data <- lift (transform_college_data data) ;;
       let json_data := PDict [("colleges", PList (PDict <$> transformed_data))] in
       c <- read_config ;;
       filepath <- (if negb (SERVERLESS_MODE c)
                    then
                      os_makedirs output_dir ;;
                      let filepath := PyStr.path_join output_dir filename in
                      write_file filepath [JsonText json_data] ;;
                      logger INFO ("JSON saved to " ++ filepath) ;;
                      ret (Some filepath)
                    else
                      logger INFO "SERVERLESS_MODE: Skipping JSON file write (read-only file system)" ;;
                      ret None) ;;
       logger INFO ("Total unique records: " ++ pretty (length transformed_data)) ;;
       (if push_to_supabase
        then
          logger INFO "Saving to Supabase..." ;;
          result <- save_to_supabase json_data career_path specialization location university job_id ;;
          if fst result then logger INFO (snd result) else logger ERROR (snd result)
        else ret tt) ;;
       ret filepath
   | [] =>
       logger WARNING "No data to save" ;;
       ret None
   end)%py.

(** [if filepath: saved_files[key] = filepath] *)
Definition record_saved (saved_files : odict string) (key : string) (filepath : option string)
  : odict string :=
  match filepath with
  | Some p => if negb (PyStr.is_empty p) then Dict.set saved_files key p else saved_files
  | None => saved_files
  end.

(** A [for] loop with effects threading an accumulator. *)
Fixpoint for_each {A B : Type} (f : A -> B -> M A) (l : list B) (acc : A) : M A :=
  match l with
  | [] => ret acc
  | x :: l' => bind (f acc x) (for_each f l')
  end.

(** One turn of the loop of [save_data]. *)
Definition save_format (data : list pydict) (output_dir base_filename : string)
    (push_to_supabase : bool)
    (career_path specialization location university job_id : option string)
    (saved_files : odict string) (fmt : string) : M (odict string) :=
  if String.eqb (PyStr.lower fmt) "csv"
  then
    let filename := if negb (PyStr.ends_with ".csv" base_filename)
                    then (base_filename ++ ".csv")%string else base_filename in
    (filepath <- save_to_csv data output_dir filename ;;
     ret (record_saved saved_files "csv" filepath))%py
  else if String.eqb (PyStr.lower fmt) "json"
  then
    let filename := if negb (PyStr.ends_with ".json" base_filename)
                    then (base_filename ++ ".json")%string else base_filename in
    let filename := PyStr.replace ".csv" ".json" filename in
    (filepath <- save_to_json data output_dir filename push_to_supabase
                   career_path specialization location university job_id ;;
     ret (record_saved saved_files "json" filepath))%py
  else ret saved_files.

Definition save_data (data : list pydict) (output_dir base_filename : string)
    (formats : list string) (push_to_supabase : bool)
    (career_path specialization location university job_id : option string)
  : M (odict string) :=
  for_each
    (save_format data output_dir base_filename push_to_supabase
       career_path specialization location university job_id)
    formats [].

End Reconciler.

(** * The vocabulary of the properties *)

Section Vocabulary.
Context `{platform : Platform}.

(** In the words of the specification: a value carries data when it is
    truthy (not null, not false, not zero, not empty) and its text is not
    blank once trimmed. *)
Definition carries_data (v : pyval) : Prop :=
  truthy v = true /\ PyStr.strip (py_str v) <> "".

#[global] Instance carries_data_dec v : Decision (carries_data v).
Proof. unfold carries_data. apply _. Defined.

(** The count of the attributes of a record whose value carries data. *)
Definition data_count (college : pydict) : nat :=
  length (filter carries_data (Dict.values college)).

(** A record with one attribute of each kind that carries no data: the
    empty string, a blank string, null, zero, false, the empty list and the
    empty dict. *)
Definition demo_hollow : pydict :=
  [("name", PStr "x"); ("type", PStr ""); ("city", PStr "  "); ("rank", PNone);
   ("seats", PInt 0); ("open", PBool false); ("tags", PList []); ("fees", PDict [])].

(** [r], at position [i] of [l], is the first record of identity [k] with
    the greatest count of attributes that carry data. *)
Definition first_richest (l : list pydict) (k : string) (i : nat) (r : pydict) : Prop :=
  l !! i = Some r /\ college_name r = Return k /\
  forall j c, l !! j = Some c -> college_name c = Return k ->
    richness c <= richness r /\ (j < i -> richness c < richness r).

(** What the loop of [deduplicate_colleges] maintains, [pre] being the
    records already seen. *)
Definition dedup_inv (pre : list pydict) (seen : odict pydict) : Prop :=
  NoDup (Dict.keys seen) /\
  (forall k r, Dict.lookup seen k = Some r ->
     k <> "" /\ exists i, first_richest pre k i r) /\
  (forall c k, c ∈ pre -> college_name c = Return k -> k <> "" ->
     is_Some (Dict.lookup seen k)).

(** The keys of a transformed college, in the order they are written. *)
Definition college_fields : list string :=
  [ "city"; "name"; "type"; "course_category"; "total_courses";
    "match_percentage"; "match_level"; "has_website_link"; "college_id";
    "courses" ].

(** The source key each scalar field is read from. *)
Definition field_source : list (string * string) :=
  [ ("name", "College Name"); ("type", "College Type");
    ("course_category", "Course Category"); ("total_courses", "Total Courses");
    ("match_percentage", "Match Percentage"); ("match_level", "Match Level");
    ("has_website_link", "Has Website Link"); ("college_id", "College ID") ].

(** The transformed college of a record none of whose source keys is set. *)
Definition blank_college : pydict :=
  [ ("city", PStr ""); ("name", PStr ""); ("type", PStr "");
    ("course_category", PStr ""); ("total_courses", PStr "");
    ("match_percentage", PStr ""); ("match_level", PStr "");
    ("has_website_link", PStr ""); ("college_id", PStr "");
    ("courses", PList []) ].

(** The input the transformer returns on: [Location], when set, is a
    string and [Courses], when set, yields dictionaries only. *)
Definition transformable (college : pydict) : Prop :=
  (exists s, get college "Location" (PStr "") = PStr s) /\
  (exists l, py_iter (get college "Courses" (PList [])) = Return l /\
             forall x, x ∈ l -> exists d, x = PDict d).

(** The keys [transform_college_data] reads from a college. *)
Definition source_keys : list string :=
  [ "Location"; "College Name"; "College Type"; "Course Category";
    "Total Courses"; "Match Percentage"; "Match Level"; "Has Website Link";
    "College ID"; "Courses" ].

(** What one transformed college owes to its source record. *)
Definition transformed_from (college r : pydict) : Prop :=
  Dict.keys r = college_fields /\
  (forall field source, (field, source) ∈ field_source ->
     Dict.lookup r field = Some (get college source (PStr ""))) /\
  (Dict.lookup college "Location" = None -> Dict.lookup r "city" = Some (PStr "")) /\
  (Dict.lookup college "Courses" = None -> Dict.lookup r "courses" = Some (PList [])).

(** [m] never changes the part of the world that [proj] shows. *)
Definition preserves {S A : Type} (proj : world -> S) (m : M A) : Prop :=
  forall w, proj (snd (m w)) = proj w.

(** [(location or "").strip()] is empty. *)
Definition blank_location (location : option string) : Prop :=
  PyStr.strip (if truthy_opt location then default "" location else "") = "".



Definition location_required : string := "Location is required to save data to Supabase.".

(** The record [save_to_supabase] builds from its arguments. *)
Definition record_for (json_data : pyval) (cp sp loc un : option string) : record_data :=
  {| rd_career_path := _normalize_case (strip_or_none cp);
     rd_specialization := _normalize_case (strip_or_none sp);
     rd_university := _normalize_case (strip_or_none un);
     rd_location :=
       _normalize_case (Some (PyStr.strip (if truthy_opt loc then default "" loc else "")));
     rd_llm_json := llm_json_of json_data |}.

(** The filters [save_to_supabase] applies for a record, in its order. *)
Definition identity_filters (rd : record_data) : list qfilter :=
  _apply_filter
    (_apply_filter
       (_apply_filter
          (_apply_filter [] CareerPath (rd_career_path rd))
          Specialization (rd_specialization rd))
       University (rd_university rd))
    Location (rd_location rd).

(** The identity 4-tuple of a row. *)
Definition identity (r : sc_row) : option string * option string * option string * option string :=
  (sc_career_path r, sc_specialization r, sc_university r, sc_location r).

Definition rd_identity (rd : record_data) : option string * option string * option string * option string :=
  (rd_career_path rd, rd_specialization rd, rd_university rd, rd_location rd).

(** The row carries the identity of the record: null for null, and the
    same string otherwise. *)
Definition same_identity (rd : record_data) (r : sc_row) : Prop :=
  identity r = rd_identity rd.

#[global] Instance same_identity_dec rd r : Decision (same_identity rd r).
Proof. unfold same_identity. apply _. Defined.

(** Ids are a primary key handed out from [next_id]. *)
Definition store_ok (r : remote) : Prop :=
  NoDup (sc_id <$> search_criteria r) /\
  (0 < next_id r)%Z /\
  forall row, row ∈ search_criteria r -> (0 < sc_id row < next_id r)%Z.

(** The credentials are configured, the client can be built, and the remote
    store answers every call. *)
Definition healthy (w : world) : Prop :=
  truthy_opt (SUPABASE_URL (cfg w)) = true /\
  truthy_opt (SUPABASE_KEY (cfg w)) = true /\
  client_error (store w) = None /\
  faults (store w) = [] /\
  store_ok (store w).

(** The second world differs from the first by log entries, job statuses
    and recorded calls only, and answers as well as the first. *)
Definition same_tables (w w' : world) : Prop :=
  cfg w' = cfg w /\
  search_criteria (store w') = search_criteria (store w) /\
  next_id (store w') = next_id (store w) /\
  client_error (store w') = client_error (store w) /\
  (faults (store w) = [] -> faults (store w') = []).

(** The value a record holds for an identity column. *)
Definition rd_value (c : column) (rd : record_data) : option string :=
  match c with
  | CareerPath => rd_career_path rd
  | Specialization => rd_specialization rd
  | University => rd_university rd
  | Location => rd_location rd
  end.

Definition demo_fs : filesystem :=
  {| fs_dirs := ∅; fs_files := ∅; fs_denied := ∅; fs_unreadable := ∅ |}.

Definition demo_job : job_row :=
  {| job_id := "job-1"; save_success := None; save_message := None |}.

(** Two rows that differ in their location only. *)
Definition demo_rows : list sc_row :=
  [ {| sc_id := 1; sc_career_path := Some "Engineering"; sc_specialization := None;
       sc_university := None; sc_location := Some "Mumbai"; sc_llm_json := PDict [] |};
    {| sc_id := 2; sc_career_path := Some "Engineering"; sc_specialization := None;
       sc_university := None; sc_location := Some "Delhi"; sc_llm_json := PDict [] |} ].

Definition demo_remote (rows : list sc_row) (next : Z) : remote :=
  {| search_criteria := rows; scrape_jobs := [demo_job]; next_id := next;
     faults := []; remote_calls := []; client_error := None |}.

Definition demo_world (serverless : bool) (rows : list sc_row) (next : Z) : world :=
  {| cfg := {| SUPABASE_URL := Some "https://example.supabase.co";
               SUPABASE_KEY := Some "key"; SERVERLESS_MODE := serverless |};
     fs := demo_fs; fs_calls := []; _CSV_NAME_CACHE := ∅;
     store := demo_remote rows next; log := [] |}.

Definition demo_doc (name : string) : pyval :=
  PDict [("colleges", PList [PDict [("name", PStr name)]])].

(** The operating system lets [append_to_csv] create the directory and
    open the file. *)
Definition can_append (w : world) (output_dir filename : string) : Prop :=
  (output_dir ∈ fs_dirs (fs w) \/ output_dir ∉ fs_denied (fs w)) /\
  PyStr.path_join output_dir filename ∉ fs_denied (fs w).

Definition demo_record : pydict :=
  [("College Name", PStr "ABC College"); ("Location", PStr "Pune, MH")].

Definition demo_nameless : pydict :=
  [("College Name", PStr "  "); ("Location", PStr "Pune, MH")].

(** [m] returns a value from every world. *)
Definition never_raises {A : Type} (m : M A) : Prop :=
  forall w, exists a, fst (m w) = Return a.

(** The part of the world a spy on the file system layer sees. *)
Definition local_view (w : world) : filesystem * list fs_call := (fs w, fs_calls w).

(** The operating system lets the directory be created. *)
Definition can_makedirs (w : world) (output_dir : string) : Prop :=
  output_dir ∈ fs_dirs (fs w) \/ output_dir ∉ fs_denied (fs w).

(** The file a requested format is written to: none for a format that is
    neither [csv] nor [json]. *)
Definition write_target (output_dir base_filename fmt : string) : option string :=
  if String.eqb (PyStr.lower fmt) "csv"
  then Some (PyStr.path_join output_dir
               (if negb (PyStr.ends_with ".csv" base_filename)
                then (base_filename ++ ".csv")%string else base_filename))
  else if String.eqb (PyStr.lower fmt) "json"
  then Some (PyStr.path_join output_dir
               (PyStr.replace ".csv" ".json"
                  (if negb (PyStr.ends_with ".json" base_filename)
                   then (base_filename ++ ".json")%string else base_filename)))
  else None.

Definition denied_world : world :=
  with_fs {| fs_dirs := {["data"]}; fs_files := ∅;
             fs_denied := {["data/colleges.csv"]}; fs_unreadable := ∅ |}
    (demo_world false [] 1).

End Vocabulary.

(** * More of the module *)

(** ** Text cleaning *)

Module PyWords.

(** The pieces of [s] between the characters that satisfy [sep]: never the
    empty list, and a piece is empty where two separators meet. *)
Fixpoint fields (sep : ascii -> bool) (s : string) : list string :=
  match s with
  | EmptyString => [EmptyString]
  | String c s' =>
      if sep c then EmptyString :: fields sep s'
      else match fields sep s' with
           | [] => [String c EmptyString]
           | p :: ps => String c p :: ps
           end
  end.

(** [s.split()]: the words between runs of whitespace. *)
Definition split_whitespace (s : string) : list string :=
  filter (fun w => PyStr.is_empty w = false) (fields PyStr.is_space s).

(** [sep.join(l)] *)
Fixpoint join (sep : string) (l : list string) : string :=
  match l with
  | [] => EmptyString
  | [w] => w
  | w :: l' => w ++ sep ++ join sep l'
  end.

End PyWords.

(** [clean_text(text)]: a falsy [text] gives the empty string, and only a
    [str] has [split]. *)
Definition clean_text (text : pyval) : outcome string :=
  if negb (truthy text) then Return ""
  else match text with
       | PStr s => Return (PyStr.strip (PyWords.join " " (PyWords.split_whitespace s)))
       | _ => Raise (AttributeError "object has no attribute 'split'")
       end.


(** ** The resume index *)

(** What [json.loads] makes of the physical lines of a stored line, one
    answer for each: [None] when it raises [JSONDecodeError]. *)
Class JsonLines : Type := {
  json_lines : line -> list (option pyval)
}.

(** [open(path, 'r', encoding='utf-8')] and the lines of the file: the open
    raises on a directory, a missing or an unreadable file. *)
Definition read_lines (filepath : string) : M (list line) :=
  fun w =>
    if decide (filepath ∈ fs_unreadable (fs w))
    then (Raise (OSError ("cannot read " ++ filepath)), w)
    else match fs_files (fs w) !! filepath with
         | Some lines => (Return lines, w)
         | None => (Raise (OSError ("no such file: " ++ filepath)), w)
         end.

Section Resume.
Context `{platform : Platform} `{reader : JsonLines}.

(** [data.get('College Name', '').strip().lower()], and whether it is kept *)
Definition jsonl_name (data : pyval) : outcome (option string) :=
  (let? d := as_dict data in
   let? s := str_strip (get d "College Name" (PStr "")) in
   let name := PyStr.lower s in
   Return (if negb (PyStr.is_empty name) then Some name else None))%outcome.

(** The loop over the lines of the JSONL file. The set is filled in place:
    when a line raises anything but [JSONDecodeError] the loop is left with
    the names added so far. *)
Fixpoint load_jsonl_names (records : list (option pyval)) (names : gset string) (count : nat)
  : gset string * outcome nat :=
  match records with
  | [] => (names, Return count)
  | None :: rest => load_jsonl_names rest names count
  | Some data :: rest =>
      match jsonl_name data with
      | Raise e => (names, Raise e)
      | Return (Some name) => load_jsonl_names rest ({[name]} ∪ names) (S count)
      | Return None => load_jsonl_names rest names count
      end
  end.

Definition load_existing_colleges (output_dir base_filename : string)
    (formats : option (list string)) : M (odict (gset string)) :=
  let default_formats := match formats with
                         | None => ["csv"; "json"]
                         | Some l => l
                         end in
  let formats_lower := PyStr.lower <$> default_formats in
  let existing : odict (gset string) :=
    foldl (fun d fmt => Dict.set d fmt ∅) [] formats_lower in
  (existing <- (if bool_decide ("csv" ∈ formats_lower)
                then
                  let csv_path := PyStr.path_join output_dir (base_filename ++ ".csv") in
                  found <- os_path_exists csv_path ;;
                  if found : bool
                  then
                    names <- _read_college_names_from_csv csv_path ;;
                    logger INFO ("Loaded " ++ pretty (size names)
                                 ++ " existing records from CSV") ;;
                    ret (Dict.set existing "csv"
                           (default ∅ (Dict.lookup existing "csv") ∪ names))
                  else ret existing
                else ret existing) ;;
   if bool_decide ("json" ∈ formats_lower)
   then
     let jsonl_path := PyStr.path_join output_dir (base_filename ++ ".jsonl") in
     found <- os_path_exists jsonl_path ;;
     if found : bool
     then
       try_except
         (lines <- read_lines jsonl_path ;;
          let loaded := load_jsonl_names (concat (json_lines <$> lines))
                          (default ∅ (Dict.lookup existing "json")) 0 in
          let existing := Dict.set existing "json" (fst loaded) in
          match snd loaded with
          | Return count =>
              logger INFO ("Loaded " ++ pretty count ++ " existing records from JSONL") ;;
              ret existing
          | Raise e =>
              logger WARNING ("Failed to read existing JSONL for resumability: "
                              ++ exn_str e) ;;
              ret existing
          end)
         (fun e =>
            logger WARNING ("Failed to read existing JSONL for resumability: "
                            ++ exn_str e) ;;
            ret existing)
     else ret existing
   else ret existing)%py.

End Resume.

(** ** The staging tables *)

(** The rows of [st_college], [st_course] and [st_college_courses]. The ids
    are given by the store and opaque to the code. *)
Record st_college_row : Type := {
  cg_id : Z;
  cg_name : string;
  cg_description : string;
  cg_city : string;
  cg_type : string
}.

Record st_course_row : Type := {
  cs_id : Z;
  cs_name : string;
  cs_description : pyval;
  cs_duration : pyval;
  cs_degree_level : pyval;
  cs_annual_fees : pyval
}.

Record st_mapping_row : Type := {
  mp_id : Z;
  mp_college_id : Z;
  mp_course_id : Z
}.

Inductive staging_call : Type :=
| SelectCollege (name : string)
| InsertCollege (name description city type : string)
| SelectCourse (name : string)
| InsertCourse (name : string) (description duration degree_level annual_fees : pyval)
| SelectMapping (college_id course_id : Z)
| InsertMapping (college_id course_id : Z).

(** The three tables, the id the next insert gets, and the calls issued so
    far (latest first). *)
Record staging : Type := {
  st_college : list st_college_row;
  st_course : list st_course_row;
  st_college_courses : list st_mapping_row;
  st_next_id : Z;
  st_calls : list staging_call
}.

(** The world of [save_to_staging_tables]: the world of the other functions
    and the staging tables. The faults of the coming calls are those of the
    one remote store. *)
Record sworld : Type := {
  app : world;
  staging_db : staging
}.

Definition SM (A : Type) : Type := sworld -> outcome A * sworld.

Definition sret {A : Type} (a : A) : SM A := fun s => (Return a, s).

Definition sraise {A : Type} (e : exn) : SM A := fun s => (Raise e, s).

Definition sbind {A B : Type} (m : SM A) (k : A -> SM B) : SM B :=
  fun s =>
    match m s with
    | (Return a, s') => k a s'
    | (Raise e, s') => (Raise e, s')
    end.

Definition stry {A : Type} (body : SM A) (handler : exn -> SM A) : SM A :=
  fun s =>
    match body s with
    | (Return a, s') => (Return a, s')
    | (Raise e, s') => handler e s'
    end.

(** Pure code that may raise. *)
Definition slift {A : Type} (o : outcome A) : SM A := fun s => (o, s).

(** An effect on the world of the other functions. *)
Definition srun {A : Type} (m : M A) : SM A :=
  fun s =>
    match m (app s) with
    | (o, w) => (o, {| app := w; staging_db := staging_db s |})
    end.

Declare Scope st_scope.
Delimit Scope st_scope with st.
Notation "x <- c1 ;; c2" := (sbind c1 (fun x => c2))
  (at level 100, c1 at next level, right associativity) : st_scope.
Notation "c1 ;; c2" := (sbind c1 (fun _ => c2))
  (at level 100, right associativity) : st_scope.

Fixpoint sfor_each {A B : Type} (f : A -> B -> SM A) (l : list B) (acc : A) : SM A :=
  match l with
  | [] => sret acc
  | x :: l' => sbind (f acc x) (sfor_each f l')
  end.

Definition with_st_call (c : staging_call) (db : staging) : staging :=
  {| st_college := st_college db; st_course := st_course db;
     st_college_courses := st_college_courses db; st_next_id := st_next_id db;
     st_calls := c :: st_calls db |}.

(** Every [execute()] is recorded and draws the next fault. *)
Definition issue_staging (c : staging_call) : SM fault :=
  fun s =>
    let db := with_st_call c (staging_db s) in
    match faults (store (app s)) with
    | [] => (Return Healthy, {| app := app s; staging_db := db |})
    | f :: l =>
        (Return f, {| app := with_store (with_faults l (store (app s))) (app s);
                      staging_db := db |})
    end.

(** [table("st_college").select("id").eq("name", name).limit(1).execute().data] *)
Definition select_st_college (name : string) : SM (list st_college_row) :=
  (f <- issue_staging (SelectCollege name) ;;
   match f with
   | Fails msg => sraise (RemoteError msg)
   | Silent => sret []
   | Healthy =>
       fun s => (Return (take 1 (filter (fun r => cg_name r = name)
                                        (st_college (staging_db s)))), s)
   end)%st.

(** [table("st_college").insert(college_record).execute().data] *)
Definition insert_st_college (name description city type : string)
  : SM (list st_college_row) :=
  (f <- issue_staging (InsertCollege name description city type) ;;
   match f with
   | Fails msg => sraise (RemoteError msg)
   | _ =>
       fun s =>
         let db := staging_db s in
         let row := {| cg_id := st_next_id db; cg_name := name;
                       cg_description := description; cg_city := city; cg_type := type |} in
         (Return (match f with Healthy => [row] | _ => [] end),
          {| app := app s;
             staging_db := {| st_college := st_college db ++ [row];
                              st_course := st_course db;
                              st_college_courses := st_college_courses db;
                              st_next_id := st_next_id db + 1;
                              st_calls := st_calls db |} |})
   end)%st.

(** [table("st_course").select("id").eq("name", name).limit(1).execute().data] *)
Definition select_st_course (name : string) : SM (list st_course_row) :=
  (f <- issue_staging (SelectCourse name) ;;
   match f with
   | Fails msg => sraise (RemoteError msg)
   | Silent => sret []
   | Healthy =>
       fun s => (Return (take 1 (filter (fun r => cs_name r = name)
                                        (st_course (staging_db s)))), s)
   end)%st.

(** [table("st_course").insert(course_record).execute().data] *)
Definition insert_st_course (name : string)
    (description duration degree_level annual_fees : pyval) : SM (list st_course_row) :=
  (f <- issue_staging (InsertCourse name description duration degree_level annual_fees) ;;
   match f with
   | Fails msg => sraise (RemoteError msg)
   | _ =>
       fun s =>
         let db := staging_db s in
         let row := {| cs_id := st_next_id db; cs_name := name;
                       cs_description := description; cs_duration := duration;
                       cs_degree_level := degree_level; cs_annual_fees := annual_fees |} in
         (Return (match f with Healthy => [row] | _ => [] end),
          {| app := app s;
             staging_db := {| st_college := st_college db;
                              st_course := st_course db ++ [row];
                              st_college_courses := st_college_courses db;
                              st_next_id := st_next_id db + 1;
                              st_calls := st_calls db |} |})
   end)%st.

(** [table("st_college_courses").select("id").eq("college_id", ...)
    .eq("course_id", ...).limit(1).execute().data] *)
Definition select_st_mapping (college_id course_id : Z) : SM (list st_mapping_row) :=
  (f <- issue_staging (SelectMapping college_id course_id) ;;
   match f with
   | Fails msg => sraise (RemoteError msg)
   | Silent => sret []
   | Healthy =>
       fun s => (Return (take 1 (filter (fun r => mp_college_id r = college_id
                                                  /\ mp_course_id r = course_id)
                                        (st_college_courses (staging_db s)))), s)
   end)%st.

(** [table("st_college_courses").insert(mapping_record).execute().data] *)
Definition insert_st_mapping (college_id course_id : Z) : SM (list st_mapping_row) :=
  (f <- issue_staging (InsertMapping college_id course_id) ;;
   match f with
   | Fails msg => sraise (RemoteError msg)
   | _ =>
       fun s =>
         let db := staging_db s in
         let row := {| mp_id := st_next_id db; mp_college_id := college_id;
                       mp_course_id := course_id |} in
         (Return (match f with Healthy => [row] | _ => [] end),
          {| app := app s;
             staging_db := {| st_college := st_college db;
                              st_course := st_course db;
                              st_college_courses := st_college_courses db ++ [row];
                              st_next_id := st_next_id db + 1;
                              st_calls := st_calls db |} |})
   end)%st.

(** The four counters and the dict [course_name_to_id]. *)
Record tally : Type := {
  colleges_inserted : nat;
  courses_inserted : nat;
  mappings_inserted : nat;
  colleges_skipped : nat;
  course_name_to_id : gmap string Z
}.

Section Staging.

(** [len(v)]: a number, a boolean and [None] have none. *)
Definition py_len (v : pyval) : outcome nat :=
  match v with
  | PStr s => Return (String.length s)
  | PList l => Return (length l)
  | PDict d => Return (length d)
  | _ => Raise (TypeError "object has no len()")
  end.

(** [v or ""] *)
Definition or_empty (v : pyval) : pyval := if truthy v then v else PStr "".

(** One turn of the loop over the courses of a college. *)
Definition stage_course (college_id : Z) (t : tally) (course : pyval) : SM tally :=
  (course <- slift (as_dict course) ;;
   course_name <- slift (str_strip (get course "name" (PStr ""))) ;;
   if PyStr.is_empty course_name then sret t
   else
     found <- match course_name_to_id t !! course_name with
              | Some course_id => sret (Some (course_id, t))
              | None =>
                  existing_course <- select_st_course course_name ;;
                  match existing_course with
                  | row :: _ =>
                      sret (Some (cs_id row,
                                  {| colleges_inserted := colleges_inserted t;
                                     courses_inserted := courses_inserted t;
                                     mappings_inserted := mappings_inserted t;
                                     colleges_skipped := colleges_skipped t;
                                     course_name_to_id :=
                                       <[course_name := cs_id row]> (course_name_to_id t) |}))
                  | [] =>
                      course_response <-
                        insert_st_course course_name
                          (or_empty (get course "degree_level" (PStr "")))
                          (get course "duration" (PStr ""))
                          (get course "degree_level" (PStr ""))
                          (get course "annual_fees" (PStr "")) ;;
                      match course_response with
                      | [] =>
                          srun (logger WARNING ("Failed to insert course: " ++ course_name)) ;;
                          sret None
                      | row :: _ =>
                          srun (logger DEBUG ("Inserted course: " ++ course_name ++ " (ID: "
                                              ++ pretty (cs_id row) ++ ")")) ;;
                          sret (Some (cs_id row,
                                      {| colleges_inserted := colleges_inserted t;
                                         courses_inserted := S (courses_inserted t);
                                         mappings_inserted := mappings_inserted t;
                                         colleges_skipped := colleges_skipped t;
                                         course_name_to_id :=
                                           <[course_name := cs_id row]> (course_name_to_id t) |}))
                      end
                  end
              end ;;
     match found with
     | None => sret t
     | Some (course_id, t) =>
         existing_mapping <- select_st_mapping college_id course_id ;;
         match existing_mapping with
         | _ :: _ => sret t
         | [] =>
             mapping_response <- insert_st_mapping college_id course_id ;;
             match mapping_response with
             | [] => sret t
             | _ :: _ =>
                 sret {| colleges_inserted := colleges_inserted t;
                         courses_inserted := courses_inserted t;
                         mappings_inserted := S (mappings_inserted t);
                         colleges_skipped := colleges_skipped t;
                         course_name_to_id := course_name_to_id t |}
             end
         end
     end)%st.

(** The description of a college that is inserted: the state is left out. *)
Definition college_description (college_name city_val type_val : string) : string :=
  (college_name ++ " is located in " ++ city_val ++ ", . Type: " ++ type_val)%string.

(** One turn of the loop over the colleges. *)
Definition stage_college (t : tally) (college : pyval) : SM tally :=
  (college <- slift (as_dict college) ;;
   college_name <- slift (str_strip (get college "name" (PStr ""))) ;;
   if PyStr.is_empty college_name then sret t
   else
     existing_college <- select_st_college college_name ;;
     found <- match existing_college with
              | row :: _ =>
                  srun (logger DEBUG ("College '" ++ college_name
                                      ++ "' already exists, skipping...")) ;;
                  sret (Some (cg_id row,
                              {| colleges_inserted := colleges_inserted t;
                                 courses_inserted := courses_inserted t;
                                 mappings_inserted := mappings_inserted t;
                                 colleges_skipped := S (colleges_skipped t);
                                 course_name_to_id := course_name_to_id t |}))
              | [] =>
                  city_val <- slift (str_strip (get college "city" (PStr ""))) ;;
                  type_val <- slift (str_strip (get college "type" (PStr ""))) ;;
                  let description := college_description college_name city_val type_val in
                  college_response <-
                    insert_st_college college_name description city_val type_val ;;
                  match college_response with
                  | [] =>
                      srun (logger WARNING ("Failed to insert college: " ++ college_name)) ;;
                      sret None
                  | row :: _ =>
                      srun (logger DEBUG ("Inserted college: " ++ college_name ++ " (ID: "
                                          ++ pretty (cg_id row) ++ ")")) ;;
                      sret (Some (cg_id row,
                                  {| colleges_inserted := S (colleges_inserted t);
                                     courses_inserted := courses_inserted t;
                                     mappings_inserted := mappings_inserted t;
                                     colleges_skipped := colleges_skipped t;
                                     course_name_to_id := course_name_to_id t |}))
                  end
              end ;;
     match found with
     | None => sret t
     | Some (college_id, t) =>
         courses <- slift (py_iter (get college "courses" (PList []))) ;;
         sfor_each (stage_course college_id) courses t
     end)%st.

Definition staging_message (t : tally) : string :=
  ("Staging tables updated: " ++ pretty (colleges_inserted t) ++ " colleges inserted, "
   ++ pretty (colleges_skipped t) ++ " skipped, " ++ pretty (courses_inserted t)
   ++ " courses, " ++ pretty (mappings_inserted t) ++ " mappings")%string.

Definition save_to_staging_tables (json_data : pyval) (job_id : option string)
  : SM (bool * string) :=
  stry
    (c <- srun read_config ;;
     if negb (truthy_opt (SUPABASE_URL c)) || negb (truthy_opt (SUPABASE_KEY c))
     then
       let msg := "Supabase credentials not found. Skipping staging table save." in
       srun (logger WARNING msg) ;;
       sret (false, msg)
     else
       srun create_client ;;
       json_data <- slift (as_dict json_data) ;;
       let colleges_data := get json_data "colleges" (PList []) in
       if negb (truthy colleges_data)
       then
         let msg := "No colleges found in JSON data" in
         srun (logger WARNING msg) ;;
         sret (false, msg)
       else
         n <- slift (py_len colleges_data) ;;
         srun (logger INFO ("Saving " ++ pretty n ++ " colleges to staging tables...")) ;;
         colleges <- slift (py_iter colleges_data) ;;
         t <- sfor_each stage_college colleges
                {| colleges_inserted := 0; courses_inserted := 0; mappings_inserted := 0;
                   colleges_skipped := 0; course_name_to_id := ∅ |} ;;
         let msg := staging_message t in
         srun (logger INFO msg) ;;
         (if truthy_opt job_id
          then
            stry (srun (update_scrape_job (default "" job_id) true msg))
                 (fun e => srun (logger ERROR ("Failed to update job status: " ++ exn_str e)))
          else sret tt) ;;
         sret (true, msg))%st
    (fun e =>
       let msg := ("Error saving to staging tables: " ++ exn_str e)%string in
       srun (logger ERROR msg) ;;
       sret (false, msg))%st.

End Staging.
(** * The vocabulary of the further properties *)

Section More_Vocabulary.
Context `{platform : Platform}.

(** The characters of a string. *)
Definition chars (s : string) : list ascii := list_ascii_of_string s.



(** A string as [strip] leaves it: not empty, and unchanged by [strip]. *)
Definition trimmed_word (s : string) : Prop := s <> "" /\ PyStr.strip s = s.

(** One more element at the end of [acc], unless it is there. *)
Definition see (acc : list string) (k : string) : list string :=
  if bool_decide (k ∈ acc) then acc else acc ++ [k].

(** The distinct elements of a list, in the order of their first occurrence. *)
Definition first_seen (l : list string) : list string := foldl see [] l.

(** The keys of a transformed course, in the order they are written. *)
Definition course_fields : list string :=
  [ "name"; "annual_fees"; "duration"; "degree_level"; "entrance_exams" ].

(** The [city] of the transformed record [r] is the part of the
    [Location] of [college] before its first comma, trimmed. *)
Definition city_before_comma (college r : pydict) : Prop :=
  exists location city,
    get college "Location" (PStr "") = PStr location /\
    Dict.lookup r "city" = Some (PStr city) /\
    city = PyStr.strip (PyStr.split_head "," (PyStr.strip location)) /\
    PyStr.strip city = city /\
    ","%char ∉ chars city.

(** The transformed course [t] of the item [course] of [Courses]. *)
Definition course_transformed (course t : pyval) : Prop :=
  exists c,
    course = PDict c /\ t = PDict (transform_course c) /\
    Dict.keys (transform_course c) = course_fields /\
    exists exams,
      Dict.lookup (transform_course c) "entrance_exams" = Some (PList exams) /\
      Forall (fun v => exists s, v = PStr s /\ trimmed_word s) exams.

(** The [courses] of the transformed record [r] are those of [college],
    one for one. *)
Definition courses_transformed (college r : pydict) : Prop :=
  exists courses transformed,
    py_iter (get college "Courses" (PList [])) = Return courses /\
    Dict.lookup r "courses" = Some (PList transformed) /\
    Forall2 course_transformed courses transformed.

(** The identity attribute of the record is a string: [College Name] when
    the key is set, else [name], else the empty default. *)
Definition has_text_name (college : pydict) : Prop :=
  exists s, get college "College Name" (get college "name" (PStr "")) = PStr s.

(** A word: not empty and without whitespace. *)
Definition word (w : string) : Prop :=
  w <> "" /\ forall c, c ∈ chars w -> PyStr.is_space c = false.

(** The credentials are configured and the client can be built. *)
Definition connected (w : world) : Prop :=
  truthy_opt (SUPABASE_URL (cfg w)) = true /\
  truthy_opt (SUPABASE_KEY (cfg w)) = true /\
  client_error (store w) = None.

(** The message of the outermost handler of [save_to_supabase]. *)
Definition save_error (msg : string) : string := ("Error saving to Supabase: " ++ msg)%string.

(** What a call whose select and write are answered returns and leaves in
    the table: the rows with the id of the first match replaced, or one row
    more. *)
Definition reconcile_outcome (rows : list sc_row) (next : Z) (rd : record_data)
  : (bool * string) * list sc_row :=
  let inserted :=
    ((true, ("Inserted new record in Supabase (ID: " ++ pretty next ++ ")")%string),
     rows ++ [row_of next rd]) in
  match take 1 (filter (fun r => forallb (passes r) (identity_filters rd) = true) rows) with
  | row :: _ =>
      if negb (sc_id row =? 0)%Z
      then ((true, ("Updated existing record in Supabase (ID: "
                    ++ pretty (sc_id row) ++ ")")%string),
            (fun r => if (sc_id r =? sc_id row)%Z then row_of (sc_id row) rd else r) <$> rows)
      else inserted
  | [] => inserted
  end.

(** Nothing is at the path, on disk or in the cache. *)
Definition fresh_path (w : world) (output_dir filename : string) : Prop :=
  let filepath := PyStr.path_join output_dir filename in
  fs_files (fs w) !! filepath = None /\ (filepath ∉ fs_dirs (fs w)) /\
  filepath <> output_dir /\ (filepath ∉ fs_unreadable (fs w)) /\
  _CSV_NAME_CACHE w !! filepath = None.

(** The first key of the record that reads [College Name] once stripped is
    the key [College Name] itself. *)
Definition name_column (data : pydict) : Prop :=
  index_of "College Name" (PyStr.strip <$> Dict.keys data)
  = index_of "College Name" (Dict.keys data).

(** The process starts again: the module-level cache is empty. *)
Definition restarted (w : world) : world := with_cache ∅ w.

(** [n] is the name a data row of the file holds in the name column. *)
Definition named_in (rows : list (list string)) (n : string) : Prop :=
  exists header data_rows i row cell,
    rows = header :: data_rows /\
    index_of "College Name" (PyStr.strip <$> header) = Some i /\
    row ∈ data_rows /\ length row = length header /\
    row !! i = Some cell /\ PyStr.strip cell <> "" /\
    n = PyStr.lower (PyStr.strip cell).

Definition demo_misaligned : pydict :=
  [("College Name", PStr "XYZ College")].

Definition demo_file_world : world :=
  with_cache {["data/colleges.csv" := ∅]}
    (with_fs {| fs_dirs := {["data"]};
                fs_files := {["data/colleges.csv" := [CsvRow ["College Name"; "Location"]]]};
                fs_denied := ∅; fs_unreadable := ∅ |}
       (demo_world false [] 1)).

(** The cell the frame holds for a record under a column. *)
Definition frame_cell (c : pydict) (k : string) : string :=
  match Dict.lookup c k with
  | Some v => csv_cell v
  | None => ""
  end.

(** [row] is the line of the record [c] under the columns [header]. *)
Definition frame_row (header : list string) (c : pydict) (row : line) : Prop :=
  row = CsvRow (frame_cell c <$> header).

(** [header] lists once each key that some record of [records] has. *)
Definition frame_header (records : list pydict) (header : list string) : Prop :=
  NoDup header /\ forall k, k ∈ header <-> exists c, c ∈ records /\ k ∈ Dict.keys c.

End More_Vocabulary.


Section Resume_Vocabulary.
Context `{platform : Platform} `{reader : JsonLines}.

(** The formats [load_existing_colleges] looks at. *)
Definition formats_lower (formats : option (list string)) : list string :=
  PyStr.lower <$> match formats with
                  | None => ["csv"; "json"]
                  | Some l => l
                  end.

(** Every line before the [i]-th that is JSON holds an object whose
    [College Name], when it has one, is a string. *)
Definition loads_before (records : list (option pyval)) (i : nat) : Prop :=
  forall j d, j < i -> records !! j = Some (Some d) -> exists o, jsonl_name d = Return o.

(** [n] is the name of a line that the loop of [load_existing_colleges]
    reaches. *)
Definition loaded_name (records : list (option pyval)) (n : string) : Prop :=
  exists i d, records !! i = Some (Some d) /\ jsonl_name d = Return (Some n) /\
              loads_before records i.

(** The lines [open] gives for a path: none for a directory, a missing or
    an unreadable file. *)
Definition readable_lines (w : world) (filepath : string) : option (list line) :=
  if decide (filepath ∈ fs_unreadable (fs w)) then None else fs_files (fs w) !! filepath.

(** The names a reading of the CSV file at the path collects. *)
Definition csv_names_on_disk (w : world) (filepath : string) : gset string :=
  match readable_lines w filepath with
  | Some lines => names_of_rows (csv_rows lines)
  | None => ∅
  end.

(** The names the loop over the JSONL file at the path collects. *)
Definition jsonl_names_on_disk (w : world) (filepath : string) : gset string :=
  match readable_lines w filepath with
  | Some lines => fst (load_jsonl_names (concat (json_lines <$> lines)) ∅ 0)
  | None => ∅
  end.

(** The entry of the resume index for a format. *)
Definition resume_entry (w : world) (output_dir base_filename fmt : string) : gset string :=
  if String.eqb fmt "csv"
  then csv_names_on_disk w (PyStr.path_join output_dir (base_filename ++ ".csv"))
  else if String.eqb fmt "json"
  then jsonl_names_on_disk w (PyStr.path_join output_dir (base_filename ++ ".jsonl"))
  else ∅.

(** The line [append_to_jsonl] writes for the record comes back as the
    record. *)
Definition reads_back (d : pydict) : Prop :=
  json_lines (JsonText (PDict d)) = [Some (PDict d)].

End Resume_Vocabulary.

(** A reader that takes a stored document for one line and a CSV row for
    text that is not JSON. *)
Definition demo_reader : JsonLines := {|
  json_lines := fun l => match l with
                         | JsonText v => [Some v]
                         | CsvRow _ => [None]
                         end
|}.

Definition demo_null_name : pydict :=
  [("College Name", PNone); ("Location", PStr "Pune, MH")].

Section Staging_Vocabulary.

(** What holds after [m] is run from [s]: [Q] of the result and the state
    when it returns, [E] of the exception and the state when it raises. *)
Definition wp {A : Type} (m : SM A) (Q : A -> sworld -> Prop) (E : exn -> sworld -> Prop)
    (s : sworld) : Prop :=
  match m s with
  | (Return a, s') => Q a s'
  | (Raise e, s') => E e s'
  end.

(** A row as [save_to_staging_tables] inserts it into [st_college]: the
    name is not blank, the name, the city and the type have no whitespace
    around them, and the description is made of the three, with nothing
    where the state would be. *)
Definition inserted_college (row : st_college_row) : Prop :=
  trimmed_word (cg_name row) /\
  PyStr.strip (cg_city row) = cg_city row /\ PyStr.strip (cg_type row) = cg_type row /\
  cg_description row
  = (cg_name row ++ " is located in " ++ cg_city row ++ ", . Type: " ++ cg_type row)%string.

(** A row as [save_to_staging_tables] inserts it into [st_course]: the name
    is not blank and has no whitespace around it, and the description is the
    degree level, or the empty string when the degree level is null, empty
    or otherwise falsy. *)
Definition inserted_course (row : st_course_row) : Prop :=
  trimmed_word (cs_name row) /\
  cs_description row
  = (if truthy (cs_degree_level row) then cs_degree_level row else PStr "").

(** The tables of [s] are those of [s0] with rows added at the end. *)
Definition grown (s0 s : sworld) : Prop :=
  exists colleges courses mappings,
    st_college (staging_db s) = st_college (staging_db s0) ++ colleges /\
    st_course (staging_db s) = st_course (staging_db s0) ++ courses /\
    st_college_courses (staging_db s) = st_college_courses (staging_db s0) ++ mappings /\
    Forall inserted_college colleges /\ Forall inserted_course courses.

(** The pair a mapping row relates. *)
Definition mapping_pair (row : st_mapping_row) : Z * Z := (mp_college_id row, mp_course_id row).

(** No two colleges and no two courses of one name, no two mappings of one
    pair. *)
Definition unique_names (db : staging) : Prop :=
  NoDup (cg_name <$> st_college db) /\
  NoDup (cs_name <$> st_course db) /\
  NoDup (mapping_pair <$> st_college_courses db).

(** The credentials are configured, the client can be built, and the
    remote store answers every call. *)
Definition answering (s : sworld) : Prop :=
  truthy_opt (SUPABASE_URL (cfg (app s))) = true /\
  truthy_opt (SUPABASE_KEY (cfg (app s))) = true /\
  client_error (store (app s)) = None /\
  faults (store (app s)) = [].

(** The three tables are the same. *)
Definition same_staging (s s' : sworld) : Prop :=
  st_college (staging_db s') = st_college (staging_db s) /\
  st_course (staging_db s') = st_course (staging_db s) /\
  st_college_courses (staging_db s') = st_college_courses (staging_db s).

(** What a select that is answered gives: the first row of the name, the
    first row of the pair. *)
Definition college_named (db : staging) (name : string) : list st_college_row :=
  take 1 (filter (fun r => cg_name r = name) (st_college db)).

Definition course_named (db : staging) (name : string) : list st_course_row :=
  take 1 (filter (fun r => cs_name r = name) (st_course db)).

Definition mapping_of (db : staging) (college_id course_id : Z) : list st_mapping_row :=
  take 1 (filter (fun r => mp_college_id r = college_id /\ mp_course_id r = course_id)
                 (st_college_courses db)).

(** The tables of [db'] are those of [db] with rows added at the end. *)
Definition extends (db db' : staging) : Prop :=
  exists colleges courses mappings,
    st_college db' = st_college db ++ colleges /\
    st_course db' = st_course db ++ courses /\
    st_college_courses db' = st_college_courses db ++ mappings.

(** The tables hold the course and its mapping to the college. *)
Definition course_settled (db : staging) (college_id : Z) (course : pyval) : Prop :=
  exists d name,
    as_dict course = Return d /\ str_strip (get d "name" (PStr "")) = Return name /\
    (name <> "" ->
     exists row, course_named db name = [row] /\
                 mapping_of db college_id (cs_id row) <> []).

(** The tables hold the college, its courses and their mappings. *)
Definition college_settled (db : staging) (college : pyval) : Prop :=
  exists d name,
    as_dict college = Return d /\ str_strip (get d "name" (PStr "")) = Return name /\
    (name <> "" ->
     exists row courses,
       college_named db name = [row] /\
       py_iter (get d "courses" (PList [])) = Return courses /\
       Forall (course_settled db (cg_id row)) courses).

(** The dict [course_name_to_id] holds ids the table gives for the names. *)
Definition cache_ok (db : staging) (t : tally) : Prop :=
  forall name id, course_name_to_id t !! name = Some id ->
    exists row, course_named db name = [row] /\ cs_id row = id.

(** The counters of what was inserted are where they were. *)
Definition nothing_inserted (t t' : tally) : Prop :=
  colleges_inserted t' = colleges_inserted t /\
  courses_inserted t' = courses_inserted t /\
  mappings_inserted t' = mappings_inserted t.

(** The document is one that a run went through, and the tables hold what
    it names. *)
Definition document_settled (db : staging) (json_data : pyval) : Prop :=
  exists d n colleges,
    as_dict json_data = Return d /\
    truthy (get d "colleges" (PList [])) = true /\
    py_len (get d "colleges" (PList [])) = Return n /\
    py_iter (get d "colleges" (PList [])) = Return colleges /\
    Forall (college_settled db) colleges.

(** The end of a turn of the loop over the courses: the mapping of the
    course to the college is looked up, and inserted when it is not there. *)
Definition link_course (college_id course_id : Z) (t : tally) : SM tally :=
  (existing_mapping <- select_st_mapping college_id course_id ;;
   match existing_mapping with
   | _ :: _ => sret t
   | [] =>
       mapping_response <- insert_st_mapping college_id course_id ;;
       match mapping_response with
       | [] => sret t
       | _ :: _ =>
           sret {| colleges_inserted := colleges_inserted t;
                   courses_inserted := courses_inserted t;
                   mappings_inserted := S (mappings_inserted t);
                   colleges_skipped := colleges_skipped t;
                   course_name_to_id := course_name_to_id t |}
       end
   end)%st.

(** The message of a run that inserts nothing and finds [k] colleges. *)
Definition settled_message (k : nat) : string :=
  ("Staging tables updated: 0 colleges inserted, " ++ pretty k
   ++ " skipped, 0 courses, 0 mappings")%string.

(** The tables [search_criteria] and [scrape_jobs] and the calls issued on
    them are the same. *)
Definition same_jobs (s s' : sworld) : Prop :=
  scrape_jobs (store (app s')) = scrape_jobs (store (app s)) /\
  search_criteria (store (app s')) = search_criteria (store (app s)) /\
  remote_calls (store (app s')) = remote_calls (store (app s)).

(** [m] keeps [I], whether it returns or raises. *)
Definition keeps {A : Type} (I : sworld -> Prop) (m : SM A) : Prop :=
  forall s, I s -> wp m (fun _ s' => I s') (fun _ s' => I s') s.

Definition demo_staging : staging :=
  {| st_college := []; st_course := []; st_college_courses := [];
     st_next_id := 1; st_calls := [] |}.

Definition demo_sworld : sworld :=
  {| app := demo_world true [] 1; staging_db := demo_staging |}.

(** Two colleges that share a course. *)
Definition demo_staging_doc : pyval :=
  PDict [("colleges",
          PList [PDict [("name", PStr "ABC College"); ("city", PStr "Pune");
                        ("type", PStr "Private");
                        ("courses", PList [PDict [("name", PStr "B.Tech")]])];
                 PDict [("name", PStr "XYZ College"); ("city", PStr "Delhi");
                        ("type", PStr "Public");
                        ("courses", PList [PDict [("name", PStr "B.Tech")];
                                           PDict [("name", PStr "MBA")]])]])].

(** A college with a name, a city and a type to trim, and courses with a
    degree level, with a null one, with an empty one and with none. *)
Definition demo_described_doc : pyval :=
  PDict [("colleges",
          PList [PDict [("name", PStr "  ABC College "); ("city", PStr " Pune");
                        ("type", PStr "Private ");
                        ("courses",
                         PList [PDict [("name", PStr " B.Tech ");
                                       ("degree_level", PStr "UG")];
                                PDict [("name", PStr "MBA"); ("degree_level", PNone)];
                                PDict [("name", PStr "B.A."); ("degree_level", PStr "")];
                                PDict [("name", PStr "M.Sc")]])];
                 PDict [("name", PStr "   "); ("city", PStr "Delhi")];
                 PDict [("name", PStr "XYZ College")]])].

End Staging_Vocabulary.
(** * Properties *)

(** ** Python strings *)

Example strip_example : PyStr.strip "  Delhi , x  " = "Delhi , x".
Proof. reflexivity. Qed.

Example split_example : PyStr.split "," "JEE, NEET" = ["JEE"; " NEET"].
Proof. reflexivity. Qed.

Example replace_example : PyStr.replace ".csv" ".json" "a.csv.csvx" = "a.json.jsonx".
Proof. reflexivity. Qed.

Example path_join_example :
  PyStr.path_join "data" "c.csv" = "data/c.csv" /\ PyStr.path_join "data/" "c.csv" = "data/c.csv"
  /\ PyStr.path_join "data" "/tmp/c.csv" = "/tmp/c.csv" /\ PyStr.path_join "" "c.csv" = "c.csv".
Proof. repeat split; reflexivity. Qed.

(** ** Insertion-ordered dictionaries *)

Module DictFacts.
Section Facts.
Context {V : Type}.
Implicit Types (d : odict V) (k : string) (v : V).

Lemma lookup_set_eq d k v : Dict.lookup (Dict.set d k v) k = Some v.
Proof.
  induction d as [|[k' v'] d IH]; simpl.
  - by rewrite String.eqb_refl.
  - destruct (String.eqb k' k) eqn:E; simpl.
    + by rewrite String.eqb_refl.
    + by rewrite E.
Qed.

Lemma lookup_set_ne d k k' v :
  k <> k' -> Dict.lookup (Dict.set d k v) k' = Dict.lookup d k'.
Proof.
  intros Hne. induction d as [|[k0 v0] d IH]; simpl.
  - destruct (String.eqb k k') eqn:E; [|done].
    by apply String.eqb_eq in E.
  - destruct (String.eqb k0 k) eqn:E; simpl.
    + apply String.eqb_eq in E. subst k0.
      destruct (String.eqb k k') eqn:E'; [|done].
      by apply String.eqb_eq in E'.
    + by rewrite IH.
Qed.

Lemma lookup_None_keys d k : Dict.lookup d k = None <-> k ∉ Dict.keys d.
Proof.
  induction d as [|[k' v'] d IH]; simpl.
  - split; [intros _; apply not_elem_of_nil | done].
  - rewrite not_elem_of_cons. destruct (String.eqb k' k) eqn:E.
    + apply String.eqb_eq in E. subst. split; [done | intros [? _]; done].
    + apply String.eqb_neq in E. rewrite IH. split; [intros ?; split; congruence | tauto].
Qed.

Lemma keys_set d k v :
  Dict.keys (Dict.set d k v) =
  match Dict.lookup d k with
  | Some _ => Dict.keys d
  | None => Dict.keys d ++ [k]
  end.
Proof.
  induction d as [|[k' v'] d IH]; simpl; [done|].
  destruct (String.eqb k' k) eqn:E; simpl.
  - apply String.eqb_eq in E. by subst.
  - rewrite IH. by destruct (Dict.lookup d k).
Qed.

Lemma NoDup_keys_set d k v : NoDup (Dict.keys d) -> NoDup (Dict.keys (Dict.set d k v)).
Proof.
  intros Hnd. rewrite keys_set. destruct (Dict.lookup d k) eqn:E; [done|].
  apply NoDup_app. split; [done|]. split; [|apply NoDup_singleton].
  intros x Hx Hin. apply list_elem_of_singleton in Hin. subst x.
  by apply lookup_None_keys in E.
Qed.

(** With distinct keys, the entry at a position is what [lookup] finds. *)
Lemma lookup_at d i k v :
  NoDup (Dict.keys d) -> d !! i = Some (k, v) -> Dict.lookup d k = Some v.
Proof.
  revert i. induction d as [|[k' v'] d IH]; intros i Hnd Hi; [done|].
  apply NoDup_cons in Hnd as [Hk' Hnd]. destruct i as [|i]; simpl in *.
  - injection Hi as -> ->. by rewrite String.eqb_refl.
  - destruct (String.eqb k' k) eqn:E.
    + apply String.eqb_eq in E. subst k'. exfalso. apply Hk'.
      apply list_elem_of_lookup. exists i.
      change (Dict.keys d !! i = Some k). unfold Dict.keys.
      by rewrite list_lookup_fmap, Hi.
    + by apply (IH i).
Qed.

Lemma values_lookup d i v :
  Dict.values d !! i = Some v -> exists k, d !! i = Some (k, v).
Proof.
  unfold Dict.values. rewrite list_lookup_fmap.
  destruct (d !! i) as [[k v']|]; simpl; intros Hv; simplify_eq.
  by exists k.
Qed.
End Facts.
End DictFacts.

(** ** The deduplicator *)

Section Deduplicator.
Context `{platform : Platform}.
Implicit Types (colleges pre : list pydict) (seen : odict pydict) (k : string).

Lemma is_empty_true s : PyStr.is_empty s = true <-> s = "".
Proof. destruct s; simpl; split; congruence. Qed.

Lemma is_empty_false s : PyStr.is_empty s = false <-> s <> "".
Proof. destruct s; simpl; split; congruence. Qed.

Lemma first_richest_snoc_other pre k i r c :
  college_name c <> Return k ->
  first_richest pre k i r -> first_richest (pre ++ [c]) k i r.
Proof.
  intros Hc (Hi & Hr & Hall). split; [by apply lookup_app_l_Some|]. split; [done|].
  intros j c' Hj Hc'. apply lookup_snoc_Some in Hj as [[_ Hj]|[_ ->]]; [eauto|done].
Qed.

Lemma first_richest_snoc_poorer pre k i r c :
  richness c <= richness r ->
  first_richest pre k i r -> first_richest (pre ++ [c]) k i r.
Proof.
  intros Hle (Hi & Hr & Hall). split; [by apply lookup_app_l_Some|]. split; [done|].
  intros j c' Hj Hc'. apply lookup_snoc_Some in Hj as [[_ Hj]|[-> ->]]; [eauto|].
  split; [done|]. intros Hlt. apply lookup_lt_Some in Hi. lia.
Qed.

Lemma first_richest_snoc_new pre k c :
  college_name c = Return k ->
  (forall j c', pre !! j = Some c' -> college_name c' = Return k -> richness c' < richness c) ->
  first_richest (pre ++ [c]) k (length pre) c.
Proof.
  intros Hc Hall. split; [|split; [done|]].
  - rewrite lookup_app_r by lia. by rewrite Nat.sub_diag.
  - intros j c' Hj Hc'. apply lookup_snoc_Some in Hj as [[_ Hj]|[-> ->]].
    + specialize (Hall _ _ Hj Hc'). split; [lia | done].
    + split; [done | lia].
Qed.

Lemma dedup_step_inv pre seen c seen' :
  dedup_inv pre seen -> dedup_step seen c = Return seen' ->
  dedup_inv (pre ++ [c]) seen'.
Proof.
  intros (Hnd & Hsurv & Hcov). unfold dedup_step.
  destruct (college_name c) as [name|e] eqn:Hname; simpl; [|done].
  destruct (PyStr.is_empty name) eqn:Hempty.
  { (* a record without identity is skipped *)
    apply is_empty_true in Hempty. subst name. intros [= <-].
    split; [done|]. split.
    - intros k r Hk. destruct (Hsurv k r Hk) as (Hne & i & Hi).
      split; [done|]. exists i. apply first_richest_snoc_other; [|done].
      rewrite Hname. congruence.
    - intros c' k Hin Hc' Hne. apply elem_of_app in Hin as [Hin|Hin]; [eauto|].
      apply list_elem_of_singleton in Hin. subst c'. congruence. }
  apply is_empty_false in Hempty.
  assert (Hcov' : forall seen2, (forall k, is_Some (Dict.lookup seen k) -> is_Some (Dict.lookup seen2 k)) ->
            is_Some (Dict.lookup seen2 name) ->
            forall c' k, c' ∈ pre ++ [c] -> college_name c' = Return k -> k <> "" ->
              is_Some (Dict.lookup seen2 k)).
  { intros seen2 Hmono Hnew c' k Hin Hc' Hne.
    apply elem_of_app in Hin as [Hin|Hin]; [eauto|].
    apply list_elem_of_singleton in Hin. subst c'. congruence. }
  assert (Hset : forall k, is_Some (Dict.lookup seen k) -> is_Some (Dict.lookup (Dict.set seen name c) k)).
  { intros k Hk. destruct (decide (name = k)) as [->|Hne].
    - rewrite DictFacts.lookup_set_eq. eauto.
    - by rewrite DictFacts.lookup_set_ne. }
  assert (Hkeep : forall k r, k <> name -> Dict.lookup seen k = Some r ->
            k <> "" /\ exists i, first_richest (pre ++ [c]) k i r).
  { intros k r Hne Hk. destruct (Hsurv k r Hk) as (Hne' & i & Hi).
    split; [done|]. exists i. apply first_richest_snoc_other; [|done].
    rewrite Hname. congruence. }
  destruct (Dict.lookup seen name) as [existing|] eqn:Hlook.
  - destruct (Hsurv _ _ Hlook) as (_ & i & Hi).
    destruct (richness existing <? richness c)%nat eqn:Hcmp; intros [= <-].
    + (* the new record carries more data: it replaces the survivor *)
      apply Nat.ltb_lt in Hcmp. split; [by apply DictFacts.NoDup_keys_set|]. split.
      * intros k r. destruct (decide (name = k)) as [<-|Hne].
        -- rewrite DictFacts.lookup_set_eq. intros [= <-]. split; [done|].
           exists (length pre). apply first_richest_snoc_new; [done|].
           intros j c' Hj Hc'. destruct Hi as (_ & _ & Hall).
           destruct (Hall _ _ Hj Hc') as [Hle _]. lia.
        -- rewrite DictFacts.lookup_set_ne by done. intros Hk. by apply Hkeep.
      * apply Hcov'; [done|]. rewrite DictFacts.lookup_set_eq. eauto.
    + (* otherwise the survivor stays *)
      apply Nat.ltb_ge in Hcmp. split; [done|]. split.
      * intros k r Hk. destruct (decide (k = name)) as [->|Hne]; [|by apply Hkeep].
        rewrite Hlook in Hk. injection Hk as <-. split; [done|].
        exists i. by apply first_richest_snoc_poorer.
      * apply Hcov'; [done|]. rewrite Hlook. eauto.
  - (* first record of this identity *)
    intros [= <-]. split; [by apply DictFacts.NoDup_keys_set|]. split.
    + intros k r. destruct (decide (name = k)) as [<-|Hne].
      * rewrite DictFacts.lookup_set_eq. intros [= <-]. split; [done|].
        exists (length pre). apply first_richest_snoc_new; [done|].
        intros j c' Hj Hc'. exfalso.
        assert (Hin : c' ∈ pre) by (apply list_elem_of_lookup; eauto).
        destruct (Hcov _ _ Hin Hc' Hempty) as [x Hx]. congruence.
      * rewrite DictFacts.lookup_set_ne by done. intros Hk. by apply Hkeep.
    + apply Hcov'; [done|]. rewrite DictFacts.lookup_set_eq. eauto.
Qed.

Lemma dedup_loop_inv colleges : forall pre seen seen',
  dedup_inv pre seen -> for_fold dedup_step colleges seen = Return seen' ->
  dedup_inv (pre ++ colleges) seen'.
Proof.
  induction colleges as [|c colleges IH]; intros pre seen seen' Hinv; simpl.
  - intros [= <-]. by rewrite app_nil_r.
  - destruct (dedup_step seen c) as [seen1|e] eqn:Hstep; simpl; [|done].
    intros Hrest. rewrite cons_middle, app_assoc.
    eapply IH; [|done]. by eapply dedup_step_inv.
Qed.

Lemma dedup_inv_init : dedup_inv [] [].
Proof.
  split; [apply NoDup_nil_2|]. split; [done|].
  intros c k Hin. by apply elem_of_nil in Hin.
Qed.

Lemma dedup_step_returns seen c k :
  college_name c = Return k -> exists seen', dedup_step seen c = Return seen'.
Proof.
  intros Hk. unfold dedup_step. rewrite Hk. simpl.
  destruct (PyStr.is_empty k); [eauto|].
  destruct (Dict.lookup seen k) as [existing|]; [|eauto].
  destruct (richness existing <? richness c)%nat; eauto.
Qed.

Lemma dedup_loop_returns colleges : forall seen,
  (forall c, c ∈ colleges -> exists k, college_name c = Return k) ->
  exists seen', for_fold dedup_step colleges seen = Return seen'.
Proof.
  induction colleges as [|c colleges IH]; intros seen Hall; simpl; [eauto|].
  destruct (Hall c) as [k Hk]; [apply elem_of_cons; auto|].
  destruct (dedup_step_returns seen c k Hk) as [seen1 ->]. simpl.
  apply IH. intros c' Hc'. apply Hall, elem_of_cons. auto.
Qed.

Lemma dedup_pair a b k :
  college_name a = Return k -> college_name b = Return k -> k <> "" ->
  deduplicate_colleges [a; b] =
  Return [if (richness a <? richness b)%nat then b else a].
Proof.
  intros Ha Hb Hk. apply is_empty_false in Hk.
  unfold deduplicate_colleges, dedup_step. simpl.
  rewrite Ha. simpl. rewrite Hk. simpl. rewrite Hb. simpl. rewrite Hk.
  rewrite !(String.eqb_refl k).
  by destruct (richness a <? richness b)%nat.
Qed.

(** C5. Among the records of one normalized identity, [deduplicate_colleges]
    keeps exactly one: the first of those with the greatest count of
    attributes that carry data, so a later record wins only with a strictly
    greater count and a tie keeps the earlier one. The count is that of the
    attributes whose value is truthy and whose text is not blank once
    trimmed: an empty or blank string, null, zero, false, an empty list and
    an empty dict do not count, however many there are. The call returns
    whenever every identity attribute is a string. Of a pair of one identity
    the second survives only when strictly richer; of
    [{"name":"X","type":"Govt"}] and [{"name":"x"}] the first survives, as it
    does against a record of the same name with seven more attributes that
    carry no data, and [{"name":"x","type":"Govt"}] survives
    [{"name":"X","type":" "}] seen before it. *)
Theorem deduplicate_colleges_survivor :
  (forall colleges out,
     deduplicate_colleges colleges = Return out ->
     (forall p r, out !! p = Some r ->
        exists k i, k <> "" /\ first_richest colleges k i r /\
          forall q r', out !! q = Some r' -> college_name r' = Return k -> q = p) /\
     (forall c k, c ∈ colleges -> college_name c = Return k -> k <> "" ->
        exists r, r ∈ out /\ college_name r = Return k)) /\
  (forall colleges,
     (forall c, c ∈ colleges -> exists k, college_name c = Return k) ->
     exists out, deduplicate_colleges colleges = Return out) /\
  (forall a b k,
     college_name a = Return k -> college_name b = Return k -> k <> "" ->
     deduplicate_colleges [a; b] =
     Return [if (richness a <? richness b)%nat then b else a]) /\
  deduplicate_colleges
    [ [("name", PStr "X"); ("type", PStr "Govt")]; [("name", PStr "x")] ]
  = Return [ [("name", PStr "X"); ("type", PStr "Govt")] ] /\
  (forall college, richness college = data_count college) /\
  data_count demo_hollow = 1 /\
  deduplicate_colleges [ [("name", PStr "X"); ("type", PStr "Govt")]; demo_hollow ]
  = Return [ [("name", PStr "X"); ("type", PStr "Govt")] ] /\
  deduplicate_colleges
    [ [("name", PStr "X"); ("type", PStr " ")]; [("name", PStr "x"); ("type", PStr "Govt")] ]
  = Return [ [("name", PStr "x"); ("type", PStr "Govt")] ].
Proof.
  split; [|split; [|split; [exact dedup_pair |
    split; [reflexivity|split; [|split; [reflexivity|split; reflexivity]]]]]].
  3:{ intros college. unfold richness, data_count. f_equal. apply list_filter_iff.
      intros v. unfold has_data, carries_data.
      rewrite andb_true_iff, negb_true_iff. by rewrite is_empty_false. }
  - intros colleges out. unfold deduplicate_colleges.
    destruct (for_fold dedup_step colleges []) as [seen|e] eqn:Hloop; simpl; [|done].
    intros [= <-].
    destruct (dedup_loop_inv colleges [] [] seen dedup_inv_init Hloop)
      as (Hnd & Hsurv & Hcov). simpl in Hsurv, Hcov.
    assert (Hentry : forall p k r, seen !! p = Some (k, r) ->
              k <> "" /\ (exists i, first_richest colleges k i r)).
    { intros p k r Hp. apply Hsurv. by eapply DictFacts.lookup_at. }
    split.
    + intros p r Hp. apply DictFacts.values_lookup in Hp as [k Hp].
      destruct (Hentry _ _ _ Hp) as (Hne & i & Hi).
      exists k, i. split; [done|]. split; [done|].
      intros q r' Hq Hr'. apply DictFacts.values_lookup in Hq as [k' Hq].
      destruct (Hentry _ _ _ Hq) as (_ & i' & _ & Hk' & _).
      assert (k' = k) by congruence. subst k'.
      eapply (NoDup_lookup (Dict.keys seen)); [done| |];
        unfold Dict.keys; rewrite list_lookup_fmap.
      * by rewrite Hq.
      * by rewrite Hp.
    + intros c k Hin Hc Hne. destruct (Hcov c k Hin Hc Hne) as [r Hr].
      destruct (Hsurv _ _ Hr) as (_ & i & _ & Hname & _).
      exists r. split; [|done].
      clear -Hr. induction seen as [|[k' r'] seen IH]; simpl in *; [done|].
      apply elem_of_cons. destruct (String.eqb k' k); [left; congruence | right; auto].
  - intros colleges Hall. unfold deduplicate_colleges.
    destruct (dedup_loop_returns colleges [] Hall) as [seen ->]. simpl. eauto.
Qed.

End Deduplicator.

(** ** Loops that may raise *)

Section Loops.
Context {A B : Type}.

Lemma for_map_Return (f : A -> outcome B) l out :
  for_map f l = Return out -> Forall2 (fun x y => f x = Return y) l out.
Proof.
  revert out. induction l as [|x l IH]; intros out; simpl.
  - intros [= <-]. constructor.
  - destruct (f x) as [y|e] eqn:Hx; simpl; [|done].
    destruct (for_map f l) as [ys|e]; simpl; [|done].
    intros [= <-]. constructor; auto.
Qed.

Lemma for_map_returns (f : A -> outcome B) l :
  (forall x, x ∈ l -> exists y, f x = Return y) ->
  exists out, for_map f l = Return out.
Proof.
  induction l as [|x l IH]; intros Hall; simpl; [eauto|].
  destruct (Hall x) as [y ->]; [apply elem_of_cons; auto|]. simpl.
  destruct IH as [ys ->]; [|simpl; eauto].
  intros x' Hx'. apply Hall, elem_of_cons. auto.
Qed.
End Loops.

(** ** The transformer *)

Section Transformer.
Context `{platform : Platform}.

Lemma transform_college_fields college r :
  transform_college college = Return r ->
  Dict.keys r = college_fields /\
  (forall field source, (field, source) ∈ field_source ->
     Dict.lookup r field = Some (get college source (PStr ""))) /\
  (Dict.lookup college "Location" = None -> Dict.lookup r "city" = Some (PStr "")) /\
  (Dict.lookup college "Courses" = None -> Dict.lookup r "courses" = Some (PList [])).
Proof.
  unfold transform_college.
  destruct (str_strip _) as [location|e] eqn:Hloc; simpl; [|done].
  destruct (py_iter _) as [courses|e] eqn:Hiter; simpl; [|done].
  destruct (for_map _ courses) as [tcs|e] eqn:Hmap; simpl; [|done].
  intros [= <-]. split; [reflexivity|]. split; [|split].
  - intros field source Hin. unfold field_source in Hin.
    repeat (apply elem_of_cons in Hin as [[= -> ->]|Hin]; [reflexivity|]).
    by apply elem_of_nil in Hin.
  - intros Hnone. unfold get in Hloc. rewrite Hnone in Hloc.
    injection Hloc as <-. reflexivity.
  - intros Hnone. unfold get in Hiter. rewrite Hnone in Hiter.
    injection Hiter as <-. simpl in Hmap. injection Hmap as <-. reflexivity.
Qed.

Lemma transform_college_returns college :
  transformable college -> exists r, transform_college college = Return r.
Proof.
  intros [[s Hs] [l [Hl Hall]]]. unfold transform_college.
  rewrite Hs, Hl. simpl.
  destruct (for_map_returns
              (fun course => obind (as_dict course) (fun c => Return (PDict (transform_course c)))) l)
    as [tcs ->]; [|simpl; eauto].
  intros x Hx. destruct (Hall x Hx) as [d ->]. simpl. eauto.
Qed.

Lemma transform_college_blank college :
  (forall k, k ∈ source_keys -> Dict.lookup college k = None) ->
  transform_college college = Return blank_college.
Proof.
  intros Hnone. unfold transform_college, get.
  rewrite !Hnone by (unfold source_keys; set_solver). reflexivity.
Qed.

(** C4, as the code has it. [transform_college_data] is a function of its
    input alone; it returns whenever every [Location] that is set is a
    string and every [Courses] that is set yields dictionaries, and then
    gives one entity per record, each with exactly the ten fixed keys.
    Every scalar field holds the value of its source key ([College Name],
    [College Type], ...) or the empty string when that key is missing, and
    [courses] is the empty list when [Courses] is missing. A record with
    none of the source keys gives all defaults: [{"College Name":"ABC"}]
    gives the name ["ABC"], and [{"name":"ABC"}], whose key is not a source
    key, gives the empty name. *)
Theorem transform_college_data_fixed_fields :
  (forall colleges out,
     transform_college_data colleges = Return out ->
     Forall2 transformed_from colleges out) /\
  (forall colleges,
     (forall c, c ∈ colleges -> transformable c) ->
     exists out, transform_college_data colleges = Return out) /\
  (forall college,
     (forall k, k ∈ source_keys -> Dict.lookup college k = None) ->
     transform_college_data [college] = Return [blank_college]) /\
  transform_college_data [ [("College Name", PStr "ABC")] ]
  = Return [ Dict.set blank_college "name" (PStr "ABC") ] /\
  transform_college_data [ [("name", PStr "ABC")] ] = Return [blank_college].
Proof.
  split; [|split; [|split; [|split; reflexivity]]].
  - intros colleges out Hout. apply for_map_Return in Hout.
    eapply Forall2_impl; [exact Hout|]. intros c r Hr.
    by apply transform_college_fields.
  - intros colleges Hall. apply for_map_returns.
    intros c Hc. by apply transform_college_returns, Hall.
  - intros college Hnone. unfold transform_college_data. simpl.
    by rewrite transform_college_blank.
Qed.

End Transformer.

Lemma transform_college_data_fixed_fields_witness :
  transform_college_data (platform := demo_platform)
    [ [("College Name", PStr "ABC"); ("Location", PStr "Pune, MH")] ]
  = Return [ Dict.set (Dict.set blank_college "name" (PStr "ABC")) "city" (PStr "Pune") ] /\
  Forall2 transformed_from
    [ [("College Name", PStr "ABC"); ("Location", PStr "Pune, MH")] ]
    [ Dict.set (Dict.set blank_college "name" (PStr "ABC")) "city" (PStr "Pune") ].
Proof.
  split; [reflexivity|].
  apply (proj1 (transform_college_data_fixed_fields (platform := demo_platform))).
  reflexivity.
Defined.

(** The spec's example for C4: [{"name":"ABC"}] does not transform to a
    record named ["ABC"]; the name is read from [College Name] only. *)
Lemma transform_name_key_counterexample :
  ~ (exists r, transform_college_data (platform := demo_platform) [ [("name", PStr "ABC")] ]
               = Return [r] /\ Dict.lookup r "name" = Some (PStr "ABC")).
Proof.
  intros [r [Hr Hname]]. vm_compute in Hr. injection Hr as <-.
  vm_compute in Hname. discriminate Hname.
Qed.

Lemma deduplicate_colleges_survivor_witness :
  deduplicate_colleges (platform := demo_platform)
    [ [("name", PStr "A")]; [("name", PStr "a "); ("type", PStr "Govt")]; [("College Name", PStr "B")] ]
  = Return [ [("name", PStr "a "); ("type", PStr "Govt")]; [("College Name", PStr "B")] ] /\
  (exists k i, k <> "" /\
    first_richest (platform := demo_platform)
      [ [("name", PStr "A")]; [("name", PStr "a "); ("type", PStr "Govt")]; [("College Name", PStr "B")] ]
      k i [("name", PStr "a "); ("type", PStr "Govt")] /\
    forall q r',
      [ [("name", PStr "a "); ("type", PStr "Govt")]; [("College Name", PStr "B")] ] !! q = Some r' ->
      college_name r' = Return k -> q = 0) /\
  richness (platform := demo_platform) demo_hollow = 1 /\
  richness (platform := demo_platform) [("name", PStr "X"); ("type", PStr "Govt")] = 2 /\
  deduplicate_colleges (platform := demo_platform)
    [ [("name", PStr "X"); ("type", PStr "Govt")]; demo_hollow ]
  = Return [ [("name", PStr "X"); ("type", PStr "Govt")] ] /\
  deduplicate_colleges (platform := demo_platform)
    [ demo_hollow; [("name", PStr "X"); ("type", PStr "Govt")] ]
  = Return [ [("name", PStr "X"); ("type", PStr "Govt")] ].
Proof.
  pose proof (deduplicate_colleges_survivor (platform := demo_platform))
    as (Hsurvivor & _ & Hpair & _ & Hcount & Hhollow & Hfirst & _).
  split; [reflexivity|]. split.
  { refine (proj1 (Hsurvivor _ _ _) 0 _ _); reflexivity. }
  split; [by rewrite Hcount|]. split; [reflexivity|]. split; [exact Hfirst|].
  by rewrite (Hpair demo_hollow [("name", PStr "X"); ("type", PStr "Govt")] "x").
Defined.

(** ** Running the effects *)

(** Reduces the projections of an updated world. *)
Ltac world_simpl :=
  cbn [cfg fs fs_calls _CSV_NAME_CACHE store log
       with_fs with_fs_call with_cache with_store with_log
       search_criteria scrape_jobs next_id faults remote_calls client_error
       with_faults with_remote_call with_search_criteria with_scrape_jobs with_next_id
       fs_dirs fs_files fs_denied fs_unreadable with_files with_dirs
       fst snd] in *.

(** Unfolds the monad's operations. *)
Ltac run :=
  cbv beta iota delta [bind try_except ret raise lift logger read_config].

(** ** Effects that leave a part of the world alone *)

Section Frames.
Context {S : Type} (proj : world -> S).

Lemma preserves_ret {A : Type} (a : A) : preserves proj (ret a).
Proof. by intros w. Qed.

Lemma preserves_raise {A : Type} (e : exn) : preserves proj (@raise A e).
Proof. by intros w. Qed.

Lemma preserves_lift {A : Type} (o : outcome A) : preserves proj (lift o).
Proof. by intros w. Qed.

Lemma preserves_read_config : preserves proj read_config.
Proof. by intros w. Qed.

Lemma preserves_bind {A B : Type} (m : M A) (k : A -> M B) :
  preserves proj m -> (forall a, preserves proj (k a)) -> preserves proj (bind m k).
Proof.
  intros Hm Hk w. unfold bind. specialize (Hm w).
  destruct (m w) as [[a|e] w1]; simpl in *; [|done].
  by rewrite Hk.
Qed.

Lemma preserves_try_except {A : Type} (body : M A) (handler : exn -> M A) :
  preserves proj body -> (forall e, preserves proj (handler e)) -> preserves proj (try_except body handler).
Proof.
  intros Hm Hk w. unfold try_except. specialize (Hm w).
  destruct (body w) as [[a|e] w1]; simpl in *; [done|].
  by rewrite Hk.
Qed.

Lemma preserves_for_each {A B : Type} (f : A -> B -> M A) l :
  (forall acc x, preserves proj (f acc x)) -> forall acc, preserves proj (for_each f l acc).
Proof.
  intros Hf. induction l as [|x l IH]; intros acc; simpl.
  - apply preserves_ret.
  - apply preserves_bind; auto.
Qed.

(** The parts that logging, the cache and the remote store do not touch. *)
Hypothesis proj_log : forall entry w, proj (with_log entry w) = proj w.

Lemma preserves_logger lvl msg : preserves proj (logger lvl msg).
Proof. intros w. apply proj_log. Qed.

Hypothesis proj_store : forall r w, proj (with_store r w) = proj w.

Lemma preserves_create_client : preserves proj create_client.
Proof. intros w. unfold create_client. by destruct (client_error (store w)). Qed.

Lemma preserves_issue c : preserves proj (issue c).
Proof.
  intros w. unfold issue. destruct (faults _); simpl; apply proj_store.
Qed.

Lemma preserves_select filters : preserves proj (select_search_criteria filters).
Proof.
  apply preserves_bind; [apply preserves_issue|].
  intros [| |]; [by intros w | apply preserves_raise | apply preserves_ret].
Qed.

Lemma preserves_update rd id : preserves proj (update_search_criteria rd id).
Proof.
  apply preserves_bind; [apply preserves_issue|].
  intros [| |]; try apply preserves_raise; intros w; apply proj_store.
Qed.

Lemma preserves_insert rd : preserves proj (insert_search_criteria rd).
Proof.
  apply preserves_bind; [apply preserves_issue|].
  intros [| |]; try apply preserves_raise; intros w; apply proj_store.
Qed.

Lemma preserves_update_scrape_job id success message :
  preserves proj (update_scrape_job id success message).
Proof.
  apply preserves_bind; [apply preserves_issue|].
  intros [| |]; try apply preserves_raise; intros w; apply proj_store.
Qed.

End Frames.

(** Takes a goal [preserves proj m] apart along the structure of [m]. *)
Ltac preserves_step :=
  first
    [ apply preserves_ret | apply preserves_raise | apply preserves_lift
    | apply preserves_read_config
    | apply preserves_logger; by intros
    | apply preserves_create_client; by intros
    | apply preserves_select; by intros
    | apply preserves_update; by intros
    | apply preserves_insert; by intros
    | apply preserves_update_scrape_job; by intros
    | apply preserves_bind; [|intros ?]
    | apply preserves_try_except; [|intros ?]
    | match goal with
      | |- preserves _ (if ?b then _ else _) => destruct b
      | |- preserves _ (match ?x with _ => _ end) => destruct x
      end ].

Ltac preserves_auto := repeat preserves_step.

Section ReconcilerFrames.
Context `{platform : Platform} {S : Type} (proj : world -> S).
Hypothesis proj_log : forall entry w, proj (with_log entry w) = proj w.
Hypothesis proj_store : forall r w, proj (with_store r w) = proj w.

Lemma preserves_update_job_status job success message :
  preserves proj (_update_job_status job success message).
Proof. unfold _update_job_status. preserves_auto. Qed.

Lemma preserves_on_save_error has_client job e :
  preserves proj (on_save_error has_client job e).
Proof. unfold on_save_error. preserves_auto. Qed.

Lemma preserves_save_to_supabase json_data cp sp loc un job :
  preserves proj (save_to_supabase json_data cp sp loc un job).
Proof.
  unfold save_to_supabase.
  preserves_auto; try (apply preserves_update_job_status); try (apply preserves_on_save_error).
Qed.

End ReconcilerFrames.

(** ** The remote reconciler *)

Section Reconciler_Properties.
Context `{platform : Platform}.

Lemma save_to_supabase_blank_location w json_data cp sp loc un job :
  blank_location loc ->
  let r := save_to_supabase json_data cp sp loc un job w in
  (exists msg, fst r = Return (false, msg)) /\
  search_criteria (store (snd r)) = search_criteria (store w) /\
  next_id (store (snd r)) = next_id (store w) /\
  (remote_calls (store (snd r)) = remote_calls (store w) \/
   exists id, job = Some id /\ id <> "" /\
     remote_calls (store (snd r)) = JobUpdate id false location_required :: remote_calls (store w)) /\
  (truthy_opt job = false -> store (snd r) = store w).
Proof.
  intros Hblank. unfold blank_location in Hblank.
  unfold save_to_supabase. rewrite !Hblank.
  unfold bind, read_config, try_except, create_client, ret, logger. simpl.
  destruct (negb (truthy_opt (SUPABASE_URL (cfg w))) || negb (truthy_opt (SUPABASE_KEY (cfg w)))).
  { simpl. eauto 10. }
  destruct (client_error (store w)) as [err|] eqn:Hclient.
  { unfold on_save_error, bind, try_except, logger, ret. simpl. eauto 10. }
  unfold _update_job_status, bind, try_except, logger, ret. simpl.
  destruct job as [id|]; simpl; [|eauto 10].
  destruct (PyStr.is_empty id) eqn:Hid; simpl; [eauto 10|].
  apply is_empty_false in Hid.
  unfold update_scrape_job, bind, issue. simpl.
  destruct (faults (store w)) as [|[| |] l] eqn:Hf; simpl;
    (repeat split; [eauto | right; exists id; eauto | done]).
Qed.

Lemma passes_filter r c (value : option string) :
  forallb (passes r) (_apply_filter [] c value) = true <-> row_value c r = value.
Proof.
  destruct value as [v|]; simpl; destruct (row_value c r) as [v'|]; simpl;
    rewrite ?andb_true_r; try (split; congruence).
  rewrite String.eqb_eq. split; congruence.
Qed.

Lemma passes_identity_filters rd r :
  forallb (passes r) (identity_filters rd) = true <-> same_identity rd r.
Proof.
  unfold identity_filters, same_identity, identity, rd_identity.
  assert (Happ : forall q c v, forallb (passes r) (_apply_filter q c v)
                 = forallb (passes r) q && forallb (passes r) (_apply_filter [] c v)).
  { intros q c v. destruct v; simpl; by rewrite forallb_app. }
  rewrite (Happ _ Location), (Happ _ University), (Happ _ Specialization).
  rewrite !andb_true_iff, !passes_filter. simpl.
  split.
  - intros [[[-> ->] ->] ->]. by destruct r.
  - intros [= -> -> -> ->]. done.
Qed.

(** What [limit(1)] leaves of the matching rows is the first of them. *)
Lemma take_1_filter {A : Type} (P Q : A -> Prop) `{!forall x, Decision (P x)}
    `{!forall x, Decision (Q x)} (l : list A) :
  (forall x, P x <-> Q x) ->
  take 1 (filter P l) = match list_find Q l with Some (_, x) => [x] | None => [] end.
Proof.
  intros HPQ. induction l as [|x l IH]; [done|].
  rewrite filter_cons. simpl. destruct (decide (P x)) as [HP|HP].
  - rewrite decide_True by (by apply HPQ). simpl. by rewrite take_0.
  - rewrite decide_False by (by rewrite <- HPQ). rewrite IH.
    by destruct (list_find Q l) as [[i y]|].
Qed.

(** Updating by a primary key changes the one row that carries it. *)
Lemma update_by_id (rows : list sc_row) i row (new : sc_row) :
  NoDup (sc_id <$> rows) -> rows !! i = Some row ->
  (fun r => if (sc_id r =? sc_id row)%Z then new else r) <$> rows = <[i := new]> rows.
Proof.
  intros Hnd Hi. apply list_eq. intros j.
  rewrite list_lookup_fmap. destruct (decide (j = i)) as [->|Hne].
  - rewrite list_lookup_insert_eq by (by eapply lookup_lt_Some).
    rewrite Hi. simpl. by rewrite Z.eqb_refl.
  - rewrite list_lookup_insert_ne by done.
    destruct (rows !! j) as [r|] eqn:Hj; [|done]. simpl.
    destruct (sc_id r =? sc_id row)%Z eqn:E; [|done].
    apply Z.eqb_eq in E. exfalso. apply Hne.
    eapply (NoDup_lookup (sc_id <$> rows)); [done| |];
      rewrite list_lookup_fmap.
    + by rewrite Hj.
    + rewrite Hi. simpl. by rewrite E.
Qed.

Lemma update_job_status_run w job success message :
  exists w', _update_job_status job success message w = (Return tt, w') /\ same_tables w w'.
Proof.
  unfold _update_job_status, same_tables.
  destruct (truthy_opt job); [|by eexists].
  cbv beta iota delta [try_except bind logger update_scrape_job issue ret raise].
  world_simpl.
  destruct (faults (store w)) as [|[| |] l] eqn:Hf; world_simpl;
    eexists; (split; [reflexivity|]); world_simpl; rewrite ?Hf; done.
Qed.

Lemma healthy_same_tables w w' : healthy w -> same_tables w w' -> healthy w'.
Proof.
  intros (Hu & Hk & Hc & Hf & Hnd & Hpos & Hid) (Hcfg & Hrows & Hnext & Hcl & Hfl).
  unfold healthy, store_ok. rewrite Hcfg, Hrows, Hnext, Hcl. auto 10.
Qed.

Lemma not_blank_location loc :
  ~ blank_location loc ->
  PyStr.is_empty (PyStr.strip (if truthy_opt loc then default "" loc else "")) = false.
Proof. intros Hloc. by apply is_empty_false. Qed.

Lemma select_run w filters :
  faults (store w) = [] ->
  select_search_criteria filters w =
  (Return (take 1 (filter (fun r => forallb (passes r) filters = true)
                          (search_criteria (store w)))),
   with_store (with_remote_call (Select filters) (store w)) w).
Proof.
  intros Hf. unfold select_search_criteria, issue. run. world_simpl. by rewrite Hf.
Qed.

Lemma update_run w rd id :
  faults (store w) = [] ->
  update_search_criteria rd id w =
  (Return tt,
   with_store
     (with_search_criteria
        ((fun r => if (sc_id r =? id)%Z then row_of id rd else r) <$> search_criteria (store w))
        (with_remote_call (Update id rd) (store w)))
     (with_store (with_remote_call (Update id rd) (store w)) w)).
Proof.
  intros Hf. unfold update_search_criteria, issue. run. world_simpl. by rewrite Hf.
Qed.

Lemma insert_run w rd :
  faults (store w) = [] ->
  insert_search_criteria rd w =
  (Return [row_of (next_id (store w)) rd],
   with_store
     (with_next_id (next_id (store w) + 1)
        (with_search_criteria (search_criteria (store w) ++ [row_of (next_id (store w)) rd])
           (with_remote_call (Insert rd) (store w))))
     (with_store (with_remote_call (Insert rd) (store w)) w)).
Proof.
  intros Hf. unfold insert_search_criteria, issue. run. world_simpl. by rewrite Hf.
Qed.

(** Uses what is known of the next [_update_job_status] in the goal. *)
Ltac run_job_status w2 Hsame :=
  match goal with
  | |- context [_update_job_status ?j ?s ?m ?W] =>
      let Hrun := fresh "Hrun" in
      destruct (update_job_status_run W j s m) as (w2 & Hrun & Hsame);
      rewrite Hrun; clear Hrun
  end.

Lemma save_to_supabase_healthy w json_data cp sp loc un job :
  healthy w -> ~ blank_location loc ->
  let rd := record_for json_data cp sp loc un in
  let rows := search_criteria (store w) in
  exists msg w',
    save_to_supabase json_data cp sp loc un job w = (Return (true, msg), w') /\
    healthy w' /\
    match list_find (same_identity rd) rows with
    | Some (i, row) =>
        msg = ("Updated existing record in Supabase (ID: " ++ pretty (sc_id row) ++ ")")%string /\
        search_criteria (store w') = <[i := row_of (sc_id row) rd]> rows /\
        next_id (store w') = next_id (store w)
    | None =>
        msg = ("Inserted new record in Supabase (ID: " ++ pretty (next_id (store w)) ++ ")")%string /\
        search_criteria (store w') = rows ++ [row_of (next_id (store w)) rd] /\
        next_id (store w') = (next_id (store w) + 1)%Z
    end.
Proof.
  intros Hw Hloc rd rows. pose proof Hw as (Hu & Hk & Hc & Hf & Hnd & Hpos & Hid).
  apply not_blank_location in Hloc.
  unfold save_to_supabase. rewrite Hloc.
  unfold bind at 1. unfold read_config. simpl. rewrite Hu, Hk. simpl.
  unfold try_except at 1. unfold bind at 1. unfold create_client. rewrite Hc.
  unfold try_except at 1. unfold try_except at 1. unfold bind at 1.
  fold (record_for json_data cp sp loc un). fold rd.
  change (_apply_filter _ Location _) with (identity_filters rd).
  rewrite select_run by done.
  rewrite (take_1_filter _ (same_identity rd)) by (intros r; apply passes_identity_filters).
  fold rows. destruct (list_find (same_identity rd) rows) as [[i row]|] eqn:Hfind.
  - (* the first matching row is updated *)
    apply list_find_Some in Hfind as (Hi & Hrow & Hfirst).
    assert (Hin : row ∈ rows) by (apply list_elem_of_lookup; eauto).
    assert (Hne : negb (sc_id row =? 0)%Z = true).
    { apply negb_true_iff, Z.eqb_neq. specialize (Hid row Hin). lia. }
    run. rewrite Hne. rewrite update_run by done. world_simpl.
    run_job_status w2 Hsame. destruct Hsame as (Hcfg & Hrows & Hnext & Hcl & Hfl).
    world_simpl. fold rows in Hrows. rewrite (update_by_id rows i row) in Hrows by done.
    eexists _, w2. split; [reflexivity|]. split; [|by rewrite Hrows, Hnext].
    unfold healthy, store_ok. rewrite Hcfg, Hrows, Hnext, Hcl.
    split; [done|]. split; [done|]. split; [done|]. split; [auto|].
    split; [|split; [done|]].
    + replace (sc_id <$> <[i:=row_of (sc_id row) rd]> rows) with (sc_id <$> rows); [done|].
      rewrite list_fmap_insert. simpl. symmetry. apply list_insert_id.
      by rewrite list_lookup_fmap, Hi.
    + intros row0 Hrow0. apply list_elem_of_lookup in Hrow0 as [j Hj].
      destruct (decide (j = i)) as [->|Hji].
      * rewrite list_lookup_insert_eq in Hj by (by eapply lookup_lt_Some).
        injection Hj as <-. simpl. by apply Hid.
      * rewrite list_lookup_insert_ne in Hj by done.
        apply Hid, list_elem_of_lookup. eauto.
  - (* no row matches: a new one is inserted *)
    run. rewrite insert_run by done. world_simpl.
    run_job_status w2 Hsame. destruct Hsame as (Hcfg & Hrows & Hnext & Hcl & Hfl).
    world_simpl. fold rows in Hrows.
    eexists _, w2. split; [reflexivity|]. split; [|by rewrite Hrows, Hnext].
    unfold healthy, store_ok. rewrite Hcfg, Hrows, Hnext, Hcl.
    split; [done|]. split; [done|]. split; [done|]. split; [auto|].
    split; [|split; [lia|]].
    + rewrite fmap_app. apply NoDup_app. split; [done|]. split; [|apply NoDup_singleton].
      intros x Hx Hx'. apply list_elem_of_singleton in Hx'. subst x.
      apply list_elem_of_fmap in Hx as [row [Hrow Hin]]. simpl in Hrow.
      specialize (Hid row Hin). lia.
    + intros row Hrow. apply elem_of_app in Hrow as [Hin|Hin].
      * specialize (Hid row Hin). lia.
      * apply list_elem_of_singleton in Hin. subst row. simpl. lia.
Qed.

Lemma identity_row_of id rd : identity (row_of id rd) = rd_identity rd.
Proof. done. Qed.

(** C2. In a world whose credentials are configured and whose remote store
    answers every call (ids being a primary key), a call of
    [save_to_supabase] with a location that is not blank succeeds, and: when
    rows of the table carry the four normalized identity attributes of the
    call, the first of them in retrieval order is replaced in place by the
    new document and identity values under its own id, every other row
    staying as it was; when no row does, one new row is appended. Identities
    that were pairwise distinct remain so. *)
Theorem save_to_supabase_find_then_update_or_insert w json_data cp sp loc un job :
  healthy w -> ~ blank_location loc ->
  let rd := record_for json_data cp sp loc un in
  let rows := search_criteria (store w) in
  let r := save_to_supabase json_data cp sp loc un job w in
  let rows' := search_criteria (store (snd r)) in
  (forall i row,
     rows !! i = Some row -> same_identity rd row ->
     (forall j row', rows !! j = Some row' -> j < i -> ~ same_identity rd row') ->
     fst r = Return (true, ("Updated existing record in Supabase (ID: "
                            ++ pretty (sc_id row) ++ ")")%string) /\
     rows' = <[i := row_of (sc_id row) rd]> rows) /\
  ((forall row, row ∈ rows -> ~ same_identity rd row) ->
     fst r = Return (true, ("Inserted new record in Supabase (ID: "
                            ++ pretty (next_id (store w)) ++ ")")%string) /\
     rows' = rows ++ [row_of (next_id (store w)) rd]) /\
  (NoDup (identity <$> rows) -> NoDup (identity <$> rows')).
Proof.
  intros Hw Hloc rd rows r rows'.
  destruct (save_to_supabase_healthy w json_data cp sp loc un job Hw Hloc)
    as (msg & w' & Hrun & _ & Hcase).
  fold rd rows in Hcase. subst r rows'. rewrite Hrun. simpl.
  destruct (list_find (same_identity rd) rows) as [[i0 row0]|] eqn:Hfind.
  - destruct Hcase as (-> & -> & _).
    pose proof Hfind as (Hi0 & Hrow0 & Hfirst0)%list_find_Some.
    split; [|split].
    + intros i row Hi Hrow Hfirst.
      assert (Hfind' : list_find (same_identity rd) rows = Some (i, row))
        by (apply list_find_Some; eauto).
      rewrite Hfind in Hfind'. by injection Hfind' as -> ->.
    + intros Hnone. exfalso. apply (Hnone row0); [|done].
      apply list_elem_of_lookup. eauto.
    + intros Hnd. rewrite list_fmap_insert, identity_row_of.
      rewrite list_insert_id; [done|]. rewrite list_lookup_fmap, Hi0. simpl.
      by rewrite Hrow0.
  - destruct Hcase as (-> & -> & _).
    pose proof Hfind as Hnone%list_find_None.
    split; [|split].
    + intros i row Hi Hrow _. exfalso.
      rewrite Forall_forall in Hnone. apply (Hnone row); [|done].
      apply list_elem_of_lookup. eauto.
    + done.
    + intros Hnd. rewrite fmap_app. apply NoDup_app. split; [done|].
      split; [|apply NoDup_singleton].
      intros x Hx Hx'. apply list_elem_of_singleton in Hx'. subst x.
      apply list_elem_of_fmap in Hx as [row [Hrow Hin]].
      rewrite Forall_forall in Hnone. by apply (Hnone row Hin).
Qed.

(** Where a successful call leaves its record, and what it leaves alone. *)
Lemma save_to_supabase_places w json_data cp sp loc un job :
  healthy w -> ~ blank_location loc ->
  let rd := record_for json_data cp sp loc un in
  let rows := search_criteria (store w) in
  let w' := snd (save_to_supabase json_data cp sp loc un job w) in
  healthy w' /\
  exists j id,
    search_criteria (store w') !! j = Some (row_of id rd) /\
    (forall x, rows !! j = Some x -> same_identity rd x) /\
    (forall k x, k <> j -> rows !! k = Some x -> search_criteria (store w') !! k = Some x).
Proof.
  intros Hw Hloc rd rows w'.
  destruct (save_to_supabase_healthy w json_data cp sp loc un job Hw Hloc)
    as (msg & w1 & Hrun & Hw1 & Hcase).
  fold rd rows in Hcase. subst w'. rewrite Hrun. simpl. split; [done|].
  destruct (list_find (same_identity rd) rows) as [[i row]|] eqn:Hfind.
  - destruct Hcase as (_ & -> & _).
    apply list_find_Some in Hfind as (Hi & Hrow & _).
    exists i, (sc_id row). split; [|split].
    + apply list_lookup_insert_eq. by eapply lookup_lt_Some.
    + intros x Hx. congruence.
    + intros k x Hk Hx. by rewrite list_lookup_insert_ne.
  - destruct Hcase as (_ & -> & _).
    exists (length rows), (next_id (store w)). split; [|split].
    + rewrite lookup_app_r by lia. by rewrite Nat.sub_diag.
    + intros x Hx. apply lookup_lt_Some in Hx. lia.
    + intros k x Hk Hx. by apply lookup_app_l_Some.
Qed.

Lemma rd_value_identity c rd1 rd2 :
  rd_identity rd1 = rd_identity rd2 -> rd_value c rd1 = rd_value c rd2.
Proof. unfold rd_identity. intros [= ? ? ? ?]. by destruct c. Qed.

(** Two successful calls with different identities end in two rows. *)
Lemma save_twice_distinct w jsonA cpA spA locA unA jobA jsonB cpB spB locB unB jobB :
  healthy w -> ~ blank_location locA -> ~ blank_location locB ->
  let rdA := record_for jsonA cpA spA locA unA in
  let rdB := record_for jsonB cpB spB locB unB in
  rd_identity rdA <> rd_identity rdB ->
  let w1 := snd (save_to_supabase jsonA cpA spA locA unA jobA w) in
  let w2 := snd (save_to_supabase jsonB cpB spB locB unB jobB w1) in
  exists i j idA idB,
    i <> j /\
    search_criteria (store w2) !! i = Some (row_of idA rdA) /\
    search_criteria (store w2) !! j = Some (row_of idB rdB).
Proof.
  intros Hw HlocA HlocB rdA rdB Hdiff w1 w2.
  destruct (save_to_supabase_places w jsonA cpA spA locA unA jobA Hw HlocA)
    as (Hw1 & i & idA & Hi & _ & _). fold rdA w1 in Hw1, Hi.
  destruct (save_to_supabase_places w1 jsonB cpB spB locB unB jobB Hw1 HlocB)
    as (_ & j & idB & Hj & Hmatch & Hframe). fold rdB w2 in Hj, Hmatch, Hframe.
  exists i, j, idA, idB.
  assert (Hij : i <> j).
  { intros ->. apply Hdiff. pose proof (Hmatch _ Hi) as Hm.
    unfold same_identity in Hm. by rewrite identity_row_of in Hm. }
  split; [done|]. split; [|done]. by apply Hframe.
Qed.

(** C1, as the code has it. A null filter is [is null]: a row passes it
    exactly when its attribute is null, so not when it holds the string
    ["null"]. A call whose location is null (or blank) is rejected: it leaves
    the table as it was, so it neither matches nor overwrites a row, and it
    inserts none. For calls with a location, two of them whose normalized
    identities differ in an attribute that is null in one and not in the
    other never share a row: in a world whose store answers every call,
    saving both leaves two distinct rows, each with its own document. *)
Theorem null_filter_keeps_rows_apart :
  (forall r c, passes r (IsNull c) = true <-> row_value c r = None) /\
  (forall q c, _apply_filter q c None = q ++ [IsNull c]) /\
  (forall w json_data cp sp loc un job,
     blank_location loc ->
     search_criteria (store (snd (save_to_supabase json_data cp sp loc un job w)))
     = search_criteria (store w)) /\
  (forall w jsonA cpA spA locA unA jobA jsonB cpB spB locB unB jobB,
     healthy w -> ~ blank_location locA -> ~ blank_location locB ->
     let rdA := record_for jsonA cpA spA locA unA in
     let rdB := record_for jsonB cpB spB locB unB in
     (exists c, rd_value c rdA = None /\ rd_value c rdB <> None) ->
     forall first_is_A : bool,
     let w1 := if first_is_A
               then snd (save_to_supabase jsonA cpA spA locA unA jobA w)
               else snd (save_to_supabase jsonB cpB spB locB unB jobB w) in
     let w2 := if first_is_A
               then snd (save_to_supabase jsonB cpB spB locB unB jobB w1)
               else snd (save_to_supabase jsonA cpA spA locA unA jobA w1) in
     exists i j idA idB,
       i <> j /\
       search_criteria (store w2) !! i = Some (row_of idA rdA) /\
       search_criteria (store w2) !! j = Some (row_of idB rdB)).
Proof.
  split; [|split; [done|split]].
  - intros r c. simpl. destruct (row_value c r); split; congruence.
  - intros w json_data cp sp loc un job Hblank.
    by destruct (save_to_supabase_blank_location w json_data cp sp loc un job Hblank)
      as (_ & ? & _).
  - intros w jsonA cpA spA locA unA jobA jsonB cpB spB locB unB jobB
      Hw HlocA HlocB rdA rdB (c & HA & HB) first_is_A w1 w2.
    assert (Hdiff : rd_identity rdA <> rd_identity rdB).
    { intros Heq. apply (rd_value_identity c) in Heq. congruence. }
    destruct first_is_A.
    + by apply save_twice_distinct.
    + destruct (save_twice_distinct w jsonB cpB spB locB unB jobB jsonA cpA spA locA unA jobA
                  Hw HlocB HlocA (not_eq_sym Hdiff))
        as (i & j & idB & idA & Hij & Hi & Hj).
      exists j, i, idA, idB. eauto.
Qed.


End Reconciler_Properties.

(** *** The reconciler on a small store *)

Lemma demo_world_healthy serverless : healthy (demo_world serverless demo_rows 3).
Proof.
  unfold healthy, store_ok. simpl.
  split; [done|]. split; [done|]. split; [done|]. split; [done|].
  split.
  { apply NoDup_cons. split; [|apply NoDup_singleton].
    intros Hin. apply list_elem_of_singleton in Hin. discriminate Hin. }
  split; [lia|].
  intros row Hrow.
  repeat (apply elem_of_cons in Hrow as [->|Hrow]); simpl; try lia.
  by apply elem_of_nil in Hrow.
Qed.

Lemma demo_world_empty_healthy serverless : healthy (demo_world serverless [] 1).
Proof.
  unfold healthy, store_ok. simpl.
  split; [done|]. split; [done|]. split; [done|]. split; [done|].
  split; [constructor|]. split; [lia|].
  intros row Hrow. by apply elem_of_nil in Hrow.
Qed.

Lemma delhi_not_blank : ~ blank_location (Some "delhi ").
Proof. unfold blank_location. vm_compute. discriminate. Qed.

Lemma save_to_supabase_find_then_update_or_insert_witness :
  healthy (demo_world false demo_rows 3) /\ ~ blank_location (Some "delhi ") /\
  search_criteria
    (store (snd (save_to_supabase (platform := demo_platform) (demo_doc "IIT Delhi")
                   (Some " engineering") (Some "") (Some "delhi ") None (Some "job-1")
                   (demo_world false demo_rows 3))))
  = [ {| sc_id := 1; sc_career_path := Some "Engineering"; sc_specialization := None;
         sc_university := None; sc_location := Some "Mumbai"; sc_llm_json := PDict [] |};
      {| sc_id := 2; sc_career_path := Some "Engineering"; sc_specialization := None;
         sc_university := None; sc_location := Some "Delhi";
         sc_llm_json := demo_doc "IIT Delhi" |} ].
Proof.
  split; [apply demo_world_healthy|]. split; [apply delhi_not_blank|].
  destruct (save_to_supabase_find_then_update_or_insert (platform := demo_platform)
              (demo_world false demo_rows 3) (demo_doc "IIT Delhi")
              (Some " engineering") (Some "") (Some "delhi ") None (Some "job-1")
              (demo_world_healthy false) delhi_not_blank) as (Hupdate & _ & _).
  destruct (Hupdate 1 {| sc_id := 2; sc_career_path := Some "Engineering";
                         sc_specialization := None; sc_university := None;
                         sc_location := Some "Delhi"; sc_llm_json := PDict [] |})
    as [_ Hrows].
  - reflexivity.
  - reflexivity.
  - intros j row' Hj Hlt. destruct j as [|j]; [|lia].
    injection Hj as <-. vm_compute. discriminate.
  - exact Hrows.
Defined.

(** The spec's example for C1: after a document is saved for Delhi, the
    document with a null location is rejected, and the table holds one row,
    not two. *)
Lemma null_location_counterexample :
  let w1 := snd (save_to_supabase (platform := demo_platform) (demo_doc "A")
                   (Some "Engineering") None (Some "Delhi") None None
                   (demo_world false [] 1)) in
  let r2 := save_to_supabase (platform := demo_platform) (demo_doc "B")
              (Some "Engineering") None None None None w1 in
  fst r2 = Return (false, location_required) /\
  length (search_criteria (store (snd r2))) = 1.
Proof. vm_compute. split; reflexivity. Qed.

Lemma null_filter_keeps_rows_apart_witness :
  healthy (demo_world false [] 1) /\
  (exists c, rd_value c (record_for (platform := demo_platform) (demo_doc "A") (Some "Engineering") None (Some "Delhi") None) = None /\
             rd_value c (record_for (platform := demo_platform) (demo_doc "B") (Some "Engineering") (Some "Science") (Some "Delhi") None)
             <> None) /\
  exists (i j : nat) idA idB,
    i <> j /\
    search_criteria
      (store (snd (save_to_supabase (platform := demo_platform) (demo_doc "B")
                     (Some "Engineering") (Some "Science") (Some "Delhi") None None
                     (snd (save_to_supabase (platform := demo_platform) (demo_doc "A")
                             (Some "Engineering") None (Some "Delhi") None None
                             (demo_world false [] 1)))))) !! i
    = Some (row_of idA (record_for (platform := demo_platform) (demo_doc "A") (Some "Engineering") None (Some "Delhi") None)) /\
    search_criteria
      (store (snd (save_to_supabase (platform := demo_platform) (demo_doc "B")
                     (Some "Engineering") (Some "Science") (Some "Delhi") None None
                     (snd (save_to_supabase (platform := demo_platform) (demo_doc "A")
                             (Some "Engineering") None (Some "Delhi") None None
                             (demo_world false [] 1)))))) !! j
    = Some (row_of idB (record_for (platform := demo_platform) (demo_doc "B") (Some "Engineering") (Some "Science") (Some "Delhi") None)).
Proof.
  assert (Hdiff : exists c,
             rd_value c (record_for (platform := demo_platform) (demo_doc "A") (Some "Engineering") None (Some "Delhi") None) = None /\
             rd_value c (record_for (platform := demo_platform) (demo_doc "B") (Some "Engineering") (Some "Science") (Some "Delhi") None)
             <> None).
  { exists Specialization. split; [reflexivity|]. vm_compute. discriminate. }
  split; [apply demo_world_empty_healthy|]. split; [exact Hdiff|].
  apply (proj2 (proj2 (proj2 (null_filter_keeps_rows_apart (platform := demo_platform))))
           (demo_world false [] 1) (demo_doc "A") (Some "Engineering") None (Some "Delhi") None None
           (demo_doc "B") (Some "Engineering") (Some "Science") (Some "Delhi") None None
           (demo_world_empty_healthy false)
           ltac:(unfold blank_location; vm_compute; discriminate)
           ltac:(unfold blank_location; vm_compute; discriminate)
           Hdiff true).
Defined.



(** ** The name cache and the delimited-append sink *)

Section Append_Properties.
Context `{platform : Platform}.

(** [_get_csv_name_cache] returns the set the cache holds for the path from
    then on, and touches nothing but the cache and the log. *)
Lemma get_csv_name_cache_run w filepath :
  exists names w',
    _get_csv_name_cache filepath w = (Return names, w') /\
    _CSV_NAME_CACHE w' = <[filepath := names]> (_CSV_NAME_CACHE w) /\
    cfg w' = cfg w /\ fs w' = fs w /\ fs_calls w' = fs_calls w /\ store w' = store w /\
    (forall cached, _CSV_NAME_CACHE w !! filepath = Some cached -> names = cached /\ w' = w) /\
    (_CSV_NAME_CACHE w !! filepath = None -> fs_files (fs w) !! filepath = None -> names = ∅).
Proof.
  unfold _get_csv_name_cache, cache_lookup, cache_store, os_path_exists. run.
  destruct (_CSV_NAME_CACHE w !! filepath) as [cached|] eqn:Hc.
  - exists cached, w. rewrite insert_id by done. naive_solver.
  - destruct (bool_decide _) eqn:Hex.
    + unfold _read_college_names_from_csv, csv_reader. run.
      destruct (decide (filepath ∈ fs_unreadable (fs w))).
      * eexists _, _. split; [reflexivity|]. world_simpl. repeat split; done.
      * destruct (fs_files (fs w) !! filepath) as [lines|] eqn:Hfile.
        -- eexists _, _. split; [reflexivity|]. world_simpl. repeat split; done.
        -- eexists _, _. split; [reflexivity|]. world_simpl. repeat split; done.
    + eexists _, _. split; [reflexivity|]. world_simpl. repeat split; done.
Qed.

End Append_Properties.

(** Uses what is known of the next [_get_csv_name_cache] in the goal. *)
Ltac run_name_cache names w2 Hcache Hcfg Hfs Hcalls Hstore Hhit Hfresh :=
  match goal with
  | |- context [_get_csv_name_cache ?p ?W] =>
      let Hrun := fresh "Hrun" in
      destruct (get_csv_name_cache_run W p)
        as (names & w2 & Hrun & Hcache & Hcfg & Hfs & Hcalls & Hstore & Hhit & Hfresh);
      rewrite Hrun; clear Hrun
  end.

Section Append_Sink.
Context `{platform : Platform}.



Lemma append_to_csv_returns w data output_dir filename name :
  SERVERLESS_MODE (cfg w) = false ->
  csv_identity data = Return name ->
  can_append w output_dir filename ->
  fst (append_to_csv data output_dir filename w) = Return true.
Proof.
  intros Hmode Hname [Hdir Hfile].
  unfold append_to_csv. run. rewrite Hmode. unfold os_makedirs.
  assert (Hbody : forall W, fs_denied (fs W) = fs_denied (fs w) ->
    fst (try_except
      (new_name <- lift (csv_identity data) ;;
       name_cache <- (if negb (PyStr.is_empty new_name)
                      then names <- _get_csv_name_cache (PyStr.path_join output_dir filename) ;;
                           ret (Some names)
                      else ret None) ;;
       if match name_cache with
          | Some names => bool_decide (new_name ∈ names)
          | None => false
          end
       then ret true
       else
         found <- os_path_exists (PyStr.path_join output_dir filename) ;;
         let header := negb found in
         append_file (PyStr.path_join output_dir filename) (record_lines header data) ;;
         match name_cache with
         | Some names =>
             if negb (PyStr.is_empty new_name)
             then cache_store (PyStr.path_join output_dir filename) ({[new_name]} ∪ names)
             else ret tt
         | None => ret tt
         end ;;
         ret true)%py
      (fun e => (logger ERROR ("Failed to append to CSV: " ++ exn_str e) ;; ret false)%py) W)
    = Return true).
  { intros W HdeniedW. run. rewrite Hname. simpl.
    destruct (PyStr.is_empty name); simpl.
    - unfold os_path_exists, append_file. world_simpl.
      rewrite HdeniedW. by rewrite decide_False by done.
    - run_name_cache names w2 Hcache Hcfg Hfs Hcalls Hstore Hhit Hfresh.
      world_simpl. destruct (bool_decide (name ∈ names)); [done|].
      unfold os_path_exists, append_file, cache_store. world_simpl.
      rewrite Hfs, HdeniedW. by rewrite decide_False by done. }
  destruct (decide (output_dir ∈ fs_dirs (fs w))); [by apply Hbody|].
  destruct Hdir as [Hdir|Hdir]; [done|].
  rewrite decide_False by done. by apply Hbody.
Qed.

(** What an append of a record without a name does. *)
Lemma append_to_csv_nameless w data output_dir filename :
  SERVERLESS_MODE (cfg w) = false ->
  csv_identity data = Return "" ->
  let filepath := PyStr.path_join output_dir filename in
  let r := append_to_csv data output_dir filename w in
  _CSV_NAME_CACHE (snd r) = _CSV_NAME_CACHE w /\
  cfg (snd r) = cfg w /\
  (fst r = Return true ->
   can_append (snd r) output_dir filename /\
   head (fs_calls (snd r)) = Some (OpenAppend filepath) /\
   exists header,
     (is_Some (fs_files (fs w) !! filepath) -> header = false) /\
     fs_files (fs (snd r))
     = <[filepath := default [] (fs_files (fs w) !! filepath) ++ record_lines header data]>
         (fs_files (fs w))).
Proof.
  intros Hmode Hname filepath r. subst r.
  unfold append_to_csv. run. rewrite Hmode. unfold os_makedirs.
  assert (Hbody : forall W,
    cfg W = cfg w -> output_dir ∈ fs_dirs (fs W) ->
    fs_files (fs W) = fs_files (fs w) -> _CSV_NAME_CACHE W = _CSV_NAME_CACHE w ->
    let r := try_except
      (new_name <- lift (csv_identity data) ;;
       name_cache <- (if negb (PyStr.is_empty new_name)
                      then names <- _get_csv_name_cache filepath ;; ret (Some names)
                      else ret None) ;;
       if match name_cache with
          | Some names => bool_decide (new_name ∈ names)
          | None => false
          end
       then ret true
       else
         found <- os_path_exists filepath ;;
         let header := negb found in
         append_file filepath (record_lines header data) ;;
         match name_cache with
         | Some names =>
             if negb (PyStr.is_empty new_name)
             then cache_store filepath ({[new_name]} ∪ names)
             else ret tt
         | None => ret tt
         end ;;
         ret true)%py
      (fun e => (logger ERROR ("Failed to append to CSV: " ++ exn_str e) ;; ret false)%py) W in
    _CSV_NAME_CACHE (snd r) = _CSV_NAME_CACHE w /\
    cfg (snd r) = cfg w /\
    (fst r = Return true ->
     can_append (snd r) output_dir filename /\
     head (fs_calls (snd r)) = Some (OpenAppend filepath) /\
     exists header,
       (is_Some (fs_files (fs w) !! filepath) -> header = false) /\
       fs_files (fs (snd r))
       = <[filepath := default [] (fs_files (fs w) !! filepath) ++ record_lines header data]>
           (fs_files (fs w)))).
  { intros W HcfgW HdirW HfilesW HcacheW. run. rewrite Hname. simpl.
    unfold os_path_exists, append_file. world_simpl.
    destruct (decide (filepath ∈ fs_denied (fs W))) as [Hden|Hden]; world_simpl.
    - split; [done|]. split; [done|]. done.
    - split; [done|]. split; [done|]. intros _.
      split; [split; [by left | done]|]. split; [done|].
      rewrite HfilesW. eexists. split; [|reflexivity].
      intros Hsome. apply negb_false_iff, bool_decide_eq_true. by left. }
  destruct (decide (output_dir ∈ fs_dirs (fs w))).
  - apply Hbody; world_simpl; done.
  - destruct (decide (output_dir ∈ fs_denied (fs w))); world_simpl; [done|].
    apply Hbody; world_simpl; try done.
    apply elem_of_union. left. by apply elem_of_singleton.
Qed.


(** C10. Outside read-only mode, a record whose [College Name] is missing,
    empty or blank skips the duplicate check: the call never reads or
    changes the name cache and always goes on to the append, which succeeds
    whenever the operating system lets it create the directory and open the
    file. Each successful call adds the data row of the record to the file,
    so a second call with the same record adds the row a second time. *)
Theorem append_to_csv_without_name w data output_dir filename :
  SERVERLESS_MODE (cfg w) = false ->
  (Dict.lookup data "College Name" = None \/
   exists s, Dict.lookup data "College Name" = Some (PStr s) /\ PyStr.strip s = "") ->
  let filepath := PyStr.path_join output_dir filename in
  let old := default [] (fs_files (fs w) !! filepath) in
  let row := CsvRow (csv_cell <$> Dict.values data) in
  let r1 := append_to_csv data output_dir filename w in
  let r2 := append_to_csv data output_dir filename (snd r1) in
  _CSV_NAME_CACHE (snd r1) = _CSV_NAME_CACHE w /\
  _CSV_NAME_CACHE (snd r2) = _CSV_NAME_CACHE w /\
  (can_append w output_dir filename -> fst r1 = Return true) /\
  (fst r1 = Return true ->
   head (fs_calls (snd r1)) = Some (OpenAppend filepath) /\
   fst r2 = Return true /\
   head (fs_calls (snd r2)) = Some (OpenAppend filepath) /\
   exists header,
     fs_files (fs (snd r1)) !! filepath = Some (old ++ record_lines header data) /\
     fs_files (fs (snd r2)) !! filepath = Some (old ++ record_lines header data ++ [row])).
Proof.
  intros Hmode Hmissing filepath old row r1 r2.
  assert (Hname : csv_identity data = Return "").
  { unfold csv_identity, get. destruct Hmissing as [->|(s & -> & Hs)]; simpl; [done|].
    by rewrite Hs. }
  destruct (append_to_csv_nameless w data output_dir filename Hmode Hname)
    as (Hcache1 & Hcfg1 & Hok1). fold r1 filepath in Hcache1, Hcfg1, Hok1.
  assert (Hmode1 : SERVERLESS_MODE (cfg (snd r1)) = false) by (by rewrite Hcfg1).
  destruct (append_to_csv_nameless (snd r1) data output_dir filename Hmode1 Hname)
    as (Hcache2 & Hcfg2 & Hok2). fold r2 filepath in Hcache2, Hcfg2, Hok2.
  split; [done|]. split; [by rewrite Hcache2|].
  split; [by apply append_to_csv_returns with (name := "")|].
  intros Hret1. destruct (Hok1 Hret1) as (Hcan1 & Hcall1 & header & _ & Hfiles1).
  assert (Hret2 : fst r2 = Return true)
    by (by apply append_to_csv_returns with (name := "")).
  destruct (Hok2 Hret2) as (_ & Hcall2 & header2 & Hheader2 & Hfiles2).
  split; [done|]. split; [done|]. split; [done|].
  exists header. rewrite Hfiles2, Hfiles1, !lookup_insert_eq. simpl.
  split; [done|]. rewrite Hheader2.
  - by rewrite <- app_assoc.
  - rewrite Hfiles1, lookup_insert_eq. eauto.
Qed.

End Append_Sink.

(** *** The delimited-append sink on a small file system *)


Lemma append_to_csv_without_name_witness :
  SERVERLESS_MODE (cfg (demo_world false [] 1)) = false /\
  (exists s, Dict.lookup demo_nameless "College Name" = Some (PStr s) /\ PyStr.strip s = "") /\
  let r1 := append_to_csv (platform := demo_platform) demo_nameless "data" "colleges.csv"
              (demo_world false [] 1) in
  let r2 := append_to_csv (platform := demo_platform) demo_nameless "data" "colleges.csv" (snd r1) in
  _CSV_NAME_CACHE (snd r2) = ∅ /\
  fs_files (fs (snd r2)) !! "data/colleges.csv"
  = Some [CsvRow ["College Name"; "Location"]; CsvRow ["  "; "Pune, MH"];
          CsvRow ["  "; "Pune, MH"]].
Proof.
  assert (Hblank : exists s, Dict.lookup demo_nameless "College Name" = Some (PStr s)
                             /\ PyStr.strip s = "")
    by (exists "  "; split; reflexivity).
  split; [reflexivity|]. split; [exact Hblank|]. intros r1 r2.
  destruct (append_to_csv_without_name (platform := demo_platform) (demo_world false [] 1)
              demo_nameless "data" "colleges.csv" eq_refl (or_intror Hblank))
    as (_ & Hcache & _ & _).
  split; [exact Hcache|]. vm_compute. reflexivity.
Defined.

(** ** Effects that do not raise *)

Section Never_Raises.

Lemma never_raises_ret {A : Type} (a : A) : never_raises (ret a).
Proof. intros w. by exists a. Qed.

Lemma never_raises_logger lvl msg : never_raises (logger lvl msg).
Proof. intros w. by exists tt. Qed.

Lemma never_raises_read_config : never_raises read_config.
Proof. intros w. by eexists. Qed.

Lemma never_raises_bind {A B : Type} (m : M A) (k : A -> M B) :
  never_raises m -> (forall a, never_raises (k a)) -> never_raises (bind m k).
Proof.
  intros Hm Hk w. unfold bind. destruct (Hm w) as [a Ha].
  destruct (m w) as [[a'|e] w1]; simpl in *; [|done]. apply Hk.
Qed.

(** A [try] whose handler does not raise does not raise. *)
Lemma never_raises_try_except {A : Type} (body : M A) (handler : exn -> M A) :
  (forall e, never_raises (handler e)) -> never_raises (try_except body handler).
Proof.
  intros Hh w. unfold try_except.
  destruct (body w) as [[a|e] w1]; simpl; [by exists a | apply Hh].
Qed.

End Never_Raises.

Section Reconciler_Never_Raises.
Context `{platform : Platform}.

Lemma never_raises_on_save_error has_client job e :
  never_raises (on_save_error has_client job e).
Proof.
  unfold on_save_error.
  apply never_raises_bind; [apply never_raises_logger|]. intros _.
  apply never_raises_bind; [|intros _; apply never_raises_ret].
  apply never_raises_try_except. intros _. apply never_raises_ret.
Qed.

Lemma never_raises_save_to_supabase json_data cp sp loc un job :
  never_raises (save_to_supabase json_data cp sp loc un job).
Proof.
  unfold save_to_supabase.
  apply never_raises_bind; [apply never_raises_read_config|]. intros c.
  destruct (_ || _).
  - apply never_raises_bind; [apply never_raises_logger|]. intros _. apply never_raises_ret.
  - apply never_raises_try_except. apply never_raises_on_save_error.
Qed.

End Reconciler_Never_Raises.

(** ** Read-only mode *)

Section Serverless.
Context `{platform : Platform}.

Lemma save_to_supabase_local json_data cp sp loc un job w :
  local_view (snd (save_to_supabase json_data cp sp loc un job w)) = local_view w.
Proof. by apply (preserves_save_to_supabase local_view). Qed.

(** C7, as the code has it. With [SERVERLESS_MODE] set, none of the four
    local writers touches the file system, whatever it returns or raises: no
    call reaches the file system layer and the files and directories stay as
    they were. [append_to_csv] and [append_to_jsonl] do nothing at all and
    return [True]. [save_to_csv] returns [None], the value it returns for an
    empty batch, and not a sign of success. [save_to_json] is no such no-op:
    it deduplicates and transforms the batch before it looks at the mode, so
    it raises what the deduplicator or the transformer raises, and returns
    [None] for an empty batch and for every batch that both accept. *)
Theorem serverless_mode_skips_local_writes w :
  SERVERLESS_MODE (cfg w) = true ->
  (forall data output_dir filename,
     let r := save_to_csv data output_dir filename w in
     fst r = Return None /\ local_view (snd r) = local_view w) /\
  (forall data output_dir filename,
     append_to_csv data output_dir filename w = (Return true, w)) /\
  (forall data output_dir filename,
     append_to_jsonl data output_dir filename w = (Return true, w)) /\
  (forall data output_dir filename push cp sp loc un job,
     let r := save_to_json data output_dir filename push cp sp loc un job w in
     local_view (snd r) = local_view w /\
     (data = [] -> fst r = Return None) /\
     (forall unique transformed,
        deduplicate_colleges data = Return unique ->
        transform_college_data unique = Return transformed ->
        fst r = Return None) /\
     (forall e, deduplicate_colleges data = Raise e -> fst r = Raise e) /\
     (forall unique e,
        data <> [] -> deduplicate_colleges data = Return unique ->
        transform_college_data unique = Raise e ->
        fst r = Raise e)).
Proof.
  intros Hmode. split; [|split; [|split]].
  - intros data output_dir filename. unfold save_to_csv. run. by rewrite Hmode.
  - intros data output_dir filename. unfold append_to_csv. run. by rewrite Hmode.
  - intros data output_dir filename. unfold append_to_jsonl. run. by rewrite Hmode.
  - intros data output_dir filename push cp sp loc un job.
    unfold save_to_json, local_view. destruct data as [|c data]; [by run|].
    run. destruct (deduplicate_colleges (c :: data)) as [unique|e].
    2:{ world_simpl. split; [done|]. split; [done|]. split; [done|].
        split; [by intros ? [= <-]|done]. }
    destruct (transform_college_data unique) as [transformed|e] eqn:Htransform.
    2:{ world_simpl. split; [done|]. split; [done|].
        split; [intros ? ? [= <-] ?; congruence|]. split; [done|].
        intros ? ? _ [= <-] ?. congruence. }
    world_simpl. rewrite Hmode. simpl.
    assert (Hnoraise : forall o : outcome (option string),
              o = Return None ->
              (forall e, Return unique = Raise e -> o = Raise e) /\
              (forall unique0 e, c :: data <> [] -> Return unique = Return unique0 ->
                 transform_college_data unique0 = Raise e -> o = Raise e)).
    { intros o ->. split; [done|]. intros ? ? _ [= <-] ?. congruence. }
    destruct push; [|world_simpl; repeat (split; [done|]); by apply Hnoraise].
    match goal with
    | |- context [save_to_supabase ?j ?a ?b ?c ?d ?e ?W] =>
        pose proof (save_to_supabase_local j a b c d e W) as Hlocal;
        destruct (never_raises_save_to_supabase j a b c d e W) as [[ok msg] Hret];
        destruct (save_to_supabase j a b c d e W) as [o w1]
    end.
    unfold local_view in Hlocal. simpl in Hret, Hlocal. subst o. simpl.
    destruct ok; world_simpl; (split; [exact Hlocal|]); (split; [done|]);
      (split; [done|]); by apply Hnoraise.
Qed.

End Serverless.

Lemma serverless_mode_skips_local_writes_witness :
  SERVERLESS_MODE (cfg (demo_world true [] 1)) = true /\
  save_to_csv (platform := demo_platform) [demo_record] "data" "colleges.csv" (demo_world true [] 1)
  = (Return None,
     with_log (INFO, "SERVERLESS_MODE: Skipping CSV file write (read-only file system)")
       (demo_world true [] 1)) /\
  append_to_csv (platform := demo_platform) demo_record "data" "colleges.csv" (demo_world true [] 1)
  = (Return true, demo_world true [] 1) /\
  append_to_jsonl demo_record "data" "colleges.jsonl" (demo_world true [] 1)
  = (Return true, demo_world true [] 1) /\
  local_view (snd (save_to_json (platform := demo_platform) [demo_record] "data" "colleges.json"
                     true (Some "Engineering") None (Some "Pune") None None
                     (demo_world true [] 1)))
  = local_view (demo_world true [] 1).
Proof.
  pose proof (serverless_mode_skips_local_writes (platform := demo_platform)
                (demo_world true [] 1) eq_refl) as (_ & Hcsv & Hjsonl & Hjson).
  split; [reflexivity|]. split; [reflexivity|].
  split; [apply Hcsv|]. split; [apply Hjsonl|].
  apply (Hjson [demo_record] "data" "colleges.json" true (Some "Engineering") None
           (Some "Pune") None None).
Defined.

(** The cases C7 leaves out. In read-only mode [save_to_json] is no
    guaranteed no-op that returns success: with a record whose name is null
    it raises, as the deduplication comes before the test of the mode; and
    with the push asked for it writes to the remote store. [save_to_csv]
    returns [None] for a batch as it does for no batch at all. *)
Lemma save_to_json_serverless_counterexample :
  SERVERLESS_MODE (cfg (demo_world true [] 1)) = true /\
  fst (save_to_json (platform := demo_platform) [[("College Name", PNone)]]
         "data" "colleges.json" false None None None None None (demo_world true [] 1))
  = Raise (AttributeError "object has no attribute 'strip'") /\
  search_criteria
    (store (snd (save_to_json (platform := demo_platform) [demo_record]
                   "data" "colleges.json" true (Some "Engineering") None (Some "Pune")
                   None None (demo_world true [] 1))))
  <> search_criteria (store (demo_world true [] 1)) /\
  fst (save_to_csv (platform := demo_platform) [demo_record] "data" "colleges.csv"
         (demo_world true [] 1))
  = fst (save_to_csv (platform := demo_platform) [] "data" "colleges.csv"
           (demo_world true [] 1)).
Proof.
  split; [reflexivity|]. split; [vm_compute; reflexivity|].
  split; [vm_compute; discriminate|reflexivity].
Qed.

(** ** Failures of local writes *)

Section Write_Failures.
Context `{platform : Platform}.

Lemma makedirs_run w output_dir :
  can_makedirs w output_dir ->
  exists w1,
    os_makedirs output_dir w = (Return tt, w1) /\
    cfg w1 = cfg w /\ log w1 = log w /\ _CSV_NAME_CACHE w1 = _CSV_NAME_CACHE w /\
    store w1 = store w /\
    fs_files (fs w1) = fs_files (fs w) /\ fs_denied (fs w1) = fs_denied (fs w) /\
    fs_unreadable (fs w1) = fs_unreadable (fs w) /\
    output_dir ∈ fs_dirs (fs w1).
Proof.
  intros Hdir. unfold os_makedirs.
  destruct (decide (output_dir ∈ fs_dirs (fs w))).
  - eexists. split; [reflexivity|]. by world_simpl.
  - destruct Hdir as [Hdir|Hdir]; [done|]. rewrite decide_False by done.
    eexists. split; [reflexivity|]. world_simpl. repeat split; try done.
    apply elem_of_union. left. by apply elem_of_singleton.
Qed.

(** Uses what is known of the next [os_makedirs] in the goal. *)
Ltac run_makedirs Hdir w1 Hcfg Hlog Hcache Hstore Hfiles Hdenied Hunreadable Hin :=
  match goal with
  | |- context [os_makedirs ?d ?W] =>
      let Hrun := fresh "Hrun" in
      destruct (makedirs_run W d Hdir)
        as (w1 & Hrun & Hcfg & Hlog & Hcache & Hstore & Hfiles & Hdenied & Hunreadable & Hin);
      rewrite Hrun; clear Hrun
  end.

Lemma append_to_jsonl_denied w data output_dir filename :
  SERVERLESS_MODE (cfg w) = false ->
  can_makedirs w output_dir ->
  PyStr.path_join output_dir filename ∈ fs_denied (fs w) ->
  let r := append_to_jsonl data output_dir filename w in
  fst r = Return false /\
  fs_files (fs (snd r)) = fs_files (fs w) /\
  exists msg, head (log (snd r)) = Some (ERROR, msg).
Proof.
  intros Hmode Hdir Hden. unfold append_to_jsonl. run. rewrite Hmode.
  run_makedirs Hdir w1 Hcfg Hlog Hcache Hstore Hfiles Hdenied Hunreadable Hin.
  unfold append_file. rewrite Hdenied. rewrite decide_True by done.
  world_simpl. eauto.
Qed.

Lemma append_to_csv_denied w data output_dir filename :
  SERVERLESS_MODE (cfg w) = false ->
  can_makedirs w output_dir ->
  PyStr.path_join output_dir filename ∈ fs_denied (fs w) ->
  let r := append_to_csv data output_dir filename w in
  fs_files (fs (snd r)) = fs_files (fs w) /\
  ((fst r = Return true /\
    exists name names, csv_identity data = Return name /\ name ∈ names /\
      _CSV_NAME_CACHE (snd r) !! PyStr.path_join output_dir filename = Some names) \/
   (fst r = Return false /\ exists msg, head (log (snd r)) = Some (ERROR, msg))).
Proof.
  intros Hmode Hdir Hden. unfold append_to_csv. run. rewrite Hmode.
  run_makedirs Hdir w1 Hcfg1 Hlog1 Hcache1 Hstore1 Hfiles1 Hdenied1 Hunreadable1 Hin1.
  destruct (csv_identity data) as [name|e] eqn:Hname; simpl.
  2:{ world_simpl. split; [done|]. right. eauto. }
  destruct (PyStr.is_empty name) eqn:Hempty; simpl.
  - unfold os_path_exists, append_file. world_simpl.
    rewrite Hdenied1. rewrite decide_True by done. world_simpl.
    split; [done|]. right. eauto.
  - run_name_cache names w2 Hcache Hcfg Hfs Hcalls Hstore Hhit Hfresh.
    world_simpl. destruct (bool_decide (name ∈ names)) eqn:Hin.
    + apply bool_decide_eq_true in Hin. simpl. rewrite Hfs. split; [done|].
      left. split; [done|]. exists name, names. rewrite Hcache, lookup_insert_eq. done.
    + unfold os_path_exists, append_file. world_simpl.
      rewrite Hfs, Hdenied1. rewrite decide_True by done. world_simpl.
      rewrite Hfs. split; [done|]. right. eauto.
Qed.

Lemma save_to_csv_denied w data output_dir filename unique :
  SERVERLESS_MODE (cfg w) = false ->
  data <> [] -> deduplicate_colleges data = Return unique ->
  can_makedirs w output_dir ->
  PyStr.path_join output_dir filename ∈ fs_denied (fs w) ->
  fst (save_to_csv data output_dir filename w)
  = Raise (OSError ("cannot open " ++ PyStr.path_join output_dir filename)).
Proof.
  intros Hmode Hdata Hunique Hdir Hden. unfold save_to_csv. run. rewrite Hmode.
  run_makedirs Hdir w1 Hcfg Hlog Hcache Hstore Hfiles Hdenied Hunreadable Hin.
  destruct data as [|c data]; [done|]. rewrite Hunique.
  unfold write_file. world_simpl. rewrite Hdenied. by rewrite decide_True by done.
Qed.

Lemma save_to_json_denied w data output_dir filename push cp sp loc un job unique transformed :
  SERVERLESS_MODE (cfg w) = false ->
  data <> [] -> deduplicate_colleges data = Return unique ->
  transform_college_data unique = Return transformed ->
  can_makedirs w output_dir ->
  PyStr.path_join output_dir filename ∈ fs_denied (fs w) ->
  fst (save_to_json data output_dir filename push cp sp loc un job w)
  = Raise (OSError ("cannot open " ++ PyStr.path_join output_dir filename)).
Proof.
  intros Hmode Hdata Hunique Htransformed Hdir Hden. unfold save_to_json.
  destruct data as [|c data]; [done|]. run. rewrite Hunique, Htransformed.
  world_simpl. rewrite Hmode. simpl.
  run_makedirs Hdir w1 Hcfg Hlog Hcache Hstore Hfiles Hdenied Hunreadable Hin.
  unfold write_file. world_simpl. rewrite Hdenied. by rewrite decide_True by done.
Qed.

(** C8, as the code has it. [save_to_supabase] never raises: it returns a
    flag and a message from every world. The two append sinks, once the
    directory is there, catch the failure of the write itself: when the file
    cannot be opened the file system is left as it was and the call returns
    [False] after logging the error (or, for [append_to_csv], [True] without
    writing when the name is already cached). The snapshot writers
    [save_to_csv] and [save_to_json] have no handler: with a batch that is
    not empty, the same failure leaves them as an exception. *)
Theorem write_failures_reported_or_raised w :
  (forall json_data cp sp loc un job,
     exists ok msg, fst (save_to_supabase json_data cp sp loc un job w) = Return (ok, msg)) /\
  (forall data output_dir filename,
     SERVERLESS_MODE (cfg w) = false ->
     can_makedirs w output_dir ->
     PyStr.path_join output_dir filename ∈ fs_denied (fs w) ->
     (let r := append_to_jsonl data output_dir filename w in
      fst r = Return false /\
      fs_files (fs (snd r)) = fs_files (fs w) /\
      exists msg, head (log (snd r)) = Some (ERROR, msg)) /\
     (let r := append_to_csv data output_dir filename w in
      fs_files (fs (snd r)) = fs_files (fs w) /\
      ((fst r = Return true /\
        exists name names, csv_identity data = Return name /\ name ∈ names /\
          _CSV_NAME_CACHE (snd r) !! PyStr.path_join output_dir filename = Some names) \/
       (fst r = Return false /\ exists msg, head (log (snd r)) = Some (ERROR, msg))))) /\
  (forall data output_dir filename push cp sp loc un job unique transformed,
     SERVERLESS_MODE (cfg w) = false ->
     data <> [] -> deduplicate_colleges data = Return unique ->
     transform_college_data unique = Return transformed ->
     can_makedirs w output_dir ->
     PyStr.path_join output_dir filename ∈ fs_denied (fs w) ->
     fst (save_to_csv data output_dir filename w)
     = Raise (OSError ("cannot open " ++ PyStr.path_join output_dir filename)) /\
     fst (save_to_json data output_dir filename push cp sp loc un job w)
     = Raise (OSError ("cannot open " ++ PyStr.path_join output_dir filename))).
Proof.
  split; [|split].
  - intros json_data cp sp loc un job.
    destruct (never_raises_save_to_supabase json_data cp sp loc un job w) as [[ok msg] Hret].
    eauto.
  - intros data output_dir filename Hmode Hdir Hden. split.
    + by apply append_to_jsonl_denied.
    + by apply append_to_csv_denied.
  - intros data output_dir filename push cp sp loc un job unique transformed
      Hmode Hdata Hunique Htransformed Hdir Hden. split.
    + by eapply save_to_csv_denied.
    + by eapply save_to_json_denied.
Qed.

End Write_Failures.

(** *** A file the operating system refuses to open *)

(** The case C8 leaves out: the failed write of the CSV snapshot is not
    returned as a failure value, it is raised. *)
Lemma save_to_csv_raises_counterexample :
  fst (save_to_csv (platform := demo_platform) [demo_record] "data" "colleges.csv" denied_world)
  = Raise (OSError "cannot open data/colleges.csv").
Proof. vm_compute. reflexivity. Qed.

Lemma write_failures_reported_or_raised_witness :
  SERVERLESS_MODE (cfg denied_world) = false /\
  can_makedirs denied_world "data" /\
  PyStr.path_join "data" "colleges.csv" ∈ fs_denied (fs denied_world) /\
  fst (append_to_jsonl demo_record "data" "colleges.csv" denied_world) = Return false /\
  fst (save_to_json (platform := demo_platform) [demo_record] "data" "colleges.csv" false
         None None None None None denied_world)
  = Raise (OSError "cannot open data/colleges.csv").
Proof.
  assert (Hdir : can_makedirs denied_world "data").
  { left. simpl. by apply elem_of_singleton. }
  assert (Hden : PyStr.path_join "data" "colleges.csv" ∈ fs_denied (fs denied_world)).
  { simpl. by apply elem_of_singleton. }
  destruct (write_failures_reported_or_raised (platform := demo_platform) denied_world)
    as (_ & Hsinks & Hsnapshots).
  split; [reflexivity|]. split; [exact Hdir|]. split; [exact Hden|]. split.
  - destruct (Hsinks demo_record "data" "colleges.csv" eq_refl Hdir Hden) as [[Hret _] _].
    exact Hret.
  - destruct (Hsnapshots [demo_record] "data" "colleges.csv" false None None None None None
                [demo_record]
                [ Dict.set (Dict.set blank_college "name" (PStr "ABC College")) "city" (PStr "Pune") ]
                eq_refl ltac:(discriminate) eq_refl eq_refl Hdir Hden) as [_ Hjson].
    exact Hjson.
Defined.

(** ** The batch persister *)

Section Batch_Frames.
Context `{platform : Platform} {S : Type} (proj : world -> S).
Hypothesis proj_log : forall entry w, proj (with_log entry w) = proj w.
Hypothesis proj_store : forall r w, proj (with_store r w) = proj w.
Hypothesis proj_fs : forall f w, proj (with_fs f w) = proj w.
Hypothesis proj_fs_call : forall c w, proj (with_fs_call c w) = proj w.

Lemma preserves_makedirs path : preserves proj (os_makedirs path).
Proof.
  intros w. unfold os_makedirs. repeat case_decide; simpl;
    rewrite ?proj_fs; apply proj_fs_call.
Qed.

Lemma preserves_write_file path lines : preserves proj (write_file path lines).
Proof.
  intros w. unfold write_file. case_decide; simpl; rewrite ?proj_fs; apply proj_fs_call.
Qed.

Lemma preserves_save_to_csv data output_dir filename :
  preserves proj (save_to_csv data output_dir filename).
Proof.
  unfold save_to_csv.
  repeat first [ apply preserves_makedirs | apply preserves_write_file | preserves_step ].
Qed.

Lemma preserves_save_to_json data output_dir filename push cp sp loc un job :
  preserves proj (save_to_json data output_dir filename push cp sp loc un job).
Proof.
  unfold save_to_json.
  repeat first [ apply preserves_makedirs | apply preserves_write_file
               | apply preserves_save_to_supabase; by intros | preserves_step ].
Qed.

Lemma preserves_save_format data output_dir base push cp sp loc un job saved_files fmt :
  preserves proj (save_format data output_dir base push cp sp loc un job saved_files fmt).
Proof.
  unfold save_format.
  repeat first [ apply preserves_save_to_csv | apply preserves_save_to_json | preserves_step ].
Qed.

End Batch_Frames.

Section Batch_Persister.
Context `{platform : Platform}.

Lemma append_nonempty (a b : string) : b <> "" -> (a ++ b)%string <> "".
Proof. intros Hb. destruct a; simpl; [done|discriminate]. Qed.

Lemma path_join_nonempty output_dir filename :
  filename <> "" -> PyStr.path_join output_dir filename <> "".
Proof.
  intros Hf. unfold PyStr.path_join.
  destruct (PyStr.starts_with "/" filename); [done|].
  destruct (_ || _); [by apply append_nonempty|].
  apply append_nonempty. discriminate.
Qed.

Lemma csv_filename_nonempty base :
  (if negb (PyStr.ends_with ".csv" base) then (base ++ ".csv")%string else base) <> "".
Proof. destruct base; simpl; [discriminate|]. by destruct (negb _). Qed.

Lemma replace_nonempty old new s :
  new <> "" -> s <> "" -> PyStr.replace old new s <> "".
Proof.
  intros Hnew Hs. destruct s as [|c s]; [done|]. unfold PyStr.replace. simpl.
  destruct (PyStr.starts_with old (String c s)); [|discriminate].
  destruct new; [done|discriminate].
Qed.

Lemma json_filename_nonempty base :
  PyStr.replace ".csv" ".json"
    (if negb (PyStr.ends_with ".json" base) then (base ++ ".json")%string else base) <> "".
Proof.
  apply replace_nonempty; [discriminate|].
  destruct base; simpl; [discriminate|]. by destruct (negb _).
Qed.

(** The value [save_to_csv] returns, when it returns. *)
Lemma save_to_csv_returned w data output_dir filename o :
  fst (save_to_csv data output_dir filename w) = Return o ->
  if SERVERLESS_MODE (cfg w) then o = None
  else match data with
       | [] => o = None
       | _ :: _ => o = Some (PyStr.path_join output_dir filename)
       end.
Proof.
  unfold save_to_csv. run. destruct (SERVERLESS_MODE (cfg w)); [by intros [= <-]|].
  destruct (os_makedirs output_dir w) as [[[]|e] w1]; [|done].
  destruct data as [|c data]; [by intros [= <-]|].
  destruct (deduplicate_colleges (c :: data)) as [unique|e]; [|done].
  world_simpl. destruct (write_file _ _ _) as [[[]|e] w2]; [|done].
  by intros [= <-].
Qed.

(** The value [save_to_json] returns, when it returns. *)
Lemma save_to_json_returned w data output_dir filename push cp sp loc un job o :
  fst (save_to_json data output_dir filename push cp sp loc un job w) = Return o ->
  match data with
  | [] => o = None
  | _ :: _ =>
      if SERVERLESS_MODE (cfg w) then o = None
      else o = Some (PyStr.path_join output_dir filename)
  end.
Proof.
  unfold save_to_json. destruct data as [|c data]; [by intros [= <-]|]. run.
  destruct (deduplicate_colleges (c :: data)) as [unique|e]; [|done].
  destruct (transform_college_data unique) as [transformed|e]; [|done].
  world_simpl. destruct (SERVERLESS_MODE (cfg w)); simpl.
  - destruct push; [|by intros [= <-]].
    destruct (save_to_supabase _ _ _ _ _ _ _) as [[[ok msg]|e] w1]; [|done].
    simpl. by destruct ok; intros [= <-].
  - destruct (os_makedirs output_dir _) as [[[]|e] w1]; [|done].
    destruct (write_file _ _ _) as [[[]|e] w2]; [|done]. world_simpl.
    destruct push; [|by intros [= <-]].
    destruct (save_to_supabase _ _ _ _ _ _ _) as [[[ok msg]|e] w3]; [|done].
    simpl. by destruct ok; intros [= <-].
Qed.

(** What one turn of the loop does to the result map. *)
Lemma save_format_returned w data output_dir base push cp sp loc un job saved_files fmt m :
  fst (save_format data output_dir base push cp sp loc un job saved_files fmt w) = Return m ->
  (m = saved_files \/
   exists p, p <> "" /\ m = Dict.set saved_files (PyStr.lower fmt) p /\
             (PyStr.lower fmt = "csv" \/ PyStr.lower fmt = "json")) /\
  (SERVERLESS_MODE (cfg w) = true \/ data = [] -> m = saved_files) /\
  (SERVERLESS_MODE (cfg w) = false -> data <> [] ->
   PyStr.lower fmt = "csv" \/ PyStr.lower fmt = "json" ->
   exists p, p <> "" /\ m = Dict.set saved_files (PyStr.lower fmt) p).
Proof.
  assert (Hskipped : forall m', m' = saved_files ->
    (SERVERLESS_MODE (cfg w) = true \/ data = []) ->
    (m' = saved_files \/
     exists p, p <> "" /\ m' = Dict.set saved_files (PyStr.lower fmt) p /\
               (PyStr.lower fmt = "csv" \/ PyStr.lower fmt = "json")) /\
    (SERVERLESS_MODE (cfg w) = true \/ data = [] -> m' = saved_files) /\
    (SERVERLESS_MODE (cfg w) = false -> data <> [] ->
     PyStr.lower fmt = "csv" \/ PyStr.lower fmt = "json" ->
     exists p, p <> "" /\ m' = Dict.set saved_files (PyStr.lower fmt) p)).
  { intros m' -> Hoff. split; [by left|]. split; [done|].
    intros Hmode Hdata. destruct Hoff; congruence. }
  assert (Hsaved : forall p, p <> "" ->
    SERVERLESS_MODE (cfg w) = false -> data <> [] ->
    PyStr.lower fmt = "csv" \/ PyStr.lower fmt = "json" ->
    let m' := Dict.set saved_files (PyStr.lower fmt) p in
    (m' = saved_files \/
     exists p, p <> "" /\ m' = Dict.set saved_files (PyStr.lower fmt) p /\
               (PyStr.lower fmt = "csv" \/ PyStr.lower fmt = "json")) /\
    (SERVERLESS_MODE (cfg w) = true \/ data = [] -> m' = saved_files) /\
    (SERVERLESS_MODE (cfg w) = false -> data <> [] ->
     PyStr.lower fmt = "csv" \/ PyStr.lower fmt = "json" ->
     exists p, p <> "" /\ m' = Dict.set saved_files (PyStr.lower fmt) p)).
  { intros p Hp Hmode Hdata Hcj m'. split; [right; eauto|]. split; [|eauto].
    intros [Hoff|Hoff]; congruence. }
  unfold save_format.
  destruct (String.eqb (PyStr.lower fmt) "csv") eqn:Hcsv.
  - apply String.eqb_eq in Hcsv. rewrite Hcsv in Hskipped, Hsaved |- *. run.
    pose proof (save_to_csv_returned w data output_dir
                  (if negb (PyStr.ends_with ".csv" base) then (base ++ ".csv")%string else base))
      as Hret.
    destruct (save_to_csv _ _ _ _) as [[o|e] w1]; [|done].
    specialize (Hret o eq_refl). simpl. intros [= <-].
    pose proof (path_join_nonempty output_dir _ (csv_filename_nonempty base)) as Hpath.
    destruct (SERVERLESS_MODE (cfg w)) eqn:Hmode; [subst o; apply Hskipped; auto|].
    destruct data as [|c data]; subst o; [apply Hskipped; auto|]. simpl.
    rewrite (proj2 (is_empty_false _) Hpath). simpl.
    apply Hsaved; auto.
  - destruct (String.eqb (PyStr.lower fmt) "json") eqn:Hjson.
    + apply String.eqb_eq in Hjson. rewrite Hjson in Hskipped, Hsaved |- *. run.
      pose proof (save_to_json_returned w data output_dir
                    (PyStr.replace ".csv" ".json"
                       (if negb (PyStr.ends_with ".json" base)
                        then (base ++ ".json")%string else base))
                    push cp sp loc un job) as Hret.
      destruct (save_to_json _ _ _ _ _ _ _ _ _ _) as [[o|e] w1]; [|done].
      specialize (Hret o eq_refl). simpl. intros [= <-].
      pose proof (path_join_nonempty output_dir _ (json_filename_nonempty base)) as Hpath.
      destruct data as [|c data]; [subst o; apply Hskipped; auto|].
      destruct (SERVERLESS_MODE (cfg w)) eqn:Hmode; subst o; [apply Hskipped; auto|]. simpl.
      rewrite (proj2 (is_empty_false _) Hpath). simpl.
      apply Hsaved; auto.
    + apply String.eqb_neq in Hcsv, Hjson. intros [= <-].
      split; [by left|]. split; [done|]. intros _ _ [?|?]; congruence.
Qed.

(** What the loop of [save_data] does to the result map. *)
Lemma save_data_loop data output_dir base push cp sp loc un job formats :
  forall saved_files w m,
  fst (for_each (save_format data output_dir base push cp sp loc un job) formats saved_files w)
  = Return m ->
  (forall k, is_Some (Dict.lookup saved_files k) -> is_Some (Dict.lookup m k)) /\
  ((forall k p, Dict.lookup saved_files k = Some p -> p <> "") ->
   forall k p, Dict.lookup m k = Some p -> p <> "") /\
  (forall k, is_Some (Dict.lookup m k) ->
     is_Some (Dict.lookup saved_files k) \/
     ((k = "csv" \/ k = "json") /\ exists fmt, fmt ∈ formats /\ PyStr.lower fmt = k)) /\
  (SERVERLESS_MODE (cfg w) = true \/ data = [] -> m = saved_files) /\
  (SERVERLESS_MODE (cfg w) = false -> data <> [] ->
   forall fmt, fmt ∈ formats -> PyStr.lower fmt = "csv" \/ PyStr.lower fmt = "json" ->
     is_Some (Dict.lookup m (PyStr.lower fmt))).
Proof.
  induction formats as [|fmt formats IH]; intros saved_files w m; simpl.
  - intros [= <-]. split; [done|]. split; [done|]. split; [by left|]. split; [done|].
    intros _ _ fmt Hin. by apply elem_of_nil in Hin.
  - unfold bind.
    pose proof (preserves_save_format cfg (fun _ _ => eq_refl) (fun _ _ => eq_refl)
                  (fun _ _ => eq_refl) (fun _ _ => eq_refl)
                  data output_dir base push cp sp loc un job saved_files fmt w) as Hcfg.
    pose proof (save_format_returned w data output_dir base push cp sp loc un job
                  saved_files fmt) as Hstep.
    destruct (save_format _ _ _ _ _ _ _ _ _ _ _ w) as [[acc1|e] w1]; [|done].
    simpl in Hcfg. destruct (Hstep acc1 eq_refl) as (Hkind & Hskip & Hsave). clear Hstep.
    intros Hrest. destruct (IH acc1 w1 m Hrest) as (Hgrow & Hvals & Hkeys & Hnone & Hall).
    rewrite Hcfg in Hnone, Hall.
    assert (Hgrow1 : forall k, is_Some (Dict.lookup saved_files k) -> is_Some (Dict.lookup acc1 k)).
    { intros k Hk. destruct Hkind as [->|(p & _ & -> & _)]; [done|].
      destruct (decide (PyStr.lower fmt = k)) as [<-|Hne].
      - rewrite DictFacts.lookup_set_eq. eauto.
      - by rewrite DictFacts.lookup_set_ne. }
    split; [auto|]. split; [|split; [|split]].
    + intros Hacc. apply Hvals. intros k p.
      destruct Hkind as [->|(p0 & Hp0 & -> & _)]; [apply Hacc|].
      destruct (decide (PyStr.lower fmt = k)) as [<-|Hne].
      * rewrite DictFacts.lookup_set_eq. by intros [= <-].
      * rewrite DictFacts.lookup_set_ne by done. apply Hacc.
    + intros k Hk. destruct (Hkeys k Hk) as [Hk1|(Hcj & fmt' & Hin & Hlow)].
      * destruct Hkind as [->|(p0 & Hp0 & -> & Hcj)]; [by left|].
        destruct (decide (PyStr.lower fmt = k)) as [<-|Hne].
        -- right. split; [done|]. exists fmt. split; [apply elem_of_cons; by left | done].
        -- rewrite DictFacts.lookup_set_ne in Hk1 by done. by left.
      * right. split; [done|]. exists fmt'. split; [apply elem_of_cons; by right | done].
    + intros Hoff. rewrite (Hnone Hoff). by apply Hskip.
    + intros Hmode Hdata fmt' Hin Hcj. apply elem_of_cons in Hin as [->|Hin].
      * apply Hgrow. destruct (Hsave Hmode Hdata Hcj) as (p & _ & ->).
        rewrite DictFacts.lookup_set_eq. eauto.
      * by apply Hall.
Qed.

(** The mode and the paths that cannot be written stay as they are. *)
Lemma save_format_keeps_denied data output_dir base push cp sp loc un job saved_files fmt :
  preserves (fun w => (cfg w, fs_denied (fs w)))
    (save_format data output_dir base push cp sp loc un job saved_files fmt).
Proof.
  assert (Hmk : forall path, preserves (fun w => (cfg w, fs_denied (fs w))) (os_makedirs path)).
  { intros path w. unfold os_makedirs. by repeat case_decide. }
  assert (Hwr : forall path lines,
            preserves (fun w => (cfg w, fs_denied (fs w))) (write_file path lines)).
  { intros path lines w. unfold write_file. by case_decide. }
  unfold save_format, save_to_csv, save_to_json.
  repeat first [ apply Hmk | apply Hwr
               | apply preserves_save_to_supabase; by intros | preserves_step ].
Qed.

(** A format whose file cannot be written makes its turn of the loop
    raise: nothing catches the failure. *)
Lemma save_format_denied w data output_dir base push cp sp loc un job saved_files fmt p :
  SERVERLESS_MODE (cfg w) = false -> data <> [] ->
  write_target output_dir base fmt = Some p -> p ∈ fs_denied (fs w) ->
  exists e,
    fst (save_format data output_dir base push cp sp loc un job saved_files fmt w) = Raise e.
Proof.
  intros Hmode Hdata Htarget Hden. unfold write_target in Htarget. unfold save_format.
  assert (Hmk : forall dir W,
            (exists e W1, os_makedirs dir W = (Raise e, W1)) \/
            (exists W1, os_makedirs dir W = (Return tt, W1) /\
                        fs_denied (fs W1) = fs_denied (fs W))).
  { intros dir W. unfold os_makedirs. repeat case_decide; eauto. }
  assert (Hwr : forall lines W, fs_denied (fs W) = fs_denied (fs w) ->
            exists e W1, write_file p lines W = (Raise e, W1)).
  { intros lines W HW. unfold write_file. rewrite HW, decide_True by done. eauto. }
  destruct data as [|c data]; [done|].
  destruct (String.eqb (PyStr.lower fmt) "csv").
  - injection Htarget as <-. unfold save_to_csv. run. rewrite Hmode.
    match goal with
    | |- context [os_makedirs ?d ?W] =>
        destruct (Hmk d W) as [(e & w1 & ->)|(w1 & -> & Hd)]; [eauto|]
    end.
    destruct (deduplicate_colleges (c :: data)) as [unique|e]; [|eauto].
    world_simpl.
    match goal with
    | |- context [write_file _ ?l ?W] =>
        destruct (Hwr l W) as (e & w2 & ->); [by world_simpl|eauto]
    end.
  - destruct (String.eqb (PyStr.lower fmt) "json"); [|done].
    injection Htarget as <-. unfold save_to_json. run.
    destruct (deduplicate_colleges (c :: data)) as [unique|e]; [|eauto].
    destruct (transform_college_data unique) as [transformed|e]; [|eauto].
    world_simpl. rewrite Hmode. simpl.
    match goal with
    | |- context [os_makedirs ?d ?W] =>
        destruct (Hmk d W) as [(e & w1 & ->)|(w1 & -> & Hd)]; [eauto|]
    end.
    world_simpl.
    match goal with
    | |- context [write_file _ ?l ?W] =>
        destruct (Hwr l W) as (e & w2 & ->); [by world_simpl|eauto]
    end.
Qed.

(** The loop of [save_data] raises when a requested format cannot be
    written. *)
Lemma save_data_loop_denied data output_dir base push cp sp loc un job formats fmt p :
  data <> [] -> fmt ∈ formats -> write_target output_dir base fmt = Some p ->
  forall saved_files w,
    SERVERLESS_MODE (cfg w) = false -> p ∈ fs_denied (fs w) ->
    exists e,
      fst (for_each (save_format data output_dir base push cp sp loc un job)
             formats saved_files w) = Raise e.
Proof.
  intros Hdata Hin Htarget.
  induction formats as [|fmt0 formats IH]; intros saved_files w Hmode Hden;
    [by apply elem_of_nil in Hin|].
  simpl. unfold bind.
  pose proof (save_format_keeps_denied data output_dir base push cp sp loc un job
                saved_files fmt0 w) as Hkeep.
  apply elem_of_cons in Hin as [<-|Hin].
  - destruct (save_format_denied w data output_dir base push cp sp loc un job
                saved_files fmt p Hmode Hdata Htarget Hden) as [e He].
    destruct (save_format _ _ _ _ _ _ _ _ _ _ _ w) as [[acc1|e'] w1]; [done|]. eauto.
  - destruct (save_format _ _ _ _ _ _ _ _ _ _ _ w) as [[acc1|e'] w1]; [|eauto].
    simpl in Hkeep. injection Hkeep as Hcfg Hdenied.
    apply IH; [done| |]; congruence.
Qed.

(** C9, as the code has it. Outside read-only mode and for a batch that is
    not empty, the map [save_data] returns holds a location, which is not
    the empty string, for every requested format that is [csv] or [json] in
    any letter case. The map never holds another key: any other format is
    passed over. In read-only mode no format gets a location, although no
    write has failed, and an empty batch gives the empty map. A write that
    fails is not an omitted key: when the file of a requested format cannot
    be written, the call raises and returns no map. *)
Theorem save_data_result_map w data output_dir base formats push cp sp loc un job :
  (forall m,
     fst (save_data data output_dir base formats push cp sp loc un job w) = Return m ->
     (SERVERLESS_MODE (cfg w) = false -> data <> [] ->
      forall fmt, fmt ∈ formats -> PyStr.lower fmt = "csv" \/ PyStr.lower fmt = "json" ->
        exists p, Dict.lookup m (PyStr.lower fmt) = Some p /\ p <> "") /\
     (forall k, is_Some (Dict.lookup m k) ->
        (k = "csv" \/ k = "json") /\ exists fmt, fmt ∈ formats /\ PyStr.lower fmt = k) /\
     (SERVERLESS_MODE (cfg w) = true -> m = []) /\
     (data = [] -> m = [])) /\
  (SERVERLESS_MODE (cfg w) = false -> data <> [] ->
   forall fmt p, fmt ∈ formats -> write_target output_dir base fmt = Some p ->
     p ∈ fs_denied (fs w) ->
     exists e, fst (save_data data output_dir base formats push cp sp loc un job w) = Raise e).
Proof.
  split.
  - unfold save_data. intros m Hrun.
    destruct (save_data_loop data output_dir base push cp sp loc un job formats [] w m Hrun)
      as (_ & Hvals & Hkeys & Hnone & Hall).
    split; [|split; [|split]].
    + intros Hmode Hdata fmt Hin Hcj. destruct (Hall Hmode Hdata fmt Hin Hcj) as [p Hp].
      exists p. split; [done|]. by apply (Hvals ltac:(done) _ _ Hp).
    + intros k Hk. destruct (Hkeys k Hk) as [[x Hx]|Hk']; [done|done].
    + intros Hmode. apply Hnone. by left.
    + intros Hdata. apply Hnone. by right.
  - intros Hmode Hdata fmt p Hin Htarget Hden. unfold save_data.
    by eapply save_data_loop_denied.
Qed.

End Batch_Persister.

Lemma save_data_result_map_witness :
  fst (save_data (platform := demo_platform) [demo_record] "data" "colleges" ["CSV"; "json"; "xml"]
         false None None None None None (demo_world false [] 1))
  = Return [("csv", "data/colleges.csv"); ("json", "data/colleges.json")] /\
  (exists p, Dict.lookup [("csv", "data/colleges.csv"); ("json", "data/colleges.json")]
               (PyStr.lower "CSV") = Some p /\ p <> "") /\
  (forall k, is_Some (Dict.lookup [("csv", "data/colleges.csv"); ("json", "data/colleges.json")] k) ->
     k = "csv" \/ k = "json") /\
  write_target "data" "colleges" "CSV" = Some "data/colleges.csv" /\
  "data/colleges.csv" ∈ fs_denied (fs denied_world) /\
  (exists e,
     fst (save_data (platform := demo_platform) [demo_record] "data" "colleges" ["json"; "CSV"]
            false None None None None None denied_world) = Raise e) /\
  fst (save_data (platform := demo_platform) [demo_record] "data" "colleges" ["json"; "CSV"]
         false None None None None None denied_world)
  = Raise (OSError "cannot open data/colleges.csv").
Proof.
  assert (Hrun : fst (save_data (platform := demo_platform) [demo_record] "data" "colleges"
                        ["CSV"; "json"; "xml"] false None None None None None
                        (demo_world false [] 1))
                 = Return [("csv", "data/colleges.csv"); ("json", "data/colleges.json")])
    by (vm_compute; reflexivity).
  destruct (proj1 (save_data_result_map (platform := demo_platform) (demo_world false [] 1)
                     [demo_record] "data" "colleges" ["CSV"; "json"; "xml"]
                     false None None None None None) _ Hrun) as (Hall & Hkeys & _ & _).
  assert (Hden : "data/colleges.csv" ∈ fs_denied (fs denied_world)).
  { unfold denied_world. world_simpl. apply elem_of_singleton. reflexivity. }
  split; [exact Hrun|]. split; [|split; [|split; [reflexivity|split; [exact Hden|split]]]].
  - apply Hall; [reflexivity | discriminate | apply elem_of_cons; by left | by left].
  - intros k Hk. by destruct (Hkeys k Hk) as [Hcj _].
  - apply (proj2 (save_data_result_map (platform := demo_platform) denied_world
                    [demo_record] "data" "colleges" ["json"; "CSV"]
                    false None None None None None)
             eq_refl ltac:(discriminate) "CSV" "data/colleges.csv");
      [apply elem_of_cons; right; apply elem_of_cons; by left | reflexivity | exact Hden].
  - vm_compute. reflexivity.
Defined.

(** The case C9 leaves out: in read-only mode a requested format is absent
    from the map although the batch is not empty and no write has failed. *)
Lemma save_data_serverless_counterexample :
  save_data (platform := demo_platform) [demo_record] "data" "colleges" ["csv"]
    false None None None None None (demo_world true [] 1)
  = (Return [],
     with_log (INFO, "SERVERLESS_MODE: Skipping CSV file write (read-only file system)")
       (demo_world true [] 1)) /\
  [demo_record] <> [] /\ Dict.lookup ([] : odict string) "csv" = None.
Proof. split; [vm_compute; reflexivity|]. split; [discriminate | reflexivity]. Qed.

(** * Further properties *)

(** ** Trimming and case *)

Module StrFacts.

Lemma rstrip_idem s : PyStr.rstrip (PyStr.rstrip s) = PyStr.rstrip s.
Proof.
  induction s as [|c s IH]; [done|]. simpl.
  destruct (PyStr.is_space c && PyStr.is_empty (PyStr.rstrip s)) eqn:E; [done|].
  simpl. by rewrite IH, E.
Qed.

Lemma lstrip_head s c t : PyStr.lstrip s = String c t -> PyStr.is_space c = false.
Proof.
  induction s as [|c' s IH]; [done|]. simpl.
  destruct (PyStr.is_space c') eqn:E; [done|]. by intros [= <- <-].
Qed.

Lemma lstrip_id c t : PyStr.is_space c = false -> PyStr.lstrip (String c t) = String c t.
Proof. intros E. simpl. by rewrite E. Qed.

(** What is left of a trimmed string: nothing, or a string that neither
    starts nor ends with whitespace. *)
Lemma strip_shape s :
  PyStr.strip s = "" \/
  exists c t, PyStr.strip s = String c t /\ PyStr.is_space c = false /\
              PyStr.rstrip (String c t) = String c t.
Proof.
  unfold PyStr.strip. destruct (PyStr.lstrip s) as [|c t] eqn:E; [by left|].
  apply lstrip_head in E. right. simpl. rewrite E. simpl.
  exists c, (PyStr.rstrip t). split; [done|]. split; [done|].
  simpl. by rewrite E, rstrip_idem.
Qed.

Lemma strip_idem s : PyStr.strip (PyStr.strip s) = PyStr.strip s.
Proof.
  destruct (strip_shape s) as [->|(c & t & -> & Hc & Hr)]; [done|].
  unfold PyStr.strip. by rewrite lstrip_id.
Qed.



Lemma is_lower_upper_char c : PyStr.is_lower (PyStr.upper_char c) = false.
Proof. by destruct c as [[] [] [] [] [] [] [] []]. Qed.


End StrFacts.

(** ** Identity normalization *)

Section Normalize_Case.
Context `{platform : Platform}.




End Normalize_Case.

(** ** The transformer, continued *)

Section Transformer_More.
Context `{platform : Platform}.

Lemma strip_trimmed s : PyStr.is_empty (PyStr.strip s) = false -> trimmed_word (PyStr.strip s).
Proof.
  intros Hs. split; [by apply is_empty_false | apply StrFacts.strip_idem].
Qed.

Lemma entrance_exams_normal raw :
  Forall (fun v => exists s, v = PStr s /\ trimmed_word s) (entrance_exams_of raw).
Proof.
  destruct raw as [| | |s|exams|]; simpl; try constructor.
  - destruct (negb (PyStr.is_empty (PyStr.strip s))); [|constructor].
    apply Forall_forall. intros v Hv.
    apply list_elem_of_fmap in Hv as (exam & -> & Hexam).
    apply list_elem_of_filter in Hexam as [Hexam _].
    eexists. split; [done|]. by apply strip_trimmed.
  - apply Forall_forall. intros v Hv.
    apply list_elem_of_fmap in Hv as (exam & -> & Hexam).
    apply list_elem_of_filter in Hexam as [Hexam _].
    eexists. split; [done|]. apply strip_trimmed.
    unfold has_data in Hexam. apply andb_true_iff in Hexam as [_ Hexam].
    by apply negb_true_iff in Hexam.
Qed.

(** X2. Whatever [Entrance Exams] holds, the normalized list holds only
    strings that are not empty and have no whitespace around them; it is no
    longer than a list given, and empty for a value that is neither a list
    nor a string. *)
Theorem entrance_exams_of_trimmed raw :
  Forall (fun v => exists s, v = PStr s /\ trimmed_word s) (entrance_exams_of raw) /\
  match raw with
  | PList exams => length (entrance_exams_of raw) <= length exams
  | PStr _ => True
  | _ => entrance_exams_of raw = []
  end.
Proof.
  destruct raw as [| | |s|exams|]; simpl; try (split; [constructor | done]).
  - split; [|done].
    destruct (negb (PyStr.is_empty (PyStr.strip s))); [|constructor].
    apply Forall_forall. intros v Hv.
    apply list_elem_of_fmap in Hv as (exam & -> & Hexam).
    apply list_elem_of_filter in Hexam as [Hexam _].
    eexists. split; [done|]. by apply strip_trimmed.
  - split; [|rewrite length_fmap; apply length_filter].
    apply Forall_forall. intros v Hv.
    apply list_elem_of_fmap in Hv as (exam & -> & Hexam).
    apply list_elem_of_filter in Hexam as [Hexam _].
    eexists. split; [done|]. apply strip_trimmed.
    unfold has_data in Hexam. apply andb_true_iff in Hexam as [_ Hexam].
    by apply negb_true_iff in Hexam.
Qed.

Lemma chars_lstrip s c : c ∈ chars (PyStr.lstrip s) -> c ∈ chars s.
Proof.
  unfold chars. induction s as [|c' s IH]; simpl; [done|].
  destruct (PyStr.is_space c'); [|done].
  intros Hc. apply elem_of_cons. right. auto.
Qed.

Lemma chars_rstrip s c : c ∈ chars (PyStr.rstrip s) -> c ∈ chars s.
Proof.
  unfold chars. induction s as [|c' s IH]; simpl; [done|].
  destruct (PyStr.is_space c' && PyStr.is_empty (PyStr.rstrip s)); simpl.
  - intros Hc. by apply elem_of_nil in Hc.
  - rewrite !elem_of_cons. intros [->|Hc]; auto.
Qed.

Lemma chars_strip s c : c ∈ chars (PyStr.strip s) -> c ∈ chars s.
Proof. intros Hc. by apply chars_lstrip, chars_rstrip. Qed.

Lemma split_head_no_sep sep s : sep ∉ chars (PyStr.split_head sep s).
Proof.
  unfold PyStr.split_head, chars. induction s as [|c s IH]; simpl.
  - apply not_elem_of_nil.
  - destruct (Ascii.eqb c sep) eqn:E; [apply not_elem_of_nil|].
    apply Ascii.eqb_neq in E.
    destruct (PyStr.split sep s) as [|p ps]; simpl.
    + apply not_elem_of_cons. split; [congruence | apply not_elem_of_nil].
    + apply not_elem_of_cons. split; [congruence | done].
Qed.

(** X3. The [city] of every transformed college is a string without a comma
    and without whitespace around it: the part of [Location] before its
    first comma, trimmed. *)
Theorem transform_city_before_comma colleges out :
  transform_college_data colleges = Return out ->
  Forall2 city_before_comma colleges out.
Proof.
  intros Hout. apply for_map_Return in Hout.
  eapply Forall2_impl; [exact Hout|]. intros college r.
  unfold transform_college, city_before_comma.
  destruct (get college "Location" (PStr "")) as [| | |location| |] eqn:Hloc; simpl; try done.
  destruct (py_iter _) as [courses|e]; simpl; [|done].
  destruct (for_map _ courses) as [tcs|e]; simpl; [|done].
  intros [= <-]. exists location. eexists. split; [done|]. split; [reflexivity|].
  destruct (PyStr.is_empty (PyStr.strip location)) eqn:Hempty; simpl.
  - apply is_empty_true in Hempty. rewrite Hempty. simpl.
    split; [done|]. split; [done|]. apply not_elem_of_nil.
  - split; [done|]. split; [apply StrFacts.strip_idem|].
    intros Hc. apply chars_strip in Hc. by apply split_head_no_sep in Hc.
Qed.

(** X4. A batch is transformed exactly when each of its records can be:
    [Location], when set, is a string, and [Courses], when set, can be
    iterated and yields dictionaries only. One record that cannot be
    transformed makes the call raise for the whole batch. *)
Theorem transform_college_data_returns_iff colleges :
  (exists out, transform_college_data colleges = Return out) <->
  (forall c, c ∈ colleges -> transformable c).
Proof.
  split.
  - intros [out Hout] c Hc. apply for_map_Return in Hout.
    apply list_elem_of_lookup in Hc as [i Hi].
    destruct (Forall2_lookup_l _ _ _ _ _ Hout Hi) as (r & _ & Hr).
    unfold transform_college in Hr. unfold transformable.
    destruct (get c "Location" (PStr "")) as [| | |location| |]; simpl in Hr; try done.
    split; [eauto|].
    destruct (py_iter _) as [courses|e]; simpl in Hr; [|done].
    exists courses. split; [done|].
    destruct (for_map _ courses) as [tcs|e] eqn:Hmap; simpl in Hr; [|done].
    apply for_map_Return in Hmap. intros x Hx.
    apply list_elem_of_lookup in Hx as [j Hj].
    destruct (Forall2_lookup_l _ _ _ _ _ Hmap Hj) as (t & _ & Ht).
    destruct x; simpl in Ht; try done. eauto.
  - intros Hall. apply for_map_returns. intros c Hc.
    by apply transform_college_returns, Hall.
Qed.

(** X5. A transformed college has one course per item of [Courses], in the
    same order, and every course has exactly the five fixed keys, its
    [entrance_exams] being a list of strings that are not empty and have no
    whitespace around them. *)
Theorem transform_courses_shape colleges out :
  transform_college_data colleges = Return out ->
  Forall2 courses_transformed colleges out.
Proof.
  intros Hout. apply for_map_Return in Hout.
  eapply Forall2_impl; [exact Hout|]. intros college r.
  unfold transform_college, courses_transformed, course_transformed.
  destruct (str_strip _) as [location|e]; simpl; [|done].
  destruct (py_iter _) as [courses|e]; simpl; [|done].
  destruct (for_map _ courses) as [tcs|e] eqn:Hmap; simpl; [|done].
  intros [= <-]. exists courses, tcs. split; [done|]. split; [reflexivity|].
  apply for_map_Return in Hmap. eapply Forall2_impl; [exact Hmap|].
  intros course t Ht. destruct course as [| | | | |c]; simpl in Ht; try done.
  injection Ht as <-. exists c. split; [done|]. split; [done|]. split; [reflexivity|].
  eexists. split; [reflexivity|]. apply entrance_exams_normal.
Qed.

End Transformer_More.

Lemma transform_city_before_comma_witness :
  transform_college_data (platform := demo_platform)
    [ [("College Name", PStr "ABC"); ("Location", PStr "  Pune , MH, India ")] ]
  = Return [ Dict.set (Dict.set blank_college "name" (PStr "ABC")) "city" (PStr "Pune") ] /\
  Forall2 city_before_comma
    [ [("College Name", PStr "ABC"); ("Location", PStr "  Pune , MH, India ")] ]
    [ Dict.set (Dict.set blank_college "name" (PStr "ABC")) "city" (PStr "Pune") ].
Proof.
  split; [reflexivity|].
  apply (transform_city_before_comma (platform := demo_platform)). reflexivity.
Defined.

Lemma transform_courses_shape_witness :
  transform_college_data (platform := demo_platform)
    [ [("College Name", PStr "ABC");
       ("Courses", PList [PDict [("Course Name", PStr "B.Tech"); ("Entrance Exams", PStr "JEE, , NEET ")]])] ]
  = Return
      [ Dict.set (Dict.set blank_college "name" (PStr "ABC")) "courses"
          (PList [PDict [("name", PStr "B.Tech"); ("annual_fees", PStr ""); ("duration", PStr "");
                         ("degree_level", PStr "");
                         ("entrance_exams", PList [PStr "JEE"; PStr "NEET"])]]) ] /\
  Forall2 (courses_transformed (platform := demo_platform))
    [ [("College Name", PStr "ABC");
       ("Courses", PList [PDict [("Course Name", PStr "B.Tech"); ("Entrance Exams", PStr "JEE, , NEET ")]])] ]
    [ Dict.set (Dict.set blank_college "name" (PStr "ABC")) "courses"
        (PList [PDict [("name", PStr "B.Tech"); ("annual_fees", PStr ""); ("duration", PStr "");
                       ("degree_level", PStr "");
                       ("entrance_exams", PList [PStr "JEE"; PStr "NEET"])]]) ].
Proof.
  split; [reflexivity|].
  apply (transform_courses_shape (platform := demo_platform)). reflexivity.
Defined.

(** ** The deduplicator, continued *)

Section Deduplicator_More.
Context `{platform : Platform}.

Lemma set_fresh {V : Type} (d : odict V) k (v : V) :
  k ∉ Dict.keys d -> Dict.set d k v = d ++ [(k, v)].
Proof.
  induction d as [|[k' v'] d IH]; simpl; [done|].
  intros Hk. apply not_elem_of_cons in Hk as [Hne Hk].
  destruct (String.eqb k' k) eqn:E.
  - apply String.eqb_eq in E. congruence.
  - by rewrite IH.
Qed.

Lemma dedup_step_keys seen c seen' k :
  dedup_step seen c = Return seen' -> college_name c = Return k ->
  Dict.keys seen' = if PyStr.is_empty k then Dict.keys seen else see (Dict.keys seen) k.
Proof.
  unfold dedup_step, see. intros Hstep Hk. rewrite Hk in Hstep. simpl in Hstep.
  destruct (PyStr.is_empty k); [by injection Hstep as <-|].
  destruct (Dict.lookup seen k) as [existing|] eqn:Hlook.
  - assert (Hin : k ∈ Dict.keys seen).
    { destruct (decide (k ∈ Dict.keys seen)) as [|Hn]; [done|].
      apply DictFacts.lookup_None_keys in Hn. congruence. }
    rewrite bool_decide_eq_true_2 by done.
    destruct (richness existing <? richness c)%nat; injection Hstep as <-; [|done].
    by rewrite DictFacts.keys_set, Hlook.
  - injection Hstep as <-. rewrite DictFacts.keys_set, Hlook.
    apply DictFacts.lookup_None_keys in Hlook. by rewrite bool_decide_eq_false_2.
Qed.

Lemma dedup_loop_keys colleges : forall seen seen',
  for_fold dedup_step colleges seen = Return seen' ->
  exists names,
    for_map college_name colleges = Return names /\
    Dict.keys seen' = foldl see (Dict.keys seen) (filter (fun k => k <> "") names).
Proof.
  induction colleges as [|c colleges IH]; intros seen seen'; simpl.
  - intros [= <-]. by exists [].
  - destruct (dedup_step seen c) as [seen1|e] eqn:Hstep; simpl; [|done].
    intros Hrest. destruct (IH _ _ Hrest) as (names & Hnames & Hkeys).
    destruct (college_name c) as [k|e] eqn:Hk.
    2:{ unfold dedup_step in Hstep. by rewrite Hk in Hstep. }
    exists (k :: names). simpl. rewrite Hnames. simpl. split; [done|].
    rewrite Hkeys, (dedup_step_keys _ _ _ _ Hstep Hk). rewrite filter_cons.
    destruct (PyStr.is_empty k) eqn:Hempty.
    + apply is_empty_true in Hempty. by rewrite decide_False by (by intros []).
    + apply is_empty_false in Hempty. by rewrite decide_True by done.
Qed.

Lemma length_foldl_see l : forall acc, length (foldl see acc l) <= length acc + length l.
Proof.
  induction l as [|k l IH]; intros acc; simpl; [lia|].
  etransitivity; [apply IH|]. unfold see. case_bool_decide; [lia|].
  rewrite length_app. simpl. lia.
Qed.

Lemma names_of_values (seen : odict pydict) :
  (forall p k r, seen !! p = Some (k, r) -> college_name r = Return k) ->
  for_map college_name (Dict.values seen) = Return (Dict.keys seen).
Proof.
  induction seen as [|[k r] seen IH]; intros Hall; [done|].
  change (Dict.values ((k, r) :: seen)) with (r :: Dict.values seen).
  change (Dict.keys ((k, r) :: seen)) with (k :: Dict.keys seen).
  simpl. rewrite (Hall 0 k r eq_refl). simpl.
  rewrite IH; [done|]. intros p k' r' Hp. by apply (Hall (S p)).
Qed.

(** What the deduplicator's dict holds when the loop ends. *)
Lemma dedup_loop_entries colleges seen :
  for_fold dedup_step colleges [] = Return seen ->
  NoDup (Dict.keys seen) /\
  forall p k r, seen !! p = Some (k, r) -> k <> "" /\ college_name r = Return k.
Proof.
  intros Hloop.
  destruct (dedup_loop_inv colleges [] [] seen dedup_inv_init Hloop) as (Hnd & Hsurv & _).
  split; [done|]. intros p k r Hp.
  destruct (Hsurv k r (DictFacts.lookup_at _ _ _ _ Hnd Hp)) as (Hne & i & _ & Hname & _).
  done.
Qed.

(** X6. The identities of the survivors, in the order of the output, are
    the distinct non-empty identities of the input in the order they first
    occur; so the output is never longer than the input. *)
Theorem deduplicate_colleges_first_seen_order colleges out :
  deduplicate_colleges colleges = Return out ->
  exists names,
    for_map college_name colleges = Return names /\
    for_map college_name out = Return (first_seen (filter (fun k => k <> "") names)) /\
    length out <= length colleges.
Proof.
  unfold deduplicate_colleges.
  destruct (for_fold dedup_step colleges []) as [seen|e] eqn:Hloop; simpl; [|done].
  intros [= <-]. destruct (dedup_loop_keys _ _ _ Hloop) as (names & Hnames & Hkeys).
  destruct (dedup_loop_entries _ _ Hloop) as [_ Hentries].
  exists names. split; [done|]. simpl in Hkeys. split.
  - rewrite names_of_values by (intros p k r Hp; by apply (Hentries p)).
    by rewrite Hkeys.
  - unfold Dict.values. rewrite length_fmap.
    replace (length seen) with (length (Dict.keys seen))
      by (unfold Dict.keys; apply length_fmap).
    rewrite Hkeys. etransitivity; [apply length_foldl_see|]. simpl.
    etransitivity; [apply length_filter|].
    apply for_map_Return, Forall2_length in Hnames. lia.
Qed.

Lemma dedup_replay (s2 : odict pydict) : forall s1,
  NoDup (Dict.keys (s1 ++ s2)) ->
  (forall p k r, s2 !! p = Some (k, r) -> k <> "" /\ college_name r = Return k) ->
  for_fold dedup_step (Dict.values s2) s1 = Return (s1 ++ s2).
Proof.
  induction s2 as [|[k r] s2 IH]; intros s1 Hnd Hall.
  - simpl. by rewrite app_nil_r.
  - change (Dict.values ((k, r) :: s2)) with (r :: Dict.values s2). simpl.
    destruct (Hall 0 k r eq_refl) as [Hne Hname].
    assert (Hfresh : k ∉ Dict.keys s1).
    { unfold Dict.keys in Hnd. rewrite fmap_app in Hnd.
      apply NoDup_app in Hnd as (_ & Hdisj & _). intros Hin.
      apply (Hdisj k Hin). simpl. apply elem_of_cons. by left. }
    unfold dedup_step at 1. rewrite Hname. simpl.
    rewrite (proj2 (is_empty_false k) Hne).
    rewrite (proj2 (DictFacts.lookup_None_keys s1 k) Hfresh). simpl.
    rewrite set_fresh by done. rewrite IH.
    + by rewrite <- app_assoc.
    + by rewrite <- app_assoc.
    + intros p k' r' Hp. by apply (Hall (S p)).
Qed.

(** X7. Deduplicating what the deduplicator returned gives it back
    unchanged. *)
Theorem deduplicate_colleges_idempotent colleges out :
  deduplicate_colleges colleges = Return out ->
  deduplicate_colleges out = Return out.
Proof.
  unfold deduplicate_colleges.
  destruct (for_fold dedup_step colleges []) as [seen|e] eqn:Hloop; simpl; [|done].
  intros [= <-]. destruct (dedup_loop_entries _ _ Hloop) as [Hnd Hentries].
  by rewrite (dedup_replay seen [] Hnd Hentries).
Qed.

Lemma college_name_returns_iff c :
  (exists k, college_name c = Return k) <-> has_text_name c.
Proof.
  unfold college_name, has_text_name.
  destruct (get c "College Name" (get c "name" (PStr ""))); simpl; split;
    intros [x Hx]; try done; eauto.
Qed.

(** X8. The deduplicator returns exactly when the identity attribute of
    every record is a string; one record whose [College Name] (or [name]) is
    null or a number makes the call raise for the whole batch, even a record
    that would have been dropped. *)
Theorem deduplicate_colleges_returns_iff colleges :
  (exists out, deduplicate_colleges colleges = Return out) <->
  (forall c, c ∈ colleges -> has_text_name c).
Proof.
  split.
  - intros [out Hout] c Hc. apply college_name_returns_iff.
    unfold deduplicate_colleges in Hout.
    destruct (for_fold dedup_step colleges []) as [seen|e] eqn:Hloop; [|done].
    destruct (dedup_loop_keys _ _ _ Hloop) as (names & Hnames & _).
    apply for_map_Return in Hnames. apply list_elem_of_lookup in Hc as [i Hi].
    destruct (Forall2_lookup_l _ _ _ _ _ Hnames Hi) as (k & _ & Hk). eauto.
  - intros Hall. unfold deduplicate_colleges.
    destruct (dedup_loop_returns colleges []) as [seen ->]; [|simpl; eauto].
    intros c Hc. by apply college_name_returns_iff, Hall.
Qed.

End Deduplicator_More.

Lemma deduplicate_colleges_first_seen_order_witness :
  deduplicate_colleges (platform := demo_platform)
    [ [("name", PStr "B")]; [("name", PStr "")]; [("name", PStr "a")];
      [("name", PStr "b"); ("type", PStr "Govt")] ]
  = Return [ [("name", PStr "b"); ("type", PStr "Govt")]; [("name", PStr "a")] ] /\
  exists names,
    for_map college_name
      [ [("name", PStr "B")]; [("name", PStr "")]; [("name", PStr "a")];
        [("name", PStr "b"); ("type", PStr "Govt")] ] = Return names /\
    for_map college_name [ [("name", PStr "b"); ("type", PStr "Govt")]; [("name", PStr "a")] ]
    = Return (first_seen (filter (fun k => k <> "") names)) /\
    2 <= 4.
Proof.
  split; [reflexivity|].
  apply (deduplicate_colleges_first_seen_order (platform := demo_platform)
           [ [("name", PStr "B")]; [("name", PStr "")]; [("name", PStr "a")];
             [("name", PStr "b"); ("type", PStr "Govt")] ]).
  reflexivity.
Defined.

Lemma deduplicate_colleges_idempotent_witness :
  deduplicate_colleges (platform := demo_platform)
    [ [("name", PStr "B")]; [("name", PStr "")]; [("name", PStr "b"); ("type", PStr "Govt")] ]
  = Return [ [("name", PStr "b"); ("type", PStr "Govt")] ] /\
  deduplicate_colleges (platform := demo_platform) [ [("name", PStr "b"); ("type", PStr "Govt")] ]
  = Return [ [("name", PStr "b"); ("type", PStr "Govt")] ].
Proof.
  split; [reflexivity|].
  apply (deduplicate_colleges_idempotent (platform := demo_platform)
           [ [("name", PStr "B")]; [("name", PStr "")]; [("name", PStr "b"); ("type", PStr "Govt")] ]).
  reflexivity.
Defined.

(** ** Text cleaning *)

Module WordFacts.

Lemma fields_cons sep s : exists p ps, PyWords.fields sep s = p :: ps.
Proof.
  induction s as [|c s IH]; simpl; [eauto|].
  destruct (sep c); [eauto|]. destruct IH as (p & ps & ->). eauto.
Qed.

Lemma fields_no_sep sep s :
  Forall (fun w => forall c, c ∈ chars w -> sep c = false) (PyWords.fields sep s).
Proof.
  unfold chars. induction s as [|c s IH]; simpl.
  - constructor; [|constructor]. intros c Hc. by apply elem_of_nil in Hc.
  - destruct (sep c) eqn:E.
    + constructor; [|done]. intros c' Hc. by apply elem_of_nil in Hc.
    + destruct (PyWords.fields sep s) as [|p ps].
      * constructor; [|constructor]. intros c' Hc.
        apply list_elem_of_singleton in Hc. by subst.
      * apply Forall_cons in IH as [Hp Hps]. constructor; [|done].
        intros c' Hc. simpl in Hc. apply elem_of_cons in Hc as [->|Hc]; auto.
Qed.

Lemma split_whitespace_words s : Forall word (PyWords.split_whitespace s).
Proof.
  unfold PyWords.split_whitespace. apply Forall_forall. intros w Hw.
  apply list_elem_of_filter in Hw as [Hne Hw]. split; [by apply is_empty_false|].
  pose proof (fields_no_sep PyStr.is_space s) as Hall.
  rewrite Forall_forall in Hall. by apply Hall.
Qed.

(** A string without separators is one field. *)
Lemma fields_word sep w :
  (forall c, c ∈ chars w -> sep c = false) -> PyWords.fields sep w = [w].
Proof.
  unfold chars. induction w as [|c w IH]; intros Hw; simpl; [done|].
  rewrite (Hw c) by (simpl; apply elem_of_cons; by left).
  rewrite IH; [done|]. intros c' Hc. apply Hw. simpl. apply elem_of_cons. by right.
Qed.

Lemma fields_app_sep sep w c rest :
  (forall c', c' ∈ chars w -> sep c' = false) -> sep c = true ->
  PyWords.fields sep (w ++ String c rest) = w :: PyWords.fields sep rest.
Proof.
  unfold chars. induction w as [|c' w IH]; intros Hw Hc; simpl.
  - by rewrite Hc.
  - rewrite (Hw c') by (simpl; apply elem_of_cons; by left).
    rewrite IH; [done| |done]. intros x Hx. apply Hw. simpl. apply elem_of_cons. by right.
Qed.

Lemma split_whitespace_join ws :
  Forall word ws -> PyWords.split_whitespace (PyWords.join " " ws) = ws.
Proof.
  unfold PyWords.split_whitespace.
  induction ws as [|w ws IH]; intros Hws; [done|].
  apply Forall_cons in Hws as [[Hne Hw] Hws]. destruct ws as [|w' ws].
  - simpl. rewrite fields_word by done. rewrite filter_cons.
    by rewrite decide_True by (by apply is_empty_false).
  - change (PyWords.join " " (w :: w' :: ws))
      with (w ++ String " " (PyWords.join " " (w' :: ws)))%string.
    rewrite fields_app_sep by done. rewrite filter_cons.
    rewrite decide_True by (by apply is_empty_false). by rewrite IH.
Qed.

Lemma split_whitespace_lstrip s :
  PyWords.split_whitespace (PyStr.lstrip s) = PyWords.split_whitespace s.
Proof.
  unfold PyWords.split_whitespace. induction s as [|c s IH]; [done|].
  cbn [PyStr.lstrip]. destruct (PyStr.is_space c) eqn:E; [|done].
  rewrite IH. cbn [PyWords.fields]. rewrite E.
  by rewrite filter_cons, decide_False by done.
Qed.

(** Trimming on the right changes neither the first field nor the words
    after it. *)
Lemma fields_rstrip s :
  exists p ps ps',
    PyWords.fields PyStr.is_space (PyStr.rstrip s) = p :: ps /\
    PyWords.fields PyStr.is_space s = p :: ps' /\
    filter (fun w => PyStr.is_empty w = false) ps
    = filter (fun w => PyStr.is_empty w = false) ps'.
Proof.
  induction s as [|c s IH]; [by exists "", [], []|].
  destruct IH as (p & ps & ps' & Hr & Hs & Hf). simpl.
  destruct (PyStr.is_space c) eqn:E; simpl.
  - destruct (PyStr.is_empty (PyStr.rstrip s)) eqn:Hempty.
    + apply is_empty_true in Hempty. rewrite Hempty in Hr. simpl in Hr.
      injection Hr as <- <-. rewrite Hs. exists "", [], ("" :: ps').
      split; [done|]. split; [done|]. rewrite filter_cons.
      by rewrite decide_False by done.
    + simpl. rewrite E, Hr, Hs. exists "", (p :: ps), (p :: ps').
      split; [done|]. split; [done|]. rewrite !filter_cons. by rewrite Hf.
  - rewrite E, Hr, Hs. by exists (String c p), ps, ps'.
Qed.

Lemma split_whitespace_rstrip s :
  PyWords.split_whitespace (PyStr.rstrip s) = PyWords.split_whitespace s.
Proof.
  unfold PyWords.split_whitespace.
  destruct (fields_rstrip s) as (p & ps & ps' & -> & -> & Hf).
  rewrite !filter_cons. by rewrite Hf.
Qed.

Lemma split_whitespace_strip s :
  PyWords.split_whitespace (PyStr.strip s) = PyWords.split_whitespace s.
Proof. unfold PyStr.strip. by rewrite split_whitespace_rstrip, split_whitespace_lstrip. Qed.

Lemma rstrip_word w : word w -> PyStr.rstrip w = w.
Proof.
  intros [_ Hw]. unfold chars in Hw. induction w as [|c w IH]; [done|]. simpl.
  rewrite (Hw c) by (simpl; apply elem_of_cons; by left). simpl.
  rewrite IH; [done|]. intros c' Hc. apply Hw. simpl. apply elem_of_cons. by right.
Qed.

Lemma rstrip_app a t :
  PyStr.rstrip t <> "" -> PyStr.rstrip (a ++ t) = (a ++ PyStr.rstrip t)%string.
Proof.
  intros Ht. induction a as [|c a IH]; [done|].
  change (String c a ++ t)%string with (String c (a ++ t)).
  change (String c a ++ PyStr.rstrip t)%string with (String c (a ++ PyStr.rstrip t)).
  cbn [PyStr.rstrip]. rewrite IH.
  destruct (a ++ PyStr.rstrip t)%string eqn:E.
  - destruct a; simpl in E; [done|discriminate].
  - simpl. by rewrite andb_false_r.
Qed.

Lemma join_nonempty w ws : w <> "" -> PyWords.join " " (w :: ws) <> "".
Proof.
  intros Hw. destruct ws; simpl; [done|].
  destruct w; [done|discriminate].
Qed.

(** Words joined by single spaces have no whitespace around them. *)
Lemma strip_join ws :
  Forall word ws -> PyStr.strip (PyWords.join " " ws) = PyWords.join " " ws.
Proof.
  intros Hws. assert (Hr : PyStr.rstrip (PyWords.join " " ws) = PyWords.join " " ws).
  { induction ws as [|w ws IH]; [done|].
    apply Forall_cons in Hws as [Hw Hws]. destruct ws as [|w' ws].
    - by apply rstrip_word.
    - change (PyWords.join " " (w :: w' :: ws))
        with (w ++ (String " " (PyWords.join " " (w' :: ws))))%string.
      assert (Hrest : PyStr.rstrip (String " " (PyWords.join " " (w' :: ws)))
                      = String " " (PyWords.join " " (w' :: ws))).
      { cbn [PyStr.rstrip]. rewrite (IH Hws).
        apply Forall_cons in Hws as [[Hne' _] _].
        pose proof (join_nonempty w' ws Hne') as Hj.
        apply is_empty_false in Hj. rewrite Hj. by rewrite andb_false_r. }
      rewrite rstrip_app by (by rewrite Hrest). by rewrite Hrest. }
  unfold PyStr.strip. destruct ws as [|w ws]; [done|].
  apply Forall_cons in Hws as [[Hne Hw] Hws].
  assert (Hl : PyStr.lstrip (PyWords.join " " (w :: ws)) = PyWords.join " " (w :: ws)).
  { destruct w as [|c w]; [done|].
    assert (Hc : PyStr.is_space c = false)
      by (apply Hw; unfold chars; simpl; apply elem_of_cons; by left).
    destruct ws; simpl; by rewrite Hc. }
  by rewrite Hl.
Qed.

End WordFacts.

(** X9. [clean_text] gives the empty string for a falsy value and, for a
    string, its words (the maximal runs without whitespace) joined by single
    spaces, so a text without whitespace at its ends, without a whitespace
    character other than the space and without two spaces in a row. Cleaning
    a cleaned text gives it back. A truthy value that is not a string
    raises. *)
Theorem clean_text_single_spaced text :
  (truthy text = false -> clean_text text = Return "") /\
  (forall s, text = PStr s ->
     let ws := PyWords.split_whitespace s in
     Forall word ws /\
     clean_text text = Return (PyWords.join " " ws) /\
     PyStr.strip (PyWords.join " " ws) = PyWords.join " " ws /\
     clean_text (PStr (PyWords.join " " ws)) = Return (PyWords.join " " ws)) /\
  (truthy text = true -> (forall s, text <> PStr s) -> exists e, clean_text text = Raise e).
Proof.
  split; [|split].
  - intros Hfalsy. unfold clean_text. by rewrite Hfalsy.
  - intros s -> ws. pose proof (WordFacts.split_whitespace_words s) as Hws. fold ws in Hws.
    pose proof (WordFacts.strip_join ws Hws) as Hstrip.
    split; [done|]. split; [|split; [done|]].
    + unfold clean_text. destruct s as [|c s]; [done|].
      cbn [truthy negb PyStr.is_empty]. fold ws. by rewrite Hstrip.
    + unfold clean_text.
      destruct (PyWords.join " " ws) as [|c t] eqn:Hj; [done|].
      cbn [truthy negb PyStr.is_empty].
      rewrite <- Hj in Hstrip |- *.
      rewrite WordFacts.split_whitespace_join by done. by rewrite Hstrip.
  - intros Htruthy Hnot. unfold clean_text. rewrite Htruthy. simpl.
    destruct text; try (eexists; reflexivity). by destruct (Hnot s).
Qed.

Lemma clean_text_single_spaced_witness :
  truthy (PStr ("  Indian   Institute" ++ String "010" "of Technology ")) = true /\
  clean_text (PStr ("  Indian   Institute" ++ String "010" "of Technology "))
  = Return "Indian Institute of Technology" /\
  clean_text (PStr "Indian Institute of Technology") = Return "Indian Institute of Technology" /\
  exists e, clean_text (PInt 7) = Raise e.
Proof.
  split; [reflexivity|]. split; [reflexivity|]. split.
  - apply (proj1 (proj2 (clean_text_single_spaced
                           (PStr ("  Indian   Institute" ++ String "010" "of Technology "))))
             _ eq_refl).
  - apply (proj2 (proj2 (clean_text_single_spaced (PInt 7)))); [reflexivity | discriminate].
Defined.

(** ** The remote reconciler, continued *)

Section Reconciler_More.
Context `{platform : Platform}.

(** X10. [save_to_supabase] acts on the remote store and the log only: the
    configuration, the file system, the calls on the file system layer and
    the name cache are left as they were, whatever the call does. Without
    credentials, or when the client cannot be built, it does not reach the
    remote store either: no call is issued and the store is unchanged. *)
Theorem save_to_supabase_frame w json_data cp sp loc un job :
  let r := save_to_supabase json_data cp sp loc un job w in
  cfg (snd r) = cfg w /\ fs (snd r) = fs w /\ fs_calls (snd r) = fs_calls w /\
  _CSV_NAME_CACHE (snd r) = _CSV_NAME_CACHE w /\
  (truthy_opt (SUPABASE_URL (cfg w)) = false \/ truthy_opt (SUPABASE_KEY (cfg w)) = false \/
   is_Some (client_error (store w)) ->
   store (snd r) = store w /\ exists msg, fst r = Return (false, msg)).
Proof.
  intros r. subst r.
  pose proof (preserves_save_to_supabase
                (fun w => (cfg w, fs w, fs_calls w, _CSV_NAME_CACHE w))
                (fun _ _ => eq_refl) (fun _ _ => eq_refl)
                json_data cp sp loc un job w) as Hframe.
  simpl in Hframe. injection Hframe as Hcfg Hfs Hcalls Hcache.
  split; [done|]. split; [done|]. split; [done|]. split; [done|].
  intros Hoff. unfold save_to_supabase. run.
  destruct (truthy_opt (SUPABASE_URL (cfg w))) eqn:Hu; simpl; [|eauto].
  destruct (truthy_opt (SUPABASE_KEY (cfg w))) eqn:Hk; simpl; [|eauto].
  destruct Hoff as [?|[?|[err Herr]]]; [done|done|].
  unfold create_client. rewrite Herr. unfold on_save_error. run. simpl. eauto.
Qed.

(** The first row of a table that carries the identity of the record. *)
Lemma list_find_same_identity (rows : list sc_row) rd i row :
  rows !! i = Some row -> same_identity rd row ->
  (forall j y, rows !! j = Some y -> j < i -> ~ same_identity rd y) ->
  list_find (same_identity rd) rows = Some (i, row).
Proof. intros. apply list_find_Some. eauto. Qed.

(** X11. In a world whose store answers every call, a second call with the
    same normalized identity finds the row the first call wrote: it adds no
    row and replaces that row's document by its own under the same id, so two
    calls with the same arguments leave the table as the first call left it. *)
Theorem save_to_supabase_twice w json1 cp1 sp1 loc1 un1 job1 json2 cp2 sp2 loc2 un2 job2 :
  healthy w -> ~ blank_location loc1 -> ~ blank_location loc2 ->
  let rd1 := record_for json1 cp1 sp1 loc1 un1 in
  let rd2 := record_for json2 cp2 sp2 loc2 un2 in
  rd_identity rd2 = rd_identity rd1 ->
  let r1 := save_to_supabase json1 cp1 sp1 loc1 un1 job1 w in
  let r2 := save_to_supabase json2 cp2 sp2 loc2 un2 job2 (snd r1) in
  exists i id,
    search_criteria (store (snd r1)) !! i = Some (row_of id rd1) /\
    search_criteria (store (snd r2)) = <[i := row_of id rd2]> (search_criteria (store (snd r1))) /\
    fst r2 = Return (true, ("Updated existing record in Supabase (ID: " ++ pretty id ++ ")")%string) /\
    (rd_llm_json rd2 = rd_llm_json rd1 ->
     search_criteria (store (snd r2)) = search_criteria (store (snd r1))).
Proof.
  intros Hw Hloc1 Hloc2 rd1 rd2 Hid r1 r2.
  destruct (save_to_supabase_healthy w json1 cp1 sp1 loc1 un1 job1 Hw Hloc1)
    as (msg1 & w1 & Hrun1 & Hw1 & Hcase1). fold rd1 in Hcase1.
  subst r1 r2. rewrite Hrun1. simpl.
  assert (Hplaced : exists i id,
            search_criteria (store w1) !! i = Some (row_of id rd1) /\
            list_find (same_identity rd2) (search_criteria (store w1))
            = Some (i, row_of id rd1)).
  { assert (Hsame : forall y, same_identity rd2 y <-> same_identity rd1 y).
    { intros y. unfold same_identity. by rewrite Hid. }
    destruct (list_find (same_identity rd1) (search_criteria (store w))) as [[i row]|] eqn:Hfind.
    - destruct Hcase1 as (_ & Hrows1 & _).
      apply list_find_Some in Hfind as (Hi & Hrow & Hfirst).
      exists i, (sc_id row). rewrite Hrows1.
      assert (Hat : <[i:=row_of (sc_id row) rd1]> (search_criteria (store w)) !! i
                    = Some (row_of (sc_id row) rd1))
        by (apply list_lookup_insert_eq; by eapply lookup_lt_Some).
      split; [done|]. apply list_find_same_identity; [done|by apply Hsame|].
      intros j y Hj Hlt. rewrite list_lookup_insert_ne in Hj by lia.
      rewrite Hsame. by eapply Hfirst.
    - destruct Hcase1 as (_ & Hrows1 & _).
      apply list_find_None in Hfind. rewrite Forall_forall in Hfind.
      exists (length (search_criteria (store w))), (next_id (store w)). rewrite Hrows1.
      assert (Hat : (search_criteria (store w) ++ [row_of (next_id (store w)) rd1])
                      !! length (search_criteria (store w))
                    = Some (row_of (next_id (store w)) rd1))
        by (rewrite lookup_app_r by lia; by rewrite Nat.sub_diag).
      split; [done|]. apply list_find_same_identity; [done|by apply Hsame|].
      intros j y Hj Hlt. rewrite lookup_app_l in Hj by done.
      rewrite Hsame. apply Hfind. apply list_elem_of_lookup. eauto. }
  destruct Hplaced as (i & id & Hi & Hfind2).
  destruct (save_to_supabase_healthy w1 json2 cp2 sp2 loc2 un2 job2 Hw1 Hloc2)
    as (msg2 & w2 & Hrun2 & _ & Hcase2). fold rd2 in Hcase2.
  rewrite Hfind2 in Hcase2. simpl in Hcase2. destruct Hcase2 as (-> & Hrows2 & _).
  rewrite Hrun2. simpl. exists i, id. split; [done|]. split; [done|]. split; [done|].
  intros Hdoc. rewrite Hrows2. apply list_insert_id. rewrite Hi. f_equal.
  unfold rd_identity in Hid. unfold row_of. f_equal; simpl in *; congruence.
Qed.

(** The outermost handler: it returns failure with its message, leaves the
    table alone and, with a client and a job id, tries to mark the job. *)
Lemma on_save_error_run has_client job e w :
  exists w',
    on_save_error has_client job e w = (Return (false, save_error (exn_str e)), w') /\
    search_criteria (store w') = search_criteria (store w) /\
    next_id (store w') = next_id (store w) /\
    (has_client = true -> forall id, job = Some id -> id <> "" ->
       remote_calls (store w')
       = JobUpdate id false (save_error (exn_str e)) :: remote_calls (store w)) /\
    (has_client = false \/ truthy_opt job = false -> store w' = store w).
Proof.
  unfold on_save_error. run. world_simpl.
  destruct has_client; simpl.
  - destruct job as [id|]; simpl; [|eexists; split; [reflexivity|]; world_simpl; naive_solver].
    destruct (PyStr.is_empty id) eqn:Hid; simpl.
    + apply is_empty_true in Hid. subst id.
      eexists. split; [reflexivity|]. world_simpl. naive_solver.
    + unfold update_scrape_job, issue. run. world_simpl.
      destruct (faults (store w)) as [|[| |] l]; world_simpl;
        (eexists; split; [reflexivity|]; world_simpl;
         split; [done|]; split; [done|]; split; [by intros _ id' [= <-] _|];
         intros [?|?]; done).
  - eexists. split; [reflexivity|]. world_simpl. naive_solver.
Qed.

(** Uses what is known of the next [on_save_error] in the goal. *)
Ltac run_on_save_error w' Hrows Hnext Hjob Hnojob :=
  match goal with
  | |- context [on_save_error ?c ?j ?e ?W] =>
      let Hrun := fresh "Hrun" in
      destruct (on_save_error_run c j e W) as (w' & Hrun & Hrows & Hnext & Hjob & Hnojob);
      rewrite Hrun; clear Hrun
  end.

Lemma save_to_supabase_remote_failure_run w json_data cp sp loc un job msg rest :
  connected w -> ~ blank_location loc ->
  faults (store w) = Fails msg :: rest \/ faults (store w) = Healthy :: Fails msg :: rest ->
  exists w',
    save_to_supabase json_data cp sp loc un job w = (Return (false, save_error msg), w') /\
    search_criteria (store w') = search_criteria (store w) /\
    next_id (store w') = next_id (store w) /\
    (forall id, job = Some id -> id <> "" ->
       head (remote_calls (store w')) = Some (JobUpdate id false (save_error msg))).
Proof.
  intros (Hu & Hk & Hc) Hloc Hfaults.
  apply not_blank_location in Hloc.
  unfold save_to_supabase. rewrite Hloc.
  unfold bind at 1. unfold read_config. simpl. rewrite Hu, Hk. simpl.
  unfold try_except at 1. unfold bind at 1. unfold create_client. rewrite Hc.
  unfold try_except at 1. unfold try_except at 1. unfold bind at 1.
  unfold select_search_criteria at 1. unfold bind at 1. unfold issue at 1.
  world_simpl. destruct Hfaults as [Hf|Hf]; rewrite Hf.
  - unfold raise at 1. unfold bind at 1. unfold logger at 1. unfold raise at 1.
    run_on_save_error w' Hrows Hnext Hjob Hnojob. world_simpl.
    exists w'. split; [done|]. split; [done|]. split; [done|].
    intros id Hid Hne. by rewrite (Hjob eq_refl id Hid Hne).
  - world_simpl.
    destruct (take 1 _) as [|row tail] eqn:Hsel.
    + run. unfold insert_search_criteria, issue. run. world_simpl.
      run_on_save_error w' Hrows Hnext Hjob Hnojob. world_simpl.
      exists w'. split; [done|]. split; [done|]. split; [done|].
      intros id Hid Hne. by rewrite (Hjob eq_refl id Hid Hne).
    + run. destruct (negb (sc_id row =? 0)%Z).
      * unfold update_search_criteria, issue. run. world_simpl.
        run_on_save_error w' Hrows Hnext Hjob Hnojob. world_simpl.
        exists w'. split; [done|]. split; [done|]. split; [done|].
        intros id Hid Hne. by rewrite (Hjob eq_refl id Hid Hne).
      * unfold insert_search_criteria, issue. run. world_simpl.
        run_on_save_error w' Hrows Hnext Hjob Hnojob. world_simpl.
        exists w'. split; [done|]. split; [done|]. split; [done|].
        intros id Hid Hne. by rewrite (Hjob eq_refl id Hid Hne).
Qed.

(** X12. When the remote store refuses the select, or answers it and
    refuses the update or insert that follows, [save_to_supabase] does not
    raise: it returns failure with the message of the error, leaves the table
    as it was and, when a job id is given, issues the update that marks the
    job as failed. *)
Theorem save_to_supabase_remote_failure w json_data cp sp loc un job msg rest :
  connected w -> ~ blank_location loc ->
  faults (store w) = Fails msg :: rest \/ faults (store w) = Healthy :: Fails msg :: rest ->
  let r := save_to_supabase json_data cp sp loc un job w in
  fst r = Return (false, save_error msg) /\
  search_criteria (store (snd r)) = search_criteria (store w) /\
  next_id (store (snd r)) = next_id (store w) /\
  (forall id, job = Some id -> id <> "" ->
     head (remote_calls (store (snd r))) = Some (JobUpdate id false (save_error msg))).
Proof.
  intros Hw Hloc Hfaults r. subst r.
  destruct (save_to_supabase_remote_failure_run w json_data cp sp loc un job msg rest
              Hw Hloc Hfaults) as (w' & -> & H).
  split; [done|]. exact H.
Qed.

(** Uses what is known of the next [_update_job_status] in the goal. *)
Ltac run_status w2 Hsame :=
  match goal with
  | |- context [_update_job_status ?j ?s ?m ?W] =>
      let Hrun := fresh "Hrun" in
      destruct (update_job_status_run W j s m) as (w2 & Hrun & Hsame);
      rewrite Hrun; clear Hrun
  end.

Lemma save_to_supabase_answered_run w json_data cp sp loc un job rest :
  connected w -> ~ blank_location loc ->
  faults (store w) = Healthy :: Healthy :: rest ->
  let outcome := reconcile_outcome (search_criteria (store w)) (next_id (store w))
                   (record_for json_data cp sp loc un) in
  exists w',
    save_to_supabase json_data cp sp loc un job w = (Return (fst outcome), w') /\
    search_criteria (store w') = snd outcome.
Proof.
  intros (Hu & Hk & Hc) Hloc Hfaults outcome. subst outcome.
  apply not_blank_location in Hloc.
  unfold save_to_supabase. rewrite Hloc.
  unfold bind at 1. unfold read_config. simpl. rewrite Hu, Hk. simpl.
  unfold try_except at 1. unfold bind at 1. unfold create_client. rewrite Hc.
  unfold try_except at 1. unfold try_except at 1. unfold bind at 1.
  fold (record_for json_data cp sp loc un).
  change (_apply_filter _ Location _)
    with (identity_filters (record_for json_data cp sp loc un)).
  unfold select_search_criteria at 1. unfold bind at 1. unfold issue at 1.
  world_simpl. rewrite Hfaults. world_simpl. unfold reconcile_outcome.
  destruct (take 1 _) as [|row tail] eqn:Hsel.
  - run. unfold insert_search_criteria, issue. run. world_simpl.
    run_status w2 Hsame. destruct Hsame as (_ & Hrows & _). world_simpl.
    by exists w2.
  - run. destruct (negb (sc_id row =? 0)%Z).
    + unfold update_search_criteria, issue. run. world_simpl.
      run_status w2 Hsame. destruct Hsame as (_ & Hrows & _). world_simpl.
      by exists w2.
    + unfold insert_search_criteria, issue. run. world_simpl.
      run_status w2 Hsame. destruct Hsame as (_ & Hrows & _). world_simpl.
      by exists w2.
Qed.

Lemma reconcile_outcome_success rows next rd : fst (fst (reconcile_outcome rows next rd)) = true.
Proof.
  unfold reconcile_outcome. destruct (take 1 _) as [|row ?]; [done|].
  by destruct (negb _).
Qed.

(** X13. When the select and the update or insert are answered, what
    [save_to_supabase] returns and leaves in the table does not depend on the
    fate of the job-status update that follows: that update may raise or stay
    silent, the call still reports the success of the write. *)
Theorem save_to_supabase_status_best_effort w json_data cp sp loc un job rest :
  connected w -> ~ blank_location loc ->
  faults (store w) = Healthy :: Healthy :: rest ->
  let r := save_to_supabase json_data cp sp loc un job w in
  let outcome := reconcile_outcome (search_criteria (store w)) (next_id (store w))
                   (record_for json_data cp sp loc un) in
  fst r = Return (fst outcome) /\
  search_criteria (store (snd r)) = snd outcome /\
  fst (fst outcome) = true.
Proof.
  intros Hw Hloc Hfaults r outcome. subst r outcome.
  destruct (save_to_supabase_answered_run w json_data cp sp loc un job rest
              Hw Hloc Hfaults) as (w' & -> & H).
  split; [done|]. split; [done|]. apply reconcile_outcome_success.
Qed.

End Reconciler_More.

Lemma save_to_supabase_twice_witness :
  healthy (demo_world false demo_rows 3) /\
  ~ blank_location (Some "kolkata") /\ ~ blank_location (Some " Kolkata ") /\
  rd_identity (record_for (platform := demo_platform) (demo_doc "B") (Some "Engineering ") (Some "") (Some " Kolkata ") None)
  = rd_identity (record_for (platform := demo_platform) (demo_doc "A") (Some "engineering") None (Some "kolkata") None) /\
  exists (i : nat) id,
    search_criteria
      (store (snd (save_to_supabase (platform := demo_platform) (demo_doc "B")
                     (Some "Engineering ") (Some "") (Some " Kolkata ") None None
                     (snd (save_to_supabase (platform := demo_platform) (demo_doc "A")
                             (Some "engineering") None (Some "kolkata") None None
                             (demo_world false demo_rows 3))))))
    = <[i := row_of id (record_for (platform := demo_platform) (demo_doc "B")
                          (Some "Engineering ") (Some "") (Some " Kolkata ") None)]>
        (search_criteria
           (store (snd (save_to_supabase (platform := demo_platform) (demo_doc "A")
                          (Some "engineering") None (Some "kolkata") None None
                          (demo_world false demo_rows 3))))).
Proof.
  assert (H1 : ~ blank_location (Some "kolkata")) by (unfold blank_location; vm_compute; discriminate).
  assert (H2 : ~ blank_location (Some " Kolkata ")) by (unfold blank_location; vm_compute; discriminate).
  split; [apply demo_world_healthy|]. split; [exact H1|]. split; [exact H2|].
  split; [reflexivity|].
  destruct (save_to_supabase_twice (platform := demo_platform) (demo_world false demo_rows 3)
              (demo_doc "A") (Some "engineering") None (Some "kolkata") None None
              (demo_doc "B") (Some "Engineering ") (Some "") (Some " Kolkata ") None None
              (demo_world_healthy false) H1 H2 eq_refl) as (i & id & _ & Hrows & _ & _).
  exists i, id. exact Hrows.
Defined.

(** *** A remote store that fails *)

Lemma save_to_supabase_remote_failure_witness :
  connected (with_store (with_faults [Fails "timeout"] (demo_remote demo_rows 3))
               (demo_world false demo_rows 3)) /\
  ~ blank_location (Some "Delhi") /\
  let r := save_to_supabase (platform := demo_platform) (demo_doc "A")
             (Some "Engineering") None (Some "Delhi") None (Some "job-1")
             (with_store (with_faults [Fails "timeout"] (demo_remote demo_rows 3))
                (demo_world false demo_rows 3)) in
  fst r = Return (false, "Error saving to Supabase: timeout") /\
  search_criteria (store (snd r)) = demo_rows /\
  head (remote_calls (store (snd r)))
  = Some (JobUpdate "job-1" false "Error saving to Supabase: timeout").
Proof.
  assert (Hc : connected (with_store (with_faults [Fails "timeout"] (demo_remote demo_rows 3))
                            (demo_world false demo_rows 3))) by (by repeat split).
  assert (Hl : ~ blank_location (Some "Delhi")) by (unfold blank_location; vm_compute; discriminate).
  split; [exact Hc|]. split; [exact Hl|].
  destruct (save_to_supabase_remote_failure (platform := demo_platform) _ (demo_doc "A")
              (Some "Engineering") None (Some "Delhi") None (Some "job-1") "timeout" []
              Hc Hl (or_introl eq_refl)) as (Hret & Hrows & _ & Hjob).
  split; [exact Hret|]. split; [exact Hrows|]. apply Hjob; [reflexivity|discriminate].
Defined.

Lemma save_to_supabase_status_best_effort_witness :
  connected (with_store (with_faults [Healthy; Healthy; Fails "timeout"] (demo_remote demo_rows 3))
               (demo_world false demo_rows 3)) /\
  ~ blank_location (Some "Delhi") /\
  fst (save_to_supabase (platform := demo_platform) (demo_doc "A")
         (Some "Engineering") None (Some "Delhi") None (Some "job-1")
         (with_store (with_faults [Healthy; Healthy; Fails "timeout"] (demo_remote demo_rows 3))
            (demo_world false demo_rows 3)))
  = Return (true, "Updated existing record in Supabase (ID: 2)").
Proof.
  assert (Hc : connected (with_store (with_faults [Healthy; Healthy; Fails "timeout"]
                                        (demo_remote demo_rows 3))
                            (demo_world false demo_rows 3))) by (by repeat split).
  assert (Hl : ~ blank_location (Some "Delhi")) by (unfold blank_location; vm_compute; discriminate).
  split; [exact Hc|]. split; [exact Hl|].
  destruct (save_to_supabase_status_best_effort (platform := demo_platform) _ (demo_doc "A")
              (Some "Engineering") None (Some "Delhi") None (Some "job-1") [Fails "timeout"]
              Hc Hl eq_refl) as (Hret & _ & _).
  exact Hret.
Defined.

(** ** The JSON snapshot *)

(** Uses what is known of the next [os_makedirs] in the goal. *)
Ltac run_mkdir Hdir w1 Hcfg Hlog Hcache Hstore Hfiles Hdenied Hunreadable Hin :=
  match goal with
  | |- context [os_makedirs ?d ?W] =>
      let Hrun := fresh "Hrun" in
      destruct (makedirs_run W d Hdir)
        as (w1 & Hrun & Hcfg & Hlog & Hcache & Hstore & Hfiles & Hdenied & Hunreadable & Hin);
      rewrite Hrun; clear Hrun
  end.

Section Snapshot.
Context `{platform : Platform}.

(** [save_to_supabase] returns a pair from every world and leaves the file
    system alone. *)
Lemma save_to_supabase_returns_local json_data cp sp loc un job w :
  exists result w',
    save_to_supabase json_data cp sp loc un job w = (Return result, w') /\
    fs w' = fs w /\ cfg w' = cfg w.
Proof.
  destruct (never_raises_save_to_supabase json_data cp sp loc un job w) as [result Hres].
  pose proof (save_to_supabase_local json_data cp sp loc un job w) as Hloc.
  pose proof (preserves_save_to_supabase cfg (fun _ _ => eq_refl) (fun _ _ => eq_refl)
                json_data cp sp loc un job w) as Hcfg.
  destruct (save_to_supabase json_data cp sp loc un job w) as [o w'].
  simpl in *. subst o. exists result, w'. split; [done|].
  unfold local_view in Hloc. simpl in Hloc. split; [congruence|done].
Qed.

(** X14. Outside of serverless mode, with a batch that the deduplicator and
    the transformer accept and a path that can be written, [save_to_json]
    returns the path and leaves there one document, the transformed records
    under the key [colleges], in place of what the file held; every other
    file is as it was. Neither depends on the push to the remote store, which
    may be asked for or not, and succeed or fail. *)
Theorem save_to_json_writes_envelope w data output_dir filename push cp sp loc un job
    unique transformed :
  SERVERLESS_MODE (cfg w) = false ->
  data <> [] -> deduplicate_colleges data = Return unique ->
  transform_college_data unique = Return transformed ->
  can_append w output_dir filename ->
  let filepath := PyStr.path_join output_dir filename in
  let r := save_to_json data output_dir filename push cp sp loc un job w in
  fst r = Return (Some filepath) /\
  fs_files (fs (snd r)) !! filepath
  = Some [JsonText (PDict [("colleges", PList (PDict <$> transformed))])] /\
  (forall p, p <> filepath -> fs_files (fs (snd r)) !! p = fs_files (fs w) !! p) /\
  (push = false -> store (snd r) = store w).
Proof.
  intros Hmode Hdata Hunique Htransformed [Hdir Hfile] filepath r. subst r filepath.
  unfold save_to_json. destruct data as [|c data]; [done|]. run.
  rewrite Hunique, Htransformed. world_simpl. rewrite Hmode. simpl.
  run_mkdir Hdir w1 Hcfg Hlog Hcache Hstore Hfiles Hdenied Hunreadable Hin.
  unfold write_file. world_simpl. rewrite Hdenied.
  rewrite decide_False by done. world_simpl.
  destruct push.
  - match goal with
    | |- context [save_to_supabase ?j ?a ?b ?c ?d ?e ?W] =>
        destruct (save_to_supabase_returns_local j a b c d e W)
          as ([ok msg] & w3 & Hsave & Hfs & _)
    end.
    rewrite Hsave. simpl. world_simpl.
    assert (Hw3 : fs_files (fs w3)
                  = <[PyStr.path_join output_dir filename :=
                        [JsonText (PDict [("colleges", PList (PDict <$> transformed))])]]>
                      (fs_files (fs w))).
    { rewrite Hfs. world_simpl. by rewrite Hfiles. }
    destruct ok; world_simpl; rewrite Hw3;
      (split; [done|]; split; [by rewrite lookup_insert_eq|];
       split; [by intros p Hp; rewrite lookup_insert_ne|done]).
  - world_simpl. rewrite Hfiles.
    split; [done|]. split; [by rewrite lookup_insert_eq|].
    split; [by intros p Hp; rewrite lookup_insert_ne|done].
Qed.

(** A call that succeeds in a healthy world leaves a row of the identity of
    the call that holds the document. *)
Lemma save_to_supabase_leaves_row w doc cp sp loc un job :
  healthy w -> ~ blank_location loc ->
  exists row,
    row ∈ search_criteria (store (snd (save_to_supabase (PDict doc) cp sp loc un job w))) /\
    same_identity (record_for (PDict doc) cp sp loc un) row /\
    sc_llm_json row = PDict doc.
Proof.
  intros Hw Hloc.
  destruct (save_to_supabase_healthy w (PDict doc) cp sp loc un job Hw Hloc)
    as (msg & w' & Hrun & _ & Hcase).
  rewrite Hrun. simpl.
  destruct (list_find _ _) as [[i row]|] eqn:Hfind.
  - destruct Hcase as (_ & Hrows & _).
    apply list_find_Some in Hfind as (Hi & _ & _).
    exists (row_of (sc_id row) (record_for (PDict doc) cp sp loc un)).
    split; [|split; [apply identity_row_of|done]].
    rewrite Hrows. apply list_elem_of_lookup. exists i.
    apply list_lookup_insert_eq. by eapply lookup_lt_Some.
  - destruct Hcase as (_ & Hrows & _).
    exists (row_of (next_id (store w)) (record_for (PDict doc) cp sp loc un)).
    split; [|split; [apply identity_row_of|done]].
    rewrite Hrows. apply elem_of_app. right. by apply list_elem_of_singleton.
Qed.

(** X15. With the push asked for, a healthy remote store and a location
    that is not blank, [save_to_json] leaves in the table a row of the
    identity of the call whose document is the one it writes to the file:
    the transformed records under the key [colleges]. The push does not
    depend on the file: it happens in serverless mode as well, where no file
    is written and [None] is returned. *)
Theorem save_to_json_pushes_envelope w data output_dir filename cp sp loc un job
    unique transformed :
  data <> [] -> deduplicate_colleges data = Return unique ->
  transform_college_data unique = Return transformed ->
  healthy w -> ~ blank_location loc ->
  SERVERLESS_MODE (cfg w) = true \/ can_append w output_dir filename ->
  let doc := [("colleges", PList (PDict <$> transformed))] in
  let r := save_to_json data output_dir filename true cp sp loc un job w in
  (exists o, fst r = Return o /\ (SERVERLESS_MODE (cfg w) = true -> o = None)) /\
  exists row,
    row ∈ search_criteria (store (snd r)) /\
    same_identity (record_for (PDict doc) cp sp loc un) row /\
    sc_llm_json row = PDict doc.
Proof.
  intros Hdata Hunique Htransformed Hw Hloc Hmode doc r. subst r doc.
  unfold save_to_json. destruct data as [|c data]; [done|]. run.
  rewrite Hunique, Htransformed. world_simpl.
  destruct (SERVERLESS_MODE (cfg w)) eqn:Hserverless; simpl.
  - match goal with
    | |- context [save_to_supabase ?j ?a ?b ?c ?d ?e ?W] =>
        assert (HW : healthy W) by exact Hw;
        destruct (save_to_supabase_leaves_row W [("colleges", PList (PDict <$> transformed))]
                    a b c d e HW Hloc) as (row & Hin & Hid & Hdoc);
        destruct (save_to_supabase_returns_local j a b c d e W)
          as ([ok msg] & w3 & Hsave & _ & _)
    end.
    rewrite Hsave in *. simpl in Hin. simpl.
    split; [destruct ok; simpl; eauto|].
    exists row. by destruct ok.
  - destruct Hmode as [|[Hdir Hfile]]; [done|].
    run_mkdir Hdir w1 Hcfg Hlog Hcache Hstore Hfiles Hdenied Hunreadable Hin1.
    unfold write_file. world_simpl. rewrite Hdenied.
    rewrite decide_False by done. world_simpl.
    match goal with
    | |- context [save_to_supabase ?j ?a ?b ?c ?d ?e ?W] =>
        assert (HW : healthy W)
          by (unfold healthy in *; world_simpl; by rewrite Hcfg, Hstore);
        destruct (save_to_supabase_leaves_row W [("colleges", PList (PDict <$> transformed))]
                    a b c d e HW Hloc) as (row & Hin & Hid & Hdoc);
        destruct (save_to_supabase_returns_local j a b c d e W)
          as ([ok msg] & w3 & Hsave & _ & _)
    end.
    rewrite Hsave in *. simpl in Hin. simpl.
    split; [destruct ok; simpl; eexists; (split; [done|]); done|].
    exists row. by destruct ok.
Qed.

End Snapshot.

Lemma save_to_json_writes_envelope_witness :
  SERVERLESS_MODE (cfg (demo_world false demo_rows 3)) = false /\
  [demo_record] <> [] /\
  can_append (demo_world false demo_rows 3) "data" "colleges.json" /\
  let r := save_to_json (platform := demo_platform) [demo_record] "data" "colleges.json" true
             (Some "Engineering") None None None None (demo_world false demo_rows 3) in
  fst r = Return (Some "data/colleges.json") /\
  exists transformed,
    transform_college_data (platform := demo_platform) [demo_record] = Return transformed /\
    fs_files (fs (snd r)) !! "data/colleges.json"
    = Some [JsonText (PDict [("colleges", PList (PDict <$> transformed))])].
Proof.
  assert (Hcan : can_append (demo_world false demo_rows 3) "data" "colleges.json").
  { split; [right|]; vm_compute; set_solver. }
  assert (Hdata : [demo_record] <> []) by discriminate.
  split; [reflexivity|]. split; [exact Hdata|]. split; [exact Hcan|].
  destruct (transform_college_data (platform := demo_platform) [demo_record])
    as [transformed|e] eqn:Ht; [|by vm_compute in Ht].
  destruct (save_to_json_writes_envelope (platform := demo_platform)
              (demo_world false demo_rows 3) [demo_record] "data" "colleges.json" true
              (Some "Engineering") None None None None [demo_record] transformed
              eq_refl Hdata eq_refl Ht Hcan) as (Hret & Hfile & _ & _).
  split; [exact Hret|]. exists transformed. split; [reflexivity|exact Hfile].
Defined.

Lemma save_to_json_pushes_envelope_witness :
  [demo_record] <> [] /\
  healthy (demo_world true demo_rows 3) /\
  ~ blank_location (Some "delhi ") /\
  SERVERLESS_MODE (cfg (demo_world true demo_rows 3)) = true /\
  let r := save_to_json (platform := demo_platform) [demo_record] "data" "colleges.json" true
             (Some "engineering") None (Some "delhi ") None None (demo_world true demo_rows 3) in
  fst r = Return None /\
  exists transformed row,
    transform_college_data (platform := demo_platform) [demo_record] = Return transformed /\
    row ∈ search_criteria (store (snd r)) /\
    sc_location row = Some "Delhi" /\
    sc_llm_json row = PDict [("colleges", PList (PDict <$> transformed))].
Proof.
  assert (Hdata : [demo_record] <> []) by discriminate.
  split; [exact Hdata|]. split; [apply demo_world_healthy|].
  split; [apply delhi_not_blank|]. split; [reflexivity|].
  destruct (transform_college_data (platform := demo_platform) [demo_record])
    as [transformed|e] eqn:Ht; [|by vm_compute in Ht].
  destruct (save_to_json_pushes_envelope (platform := demo_platform)
              (demo_world true demo_rows 3) [demo_record] "data" "colleges.json"
              (Some "engineering") None (Some "delhi ") None None [demo_record] transformed
              Hdata eq_refl Ht (demo_world_healthy true) delhi_not_blank (or_introl eq_refl))
    as ([o [Hret Hnone]] & row & Hin & Hid & Hdoc).
  split; [by rewrite Hret, (Hnone eq_refl)|].
  exists transformed, row. split; [reflexivity|]. split; [exact Hin|]. split; [|exact Hdoc].
  unfold same_identity, identity, rd_identity in Hid.
  injection Hid as _ _ _ Hl. rewrite Hl. reflexivity.
Defined.

(** ** The names of a CSV file *)

Section Names_Of_Rows.
Context `{platform : Platform}.

Lemma add_row_name_elem expected i names row n :
  n ∈ add_row_name expected i names row <->
  n ∈ names \/
  exists cell, length row = expected /\ row !! i = Some cell /\
               PyStr.strip cell <> "" /\ n = PyStr.lower (PyStr.strip cell).
Proof.
  unfold add_row_name. destruct row as [|c row].
  - split; [by left|]. intros [|(cell & _ & Hc & _)]; done.
  - destruct (length (c :: row) =? expected)%nat eqn:Hlen; simpl negb; cbv iota.
    + apply Nat.eqb_eq in Hlen.
      destruct ((c :: row) !! i) as [cell|] eqn:Hcell.
      * destruct (PyStr.is_empty (PyStr.strip cell)) eqn:He; simpl negb; cbv iota.
        -- apply is_empty_true in He. split; [by left|].
           intros [|(cell' & _ & [= <-] & Hne & _)]; done.
        -- apply is_empty_false in He. rewrite elem_of_union, elem_of_singleton.
           split.
           ++ intros [->|]; [right; by exists cell|by left].
           ++ intros [|(cell' & _ & [= <-] & _ & ->)]; [by right|by left].
      * split; [by left|]. intros [|(cell & _ & Hc & _)]; done.
    + apply Nat.eqb_neq in Hlen. split; [by left|].
      intros [|(cell & Hl & _)]; done.
Qed.

Lemma foldl_add_row_name_elem expected i rows : forall names n,
  n ∈ foldl (add_row_name expected i) names rows <->
  n ∈ names \/
  exists row cell, row ∈ rows /\ length row = expected /\ row !! i = Some cell /\
                   PyStr.strip cell <> "" /\ n = PyStr.lower (PyStr.strip cell).
Proof.
  induction rows as [|row rows IH]; intros names n; simpl.
  - split; [by left|]. intros [|(row & cell & Hin & _)]; [done|].
    by apply elem_of_nil in Hin.
  - rewrite IH, add_row_name_elem. split.
    + intros [[|(cell & H)]|(row' & cell & Hin & H)].
      * by left.
      * right. exists row, cell. split; [apply list_elem_of_here|done].
      * right. exists row', cell. split; [by apply list_elem_of_further|done].
    + intros [|(row' & cell & Hin & H)]; [by left; left|].
      apply elem_of_cons in Hin as [->|Hin].
      * left. right. by exists cell.
      * right. by exists row', cell.
Qed.

(** X16. The names [_read_college_names_from_csv] collects from the rows
    of a file are exactly the cells of the name column, stripped and in lower
    case, of the data rows that are as long as the header and whose cell is
    not blank; the name column is the first one whose stripped title is
    [College Name], and without a header or without that column there are no
    names. The empty name is never collected. *)
Theorem names_of_rows_spec rows n :
  (n ∈ names_of_rows rows <-> named_in rows n) /\ "" ∉ names_of_rows rows.
Proof.
  assert (Hspec : forall m, m ∈ names_of_rows rows <-> named_in rows m).
  { intros m. unfold names_of_rows, named_in. destruct rows as [|header data_rows].
    - split; [by intros ?%not_elem_of_empty|]. by intros (? & ? & ? & ? & ? & ? & _).
    - destruct header as [|h header].
      + split; [by intros ?%not_elem_of_empty|].
        by intros (? & ? & ? & ? & ? & [= <- <-] & ? & _).
      + destruct (index_of "College Name" (PyStr.strip <$> h :: header)) as [i|] eqn:Hi.
        * rewrite foldl_add_row_name_elem, length_fmap. split.
          -- intros [?%not_elem_of_empty|(row & cell & H)]; [done|].
             by exists (h :: header), data_rows, i, row, cell.
          -- intros (hd & dr & j & row & cell & [= <- <-] & Hj & H).
             rewrite Hi in Hj. injection Hj as <-. right. by exists row, cell.
        * split; [by intros ?%not_elem_of_empty|].
          intros (hd & dr & j & row & cell & [= <- <-] & Hj & _). by rewrite Hi in Hj. }
  split; [apply Hspec|].
  intros (header & data_rows & i & row & cell & _ & _ & _ & _ & _ & Hne & Hn)%Hspec.
  destruct (PyStr.strip cell) as [|c t]; [done|]. discriminate.
Qed.

End Names_Of_Rows.

(** ** The incremental writers, continued *)

Section Append_More.
Context `{platform : Platform}.

(** X17. Outside of serverless mode, a record whose [College Name] is not
    a string (a null, a number, a list) is not written by [append_to_csv]:
    the attribute error of [strip] is caught, the call returns [False], and
    the files and the name cache are as they were. *)
Theorem append_to_csv_name_not_text w data output_dir filename v :
  SERVERLESS_MODE (cfg w) = false ->
  can_makedirs w output_dir ->
  Dict.lookup data "College Name" = Some v -> (forall s, v <> PStr s) ->
  let r := append_to_csv data output_dir filename w in
  fst r = Return false /\
  fs_files (fs (snd r)) = fs_files (fs w) /\
  _CSV_NAME_CACHE (snd r) = _CSV_NAME_CACHE w /\
  head (log (snd r))
  = Some (ERROR, ("Failed to append to CSV: object has no attribute 'strip'")%string).
Proof.
  intros Hmode Hdir Hlookup Hv r. subst r.
  unfold append_to_csv. run. rewrite Hmode.
  run_mkdir Hdir w1 Hcfg Hlog Hcache Hstore Hfiles Hdenied Hunreadable Hin.
  unfold csv_identity, get. rewrite Hlookup.
  destruct v as [|b|z|s|l|d]; try (by world_simpl).
  by destruct (Hv s).
Qed.

(** One call of [append_to_jsonl] on a path that can be written. *)
Lemma append_to_jsonl_run w d output_dir filename :
  SERVERLESS_MODE (cfg w) = false -> can_append w output_dir filename ->
  let filepath := PyStr.path_join output_dir filename in
  exists w',
    append_to_jsonl d output_dir filename w = (Return true, w') /\
    fs_files (fs w')
    = <[filepath := default [] (fs_files (fs w) !! filepath) ++ [JsonText (PDict d)]]>
        (fs_files (fs w)) /\
    _CSV_NAME_CACHE w' = _CSV_NAME_CACHE w /\ cfg w' = cfg w /\
    fs_unreadable (fs w') = fs_unreadable (fs w) /\
    can_append w' output_dir filename.
Proof.
  intros Hmode [Hdir Hfile] filepath. subst filepath.
  unfold append_to_jsonl. run. rewrite Hmode.
  run_mkdir Hdir w1 Hcfg Hlog Hcache Hstore Hfiles Hdenied Hunreadable Hin.
  unfold append_file. world_simpl. rewrite Hdenied.
  rewrite decide_False by done. world_simpl.
  eexists. split; [reflexivity|]. world_simpl. rewrite Hfiles.
  split; [done|]. split; [done|]. split; [done|]. split; [done|].
  unfold can_append. world_simpl. split; [by left|]. by rewrite Hdenied.
Qed.

(** X18. [append_to_jsonl] has no duplicate check: outside of serverless
    mode, with a path that can be written, two calls in a row each return
    [True] and each add one line holding the record, so a record given twice
    is in the file twice. The name cache is not consulted or changed, and
    every other file is as it was. *)
Theorem append_to_jsonl_appends w d1 d2 output_dir filename :
  SERVERLESS_MODE (cfg w) = false ->
  can_append w output_dir filename ->
  let filepath := PyStr.path_join output_dir filename in
  let old := default [] (fs_files (fs w) !! filepath) in
  let r1 := append_to_jsonl d1 output_dir filename w in
  let r2 := append_to_jsonl d2 output_dir filename (snd r1) in
  fst r1 = Return true /\ fst r2 = Return true /\
  fs_files (fs (snd r1)) !! filepath = Some (old ++ [JsonText (PDict d1)]) /\
  fs_files (fs (snd r2)) !! filepath
  = Some (old ++ [JsonText (PDict d1); JsonText (PDict d2)]) /\
  (forall p, p <> filepath -> fs_files (fs (snd r2)) !! p = fs_files (fs w) !! p) /\
  _CSV_NAME_CACHE (snd r2) = _CSV_NAME_CACHE w.
Proof.
  intros Hmode Hcan filepath old r1 r2.
  destruct (append_to_jsonl_run w d1 output_dir filename Hmode Hcan)
    as (w1 & Hrun1 & Hfiles1 & Hcache1 & Hcfg1 & _ & Hcan1).
  assert (Hmode1 : SERVERLESS_MODE (cfg w1) = false) by (by rewrite Hcfg1).
  destruct (append_to_jsonl_run w1 d2 output_dir filename Hmode1 Hcan1)
    as (w2 & Hrun2 & Hfiles2 & Hcache2 & _ & _).
  subst r2 r1 old filepath. rewrite Hrun1. simpl. rewrite Hrun2. simpl.
  split; [done|]. split; [done|].
  rewrite Hfiles2, Hfiles1, !lookup_insert_eq. simpl.
  split; [done|]. split; [by rewrite <- app_assoc|].
  split; [|by rewrite Hcache2].
  intros p Hp. by rewrite !lookup_insert_ne.
Qed.

(** [os.makedirs] with the directories it leaves. *)
Lemma makedirs_dirs w output_dir :
  can_makedirs w output_dir ->
  exists w1,
    os_makedirs output_dir w = (Return tt, w1) /\
    cfg w1 = cfg w /\ _CSV_NAME_CACHE w1 = _CSV_NAME_CACHE w /\
    fs_files (fs w1) = fs_files (fs w) /\ fs_denied (fs w1) = fs_denied (fs w) /\
    fs_unreadable (fs w1) = fs_unreadable (fs w) /\
    fs_dirs (fs w1) = {[output_dir]} ∪ fs_dirs (fs w).
Proof.
  intros Hdir. unfold os_makedirs.
  destruct (decide (output_dir ∈ fs_dirs (fs w))) as [Hin|Hin].
  - eexists. split; [reflexivity|]. world_simpl. repeat split; try done.
    apply set_eq. intros x. rewrite elem_of_union, elem_of_singleton.
    split; [by right|by intros [->|]].
  - destruct Hdir as [Hdir|Hdir]; [done|]. rewrite decide_False by done.
    eexists. split; [reflexivity|]. by world_simpl.
Qed.

(** What [append_to_csv] leaves when the name is new to the cache of the
    path, or when there is neither a cache entry nor a file. *)
Lemma append_to_csv_new_name w data output_dir filename name names :
  SERVERLESS_MODE (cfg w) = false ->
  can_append w output_dir filename ->
  csv_identity data = Return name -> name <> "" ->
  let filepath := PyStr.path_join output_dir filename in
  _CSV_NAME_CACHE w !! filepath = Some names \/
  (_CSV_NAME_CACHE w !! filepath = None /\ fs_files (fs w) !! filepath = None /\ names = ∅) ->
  name ∉ names ->
  exists w',
    append_to_csv data output_dir filename w = (Return true, w') /\
    fs_files (fs w')
    = <[filepath :=
          default [] (fs_files (fs w) !! filepath)
          ++ record_lines (negb (bool_decide (is_Some (fs_files (fs w) !! filepath)
                                              \/ filepath ∈ {[output_dir]} ∪ fs_dirs (fs w))))
               data]> (fs_files (fs w)) /\
    _CSV_NAME_CACHE w' = <[filepath := {[name]} ∪ names]> (_CSV_NAME_CACHE w) /\
    fs_unreadable (fs w') = fs_unreadable (fs w).
Proof.
  intros Hmode [Hdir Hfile] Hname Hne filepath Hknown Hnew.
  apply is_empty_false in Hne.
  unfold append_to_csv. run. rewrite Hmode.
  match goal with
  | |- context [os_makedirs ?d ?W] =>
      destruct (makedirs_dirs W d Hdir)
        as (w1 & Hrun & Hcfg & Hcache & Hfiles & Hdenied & Hunreadable & Hdirs);
      rewrite Hrun; clear Hrun
  end.
  rewrite Hname, Hne. simpl.
  run_name_cache names' w2 Hcache2 Hcfg2 Hfs2 Hcalls2 Hstore2 Hhit Hfresh.
  rewrite Hcache in Hhit, Hfresh, Hcache2. rewrite Hfiles in Hfresh.
  assert (Hnames : names' = names).
  { destruct Hknown as [Hsome|(Hnone & Hnofile & ->)].
    - by destruct (Hhit names Hsome).
    - by apply Hfresh. }
  subst names'. world_simpl. rewrite bool_decide_eq_false_2 by done.
  unfold os_path_exists, append_file, cache_store. world_simpl.
  rewrite Hfs2, Hdenied. rewrite decide_False by done. world_simpl.
  eexists. split; [reflexivity|]. world_simpl.
  rewrite Hfiles, Hdirs, Hcache2, Hunreadable, insert_insert_eq. done.
Qed.

Lemma index_of_lookup (d : pydict) k v :
  Dict.lookup d k = Some v ->
  exists i, index_of k (Dict.keys d) = Some i /\ Dict.values d !! i = Some v.
Proof.
  induction d as [|[k' v'] d IH]; simpl; [done|].
  destruct (String.eqb k' k).
  - intros [= ->]. by exists 0.
  - intros (i & -> & Hv)%IH. by exists (S i).
Qed.

(** X19. The name cache agrees with the file across a restart. Outside of
    serverless mode, when nothing is at the path and the record has a name
    that is not blank, [append_to_csv] writes the header and the row and
    caches the name; a process that starts again with an empty cache then
    reads that very set of names back from the file. This holds when the
    name cell comes back from the file as the string it held, and when no
    earlier key of the record reads [College Name] once stripped. *)
Theorem append_to_csv_survives_restart w data output_dir filename s :
  SERVERLESS_MODE (cfg w) = false ->
  can_append w output_dir filename ->
  fresh_path w output_dir filename ->
  Dict.lookup data "College Name" = Some (PStr s) -> PyStr.strip s <> "" ->
  csv_cell (PStr s) = s -> name_column data ->
  let filepath := PyStr.path_join output_dir filename in
  let r := append_to_csv data output_dir filename w in
  fst r = Return true /\
  _CSV_NAME_CACHE (snd r) !! filepath = Some {[PyStr.lower (PyStr.strip s)]} /\
  fst (_get_csv_name_cache filepath (restarted (snd r)))
  = Return {[PyStr.lower (PyStr.strip s)]}.
Proof.
  intros Hmode Hcan (Hnofile & Hnodir & Hnotdir & Hreadable & Hnocache) Hlookup Hs Hcell Hcol
    filepath r. subst r filepath.
  assert (Hname : csv_identity data = Return (PyStr.lower (PyStr.strip s))).
  { unfold csv_identity, get. by rewrite Hlookup. }
  assert (Hne : PyStr.lower (PyStr.strip s) <> "").
  { destruct (PyStr.strip s); [done|discriminate]. }
  destruct (append_to_csv_new_name w data output_dir filename _ ∅ Hmode Hcan Hname Hne)
    as (w' & Hrun & Hfiles & Hcache & Hunreadable).
  { by right. }
  { apply not_elem_of_empty. }
  rewrite Hrun. simpl.
  rewrite Hnofile in Hfiles. simpl in Hfiles.
  rewrite bool_decide_eq_false_2 in Hfiles.
  2:{ intros [[? [=]]|Hin]. apply elem_of_union in Hin as [Hin|Hin]; [|done].
      by apply elem_of_singleton in Hin. }
  assert (Hset : ({[PyStr.lower (PyStr.strip s)]} ∪ ∅ : gset string)
                 = {[PyStr.lower (PyStr.strip s)]}) by apply (right_id_L ∅ (∪)).
  rewrite Hset in Hcache.
  split; [done|]. split; [by rewrite Hcache, lookup_insert_eq|].
  unfold restarted, _get_csv_name_cache, cache_lookup, cache_store, os_path_exists. run.
  world_simpl. rewrite lookup_empty. world_simpl. rewrite Hfiles, lookup_insert_eq.
  rewrite bool_decide_eq_true_2 by (left; eauto).
  unfold _read_college_names_from_csv, csv_reader. run. world_simpl.
  rewrite Hunreadable, decide_False by done. rewrite Hfiles, lookup_insert_eq.
  world_simpl. f_equal.
  destruct (index_of_lookup data _ _ Hlookup) as (i & Hi & Hv).
  unfold record_lines, csv_rows. simpl.
  unfold names_of_rows. unfold name_column in Hcol.
  assert (Hlen : length (csv_cell <$> Dict.values data)
                 = length (PyStr.strip <$> Dict.keys data)).
  { unfold Dict.keys, Dict.values. by rewrite !length_fmap. }
  destruct (Dict.keys data) as [|h keys]; [done|].
  rewrite Hcol, Hi. simpl foldl. unfold add_row_name.
  destruct (csv_cell <$> Dict.values data) as [|c cells] eqn:Hcells; [done|].
  apply Nat.eqb_eq in Hlen. rewrite Hlen. simpl negb. cbv iota.
  rewrite <- Hcells, list_lookup_fmap, Hv. simpl. rewrite Hcell.
  apply is_empty_false in Hs. rewrite Hs. simpl. exact Hset.
Qed.

Lemma csv_rows_app l1 l2 : csv_rows (l1 ++ l2) = csv_rows l1 ++ csv_rows l2.
Proof. unfold csv_rows. by rewrite fmap_app, concat_app. Qed.

(** A row that is not as long as the header adds no name. *)
Lemma names_of_rows_misaligned header rows row :
  length row <> length header ->
  names_of_rows (header :: rows ++ [row]) = names_of_rows (header :: rows).
Proof.
  intros Hlen. unfold names_of_rows. destruct header as [|h header]; [done|].
  destruct (index_of _ _) as [i|]; [|done].
  rewrite foldl_app. cbn [foldl].
  set (acc := foldl _ _ rows). unfold add_row_name.
  destruct row as [|c row]; [done|].
  rewrite length_fmap. apply Nat.eqb_neq in Hlen. by rewrite Hlen.
Qed.

(** X20. A row that is not as long as the header of the file is written
    and cached, and forgotten by the next process. Outside of serverless
    mode, [append_to_csv] of a record whose name is new to the cache adds the
    row to the file without a header and the name to the cache; when the
    record has not as many keys as the header has columns, a process that
    starts again with an empty cache reads from the file the names it would
    have read before the call, so that the same record is then written once
    more. *)
Theorem append_to_csv_misaligned_row w data output_dir filename name names lines header rows :
  SERVERLESS_MODE (cfg w) = false ->
  can_append w output_dir filename ->
  csv_identity data = Return name -> name <> "" ->
  let filepath := PyStr.path_join output_dir filename in
  _CSV_NAME_CACHE w !! filepath = Some names -> name ∉ names ->
  fs_files (fs w) !! filepath = Some lines ->
  csv_rows lines = header :: rows ->
  length (Dict.keys data) <> length header ->
  let r := append_to_csv data output_dir filename w in
  fst r = Return true /\
  fs_files (fs (snd r)) !! filepath = Some (lines ++ [CsvRow (csv_cell <$> Dict.values data)]) /\
  _CSV_NAME_CACHE (snd r) !! filepath = Some ({[name]} ∪ names) /\
  fst (_get_csv_name_cache filepath (restarted (snd r)))
  = fst (_get_csv_name_cache filepath (restarted w)).
Proof.
  intros Hmode Hcan Hname Hne filepath Hcached Hnew Hfile Hrows Hlen r. subst r filepath.
  destruct (append_to_csv_new_name w data output_dir filename name names Hmode Hcan Hname Hne)
    as (w' & Hrun & Hfiles & Hcache & Hunreadable); [by left|done|].
  rewrite Hrun. simpl.
  rewrite Hfile in Hfiles. simpl in Hfiles.
  unfold record_lines in Hfiles. simpl in Hfiles.
  split; [done|]. split; [by rewrite Hfiles, lookup_insert_eq|].
  split; [by rewrite Hcache, lookup_insert_eq|].
  unfold restarted, _get_csv_name_cache, cache_lookup, cache_store, os_path_exists. run.
  world_simpl. rewrite lookup_empty. world_simpl. rewrite Hfiles, lookup_insert_eq, Hfile.
  rewrite !bool_decide_eq_true_2 by (left; eauto).
  unfold _read_college_names_from_csv, csv_reader. run. world_simpl.
  rewrite Hunreadable.
  destruct (decide (_ ∈ fs_unreadable (fs w))); world_simpl; [done|].
  rewrite Hfiles, lookup_insert_eq, Hfile. world_simpl. f_equal.
  rewrite csv_rows_app, Hrows. simpl.
  apply (names_of_rows_misaligned header rows).
  unfold Dict.keys, Dict.values in *. by rewrite !length_fmap in *.
Qed.

End Append_More.

Lemma append_to_csv_name_not_text_witness :
  can_makedirs (demo_world false [] 1) "data" /\
  let r := append_to_csv (platform := demo_platform)
             [("College Name", PNone); ("Location", PStr "Pune")]
             "data" "colleges.csv" (demo_world false [] 1) in
  fst r = Return false /\ fs_files (fs (snd r)) = ∅.
Proof.
  assert (Hcan : can_makedirs (demo_world false [] 1) "data").
  { right. vm_compute. set_solver. }
  split; [exact Hcan|].
  destruct (append_to_csv_name_not_text (platform := demo_platform) (demo_world false [] 1)
              [("College Name", PNone); ("Location", PStr "Pune")] "data" "colleges.csv" PNone
              eq_refl Hcan eq_refl ltac:(discriminate)) as (Hret & Hfiles & _ & _).
  split; [exact Hret|exact Hfiles].
Defined.

Lemma append_to_jsonl_appends_witness :
  can_append (demo_world false [] 1) "data" "colleges.jsonl" /\
  let r1 := append_to_jsonl demo_record "data" "colleges.jsonl" (demo_world false [] 1) in
  let r2 := append_to_jsonl demo_record "data" "colleges.jsonl" (snd r1) in
  fs_files (fs (snd r2)) !! "data/colleges.jsonl"
  = Some [JsonText (PDict demo_record); JsonText (PDict demo_record)].
Proof.
  assert (Hcan : can_append (demo_world false [] 1) "data" "colleges.jsonl").
  { split; [right|]; vm_compute; set_solver. }
  split; [exact Hcan|].
  destruct (append_to_jsonl_appends (demo_world false [] 1) demo_record demo_record
              "data" "colleges.jsonl" eq_refl Hcan) as (_ & _ & _ & Hfile & _ & _).
  exact Hfile.
Defined.

Lemma append_to_csv_survives_restart_witness :
  can_append (demo_world false [] 1) "data" "colleges.csv" /\
  fresh_path (demo_world false [] 1) "data" "colleges.csv" /\
  name_column demo_record /\
  let r := append_to_csv (platform := demo_platform) demo_record "data" "colleges.csv"
             (demo_world false [] 1) in
  fst (_get_csv_name_cache (platform := demo_platform) "data/colleges.csv" (restarted (snd r)))
  = Return {["abc college"]}.
Proof.
  assert (Hcan : can_append (demo_world false [] 1) "data" "colleges.csv").
  { split; [right|]; vm_compute; set_solver. }
  assert (Hfresh : fresh_path (demo_world false [] 1) "data" "colleges.csv").
  { unfold fresh_path. simpl.
    split; [done|]. split; [set_solver|]. split; [done|]. split; [set_solver|done]. }
  assert (Hcol : name_column demo_record) by reflexivity.
  split; [exact Hcan|]. split; [exact Hfresh|]. split; [exact Hcol|].
  destruct (append_to_csv_survives_restart (platform := demo_platform) (demo_world false [] 1)
              demo_record "data" "colleges.csv" "ABC College"
              eq_refl Hcan Hfresh eq_refl ltac:(discriminate) eq_refl Hcol) as (_ & _ & Hread).
  exact Hread.
Defined.

Lemma append_to_csv_misaligned_row_witness :
  can_append demo_file_world "data" "colleges.csv" /\
  csv_identity demo_misaligned = Return "xyz college" /\
  let r := append_to_csv (platform := demo_platform) demo_misaligned "data" "colleges.csv"
             demo_file_world in
  fst r = Return true /\
  fs_files (fs (snd r)) !! "data/colleges.csv"
  = Some [CsvRow ["College Name"; "Location"]; CsvRow ["XYZ College"]] /\
  fst (_get_csv_name_cache (platform := demo_platform) "data/colleges.csv" (restarted (snd r)))
  = fst (_get_csv_name_cache (platform := demo_platform) "data/colleges.csv"
           (restarted demo_file_world)).
Proof.
  assert (Hcan : can_append demo_file_world "data" "colleges.csv").
  { split; [left|]; vm_compute; set_solver. }
  split; [exact Hcan|]. split; [reflexivity|].
  destruct (append_to_csv_misaligned_row (platform := demo_platform) demo_file_world
              demo_misaligned "data" "colleges.csv" "xyz college" ∅
              [CsvRow ["College Name"; "Location"]] ["College Name"; "Location"] []
              eq_refl Hcan eq_refl ltac:(discriminate) eq_refl ltac:(set_solver) eq_refl eq_refl
              ltac:(simpl; lia)) as (Hret & Hfile & _ & Hread).
  split; [exact Hret|]. split; [exact Hfile|exact Hread].
Defined.

(** ** The CSV snapshot *)

Section Frame.
Context `{platform : Platform}.

Lemma frame_keys_step ks : forall cols,
  NoDup cols ->
  let cols' := foldl (fun cols k => if bool_decide (k ∈ cols) then cols else cols ++ [k])
                 cols ks in
  NoDup cols' /\ forall k : string, k ∈ cols' <-> k ∈ cols \/ k ∈ ks.
Proof.
  induction ks as [|k0 ks IH]; intros cols Hnd; simpl.
  - split; [done|]. intros k. split; [by left|]. intros [|Hk]; [done|].
    by apply elem_of_nil in Hk.
  - destruct (bool_decide (k0 ∈ cols)) eqn:Hin.
    + apply bool_decide_eq_true in Hin. destruct (IH cols Hnd) as [Hnd' Hmem].
      split; [done|]. intros k. rewrite Hmem, elem_of_cons. split.
      * intros [|]; auto.
      * intros [|[->|]]; auto.
    + apply bool_decide_eq_false in Hin.
      assert (Hnd1 : NoDup (cols ++ [k0])).
      { apply NoDup_app. split; [done|]. split; [|apply NoDup_singleton].
        intros x Hx Hx'. apply list_elem_of_singleton in Hx'. by subst x. }
      destruct (IH (cols ++ [k0]) Hnd1) as [Hnd' Hmem].
      split; [done|]. intros k.
      rewrite Hmem, elem_of_app, list_elem_of_singleton, elem_of_cons. split.
      * intros [[|]|]; auto.
      * intros [|[|]]; auto.
Qed.

Lemma frame_columns_loop records : forall cols,
  NoDup cols ->
  let cols' := foldl (fun cols r =>
                        foldl (fun cols k => if bool_decide (k ∈ cols) then cols else cols ++ [k])
                              cols (Dict.keys r)) cols records in
  NoDup cols' /\
  forall k : string, k ∈ cols' <-> k ∈ cols \/ exists c : pydict, c ∈ records /\ k ∈ Dict.keys c.
Proof.
  induction records as [|r records IH]; intros cols Hnd; simpl.
  - split; [done|]. intros k. split; [by left|]. intros [|(c & Hc & _)]; [done|].
    by apply elem_of_nil in Hc.
  - destruct (frame_keys_step (Dict.keys r) cols Hnd) as [Hnd1 Hmem1].
    destruct (IH _ Hnd1) as [Hnd' Hmem]. split; [done|]. intros k.
    rewrite Hmem, Hmem1. split.
    + intros [[|Hk]|(c & Hc & Hk)]; [by left| |].
      * right. exists r. split; [apply list_elem_of_here|done].
      * right. exists c. split; [by apply list_elem_of_further|done].
    + intros [|(c & Hc & Hk)]; [by left; left|].
      apply elem_of_cons in Hc as [->|Hc]; [by left; right|].
      right. by exists c.
Qed.

Lemma frame_columns_header records : frame_header records (frame_columns records).
Proof.
  destruct (frame_columns_loop records [] (NoDup_nil_2 (A := string))) as [Hnd Hmem].
  split; [done|]. intros k. rewrite (Hmem k). split; [|by right].
  intros [Hk|]; [|done]. by apply elem_of_nil in Hk.
Qed.

(** X21. Outside of serverless mode, with a batch that is not empty and a
    path that can be written, [save_to_csv] returns the path and leaves there,
    in place of what the file held, a header and one line for each record
    that survives the deduplication, in their order. The header lists once
    each key that a surviving record has; a line has one cell for each column
    of the header, empty where the record has no such key. *)
Theorem save_to_csv_writes_frame w data output_dir filename unique :
  SERVERLESS_MODE (cfg w) = false ->
  data <> [] -> deduplicate_colleges data = Return unique ->
  can_append w output_dir filename ->
  let filepath := PyStr.path_join output_dir filename in
  let r := save_to_csv data output_dir filename w in
  fst r = Return (Some filepath) /\
  (forall p, p <> filepath -> fs_files (fs (snd r)) !! p = fs_files (fs w) !! p) /\
  exists header rows,
    fs_files (fs (snd r)) !! filepath = Some (CsvRow header :: rows) /\
    frame_header unique header /\
    Forall2 (frame_row header) unique rows.
Proof.
  intros Hmode Hdata Hunique [Hdir Hfile] filepath r. subst r filepath.
  unfold save_to_csv. run. rewrite Hmode.
  run_mkdir Hdir w1 Hcfg Hlog Hcache Hstore Hfiles Hdenied Hunreadable Hin.
  destruct data as [|c data]; [done|]. rewrite Hunique. world_simpl.
  unfold write_file. world_simpl. rewrite Hdenied.
  rewrite decide_False by done. world_simpl. rewrite Hfiles.
  split; [done|]. split; [by intros p Hp; rewrite lookup_insert_ne|].
  exists (frame_columns unique),
    ((fun r => CsvRow (frame_cell r <$> frame_columns unique)) <$> unique).
  split; [by rewrite lookup_insert_eq|]. split; [apply frame_columns_header|].
  apply Forall2_fmap_r, Forall_Forall2_diag, Forall_forall. by intros x _.
Qed.

End Frame.

Lemma save_to_csv_writes_frame_witness :
  [demo_record; demo_misaligned] <> [] /\
  can_append (demo_world false [] 1) "data" "colleges.csv" /\
  let r := save_to_csv (platform := demo_platform) [demo_record; demo_misaligned]
             "data" "colleges.csv" (demo_world false [] 1) in
  fst r = Return (Some "data/colleges.csv") /\
  fs_files (fs (snd r)) !! "data/colleges.csv"
  = Some [CsvRow ["College Name"; "Location"]; CsvRow ["ABC College"; "Pune, MH"];
          CsvRow ["XYZ College"; ""]].
Proof.
  assert (Hcan : can_append (demo_world false [] 1) "data" "colleges.csv").
  { split; [right|]; vm_compute; set_solver. }
  assert (Hdata : [demo_record; demo_misaligned] <> []) by discriminate.
  split; [exact Hdata|]. split; [exact Hcan|].
  destruct (save_to_csv_writes_frame (platform := demo_platform) (demo_world false [] 1)
              [demo_record; demo_misaligned] "data" "colleges.csv"
              [demo_record; demo_misaligned] eq_refl Hdata eq_refl Hcan)
    as (Hret & _ & _).
  split; [exact Hret|]. reflexivity.
Defined.

(** ** The resume index *)

Section Resume_Properties.
Context `{platform : Platform} `{reader : JsonLines}.

Lemma keys_set_see {V : Type} (d : odict V) k v :
  Dict.keys (Dict.set d k v) = see (Dict.keys d) k.
Proof.
  rewrite DictFacts.keys_set. unfold see. destruct (Dict.lookup d k) eqn:Hl.
  - rewrite bool_decide_eq_true_2; [done|].
    destruct (decide (k ∈ Dict.keys d)) as [|Hn]; [done|].
    apply DictFacts.lookup_None_keys in Hn. congruence.
  - apply DictFacts.lookup_None_keys in Hl. by rewrite bool_decide_eq_false_2.
Qed.

Lemma lookup_set {V : Type} (d : odict V) k k' v :
  Dict.lookup (Dict.set d k v) k' = if decide (k = k') then Some v else Dict.lookup d k'.
Proof.
  destruct (decide (k = k')) as [->|Hne].
  - apply DictFacts.lookup_set_eq.
  - by apply DictFacts.lookup_set_ne.
Qed.

Lemma keys_set_present {V : Type} (d : odict V) k v :
  is_Some (Dict.lookup d k) -> Dict.keys (Dict.set d k v) = Dict.keys d.
Proof. intros [x Hx]. by rewrite DictFacts.keys_set, Hx. Qed.

(** The dict of empty sets [load_existing_colleges] starts from. *)
Lemma empty_sets_spec (l : list string) : forall d : odict (gset string),
  let d' := foldl (fun d fmt => Dict.set d fmt ∅) d l in
  Dict.keys d' = foldl see (Dict.keys d) l /\
  forall k, Dict.lookup d' k = if bool_decide (k ∈ l) then Some ∅ else Dict.lookup d k.
Proof.
  induction l as [|f l IH]; intros d; cbn [foldl].
  - split; [done|]. intros k. rewrite bool_decide_eq_false_2; [done|]. apply not_elem_of_nil.
  - destruct (IH (Dict.set d f ∅)) as [Hkeys Hval]. split.
    + by rewrite Hkeys, keys_set_see.
    + intros k. rewrite Hval, lookup_set.
      destruct (bool_decide (k ∈ l)) eqn:Hin.
      * apply bool_decide_eq_true in Hin. rewrite bool_decide_eq_true_2; [done|].
        by apply list_elem_of_further.
      * apply bool_decide_eq_false in Hin. destruct (decide (f = k)) as [->|Hne].
        -- rewrite bool_decide_eq_true_2; [done|]. apply list_elem_of_here.
        -- rewrite bool_decide_eq_false_2; [done|].
           intros [->|]%elem_of_cons; done.
Qed.

(** [_read_college_names_from_csv] returns what is on disk and changes
    the log alone. *)
Lemma read_college_names_run w filepath :
  exists w',
    _read_college_names_from_csv filepath w = (Return (csv_names_on_disk w filepath), w') /\
    fs w' = fs w /\ fs_calls w' = fs_calls w /\ _CSV_NAME_CACHE w' = _CSV_NAME_CACHE w /\
    store w' = store w /\ cfg w' = cfg w.
Proof.
  unfold _read_college_names_from_csv, csv_reader, csv_names_on_disk, readable_lines. run.
  destruct (decide (filepath ∈ fs_unreadable (fs w))).
  - eexists. split; [reflexivity|]. by world_simpl.
  - destruct (fs_files (fs w) !! filepath) as [lines|].
    + eexists. split; [reflexivity|]. by world_simpl.
    + eexists. split; [reflexivity|]. by world_simpl.
Qed.

Lemma csv_names_missing w filepath :
  bool_decide (is_Some (fs_files (fs w) !! filepath) \/ filepath ∈ fs_dirs (fs w)) = false ->
  csv_names_on_disk w filepath = ∅.
Proof.
  intros Hex%bool_decide_eq_false. unfold csv_names_on_disk, readable_lines.
  destruct (decide _); [done|].
  destruct (fs_files (fs w) !! filepath) eqn:Hf; [|done].
  exfalso. apply Hex. left. eauto.
Qed.

Lemma jsonl_names_missing w filepath :
  bool_decide (is_Some (fs_files (fs w) !! filepath) \/ filepath ∈ fs_dirs (fs w)) = false ->
  jsonl_names_on_disk w filepath = ∅.
Proof.
  intros Hex%bool_decide_eq_false. unfold jsonl_names_on_disk, readable_lines.
  destruct (decide _); [done|].
  destruct (fs_files (fs w) !! filepath) eqn:Hf; [|done].
  exfalso. apply Hex. left. eauto.
Qed.

Lemma set_id {V : Type} (d : odict V) k v : Dict.lookup d k = Some v -> Dict.set d k v = d.
Proof.
  induction d as [|[k' v'] d IH]; simpl; [done|].
  destruct (String.eqb k' k) eqn:E.
  - apply String.eqb_eq in E. by intros [= ->]; subst.
  - intros Hl. by rewrite IH.
Qed.

(** The CSV part of [load_existing_colleges]. *)
Lemma load_csv_part_run w csv_path (existing : odict (gset string)) (listed : bool) :
  (listed = true -> Dict.lookup existing "csv" = Some ∅) ->
  exists w',
    (if listed
     then
       found <- os_path_exists csv_path ;;
       if found : bool
       then
         names <- _read_college_names_from_csv csv_path ;;
         logger INFO ("Loaded " ++ pretty (size names) ++ " existing records from CSV") ;;
         ret (Dict.set existing "csv" (default ∅ (Dict.lookup existing "csv") ∪ names))
       else ret existing
     else ret existing)%py w
    = (Return (if listed then Dict.set existing "csv" (csv_names_on_disk w csv_path)
               else existing), w') /\
    fs w' = fs w /\ fs_calls w' = fs_calls w /\ _CSV_NAME_CACHE w' = _CSV_NAME_CACHE w /\
    store w' = store w /\ cfg w' = cfg w.
Proof.
  intros Hlisted. destruct listed; [|by exists w].
  rewrite (Hlisted eq_refl). unfold os_path_exists. run.
  destruct (bool_decide _) eqn:Hex.
  - destruct (read_college_names_run w csv_path) as (w' & Hrun & Hfs & Hcalls & Hcache & Hst & Hcfg).
    rewrite Hrun. world_simpl. cbn [default from_option]. unfold id. rewrite union_empty_l_L.
    eexists. split; [reflexivity|]. by world_simpl.
  - exists w. rewrite (csv_names_missing _ _ Hex).
    split; [|done]. by rewrite (set_id existing) by auto.
Qed.

(** The JSONL part of [load_existing_colleges]. *)
Lemma load_jsonl_part_run w jsonl_path (existing : odict (gset string)) (listed : bool) :
  (listed = true -> Dict.lookup existing "json" = Some ∅) ->
  exists w',
    (if listed
     then
       found <- os_path_exists jsonl_path ;;
       if found : bool
       then
         try_except
           (lines <- read_lines jsonl_path ;;
            let loaded := load_jsonl_names (concat (json_lines <$> lines))
                            (default ∅ (Dict.lookup existing "json")) 0 in
            let existing := Dict.set existing "json" (fst loaded) in
            match snd loaded with
            | Return count =>
                logger INFO ("Loaded " ++ pretty count ++ " existing records from JSONL") ;;
                ret existing
            | Raise e =>
                logger WARNING ("Failed to read existing JSONL for resumability: "
                                ++ exn_str e) ;;
                ret existing
            end)
           (fun e =>
              logger WARNING ("Failed to read existing JSONL for resumability: "
                              ++ exn_str e) ;;
              ret existing)
       else ret existing
     else ret existing)%py w
    = (Return (if listed then Dict.set existing "json" (jsonl_names_on_disk w jsonl_path)
               else existing), w') /\
    fs w' = fs w /\ fs_calls w' = fs_calls w /\ _CSV_NAME_CACHE w' = _CSV_NAME_CACHE w /\
    store w' = store w /\ cfg w' = cfg w.
Proof.
  intros Hlisted. destruct listed; [|by exists w].
  rewrite (Hlisted eq_refl). unfold os_path_exists. run.
  destruct (bool_decide _) eqn:Hex.
  - unfold read_lines, jsonl_names_on_disk, readable_lines. cbn [default from_option]. unfold id.
    destruct (decide (jsonl_path ∈ fs_unreadable (fs w))).
    + eexists. split; [by rewrite (set_id existing) by auto|]. by world_simpl.
    + destruct (fs_files (fs w) !! jsonl_path) as [lines|].
      * destruct (load_jsonl_names _ ∅ 0) as [names [count|e]]; world_simpl;
          (eexists; split; [reflexivity|]; by world_simpl).
      * eexists. split; [by rewrite (set_id existing) by auto|]. by world_simpl.
  - exists w. rewrite (jsonl_names_missing _ _ Hex).
    split; [|done]. by rewrite (set_id existing) by auto.
Qed.

Lemma load_existing_colleges_run w output_dir base_filename formats :
  exists existing w',
    load_existing_colleges output_dir base_filename formats w = (Return existing, w') /\
    (fs w' = fs w /\ fs_calls w' = fs_calls w /\ _CSV_NAME_CACHE w' = _CSV_NAME_CACHE w /\
     store w' = store w /\ cfg w' = cfg w) /\
    Dict.keys existing = first_seen (formats_lower formats) /\
    forall fmt,
      Dict.lookup existing fmt
      = if bool_decide (fmt ∈ formats_lower formats)
        then Some (resume_entry w output_dir base_filename fmt)
        else None.
Proof.
  unfold load_existing_colleges. fold (formats_lower formats).
  set (fl := formats_lower formats).
  destruct (empty_sets_spec fl []) as [Hkeys Hval].
  set (existing0 := foldl (fun d fmt => Dict.set d fmt ∅) [] fl) in *.
  cbv zeta in Hkeys, Hval.
  unfold bind at 1.
  destruct (load_csv_part_run w (PyStr.path_join output_dir (base_filename ++ ".csv"))
              existing0 (bool_decide ("csv" ∈ fl)))
    as (w1 & Hrun1 & Hfs1 & Hcalls1 & Hcache1 & Hstore1 & Hcfg1).
  { intros Hin. by rewrite Hval, Hin. }
  rewrite Hrun1. clear Hrun1.
  set (existing1 := if bool_decide ("csv" ∈ fl)
                    then Dict.set existing0 "csv" (csv_names_on_disk w _) else existing0).
  assert (Hjson1 : bool_decide ("json" ∈ fl) = true -> Dict.lookup existing1 "json" = Some ∅).
  { intros Hin. subst existing1. destruct (bool_decide ("csv" ∈ fl)).
    - rewrite lookup_set. rewrite decide_False by done. by rewrite Hval, Hin.
    - by rewrite Hval, Hin. }
  destruct (load_jsonl_part_run w1 (PyStr.path_join output_dir (base_filename ++ ".jsonl"))
              existing1 (bool_decide ("json" ∈ fl)) Hjson1)
    as (w2 & Hrun2 & Hfs2 & Hcalls2 & Hcache2 & Hstore2 & Hcfg2).
  cbv zeta in Hrun2. cbv zeta. rewrite Hrun2. clear Hrun2.
  eexists _, w2. split; [reflexivity|].
  split; [by rewrite Hfs2, Hcalls2, Hcache2, Hstore2, Hcfg2|].
  assert (Hdisk : jsonl_names_on_disk w1 (PyStr.path_join output_dir (base_filename ++ ".jsonl"))
                  = jsonl_names_on_disk w (PyStr.path_join output_dir (base_filename ++ ".jsonl"))).
  { unfold jsonl_names_on_disk, readable_lines. by rewrite Hfs1. }
  rewrite Hdisk. split.
  - subst existing1.
    destruct (bool_decide ("json" ∈ fl)) eqn:Hj; destruct (bool_decide ("csv" ∈ fl)) eqn:Hc;
      rewrite ?keys_set_present; try done.
    + rewrite Hval, Hc. eauto.
    + rewrite lookup_set, decide_False by done. rewrite Hval, Hj. eauto.
    + rewrite Hval, Hj. eauto.
    + rewrite Hval, Hc. eauto.
  - intros fmt. unfold resume_entry. subst existing1.
    destruct (bool_decide ("json" ∈ fl)) eqn:Hj; destruct (bool_decide ("csv" ∈ fl)) eqn:Hc;
      rewrite ?lookup_set, ?Hval.
    + destruct (decide ("json" = fmt)) as [<-|Hnj]; [by rewrite Hj|].
      destruct (decide ("csv" = fmt)) as [<-|Hnc]; [by rewrite Hc|].
      destruct (bool_decide (fmt ∈ fl)); [|done].
      rewrite (proj2 (String.eqb_neq fmt "csv")) by done.
      by rewrite (proj2 (String.eqb_neq fmt "json")) by done.
    + destruct (decide ("json" = fmt)) as [<-|Hnj]; [by rewrite Hj|].
      destruct (bool_decide (fmt ∈ fl)) eqn:Hf; [|done].
      destruct (String.eqb fmt "csv") eqn:E; [apply String.eqb_eq in E; subst fmt; by rewrite Hc in Hf|].
      by rewrite (proj2 (String.eqb_neq fmt "json")) by done.
    + destruct (decide ("csv" = fmt)) as [<-|Hnc]; [by rewrite Hc|].
      destruct (bool_decide (fmt ∈ fl)) eqn:Hf; [|done].
      rewrite (proj2 (String.eqb_neq fmt "csv")) by done.
      destruct (String.eqb fmt "json") eqn:E; [apply String.eqb_eq in E; subst fmt; by rewrite Hj in Hf|done].
    + destruct (bool_decide (fmt ∈ fl)) eqn:Hf; [|done].
      destruct (String.eqb fmt "csv") eqn:E; [apply String.eqb_eq in E; subst fmt; by rewrite Hc in Hf|].
      destruct (String.eqb fmt "json") eqn:E'; [apply String.eqb_eq in E'; subst fmt; by rewrite Hj in Hf|done].
Qed.

(** X22. [load_existing_colleges] returns from every world, whatever is
    at the two paths, and reads only: files, directories, the name cache and
    the remote store are as they were. The index it returns has one entry for
    each requested format, in lower case and in the order of first mention,
    and the entry of a format other than [csv] and [json] is the empty set. *)
Theorem load_existing_colleges_index w output_dir base_filename formats :
  let r := load_existing_colleges output_dir base_filename formats w in
  exists existing,
    fst r = Return existing /\
    Dict.keys existing = first_seen (formats_lower formats) /\
    (forall fmt names, Dict.lookup existing fmt = Some names ->
       fmt <> "csv" -> fmt <> "json" -> names = ∅) /\
    fs (snd r) = fs w /\ fs_calls (snd r) = fs_calls w /\
    _CSV_NAME_CACHE (snd r) = _CSV_NAME_CACHE w /\ store (snd r) = store w.
Proof.
  intros r. subst r.
  destruct (load_existing_colleges_run w output_dir base_filename formats)
    as (existing & w' & Hrun & (Hfs & Hcalls & Hcache & Hstore & _) & Hkeys & Hval).
  rewrite Hrun. exists existing. simpl.
  split; [done|]. split; [done|]. split; [|done].
  intros fmt names Hl Hcsv Hjson. rewrite Hval in Hl.
  destruct (bool_decide _); [|done]. injection Hl as <-. unfold resume_entry.
  rewrite (proj2 (String.eqb_neq fmt "csv")) by done.
  by rewrite (proj2 (String.eqb_neq fmt "json")) by done.
Qed.

(** X23. When [csv] is among the requested formats, the entry of the
    index for it is the set of names that [_get_csv_name_cache] computes for
    the CSV file from an empty cache: the resume index and the duplicate
    check of [append_to_csv] read the file the same way. *)
Theorem load_existing_colleges_csv_entry w output_dir base_filename formats :
  "csv" ∈ formats_lower formats ->
  let csv_path := PyStr.path_join output_dir (base_filename ++ ".csv") in
  exists existing names,
    fst (load_existing_colleges output_dir base_filename formats w) = Return existing /\
    Dict.lookup existing "csv" = Some names /\
    fst (_get_csv_name_cache csv_path (restarted w)) = Return names.
Proof.
  intros Hin csv_path.
  destruct (load_existing_colleges_run w output_dir base_filename formats)
    as (existing & w' & Hrun & _ & _ & Hval).
  rewrite Hrun. exists existing, (csv_names_on_disk w csv_path). simpl.
  split; [done|]. split.
  { rewrite Hval. by rewrite bool_decide_eq_true_2 by done. }
  unfold restarted, _get_csv_name_cache, cache_lookup, cache_store, os_path_exists. run.
  world_simpl. rewrite lookup_empty. world_simpl.
  destruct (bool_decide _) eqn:Hex.
  - destruct (read_college_names_run (with_cache ∅ w) csv_path) as (w1 & Hread & _).
    rewrite Hread. by world_simpl.
  - world_simpl. by rewrite (csv_names_missing _ _ Hex).
Qed.

Lemma loaded_name_cons x records n :
  loaded_name (x :: records) n <->
  (exists d, x = Some d /\ jsonl_name d = Return (Some n)) \/
  ((forall d, x = Some d -> exists o, jsonl_name d = Return o) /\ loaded_name records n).
Proof.
  unfold loaded_name, loads_before. split.
  - intros (i & d & Hi & Hn & Hbefore). destruct i as [|i]; simpl in Hi.
    + left. exists d. split; [congruence|done].
    + right. split.
      * intros d0 ->. apply (Hbefore 0 d0); [lia|done].
      * exists i, d. split; [done|]. split; [done|].
        intros j d0 Hj Hd0. apply (Hbefore (S j) d0); [lia|done].
  - intros [(d & -> & Hn)|(Hx & i & d & Hi & Hn & Hbefore)].
    + exists 0, d. split; [done|]. split; [done|]. intros j d0 Hj. lia.
    + exists (S i), d. split; [done|]. split; [done|].
      intros [|j] d0 Hj Hd0; simpl in Hd0.
      * apply Hx. congruence.
      * apply (Hbefore j d0); [lia|done].
Qed.

Lemma load_jsonl_names_elem records : forall names count n,
  n ∈ fst (load_jsonl_names records names count) <-> n ∈ names \/ loaded_name records n.
Proof.
  induction records as [|x records IH]; intros names count n; cbn [load_jsonl_names].
  - split; [by left|]. intros [|(i & d & Hi & _)]; done.
  - rewrite loaded_name_cons. destruct x as [d|].
    + destruct (jsonl_name d) as [[m|]|e] eqn:Hd.
      * rewrite IH, elem_of_union, elem_of_singleton. split.
        -- intros [[->|]|]; [right; left; by exists d|by left|].
           right. right. split; [|done]. intros d0 [= <-]. eauto.
        -- intros [|[(d0 & [= <-] & Hn)|[_ Hl]]]; [by left; right| |by right].
           left. left. congruence.
      * rewrite IH. split.
        -- intros [|]; [by left|]. right. right. split; [|done]. intros d0 [= <-]. eauto.
        -- intros [|[(d0 & [= <-] & Hn)|[_ Hl]]]; [by left|congruence|by right].
      * simpl. split; [by left|].
        intros [|[(d0 & [= <-] & Hn)|[Hx _]]]; [done|congruence|].
        destruct (Hx d eq_refl) as [o Ho]. congruence.
    + rewrite IH. split.
      * intros [|]; [by left|]. right. right. by split.
      * intros [|[(d0 & [=] & _)|[_ Hl]]]; [by left|by right].
Qed.

(** X24. When [json] is among the requested formats and the JSONL file can
    be read, the entry of the index for it holds the names, stripped and in
    lower case, of the lines that the loop reaches. A line that is not JSON is
    passed over; a line that is JSON but no object, or an object whose
    [College Name] is not a string, ends the loop: the names of the lines
    after it are not in the index. *)
Theorem load_existing_colleges_json_entry w output_dir base_filename formats lines :
  "json" ∈ formats_lower formats ->
  let jsonl_path := PyStr.path_join output_dir (base_filename ++ ".jsonl") in
  jsonl_path ∉ fs_unreadable (fs w) ->
  fs_files (fs w) !! jsonl_path = Some lines ->
  exists existing names,
    fst (load_existing_colleges output_dir base_filename formats w) = Return existing /\
    Dict.lookup existing "json" = Some names /\
    forall n, n ∈ names <-> loaded_name (concat (json_lines <$> lines)) n.
Proof.
  intros Hin jsonl_path Hreadable Hfile.
  destruct (load_existing_colleges_run w output_dir base_filename formats)
    as (existing & w' & Hrun & _ & _ & Hval).
  rewrite Hrun. exists existing, (jsonl_names_on_disk w jsonl_path). simpl.
  split; [done|]. split.
  { rewrite Hval. by rewrite bool_decide_eq_true_2 by done. }
  intros n. unfold jsonl_names_on_disk, readable_lines.
  rewrite decide_False by done. rewrite Hfile, load_jsonl_names_elem.
  split; [by intros [?%not_elem_of_empty|]|by right].
Qed.

Lemma jsonl_name_identity d :
  jsonl_name (PDict d)
  = (let? n := csv_identity d in
     Return (if negb (PyStr.is_empty n) then Some n else None))%outcome.
Proof.
  unfold jsonl_name, csv_identity. simpl.
  by destruct (str_strip (get d "College Name" (PStr ""))).
Qed.

(** X25. What [append_to_jsonl] writes, [load_existing_colleges] finds:
    after two records are appended to a file that was not there, the entry of
    the index for [json] holds the names of both that are not blank, when
    their [College Name] is a string or is missing. When the [College Name] of
    the first record is not a string, the entry is empty although the second
    record is in the file. This holds when each written line is read back as
    the record it was written for. *)
Theorem append_to_jsonl_then_load w d1 d2 output_dir base_filename :
  SERVERLESS_MODE (cfg w) = false ->
  let filename := (base_filename ++ ".jsonl")%string in
  let jsonl_path := PyStr.path_join output_dir filename in
  can_append w output_dir filename ->
  fs_files (fs w) !! jsonl_path = None -> jsonl_path ∉ fs_unreadable (fs w) ->
  reads_back d1 -> reads_back d2 ->
  let w1 := snd (append_to_jsonl d1 output_dir filename w) in
  let w2 := snd (append_to_jsonl d2 output_dir filename w1) in
  exists names,
    fst (load_existing_colleges output_dir base_filename (Some ["json"]) w2)
    = Return [("json", names)] /\
    (forall n1 n2, csv_identity d1 = Return n1 -> csv_identity d2 = Return n2 ->
       forall n, n ∈ names <-> n <> "" /\ (n = n1 \/ n = n2)) /\
    (forall e, csv_identity d1 = Raise e -> names = ∅).
Proof.
  intros Hmode filename jsonl_path Hcan Hnofile Hreadable Hback1 Hback2 w1 w2.
  subst w2 w1.
  destruct (append_to_jsonl_run w d1 output_dir filename Hmode Hcan)
    as (w1 & Hrun1 & Hfiles1 & _ & Hcfg1 & Hunr1 & Hcan1).
  assert (Hmode1 : SERVERLESS_MODE (cfg w1) = false) by (by rewrite Hcfg1).
  destruct (append_to_jsonl_run w1 d2 output_dir filename Hmode1 Hcan1)
    as (w2 & Hrun2 & Hfiles2 & _ & _ & Hunr2 & _).
  rewrite Hrun1. simpl. rewrite Hrun2. simpl.
  assert (Hfile : fs_files (fs w2) !! jsonl_path
                  = Some [JsonText (PDict d1); JsonText (PDict d2)]).
  { rewrite Hfiles2, Hfiles1, !lookup_insert_eq. fold jsonl_path. by rewrite Hnofile. }
  assert (Hreadable2 : jsonl_path ∉ fs_unreadable (fs w2)) by (by rewrite Hunr2, Hunr1).
  destruct (load_existing_colleges_run w2 output_dir base_filename (Some ["json"]))
    as (existing & w' & Hrun & _ & Hkeys & Hval).
  rewrite Hrun. simpl.
  pose proof (Hval "json") as Hjson. rewrite bool_decide_eq_true_2 in Hjson.
  2:{ apply list_elem_of_singleton. reflexivity. }
  assert (Hexisting : existing = [("json", resume_entry w2 output_dir base_filename "json")]).
  { destruct existing as [|[k v] [|kv existing]]; try done.
    change (first_seen (formats_lower (Some ["json"]))) with ["json"] in Hkeys.
    injection Hkeys as ->. simpl in Hjson. by injection Hjson as ->. }
  rewrite Hexisting. eexists. split; [reflexivity|].
  unfold resume_entry. simpl. fold filename. fold jsonl_path.
  unfold jsonl_names_on_disk, readable_lines.
  rewrite decide_False by done. rewrite Hfile. simpl.
  rewrite Hback1, Hback2. simpl. rewrite !jsonl_name_identity. split.
  - intros n1 n2 -> ->. simpl. intros n.
    destruct (PyStr.is_empty n1) eqn:E1; destruct (PyStr.is_empty n2) eqn:E2; simpl;
      rewrite ?elem_of_union, ?elem_of_singleton.
    + apply is_empty_true in E1, E2. subst.
      split; [by intros Hn%not_elem_of_empty|]. intros [Hn [Hn'|Hn']]; done.
    + apply is_empty_true in E1. apply is_empty_false in E2. subst. split.
      * intros [->| ?%not_elem_of_empty]; [|done]. split; [done|by right].
      * intros [Hn [-> | ->]]; [done|by left].
    + apply is_empty_false in E1. apply is_empty_true in E2. subst. split.
      * intros [->| ?%not_elem_of_empty]; [|done]. split; [done|by left].
      * intros [Hn [-> | ->]]; [by left|done].
    + apply is_empty_false in E1, E2. split.
      * intros [->|[->| ?%not_elem_of_empty]];
          [split; [done|by right]|split; [done|by left]|done].
      * intros [Hn [-> | ->]]; [right; by left|by left].
  - intros e ->. done.
Qed.

End Resume_Properties.

Lemma load_existing_colleges_csv_entry_witness :
  "csv" ∈ formats_lower None /\
  exists existing,
    fst (load_existing_colleges (platform := demo_platform) (reader := demo_reader)
           "data" "colleges" None demo_file_world) = Return existing /\
    Dict.lookup existing "csv" = Some ∅.
Proof.
  assert (Hin : "csv" ∈ formats_lower None) by apply list_elem_of_here.
  split; [exact Hin|].
  destruct (load_existing_colleges_csv_entry (platform := demo_platform) (reader := demo_reader)
              demo_file_world "data" "colleges" None Hin)
    as (existing & names & Hret & Hl & Hnames).
  exists existing. split; [exact Hret|]. rewrite Hl. f_equal.
  vm_compute in Hnames. by injection Hnames as <-.
Defined.

Lemma load_existing_colleges_json_entry_witness :
  let w := with_fs {| fs_dirs := {["data"]};
                      fs_files := {["data/colleges.jsonl" :=
                                      [JsonText (PDict demo_record);
                                       JsonText (PDict demo_null_name);
                                       JsonText (PDict demo_misaligned)]]};
                      fs_denied := ∅; fs_unreadable := ∅ |} (demo_world false [] 1) in
  "json" ∈ formats_lower (Some ["JSON"]) /\
  exists existing names,
    fst (load_existing_colleges (platform := demo_platform) (reader := demo_reader)
           "data" "colleges" (Some ["JSON"]) w) = Return existing /\
    Dict.lookup existing "json" = Some names /\
    "abc college" ∈ names /\ "xyz college" ∉ names.
Proof.
  intros w.
  assert (Hin : "json" ∈ formats_lower (Some ["JSON"])) by apply list_elem_of_here.
  split; [exact Hin|].
  destruct (load_existing_colleges_json_entry (platform := demo_platform)
              (reader := demo_reader) w "data" "colleges" (Some ["JSON"])
              [JsonText (PDict demo_record); JsonText (PDict demo_null_name);
               JsonText (PDict demo_misaligned)]
              Hin ltac:(vm_compute; set_solver) eq_refl)
    as (existing & names & Hret & Hl & Hnames).
  exists existing, names. split; [exact Hret|]. split; [exact Hl|]. split.
  - apply Hnames. exists 0, (PDict demo_record).
    split; [reflexivity|]. split; [reflexivity|]. intros j d Hj. lia.
  - intros (i & d & Hi & Hn & Hbefore)%Hnames.
    destruct i as [|[|[|i]]]; simpl in Hi; try discriminate; injection Hi as <-.
    + by vm_compute in Hn.
    + by vm_compute in Hn.
    + destruct (Hbefore 1 (PDict demo_null_name) ltac:(lia) eq_refl) as [o Ho].
      by vm_compute in Ho.
Defined.

Lemma append_to_jsonl_then_load_witness :
  can_append (demo_world false [] 1) "data" "colleges.jsonl" /\
  reads_back (reader := demo_reader) demo_record /\
  reads_back (reader := demo_reader) demo_misaligned /\
  let w1 := snd (append_to_jsonl demo_record "data" "colleges.jsonl" (demo_world false [] 1)) in
  let w2 := snd (append_to_jsonl demo_misaligned "data" "colleges.jsonl" w1) in
  exists names,
    fst (load_existing_colleges (platform := demo_platform) (reader := demo_reader)
           "data" "colleges" (Some ["json"]) w2) = Return [("json", names)] /\
    "abc college" ∈ names /\ "xyz college" ∈ names.
Proof.
  assert (Hcan : can_append (demo_world false [] 1) "data" "colleges.jsonl").
  { split; [right|]; vm_compute; set_solver. }
  split; [exact Hcan|]. split; [reflexivity|]. split; [reflexivity|].
  destruct (append_to_jsonl_then_load (platform := demo_platform) (reader := demo_reader)
              (demo_world false [] 1) demo_record demo_misaligned "data" "colleges"
              eq_refl Hcan eq_refl ltac:(vm_compute; set_solver) eq_refl eq_refl)
    as (names & Hret & Hboth & _).
  exists names. split; [exact Hret|].
  split; apply (Hboth "abc college" "xyz college" eq_refl eq_refl); (split; [discriminate|]);
    [by left|by right].
Defined.

(** ** The staging tables *)

Ltac st_simpl :=
  cbn [app staging_db st_college st_course st_college_courses st_next_id st_calls
       with_st_call cg_id cg_name cg_description cg_city cg_type
       cs_id cs_name cs_description cs_duration cs_degree_level cs_annual_fees
       mp_id mp_college_id mp_course_id
       colleges_inserted courses_inserted mappings_inserted colleges_skipped course_name_to_id
       cfg fs fs_calls _CSV_NAME_CACHE store log
       with_fs with_fs_call with_cache with_store with_log
       search_criteria scrape_jobs next_id faults remote_calls client_error
       with_faults with_remote_call with_search_criteria with_scrape_jobs with_next_id
       fst snd] in *.

Section Staging_Logic.

Lemma wp_sret {A : Type} (a : A) Q E s : wp (sret a) Q E s = Q a s.
Proof. reflexivity. Qed.

Lemma wp_sraise {A : Type} e (Q : A -> sworld -> Prop) E s : wp (sraise e) Q E s = E e s.
Proof. reflexivity. Qed.

Lemma wp_sbind {A B : Type} (m : SM A) (k : A -> SM B) Q E s :
  wp (sbind m k) Q E s = wp m (fun a s' => wp (k a) Q E s') E s.
Proof. unfold wp, sbind. by destruct (m s) as [[a|e] s']. Qed.

Lemma wp_stry {A : Type} (body : SM A) (handler : exn -> SM A) Q E s :
  wp (stry body handler) Q E s = wp body Q (fun e s' => wp (handler e) Q E s') s.
Proof. unfold wp, stry. by destruct (body s) as [[a|e] s']. Qed.

Lemma wp_slift {A : Type} (o : outcome A) Q E s :
  wp (slift o) Q E s = match o with Return a => Q a s | Raise e => E e s end.
Proof. unfold wp, slift. by destruct o. Qed.

Lemma wp_logger lvl msg Q E s :
  wp (srun (logger lvl msg)) Q E s
  = Q tt {| app := with_log (lvl, msg) (app s); staging_db := staging_db s |}.
Proof. reflexivity. Qed.

Lemma wp_read_config Q E s :
  wp (srun read_config) Q E s = Q (cfg (app s)) s.
Proof. unfold wp, srun, read_config. by destruct s. Qed.

Lemma wp_mono {A : Type} (m : SM A) (Q Q' : A -> sworld -> Prop) (E E' : exn -> sworld -> Prop) s :
  (forall a s', Q a s' -> Q' a s') -> (forall e s', E e s' -> E' e s') ->
  wp m Q E s -> wp m Q' E' s.
Proof. unfold wp. intros HQ HE. destruct (m s) as [[a|e] s']; auto. Qed.

(** A loop keeps what each of its turns keeps; [pre] lists the items the
    loop is done with. *)
Lemma wp_sfor_each {A B : Type} (f : A -> B -> SM A)
    (Inv : list B -> A -> sworld -> Prop) (E : exn -> sworld -> Prop) l :
  forall pre acc s,
    (forall done x acc s, Inv done acc s -> wp (f acc x) (Inv (done ++ [x])) E s) ->
    Inv pre acc s ->
    wp (sfor_each f l acc) (Inv (pre ++ l)) E s.
Proof.
  induction l as [|x l IH]; intros pre acc s Hbody Hinv; cbn [sfor_each].
  - by rewrite wp_sret, app_nil_r.
  - rewrite wp_sbind. eapply wp_mono; [| |by apply Hbody].
    + intros acc' s' Hinv'. cbv beta.
      replace (pre ++ x :: l) with ((pre ++ [x]) ++ l) by (by rewrite <- app_assoc).
      by apply IH.
    + done.
Qed.

(** What the next [execute()] does to the tables and to the faults. *)
Lemma wp_issue_staging c Q E s :
  wp (issue_staging c) Q E s
  = match faults (store (app s)) with
    | [] => Q Healthy {| app := app s; staging_db := with_st_call c (staging_db s) |}
    | f :: l => Q f {| app := with_store (with_faults l (store (app s))) (app s);
                       staging_db := with_st_call c (staging_db s) |}
    end.
Proof. unfold wp, issue_staging. by destruct (faults (store (app s))). Qed.

(** An effect on the world of the other functions leaves the tables. *)
Lemma wp_srun_any {A : Type} (m : M A) (Q : A -> sworld -> Prop) E s :
  (forall a w, Q a {| app := w; staging_db := staging_db s |}) ->
  (forall e w, E e {| app := w; staging_db := staging_db s |}) ->
  wp (srun m) Q E s.
Proof. intros HQ HE. unfold wp, srun. destruct (m (app s)) as [[a|e] w]; auto. Qed.

Lemma same_staging_refl s : same_staging s s.
Proof. by repeat split. Qed.

(** A select leaves the tables as they were, whatever the store answers. *)
Lemma wp_select_college_any name Q E s :
  (forall rows s', same_staging s s' -> Q rows s') ->
  (forall e s', same_staging s s' -> E e s') ->
  wp (select_st_college name) Q E s.
Proof.
  intros HQ HE. unfold select_st_college. rewrite wp_sbind, wp_issue_staging.
  destruct (faults (store (app s))) as [|[|msg|] l];
    first [apply HQ | apply HE]; by repeat split.
Qed.

Lemma wp_select_course_any name Q E s :
  (forall rows s', same_staging s s' -> Q rows s') ->
  (forall e s', same_staging s s' -> E e s') ->
  wp (select_st_course name) Q E s.
Proof.
  intros HQ HE. unfold select_st_course. rewrite wp_sbind, wp_issue_staging.
  destruct (faults (store (app s))) as [|[|msg|] l];
    first [apply HQ | apply HE]; by repeat split.
Qed.

Lemma wp_select_mapping_any college_id course_id Q E s :
  (forall rows s', same_staging s s' -> Q rows s') ->
  (forall e s', same_staging s s' -> E e s') ->
  wp (select_st_mapping college_id course_id) Q E s.
Proof.
  intros HQ HE. unfold select_st_mapping. rewrite wp_sbind, wp_issue_staging.
  destruct (faults (store (app s))) as [|[|msg|] l];
    first [apply HQ | apply HE]; by repeat split.
Qed.

(** An insert adds its row at the end of its table, or raises and leaves
    the tables as they were. *)
Lemma wp_insert_college_any name description city type Q E s :
  (forall rows s' id,
     st_college (staging_db s')
     = st_college (staging_db s)
       ++ [{| cg_id := id; cg_name := name; cg_description := description;
              cg_city := city; cg_type := type |}] ->
     st_course (staging_db s') = st_course (staging_db s) ->
     st_college_courses (staging_db s') = st_college_courses (staging_db s) ->
     Q rows s') ->
  (forall e s', same_staging s s' -> E e s') ->
  wp (insert_st_college name description city type) Q E s.
Proof.
  intros HQ HE. unfold insert_st_college. rewrite wp_sbind, wp_issue_staging.
  destruct (faults (store (app s))) as [|[|msg|] l];
    first [by eapply HQ | apply HE; by repeat split].
Qed.

Lemma wp_insert_course_any name description duration degree_level annual_fees Q E s :
  (forall rows s' id,
     st_college (staging_db s') = st_college (staging_db s) ->
     st_course (staging_db s')
     = st_course (staging_db s)
       ++ [{| cs_id := id; cs_name := name; cs_description := description;
              cs_duration := duration; cs_degree_level := degree_level;
              cs_annual_fees := annual_fees |}] ->
     st_college_courses (staging_db s') = st_college_courses (staging_db s) ->
     Q rows s') ->
  (forall e s', same_staging s s' -> E e s') ->
  wp (insert_st_course name description duration degree_level annual_fees) Q E s.
Proof.
  intros HQ HE. unfold insert_st_course. rewrite wp_sbind, wp_issue_staging.
  destruct (faults (store (app s))) as [|[|msg|] l];
    first [by eapply HQ | apply HE; by repeat split].
Qed.

Lemma wp_insert_mapping_any college_id course_id Q E s :
  (forall rows s' id,
     st_college (staging_db s') = st_college (staging_db s) ->
     st_course (staging_db s') = st_course (staging_db s) ->
     st_college_courses (staging_db s')
     = st_college_courses (staging_db s)
       ++ [{| mp_id := id; mp_college_id := college_id; mp_course_id := course_id |}] ->
     Q rows s') ->
  (forall e s', same_staging s s' -> E e s') ->
  wp (insert_st_mapping college_id course_id) Q E s.
Proof.
  intros HQ HE. unfold insert_st_mapping. rewrite wp_sbind, wp_issue_staging.
  destruct (faults (store (app s))) as [|[|msg|] l];
    first [by eapply HQ | apply HE; by repeat split].
Qed.

Lemma grown_refl s : grown s s.
Proof. exists [], [], []. by rewrite !app_nil_r. Qed.

Lemma grown_same s0 s s' : grown s0 s -> same_staging s s' -> grown s0 s'.
Proof.
  intros (a & b & c & Ha & Hb & Hc & Hok) (Hsa & Hsb & Hsc).
  exists a, b, c. by rewrite Hsa, Hsb, Hsc.
Qed.

Lemma grown_college s0 s s' row :
  grown s0 s -> inserted_college row ->
  st_college (staging_db s') = st_college (staging_db s) ++ [row] ->
  st_course (staging_db s') = st_course (staging_db s) ->
  st_college_courses (staging_db s') = st_college_courses (staging_db s) ->
  grown s0 s'.
Proof.
  intros (a & b & c & Ha & Hb & Hc & Hoka & Hokb) Hrow Hsa Hsb Hsc.
  exists (a ++ [row]), b, c. rewrite Hsa, Hsb, Hsc, Ha, <- app_assoc.
  split; [done|]. split; [done|]. split; [done|]. split; [|done].
  apply Forall_app. split; [done|]. by apply Forall_singleton.
Qed.

Lemma grown_course s0 s s' row :
  grown s0 s -> inserted_course row ->
  st_college (staging_db s') = st_college (staging_db s) ->
  st_course (staging_db s') = st_course (staging_db s) ++ [row] ->
  st_college_courses (staging_db s') = st_college_courses (staging_db s) ->
  grown s0 s'.
Proof.
  intros (a & b & c & Ha & Hb & Hc & Hoka & Hokb) Hrow Hsa Hsb Hsc.
  exists a, (b ++ [row]), c. rewrite Hsa, Hsb, Hsc, Hb, <- app_assoc.
  split; [done|]. split; [done|]. split; [done|]. split; [done|].
  apply Forall_app. split; [done|]. by apply Forall_singleton.
Qed.

Lemma grown_mapping s0 s s' row :
  grown s0 s ->
  st_college (staging_db s') = st_college (staging_db s) ->
  st_course (staging_db s') = st_course (staging_db s) ->
  st_college_courses (staging_db s') = st_college_courses (staging_db s) ++ [row] ->
  grown s0 s'.
Proof.
  intros (a & b & c & Ha & Hb & Hc & Hoka & Hokb) Hsa Hsb Hsc.
  exists a, b, (c ++ [row]). rewrite Hsa, Hsb, Hsc, Hc, <- app_assoc. done.
Qed.

Lemma grown_log s0 s entry :
  grown s0 s -> grown s0 {| app := with_log entry (app s); staging_db := staging_db s |}.
Proof. intros H. eapply grown_same; [done|]. by repeat split. Qed.

Lemma str_strip_Return v name :
  str_strip v = Return name -> exists x, v = PStr x /\ name = PyStr.strip x.
Proof. destruct v; simpl; try done. intros [= <-]. eauto. Qed.

Lemma str_strip_idem v name : str_strip v = Return name -> PyStr.strip name = name.
Proof. intros (x & -> & ->)%str_strip_Return. apply StrFacts.strip_idem. Qed.

Lemma str_strip_trimmed v name :
  str_strip v = Return name -> PyStr.is_empty name = false -> trimmed_word name.
Proof. intros (x & -> & ->)%str_strip_Return. apply strip_trimmed. Qed.

(** One turn of the loop over the courses adds rows only. *)
Lemma stage_course_grown s0 college_id t course s :
  grown s0 s ->
  wp (stage_course college_id t course) (fun _ s' => grown s0 s') (fun _ s' => grown s0 s') s.
Proof.
  intros Hg. unfold stage_course.
  rewrite wp_sbind, wp_slift. destruct (as_dict course) as [d|e]; [|done].
  rewrite wp_sbind, wp_slift.
  destruct (str_strip (get d "name" (PStr ""))) as [name|e] eqn:Hname; [|done].
  destruct (PyStr.is_empty name) eqn:Hne; [done|].
  pose proof (str_strip_trimmed _ _ Hname Hne) as Hword.
  assert (Hmapping : forall course_id t0 s1, grown s0 s1 ->
    wp (existing_mapping <- select_st_mapping college_id course_id ;;
        match existing_mapping with
        | _ :: _ => sret t0
        | [] =>
            mapping_response <- insert_st_mapping college_id course_id ;;
            match mapping_response with
            | [] => sret t0
            | _ :: _ =>
                sret {| colleges_inserted := colleges_inserted t0;
                        courses_inserted := courses_inserted t0;
                        mappings_inserted := S (mappings_inserted t0);
                        colleges_skipped := colleges_skipped t0;
                        course_name_to_id := course_name_to_id t0 |}
            end
        end)%st (fun _ s' => grown s0 s') (fun _ s' => grown s0 s') s1).
  { intros course_id t0 s1 Hg1. rewrite wp_sbind.
    apply wp_select_mapping_any; [|by intros; eapply grown_same].
    intros rows s2 Hs2. assert (Hg2 : grown s0 s2) by (by eapply grown_same).
    destruct rows; [|done]. rewrite wp_sbind.
    apply wp_insert_mapping_any; [|by intros; eapply grown_same].
    intros rows' s3 id Ha Hb Hc. assert (Hg3 : grown s0 s3) by (by eapply grown_mapping).
    by destruct rows'. }
  rewrite wp_sbind. destruct (course_name_to_id t !! name) as [course_id|].
  - rewrite wp_sret. by apply Hmapping.
  - rewrite wp_sbind. apply wp_select_course_any; [|by intros; eapply grown_same].
    intros rows s1 Hs1. assert (Hg1 : grown s0 s1) by (by eapply grown_same).
    destruct rows as [|row rows].
    + rewrite wp_sbind. apply wp_insert_course_any; [|by intros; eapply grown_same].
      intros rows' s2 id Ha Hb Hc.
      assert (Hg2 : grown s0 s2) by (eapply grown_course; [done| |done|done|done]; by split).
      destruct rows' as [|row' rows'].
      * rewrite wp_sbind, wp_logger, !wp_sret. by apply grown_log.
      * rewrite wp_sbind, wp_logger, wp_sret. apply Hmapping. by apply grown_log.
    + rewrite wp_sret. by apply Hmapping.
Qed.

(** One turn of the loop over the colleges adds rows only. *)
Lemma stage_college_grown s0 t college s :
  grown s0 s ->
  wp (stage_college t college) (fun _ s' => grown s0 s') (fun _ s' => grown s0 s') s.
Proof.
  intros Hg. unfold stage_college.
  rewrite wp_sbind, wp_slift. destruct (as_dict college) as [d|e]; [|done].
  rewrite wp_sbind, wp_slift.
  destruct (str_strip (get d "name" (PStr ""))) as [name|e] eqn:Hname; [|done].
  destruct (PyStr.is_empty name) eqn:Hne; [done|].
  pose proof (str_strip_trimmed _ _ Hname Hne) as Hword.
  assert (Hcourses : forall college_id t0 s1, grown s0 s1 ->
    wp (courses <- slift (py_iter (get d "courses" (PList []))) ;;
        sfor_each (stage_course college_id) courses t0)%st
       (fun _ s' => grown s0 s') (fun _ s' => grown s0 s') s1).
  { intros college_id t0 s1 Hg1. rewrite wp_sbind, wp_slift.
    destruct (py_iter _) as [courses|e]; [|done].
    pose proof (wp_sfor_each (stage_course college_id) (fun _ _ s' => grown s0 s')
                  (fun _ s' => grown s0 s') courses [] t0 s1) as Hloop.
    apply Hloop; [|done]. intros done x acc s2 Hg2. by apply stage_course_grown. }
  rewrite wp_sbind. apply wp_select_college_any; [|by intros; eapply grown_same].
  intros rows s1 Hs1. assert (Hg1 : grown s0 s1) by (by eapply grown_same).
  rewrite wp_sbind. destruct rows as [|row rows].
  - rewrite wp_sbind, wp_slift.
    destruct (str_strip (get d "city" (PStr ""))) as [city|e] eqn:Hcity; [|done].
    rewrite wp_sbind, wp_slift.
    destruct (str_strip (get d "type" (PStr ""))) as [type|e] eqn:Htype; [|done].
    rewrite wp_sbind. apply wp_insert_college_any; [|by intros; eapply grown_same].
    intros rows' s2 id Ha Hb Hc.
    assert (Hg2 : grown s0 s2).
    { eapply grown_college; [done| |done|done|done].
      split; [done|]. split; [by eapply str_strip_idem|]. split; [by eapply str_strip_idem|done]. }
    destruct rows' as [|row' rows'].
    + rewrite wp_sbind, wp_logger, !wp_sret. by apply grown_log.
    + rewrite wp_sbind, wp_logger, wp_sret. apply Hcourses. by apply grown_log.
  - rewrite wp_sbind, wp_logger, wp_sret. apply Hcourses. by apply grown_log.
Qed.

(** X26. [save_to_staging_tables] never raises, whatever the document and
    whatever the store answers: it returns a flag and a message. It never
    changes or removes a row of the staging tables: each table is what it was
    with rows added at the end, and what is added is not undone when the call
    fails later on. A college row it adds has a name that is not blank and
    has no whitespace around it, and the description
    [<name> is located in <city>, . Type: <type>], the state being left out; a
    course row has for description its degree level, or the empty string. *)
Theorem save_to_staging_tables_appends s json_data job_id :
  let r := save_to_staging_tables json_data job_id s in
  (exists ok msg, fst r = Return (ok, msg)) /\ grown s (snd r).
Proof.
  intros r.
  assert (Hwp : wp (save_to_staging_tables json_data job_id)
                  (fun _ s' => grown s s') (fun _ _ => False) s).
  { unfold save_to_staging_tables. rewrite wp_stry.
    set (E := fun (e : exn) (s' : sworld) => grown s s').
    apply wp_mono with (Q := fun (_ : bool * string) s' => grown s s') (E := E).
    { done. }
    { intros e s' Hg. rewrite wp_sbind, wp_logger, wp_sret. by apply grown_log. }
    rewrite wp_sbind, wp_read_config.
    destruct (_ || _).
    { rewrite wp_sbind, wp_logger, wp_sret. apply grown_log, grown_refl. }
    rewrite wp_sbind.
    apply wp_srun_any; [|intros e w; eapply grown_same; [apply grown_refl|by repeat split]].
    intros [] w0.
    assert (Hg0 : grown s {| app := w0; staging_db := staging_db s |})
      by (eapply grown_same; [apply grown_refl|by repeat split]).
    rewrite wp_sbind, wp_slift. destruct (as_dict json_data) as [d|e]; [|done].
    destruct (negb (truthy (get d "colleges" (PList [])))).
    { rewrite wp_sbind, wp_logger, wp_sret. by apply grown_log. }
    rewrite wp_sbind, wp_slift. destruct (py_len _) as [n|e]; [|done].
    rewrite wp_sbind, wp_logger, wp_sbind, wp_slift.
    destruct (py_iter _) as [colleges|e]; [|by apply grown_log].
    rewrite wp_sbind.
    eapply wp_mono;
      [| |apply (wp_sfor_each stage_college (fun _ _ s' => grown s s') E colleges [])].
    - intros t s1 Hg1. cbv beta. rewrite wp_sbind, wp_logger, wp_sbind.
      destruct (truthy_opt job_id).
      + rewrite wp_stry. apply wp_srun_any.
        * intros [] w. rewrite !wp_sret. eapply grown_same; [apply Hg1|]. by repeat split.
        * intros e w. cbv beta. rewrite wp_logger, !wp_sret.
          eapply grown_same; [apply Hg1|]. by repeat split.
      + rewrite !wp_sret. by apply grown_log.
    - done.
    - intros done x acc s2 Hg2. by apply stage_college_grown.
    - by apply grown_log. }
  subst r. unfold wp in Hwp.
  destruct (save_to_staging_tables json_data job_id s) as [[[ok msg]|e] s']; [|done].
  simpl. eauto.
Qed.

(** *** A store that answers *)

Lemma take1_filter_nil {A : Type} (P : A -> Prop) `{!forall x, Decision (P x)} l :
  take 1 (filter P l) = [] -> forall x, x ∈ l -> ~ P x.
Proof.
  induction l as [|y l IH]; intros Hnil x Hx; [by apply elem_of_nil in Hx|].
  rewrite filter_cons in Hnil. destruct (decide (P y)) as [|Hy]; [done|].
  apply elem_of_cons in Hx as [->|Hx]; [done|]. by apply IH.
Qed.

Lemma take1_filter_app {A : Type} (P : A -> Prop) `{!forall x, Decision (P x)} l l' row rows :
  take 1 (filter P l) = row :: rows -> take 1 (filter P (l ++ l')) = [row].
Proof.
  rewrite filter_app. destruct (filter P l) as [|y f]; [done|]. simpl.
  rewrite take_0. by intros [= -> _].
Qed.

Lemma take1_filter_one {A : Type} (P : A -> Prop) `{!forall x, Decision (P x)} l row rows :
  take 1 (filter P l) = row :: rows -> rows = [] /\ row ∈ l /\ P row.
Proof.
  intros Htake. assert (Hin : row ∈ filter P l).
  { destruct (filter P l) as [|y f]; [done|]. simpl in Htake. injection Htake as -> _.
    apply list_elem_of_here. }
  apply list_elem_of_filter in Hin as [HP Hin]. split; [|done].
  destruct (filter P l) as [|y f]; [done|]. simpl in Htake. rewrite take_0 in Htake.
  by injection Htake.
Qed.

Lemma take1_filter_new {A : Type} (P : A -> Prop) `{!forall x, Decision (P x)} l row :
  take 1 (filter P l) = [] -> P row -> take 1 (filter P (l ++ [row])) = [row].
Proof.
  intros Hnil HP. rewrite filter_app.
  assert (Hf : filter P l = []) by (by destruct (filter P l)).
  rewrite Hf. simpl. rewrite filter_cons, decide_True by done. done.
Qed.

Lemma NoDup_snoc_new {A B : Type} (f : A -> B) (P : A -> Prop) `{!forall x, Decision (P x)}
    l row :
  (forall x, f x = f row -> P x) ->
  take 1 (filter P l) = [] -> NoDup (f <$> l) -> NoDup (f <$> l ++ [row]).
Proof.
  intros HP Hnil Hnd. rewrite fmap_app. apply NoDup_app. split; [done|].
  split; [|apply NoDup_singleton].
  intros y Hy Hy'. apply list_elem_of_singleton in Hy'. subst y.
  apply list_elem_of_fmap in Hy as (x & Hfx & Hx).
  by apply (take1_filter_nil P l Hnil x Hx), HP.
Qed.

Lemma answering_log s entry :
  answering s -> answering {| app := with_log entry (app s); staging_db := staging_db s |}.
Proof. done. Qed.

Lemma wp_issue_ok c Q E s :
  answering s ->
  (forall s', answering s' -> same_staging s s' -> st_next_id (staging_db s') = st_next_id (staging_db s) ->
              Q Healthy s') ->
  wp (issue_staging c) Q E s.
Proof.
  intros Hs HQ. rewrite wp_issue_staging.
  pose proof Hs as (_ & _ & _ & Hf). rewrite Hf. apply HQ; [done| |done]. by repeat split.
Qed.

Lemma wp_select_college_ok name Q E s :
  answering s ->
  (forall s', answering s' -> same_staging s s' -> Q (college_named (staging_db s) name) s') ->
  wp (select_st_college name) Q E s.
Proof.
  intros Hs HQ. unfold select_st_college. rewrite wp_sbind.
  apply wp_issue_ok; [done|]. intros s' Hs' Hsame _.
  unfold wp. pose proof Hsame as (Ha & _). rewrite Ha. by apply HQ.
Qed.

Lemma wp_select_course_ok name Q E s :
  answering s ->
  (forall s', answering s' -> same_staging s s' -> Q (course_named (staging_db s) name) s') ->
  wp (select_st_course name) Q E s.
Proof.
  intros Hs HQ. unfold select_st_course. rewrite wp_sbind.
  apply wp_issue_ok; [done|]. intros s' Hs' Hsame _.
  unfold wp. pose proof Hsame as (_ & Hb & _). rewrite Hb. by apply HQ.
Qed.

Lemma wp_select_mapping_ok college_id course_id Q E s :
  answering s ->
  (forall s', answering s' -> same_staging s s' ->
              Q (mapping_of (staging_db s) college_id course_id) s') ->
  wp (select_st_mapping college_id course_id) Q E s.
Proof.
  intros Hs HQ. unfold select_st_mapping. rewrite wp_sbind.
  apply wp_issue_ok; [done|]. intros s' Hs' Hsame _.
  unfold wp. pose proof Hsame as (_ & _ & Hc). rewrite Hc. by apply HQ.
Qed.

Lemma wp_insert_college_ok name description city type Q E s :
  answering s ->
  (forall s' row,
     answering s' -> cg_name row = name ->
     st_college (staging_db s') = st_college (staging_db s) ++ [row] ->
     st_course (staging_db s') = st_course (staging_db s) ->
     st_college_courses (staging_db s') = st_college_courses (staging_db s) ->
     Q [row] s') ->
  wp (insert_st_college name description city type) Q E s.
Proof.
  intros Hs HQ. unfold insert_st_college. rewrite wp_sbind.
  apply wp_issue_ok; [done|]. intros s' Hs' (Ha & Hb & Hc) _.
  unfold wp. apply HQ; st_simpl; try done. by rewrite Ha.
Qed.

Lemma wp_insert_course_ok name description duration degree_level annual_fees Q E s :
  answering s ->
  (forall s' row,
     answering s' -> cs_name row = name ->
     st_college (staging_db s') = st_college (staging_db s) ->
     st_course (staging_db s') = st_course (staging_db s) ++ [row] ->
     st_college_courses (staging_db s') = st_college_courses (staging_db s) ->
     Q [row] s') ->
  wp (insert_st_course name description duration degree_level annual_fees) Q E s.
Proof.
  intros Hs HQ. unfold insert_st_course. rewrite wp_sbind.
  apply wp_issue_ok; [done|]. intros s' Hs' (Ha & Hb & Hc) _.
  unfold wp. apply HQ; st_simpl; try done. by rewrite Hb.
Qed.

Lemma wp_insert_mapping_ok college_id course_id Q E s :
  answering s ->
  (forall s' row,
     answering s' -> mp_college_id row = college_id -> mp_course_id row = course_id ->
     st_college (staging_db s') = st_college (staging_db s) ->
     st_course (staging_db s') = st_course (staging_db s) ->
     st_college_courses (staging_db s') = st_college_courses (staging_db s) ++ [row] ->
     Q [row] s') ->
  wp (insert_st_mapping college_id course_id) Q E s.
Proof.
  intros Hs HQ. unfold insert_st_mapping. rewrite wp_sbind.
  apply wp_issue_ok; [done|]. intros s' Hs' (Ha & Hb & Hc) _.
  unfold wp. apply HQ; st_simpl; try done. by rewrite Hc.
Qed.

(** The job-status update of a store that answers. *)
Lemma wp_job_update_ok id success message Q E s :
  answering s ->
  (forall s', answering s' -> same_staging s s' -> Q tt s') ->
  wp (srun (update_scrape_job id success message)) Q E s.
Proof.
  intros Hs HQ. pose proof Hs as (Hu & Hk & Hc & Hf).
  unfold wp, srun, update_scrape_job, issue. run. world_simpl. rewrite Hf.
  apply HQ; [|by repeat split]. by repeat split.
Qed.

Lemma wp_create_client_ok Q E s : answering s -> Q tt s -> wp (srun create_client) Q E s.
Proof.
  intros (_ & _ & Hc & _) HQ. unfold wp, srun, create_client. rewrite Hc. by destruct s.
Qed.

Lemma unique_same s s' :
  unique_names (staging_db s) -> same_staging s s' -> unique_names (staging_db s').
Proof. intros (Ha & Hb & Hc) (Hsa & Hsb & Hsc). unfold unique_names. by rewrite Hsa, Hsb, Hsc. Qed.

Lemma unique_college s s' row :
  unique_names (staging_db s) -> college_named (staging_db s) (cg_name row) = [] ->
  st_college (staging_db s') = st_college (staging_db s) ++ [row] ->
  st_course (staging_db s') = st_course (staging_db s) ->
  st_college_courses (staging_db s') = st_college_courses (staging_db s) ->
  unique_names (staging_db s').
Proof.
  intros (Ha & Hb & Hc) Hnew Hsa Hsb Hsc. unfold unique_names. rewrite Hsa, Hsb, Hsc.
  split; [|done].
  by apply (NoDup_snoc_new cg_name (fun r => cg_name r = cg_name row)).
Qed.

Lemma unique_course s s' row :
  unique_names (staging_db s) -> course_named (staging_db s) (cs_name row) = [] ->
  st_college (staging_db s') = st_college (staging_db s) ->
  st_course (staging_db s') = st_course (staging_db s) ++ [row] ->
  st_college_courses (staging_db s') = st_college_courses (staging_db s) ->
  unique_names (staging_db s').
Proof.
  intros (Ha & Hb & Hc) Hnew Hsa Hsb Hsc. unfold unique_names. rewrite Hsa, Hsb, Hsc.
  split; [done|]. split; [|done].
  by apply (NoDup_snoc_new cs_name (fun r => cs_name r = cs_name row)).
Qed.

Lemma unique_mapping s s' row :
  unique_names (staging_db s) ->
  mapping_of (staging_db s) (mp_college_id row) (mp_course_id row) = [] ->
  st_college (staging_db s') = st_college (staging_db s) ->
  st_course (staging_db s') = st_course (staging_db s) ->
  st_college_courses (staging_db s') = st_college_courses (staging_db s) ++ [row] ->
  unique_names (staging_db s').
Proof.
  intros (Ha & Hb & Hc) Hnew Hsa Hsb Hsc. unfold unique_names. rewrite Hsa, Hsb, Hsc.
  split; [done|]. split; [done|].
  apply (NoDup_snoc_new mapping_pair
           (fun r => mp_college_id r = mp_college_id row /\ mp_course_id r = mp_course_id row));
    [|done|done].
  intros x [= H1 H2]. done.
Qed.

(** One turn of the loop over the courses keeps the names apart. *)
Lemma stage_course_unique college_id t course s :
  answering s -> unique_names (staging_db s) ->
  wp (stage_course college_id t course)
     (fun _ s' => answering s' /\ unique_names (staging_db s'))
     (fun _ s' => answering s' /\ unique_names (staging_db s')) s.
Proof.
  intros Hs Hu. unfold stage_course.
  rewrite wp_sbind, wp_slift. destruct (as_dict course) as [d|e]; [|done].
  rewrite wp_sbind, wp_slift.
  destruct (str_strip (get d "name" (PStr ""))) as [name|e]; [|done].
  destruct (PyStr.is_empty name); [done|].
  assert (Hmapping : forall course_id t0 s1,
    answering s1 -> unique_names (staging_db s1) ->
    wp (existing_mapping <- select_st_mapping college_id course_id ;;
        match existing_mapping with
        | _ :: _ => sret t0
        | [] =>
            mapping_response <- insert_st_mapping college_id course_id ;;
            match mapping_response with
            | [] => sret t0
            | _ :: _ =>
                sret {| colleges_inserted := colleges_inserted t0;
                        courses_inserted := courses_inserted t0;
                        mappings_inserted := S (mappings_inserted t0);
                        colleges_skipped := colleges_skipped t0;
                        course_name_to_id := course_name_to_id t0 |}
            end
        end)%st
       (fun _ s' => answering s' /\ unique_names (staging_db s'))
       (fun _ s' => answering s' /\ unique_names (staging_db s')) s1).
  { intros course_id t0 s1 Hs1 Hu1. rewrite wp_sbind.
    apply wp_select_mapping_ok; [done|]. intros s2 Hs2 Hsame2.
    pose proof (unique_same _ _ Hu1 Hsame2) as Hu2.
    destruct (mapping_of (staging_db s1) college_id course_id) eqn:Hnone; [|done].
    rewrite wp_sbind. apply wp_insert_mapping_ok; [done|].
    intros s3 row Hs3 Hcid Hcrid Ha Hb Hc. rewrite wp_sret. split; [done|].
    destruct Hsame2 as (Ha2 & Hb2 & Hc2).
    apply (unique_mapping s1 s3 row); [done| |congruence|congruence|congruence].
    by rewrite Hcid, Hcrid. }
  rewrite wp_sbind. destruct (course_name_to_id t !! name) as [course_id|].
  - rewrite wp_sret. by apply Hmapping.
  - rewrite wp_sbind. apply wp_select_course_ok; [done|]. intros s1 Hs1 Hsame1.
    pose proof (unique_same _ _ Hu Hsame1) as Hu1.
    destruct (course_named (staging_db s) name) as [|row rows] eqn:Hnone.
    + rewrite wp_sbind. apply wp_insert_course_ok; [done|].
      intros s2 row Hs2 Hname Ha Hb Hc.
      rewrite wp_sbind, wp_logger, wp_sret. apply Hmapping; [done|]. st_simpl.
      destruct Hsame1 as (Ha1 & Hb1 & Hc1).
      apply (unique_course s s2 row); [done| |congruence|congruence|congruence].
      by rewrite Hname.
    + rewrite wp_sret. by apply Hmapping.
Qed.

(** One turn of the loop over the colleges keeps the names apart. *)
Lemma stage_college_unique t college s :
  answering s -> unique_names (staging_db s) ->
  wp (stage_college t college)
     (fun _ s' => answering s' /\ unique_names (staging_db s'))
     (fun _ s' => answering s' /\ unique_names (staging_db s')) s.
Proof.
  intros Hs Hu. unfold stage_college.
  rewrite wp_sbind, wp_slift. destruct (as_dict college) as [d|e]; [|done].
  rewrite wp_sbind, wp_slift.
  destruct (str_strip (get d "name" (PStr ""))) as [name|e]; [|done].
  destruct (PyStr.is_empty name); [done|].
  assert (Hcourses : forall college_id t0 s1,
    answering s1 -> unique_names (staging_db s1) ->
    wp (courses <- slift (py_iter (get d "courses" (PList []))) ;;
        sfor_each (stage_course college_id) courses t0)%st
       (fun _ s' => answering s' /\ unique_names (staging_db s'))
       (fun _ s' => answering s' /\ unique_names (staging_db s')) s1).
  { intros college_id t0 s1 Hs1 Hu1. rewrite wp_sbind, wp_slift.
    destruct (py_iter _) as [courses|e]; [|done].
    apply (wp_sfor_each (stage_course college_id)
             (fun _ _ s' => answering s' /\ unique_names (staging_db s'))
             (fun _ s' => answering s' /\ unique_names (staging_db s')) courses []);
      [|done].
    intros done x acc s2 [Hs2 Hu2]. by apply stage_course_unique. }
  rewrite wp_sbind. apply wp_select_college_ok; [done|]. intros s1 Hs1 Hsame1.
  pose proof (unique_same _ _ Hu Hsame1) as Hu1.
  rewrite wp_sbind. destruct (college_named (staging_db s) name) as [|row rows] eqn:Hnone.
  - rewrite wp_sbind, wp_slift.
    destruct (str_strip (get d "city" (PStr ""))) as [city|e]; [|done].
    rewrite wp_sbind, wp_slift.
    destruct (str_strip (get d "type" (PStr ""))) as [type|e]; [|done].
    rewrite wp_sbind. apply wp_insert_college_ok; [done|].
    intros s2 row Hs2 Hname Ha Hb Hc.
    rewrite wp_sbind, wp_logger, wp_sret. apply Hcourses; [done|]. st_simpl.
    destruct Hsame1 as (Ha1 & Hb1 & Hc1).
    apply (unique_college s s2 row); [done| |congruence|congruence|congruence].
    by rewrite Hname.
  - rewrite wp_sbind, wp_logger, wp_sret. by apply Hcourses.
Qed.

(** X27. With a store that answers every call, [save_to_staging_tables]
    adds no second row of a name: when no two rows of [st_college] and no two
    rows of [st_course] have one name and no two rows of [st_college_courses]
    relate one pair, the same holds after the call, whatever the document
    holds and whether the call succeeds or not. The store still answers. *)
Theorem save_to_staging_tables_keeps_names_unique s json_data job_id :
  answering s -> unique_names (staging_db s) ->
  let r := save_to_staging_tables json_data job_id s in
  answering (snd r) /\ unique_names (staging_db (snd r)).
Proof.
  intros Hs Hu r.
  assert (Hwp : wp (save_to_staging_tables json_data job_id)
                  (fun _ s' => answering s' /\ unique_names (staging_db s'))
                  (fun _ s' => answering s' /\ unique_names (staging_db s')) s).
  { unfold save_to_staging_tables. rewrite wp_stry.
    set (J := fun s' : sworld => answering s' /\ unique_names (staging_db s')).
    apply wp_mono with (Q := fun (_ : bool * string) s' => J s') (E := fun _ s' => J s').
    { done. }
    { intros e s' HJ. by rewrite wp_sbind, wp_logger, wp_sret. }
    rewrite wp_sbind, wp_read_config.
    destruct (_ || _); [by rewrite wp_sbind, wp_logger, wp_sret|].
    rewrite wp_sbind. apply wp_create_client_ok; [done|].
    rewrite wp_sbind, wp_slift. destruct (as_dict json_data) as [d|e]; [|done].
    destruct (negb (truthy (get d "colleges" (PList [])))).
    { by rewrite wp_sbind, wp_logger, wp_sret. }
    rewrite wp_sbind, wp_slift. destruct (py_len _) as [n|e]; [|done].
    rewrite wp_sbind, wp_logger, wp_sbind, wp_slift.
    destruct (py_iter _) as [colleges|e]; [|done].
    rewrite wp_sbind.
    eapply wp_mono;
      [| |apply (wp_sfor_each stage_college (fun _ _ s' => J s') (fun _ s' => J s')
                   colleges [])].
    - intros t s1 [Hs1 Hu1]. cbv beta. rewrite wp_sbind, wp_logger, wp_sbind.
      destruct (truthy_opt job_id).
      + rewrite wp_stry. apply wp_job_update_ok; [done|].
        intros s2 Hs2 Hsame2. rewrite !wp_sret. split; [done|].
        by apply (unique_same _ s2) in Hu1.
      + by rewrite !wp_sret.
    - done.
    - intros done x acc s2 [Hs2 Hu2]. by apply stage_college_unique.
    - done. }
  subst r. unfold wp in Hwp.
  by destruct (save_to_staging_tables json_data job_id s) as [[a|e] s'].
Qed.

(** *** A second run *)

Lemma wp_sfor_each_in {A B : Type} (f : A -> B -> SM A)
    (Inv : list B -> A -> sworld -> Prop) (E : exn -> sworld -> Prop) l :
  forall pre acc s,
    (forall done x acc s, x ∈ l -> Inv done acc s -> wp (f acc x) (Inv (done ++ [x])) E s) ->
    Inv pre acc s ->
    wp (sfor_each f l acc) (Inv (pre ++ l)) E s.
Proof.
  induction l as [|x l IH]; intros pre acc s Hbody Hinv; cbn [sfor_each].
  - by rewrite wp_sret, app_nil_r.
  - rewrite wp_sbind. eapply wp_mono; [| |apply Hbody; [apply list_elem_of_here|done]].
    + intros acc' s' Hinv'. cbv beta.
      replace (pre ++ x :: l) with ((pre ++ [x]) ++ l) by (by rewrite <- app_assoc).
      apply IH; [|done]. intros done y acc0 s0 Hy. apply Hbody. by apply list_elem_of_further.
    + done.
Qed.

Lemma extends_refl db : extends db db.
Proof. exists [], [], []. by rewrite !app_nil_r. Qed.

Lemma extends_trans db1 db2 db3 : extends db1 db2 -> extends db2 db3 -> extends db1 db3.
Proof.
  intros (a & b & c & Ha & Hb & Hc) (a' & b' & c' & Ha' & Hb' & Hc').
  exists (a ++ a'), (b ++ b'), (c ++ c'). rewrite Ha', Hb', Hc', Ha, Hb, Hc.
  by rewrite !app_assoc.
Qed.

Lemma extends_same s s' : same_staging s s' -> extends (staging_db s) (staging_db s').
Proof. intros (Ha & Hb & Hc). exists [], [], []. by rewrite Ha, Hb, Hc, !app_nil_r. Qed.

Lemma college_named_extends db db' name row :
  extends db db' -> college_named db name = [row] -> college_named db' name = [row].
Proof.
  intros (a & b & c & Ha & _) H. unfold college_named in *. rewrite Ha.
  by eapply take1_filter_app.
Qed.

Lemma course_named_extends db db' name row :
  extends db db' -> course_named db name = [row] -> course_named db' name = [row].
Proof.
  intros (a & b & c & _ & Hb & _) H. unfold course_named in *. rewrite Hb.
  by eapply take1_filter_app.
Qed.

Lemma mapping_of_extends db db' college_id course_id :
  extends db db' -> mapping_of db college_id course_id <> [] ->
  mapping_of db' college_id course_id <> [].
Proof.
  intros (a & b & c & _ & _ & Hc) H. unfold mapping_of in *. rewrite Hc.
  destruct (take 1 (filter _ (st_college_courses db))) as [|row rows] eqn:Hm; [done|].
  by rewrite (take1_filter_app _ _ _ _ _ Hm).
Qed.

Lemma course_settled_extends db db' college_id course :
  extends db db' -> course_settled db college_id course -> course_settled db' college_id course.
Proof.
  intros Hext (d & name & Hd & Hname & Hrow). exists d, name. split; [done|]. split; [done|].
  intros Hne. destruct (Hrow Hne) as (row & Hcourse & Hmap). exists row.
  split; [by eapply course_named_extends|by eapply mapping_of_extends].
Qed.

Lemma college_settled_extends db db' college :
  extends db db' -> college_settled db college -> college_settled db' college.
Proof.
  intros Hext (d & name & Hd & Hname & Hrow). exists d, name. split; [done|]. split; [done|].
  intros Hne. destruct (Hrow Hne) as (row & courses & Hcollege & Hiter & Hall).
  exists row, courses. split; [by eapply college_named_extends|]. split; [done|].
  eapply Forall_impl; [done|]. intros c. by apply course_settled_extends.
Qed.

Lemma cache_ok_extends db db' t : extends db db' -> cache_ok db t -> cache_ok db' t.
Proof.
  intros Hext Hok name id Hl. destruct (Hok name id Hl) as (row & Hrow & Hid).
  exists row. split; [by eapply course_named_extends|done].
Qed.

Lemma cache_ok_insert db t name row (t' : tally) :
  cache_ok db t -> course_named db name = [row] ->
  course_name_to_id t' = <[name := cs_id row]> (course_name_to_id t) ->
  cache_ok db t'.
Proof.
  intros Hok Hrow Hcache name' id. rewrite Hcache.
  destruct (decide (name = name')) as [<-|Hne].
  - rewrite lookup_insert_eq. intros [= <-]. by exists row.
  - rewrite lookup_insert_ne by done. apply Hok.
Qed.

(** The mapping is there after the end of the turn. *)
Lemma link_course_settles college_id course_id t s :
  answering s ->
  wp (link_course college_id course_id t)
     (fun t' s' => answering s' /\ extends (staging_db s) (staging_db s') /\
                   course_name_to_id t' = course_name_to_id t /\
                   mapping_of (staging_db s') college_id course_id <> [])
     (fun _ _ => True) s.
Proof.
  intros Hs. unfold link_course. rewrite wp_sbind.
  apply wp_select_mapping_ok; [done|]. intros s1 Hs1 Hsame1.
  pose proof (extends_same _ _ Hsame1) as Hext1.
  destruct (mapping_of (staging_db s) college_id course_id) as [|mrow rows] eqn:Hm.
  - rewrite wp_sbind. apply wp_insert_mapping_ok; [done|].
    intros s2 row Hs2 Hcid Hcrid Ha Hb Hc. rewrite wp_sret.
    split; [done|]. split; [|split; [done|]].
    + eapply extends_trans; [done|]. exists [], [], [row]. by rewrite Ha, Hb, Hc, !app_nil_r.
    + unfold mapping_of in *. rewrite Hc.
      destruct Hsame1 as (_ & _ & Hc1). rewrite Hc1.
      by rewrite (take1_filter_new _ _ row Hm).
  - rewrite wp_sret. split; [done|]. split; [done|]. split; [done|].
    apply (mapping_of_extends _ _ _ _ Hext1). by rewrite Hm.
Qed.

(** When the mapping is there, the end of the turn changes nothing. *)
Lemma link_course_noop college_id course_id t s :
  answering s -> mapping_of (staging_db s) college_id course_id <> [] ->
  wp (link_course college_id course_id t)
     (fun t' s' => answering s' /\ same_staging s s' /\ t' = t)
     (fun _ _ => False) s.
Proof.
  intros Hs Hm. unfold link_course. rewrite wp_sbind.
  apply wp_select_mapping_ok; [done|]. intros s1 Hs1 Hsame1.
  destruct (mapping_of (staging_db s) college_id course_id) as [|mrow rows]; [done|].
  by rewrite wp_sret.
Qed.

Lemma same_staging_trans s1 s2 s3 :
  same_staging s1 s2 -> same_staging s2 s3 -> same_staging s1 s3.
Proof.
  intros (Ha & Hb & Hc) (Ha' & Hb' & Hc'). unfold same_staging. by rewrite Ha', Hb', Hc'.
Qed.

Lemma same_staging_log s entry :
  same_staging s {| app := with_log entry (app s); staging_db := staging_db s |}.
Proof. by repeat split. Qed.

Lemma nothing_inserted_refl t : nothing_inserted t t.
Proof. by repeat split. Qed.

Lemma nothing_inserted_trans t1 t2 t3 :
  nothing_inserted t1 t2 -> nothing_inserted t2 t3 -> nothing_inserted t1 t3.
Proof.
  intros (Ha & Hb & Hc) (Ha' & Hb' & Hc'). unfold nothing_inserted. by rewrite Ha', Hb', Hc'.
Qed.

(** One turn of the loop over the courses leaves the course and its
    mapping in the tables. *)
Lemma stage_course_settles college_id t course s :
  answering s -> cache_ok (staging_db s) t ->
  wp (stage_course college_id t course)
     (fun t' s' => answering s' /\ extends (staging_db s) (staging_db s') /\
                   cache_ok (staging_db s') t' /\
                   course_settled (staging_db s') college_id course)
     (fun _ _ => True) s.
Proof.
  intros Hs Hok. unfold stage_course.
  rewrite wp_sbind, wp_slift. destruct (as_dict course) as [d|e] eqn:Hd; [|done].
  rewrite wp_sbind, wp_slift.
  destruct (str_strip (get d "name" (PStr ""))) as [name|e] eqn:Hname; [|done].
  destruct (PyStr.is_empty name) eqn:Hne.
  { rewrite wp_sret. apply is_empty_true in Hne.
    split; [done|]. split; [apply extends_refl|]. split; [done|].
    exists d, name. by repeat split. }
  assert (Hlink : forall row t0 s1,
    answering s1 -> extends (staging_db s) (staging_db s1) -> cache_ok (staging_db s1) t0 ->
    course_named (staging_db s1) name = [row] ->
    wp (link_course college_id (cs_id row) t0)
       (fun t' s' => answering s' /\ extends (staging_db s) (staging_db s') /\
                     cache_ok (staging_db s') t' /\
                     course_settled (staging_db s') college_id course)
       (fun _ _ => True) s1).
  { intros row t0 s1 Hs1 Hext1 Hok1 Hrow.
    eapply wp_mono; [| |by apply link_course_settles].
    - intros t' s' (Hs' & Hext' & Hcache & Hmap). split; [done|].
      split; [by eapply extends_trans|]. split.
      + apply (cache_ok_extends _ _ _ Hext') in Hok1. intros n id. rewrite Hcache. apply Hok1.
      + exists d, name. split; [done|]. split; [done|]. intros _. exists row.
        split; [by eapply course_named_extends|done].
    - done. }
  rewrite wp_sbind. destruct (course_name_to_id t !! name) as [course_id|] eqn:Hcache.
  - rewrite wp_sret. destruct (Hok name course_id Hcache) as (row & Hrow & <-).
    apply Hlink; [done|apply extends_refl|done|done].
  - rewrite wp_sbind. apply wp_select_course_ok; [done|]. intros s1 Hs1 Hsame1.
    pose proof (extends_same _ _ Hsame1) as Hext1.
    destruct (course_named (staging_db s) name) as [|row rows] eqn:Hrow.
    + rewrite wp_sbind. apply wp_insert_course_ok; [done|].
      intros s2 crow Hs2 Hcname Ha Hb Hc.
      rewrite wp_sbind, wp_logger, wp_sret.
      assert (Hext2 : extends (staging_db s) (staging_db s2)).
      { eapply extends_trans; [done|]. exists [], [crow], []. by rewrite Ha, Hb, Hc, !app_nil_r. }
      assert (Hcrow : course_named (staging_db s2) name = [crow]).
      { unfold course_named in *. rewrite Hb. destruct Hsame1 as (_ & Hb1 & _). rewrite Hb1.
        by apply take1_filter_new. }
      apply Hlink; st_simpl; [by apply answering_log|done| |done].
      eapply cache_ok_insert; [by eapply cache_ok_extends|done|done].
    + rewrite wp_sret. destruct (take1_filter_one _ _ _ _ Hrow) as (-> & _ & _).
      apply Hlink; [done|done| |by eapply course_named_extends].
      eapply cache_ok_insert;
        [by eapply cache_ok_extends|by eapply course_named_extends|done].
Qed.

(** When the course and its mapping are in the tables, the turn changes
    nothing. *)
Lemma stage_course_noop college_id t course s :
  answering s -> cache_ok (staging_db s) t ->
  course_settled (staging_db s) college_id course ->
  wp (stage_course college_id t course)
     (fun t' s' => answering s' /\ same_staging s s' /\ cache_ok (staging_db s') t' /\
                   nothing_inserted t t' /\ colleges_skipped t' = colleges_skipped t)
     (fun _ _ => False) s.
Proof.
  intros Hs Hok (d & name & Hd & Hname & Hrow). unfold stage_course.
  rewrite wp_sbind, wp_slift, Hd. rewrite wp_sbind, wp_slift, Hname.
  destruct (PyStr.is_empty name) eqn:Hne.
  { rewrite wp_sret. split; [done|]. split; [apply same_staging_refl|].
    split; [done|]. split; [apply nothing_inserted_refl|done]. }
  apply is_empty_false in Hne. destruct (Hrow Hne) as (row & Hcourse & Hmap).
  rewrite wp_sbind. destruct (course_name_to_id t !! name) as [course_id|] eqn:Hcache.
  - rewrite wp_sret. destruct (Hok name course_id Hcache) as (row' & Hrow' & <-).
    rewrite Hcourse in Hrow'. injection Hrow' as <-.
    eapply wp_mono; [| |by apply link_course_noop].
    + intros t' s' (Hs' & Hsame & ->). split; [done|]. split; [done|].
      split; [by eapply cache_ok_extends; [apply extends_same|]|].
      split; [apply nothing_inserted_refl|done].
    + done.
  - rewrite wp_sbind. apply wp_select_course_ok; [done|]. intros s1 Hs1 Hsame1.
    pose proof (extends_same _ _ Hsame1) as Hext1.
    rewrite Hcourse. rewrite wp_sret.
    eapply wp_mono; [| |apply link_course_noop; [done|by eapply mapping_of_extends]].
    + intros t' s' (Hs' & Hsame & ->). split; [done|].
      split; [by eapply same_staging_trans|].
      split; [|split; [by repeat split|done]].
      pose proof (extends_same _ _ (same_staging_trans _ _ _ Hsame1 Hsame)) as Hext.
      eapply cache_ok_insert;
        [by eapply cache_ok_extends|by eapply course_named_extends|done].
    + done.
Qed.

(** One turn of the loop over the colleges leaves the college, its courses
    and their mappings in the tables. *)
Lemma stage_college_settles t college s :
  answering s -> cache_ok (staging_db s) t ->
  wp (stage_college t college)
     (fun t' s' => answering s' /\ extends (staging_db s) (staging_db s') /\
                   cache_ok (staging_db s') t' /\ college_settled (staging_db s') college)
     (fun _ _ => True) s.
Proof.
  intros Hs Hok. unfold stage_college.
  rewrite wp_sbind, wp_slift. destruct (as_dict college) as [d|e] eqn:Hd; [|done].
  rewrite wp_sbind, wp_slift.
  destruct (str_strip (get d "name" (PStr ""))) as [name|e] eqn:Hname; [|done].
  destruct (PyStr.is_empty name) eqn:Hne.
  { rewrite wp_sret. apply is_empty_true in Hne.
    split; [done|]. split; [apply extends_refl|]. split; [done|].
    exists d, name. by repeat split. }
  assert (Hcourses : forall row t0 s1,
    answering s1 -> extends (staging_db s) (staging_db s1) -> cache_ok (staging_db s1) t0 ->
    college_named (staging_db s1) name = [row] ->
    wp (courses <- slift (py_iter (get d "courses" (PList []))) ;;
        sfor_each (stage_course (cg_id row)) courses t0)%st
       (fun t' s' => answering s' /\ extends (staging_db s) (staging_db s') /\
                     cache_ok (staging_db s') t' /\ college_settled (staging_db s') college)
       (fun _ _ => True) s1).
  { intros row t0 s1 Hs1 Hext1 Hok1 Hrow. rewrite wp_sbind, wp_slift.
    destruct (py_iter _) as [courses|e] eqn:Hiter; [|done].
    eapply wp_mono;
      [| |apply (wp_sfor_each (stage_course (cg_id row))
                   (fun done t' s' =>
                      answering s' /\ extends (staging_db s1) (staging_db s') /\
                      cache_ok (staging_db s') t' /\
                      Forall (course_settled (staging_db s') (cg_id row)) done)
                   (fun _ _ => True) courses [])].
    - intros t' s' (Hs' & Hext' & Hok' & Hall). split; [done|].
      split; [by eapply extends_trans|]. split; [done|].
      exists d, name. split; [done|]. split; [done|]. intros _. exists row, courses.
      split; [by eapply college_named_extends|]. by split.
    - done.
    - intros done x acc s2 (Hs2 & Hext2 & Hok2 & Hall2).
      eapply wp_mono; [| |by apply stage_course_settles].
      + intros t' s3 (Hs3 & Hext3 & Hok3 & Hx). split; [done|].
        split; [by eapply extends_trans|]. split; [done|].
        apply Forall_app. split; [|by apply Forall_singleton].
        eapply Forall_impl; [done|]. intros c. by apply course_settled_extends.
      + done.
    - split; [done|]. split; [apply extends_refl|]. by split. }
  rewrite wp_sbind. apply wp_select_college_ok; [done|]. intros s1 Hs1 Hsame1.
  pose proof (extends_same _ _ Hsame1) as Hext1.
  rewrite wp_sbind. destruct (college_named (staging_db s) name) as [|row rows] eqn:Hrow.
  - rewrite wp_sbind, wp_slift.
    destruct (str_strip (get d "city" (PStr ""))) as [city|e]; [|done].
    rewrite wp_sbind, wp_slift.
    destruct (str_strip (get d "type" (PStr ""))) as [type|e]; [|done].
    rewrite wp_sbind. apply wp_insert_college_ok; [done|].
    intros s2 grow Hs2 Hgname Ha Hb Hc.
    rewrite wp_sbind, wp_logger, wp_sret.
    assert (Hext2 : extends (staging_db s) (staging_db s2)).
    { eapply extends_trans; [done|]. exists [grow], [], []. by rewrite Ha, Hb, Hc, !app_nil_r. }
    assert (Hgrow : college_named (staging_db s2) name = [grow]).
    { unfold college_named in *. rewrite Ha. destruct Hsame1 as (Ha1 & _). rewrite Ha1.
      by apply take1_filter_new. }
    apply Hcourses; st_simpl; [by apply answering_log|done| |done].
    by eapply cache_ok_extends.
  - rewrite wp_sbind, wp_logger, wp_sret.
    destruct (take1_filter_one _ _ _ _ Hrow) as (-> & _ & _).
    apply Hcourses; st_simpl; [by apply answering_log|done| |by eapply college_named_extends].
    by eapply cache_ok_extends.
Qed.

(** When the college, its courses and their mappings are in the tables,
    the turn changes nothing. *)
Lemma stage_college_noop t college s :
  answering s -> cache_ok (staging_db s) t -> college_settled (staging_db s) college ->
  wp (stage_college t college)
     (fun t' s' => answering s' /\ same_staging s s' /\ cache_ok (staging_db s') t' /\
                   nothing_inserted t t')
     (fun _ _ => False) s.
Proof.
  intros Hs Hok (d & name & Hd & Hname & Hrow). unfold stage_college.
  rewrite wp_sbind, wp_slift, Hd. rewrite wp_sbind, wp_slift, Hname.
  destruct (PyStr.is_empty name) eqn:Hne.
  { rewrite wp_sret. split; [done|]. split; [apply same_staging_refl|].
    split; [done|apply nothing_inserted_refl]. }
  apply is_empty_false in Hne.
  destruct (Hrow Hne) as (row & courses & Hcollege & Hiter & Hall).
  rewrite wp_sbind. apply wp_select_college_ok; [done|]. intros s1 Hs1 Hsame1.
  rewrite Hcollege. rewrite wp_sbind, wp_sbind, wp_logger, !wp_sret.
  rewrite wp_sbind, wp_slift, Hiter.
  set (t1 := {| colleges_inserted := colleges_inserted t;
                courses_inserted := courses_inserted t;
                mappings_inserted := mappings_inserted t;
                colleges_skipped := S (colleges_skipped t);
                course_name_to_id := course_name_to_id t |}).
  match goal with |- wp _ _ _ ?S1 => set (s2 := S1) end.
  assert (Hsame2 : same_staging s s2).
  { eapply same_staging_trans; [done|]. apply same_staging_log. }
  assert (Hs2 : answering s2) by (by apply answering_log).
  eapply wp_mono;
    [| |apply (wp_sfor_each_in (stage_course (cg_id row))
                 (fun _ t' s' =>
                    answering s' /\ same_staging s s' /\ cache_ok (staging_db s') t' /\
                    nothing_inserted t t')
                 (fun _ _ => False) courses [] t1 s2)].
  - intros t' s' H. exact H.
  - done.
  - intros done x acc s3 Hx (Hs3 & Hsame3 & Hok3 & Hnone3).
    eapply wp_mono; [| |apply stage_course_noop; [done|done|]].
    + intros t' s4 (Hs4 & Hsame4 & Hok4 & Hnone4 & _). split; [done|].
      split; [by eapply same_staging_trans|]. split; [done|].
      by eapply nothing_inserted_trans.
    + done.
    + eapply course_settled_extends; [by apply extends_same|].
      by apply (proj1 (Forall_forall _ _) Hall).
  - split; [done|]. split; [done|]. split; [|by repeat split].
    eapply cache_ok_extends; [by apply extends_same|]. done.
Qed.

Lemma document_settled_same s s' json_data :
  same_staging s s' -> document_settled (staging_db s) json_data ->
  document_settled (staging_db s') json_data.
Proof.
  intros Hsame (d & n & colleges & Hd & Ht & Hn & Hi & Hall).
  exists d, n, colleges. repeat (split; [done|]).
  eapply Forall_impl; [done|]. intros c. by apply college_settled_extends, extends_same.
Qed.

(** A run that succeeds leaves in the tables what the document names. *)
Lemma save_to_staging_tables_settles s json_data job_id :
  answering s ->
  wp (save_to_staging_tables json_data job_id)
     (fun r s' => fst r = true -> answering s' /\ document_settled (staging_db s') json_data)
     (fun _ _ => False) s.
Proof.
  intros Hs. unfold save_to_staging_tables. rewrite wp_stry.
  apply wp_mono
    with (Q := fun (r : bool * string) s' =>
                 fst r = true -> answering s' /\ document_settled (staging_db s') json_data)
         (E := fun _ _ => True).
  { done. }
  { intros e s' _. rewrite wp_sbind, wp_logger, wp_sret. by intros [=]. }
  rewrite wp_sbind, wp_read_config.
  pose proof Hs as (Hu & Hk & _). rewrite Hu, Hk. cbn [negb orb].
  rewrite wp_sbind. apply wp_create_client_ok; [done|].
  rewrite wp_sbind, wp_slift. destruct (as_dict json_data) as [d|e] eqn:Hd; [|done].
  destruct (truthy (get d "colleges" (PList []))) eqn:Htruthy; cbn [negb].
  2:{ rewrite wp_sbind, wp_logger, wp_sret. by intros [=]. }
  rewrite wp_sbind, wp_slift. destruct (py_len _) as [n|e] eqn:Hlen; [|done].
  rewrite wp_sbind, wp_logger, wp_sbind, wp_slift.
  destruct (py_iter _) as [colleges|e] eqn:Hiter; [|done].
  rewrite wp_sbind.
  eapply wp_mono;
    [| |apply (wp_sfor_each stage_college
                 (fun done t' s' =>
                    answering s' /\ cache_ok (staging_db s') t' /\
                    Forall (college_settled (staging_db s')) done)
                 (fun _ _ => True) colleges [])].
  - intros t s1 (Hs1 & Hok1 & Hall). cbv beta. rewrite wp_sbind, wp_logger, wp_sbind.
    assert (Hdoc : document_settled (staging_db s1) json_data) by (by exists d, n, colleges).
    destruct (truthy_opt job_id).
    + rewrite wp_stry. apply wp_job_update_ok; [by apply answering_log|].
      intros s2 Hs2 Hsame2. rewrite !wp_sret. intros _. split; [done|].
      eapply document_settled_same; [|done].
      eapply same_staging_trans; [apply same_staging_log|done].
    + rewrite !wp_sret. intros _. split; [by apply answering_log|done].
  - done.
  - intros done x acc s2 (Hs2 & Hok2 & Hall2).
    eapply wp_mono; [| |by apply stage_college_settles].
    + intros t' s3 (Hs3 & Hext3 & Hok3 & Hx). split; [done|]. split; [done|].
      apply Forall_app. split; [|by apply Forall_singleton].
      eapply Forall_impl; [done|]. intros c. by apply college_settled_extends.
    + done.
  - split; [by apply answering_log|]. split; [|done].
    intros name id. st_simpl. by rewrite lookup_empty.
Qed.

(** A run on tables that hold what the document names adds nothing. *)
Lemma save_to_staging_tables_noop s json_data job_id :
  answering s -> document_settled (staging_db s) json_data ->
  wp (save_to_staging_tables json_data job_id)
     (fun r s' => same_staging s s' /\ exists k, r = (true, settled_message k))
     (fun _ _ => False) s.
Proof.
  intros Hs (d & n & colleges & Hd & Htruthy & Hlen & Hiter & Hall).
  unfold save_to_staging_tables. rewrite wp_stry.
  apply wp_mono
    with (Q := fun (r : bool * string) s' =>
                 same_staging s s' /\ exists k, r = (true, settled_message k))
         (E := fun _ _ => False); [done|done|].
  rewrite wp_sbind, wp_read_config.
  pose proof Hs as (Hu & Hk & _). rewrite Hu, Hk. cbn [negb orb].
  rewrite wp_sbind. apply wp_create_client_ok; [done|].
  rewrite wp_sbind, wp_slift, Hd. rewrite Htruthy. cbn [negb].
  rewrite wp_sbind, wp_slift, Hlen.
  rewrite wp_sbind, wp_logger, wp_sbind, wp_slift, Hiter.
  rewrite wp_sbind.
  set (t0 := {| colleges_inserted := 0; courses_inserted := 0; mappings_inserted := 0;
                colleges_skipped := 0; course_name_to_id := ∅ |}).
  match goal with |- wp _ _ _ ?S1 => set (s1 := S1) end.
  assert (Hsame1 : same_staging s s1) by apply same_staging_log.
  assert (Hs1 : answering s1) by (by apply answering_log).
  eapply wp_mono;
    [| |apply (wp_sfor_each_in stage_college
                 (fun _ t' s' =>
                    answering s' /\ same_staging s s' /\ cache_ok (staging_db s') t' /\
                    nothing_inserted t0 t')
                 (fun _ _ => False) colleges [] t0 s1)].
  - intros t s2 (Hs2 & Hsame2 & Hok2 & (Hci & Hco & Hmi)). cbv beta.
    rewrite wp_sbind, wp_logger, wp_sbind.
    assert (Hmsg : staging_message t = settled_message (colleges_skipped t)).
    { unfold staging_message, settled_message. rewrite Hci, Hco, Hmi. reflexivity. }
    destruct (truthy_opt job_id).
    + rewrite wp_stry. apply wp_job_update_ok; [by apply answering_log|].
      intros s3 Hs3 Hsame3. rewrite !wp_sret. split.
      * eapply same_staging_trans; [done|].
        eapply same_staging_trans; [apply same_staging_log|done].
      * exists (colleges_skipped t). by rewrite Hmsg.
    + rewrite !wp_sret. split.
      * eapply same_staging_trans; [done|apply same_staging_log].
      * exists (colleges_skipped t). by rewrite Hmsg.
  - done.
  - intros done x acc s2 Hx (Hs2 & Hsame2 & Hok2 & Hnone2).
    eapply wp_mono; [| |apply stage_college_noop; [done|done|]].
    + intros t' s3 (Hs3 & Hsame3 & Hok3 & Hnone3). split; [done|].
      split; [by eapply same_staging_trans|]. split; [done|].
      by eapply nothing_inserted_trans.
    + done.
    + eapply college_settled_extends; [by apply extends_same|].
      by apply (proj1 (Forall_forall _ _) Hall).
  - split; [done|]. split; [done|]. split; [|apply nothing_inserted_refl].
    intros name id. unfold t0. st_simpl. by rewrite lookup_empty.
Qed.

(** X28. A second run adds nothing. When the store answers every call and
    [save_to_staging_tables] has returned success for a document, a second
    call with that document leaves the three staging tables as the first left
    them and returns success with the message
    [Staging tables updated: 0 colleges inserted, k skipped, 0 courses, 0
    mappings], [k] being the count of the colleges it found. *)
Theorem save_to_staging_tables_second_run s json_data job_id msg :
  answering s ->
  let r1 := save_to_staging_tables json_data job_id s in
  fst r1 = Return (true, msg) ->
  let r2 := save_to_staging_tables json_data job_id (snd r1) in
  same_staging (snd r1) (snd r2) /\
  exists k, fst r2 = Return (true, settled_message k).
Proof.
  intros Hs r1 Hr1 r2.
  pose proof (save_to_staging_tables_settles s json_data job_id Hs) as H1.
  unfold wp in H1. fold r1 in H1. destruct r1 as [[res1|e1] s1]; [|done].
  simpl in Hr1. injection Hr1 as ->. destruct (H1 eq_refl) as [Hs1 Hdoc].
  pose proof (save_to_staging_tables_noop s1 json_data job_id Hs1 Hdoc) as H2.
  unfold wp in H2. subst r2. simpl.
  destruct (save_to_staging_tables json_data job_id s1) as [[res2|e2] s2]; [|done].
  destruct H2 as [Hsame [k ->]]. simpl. eauto.
Qed.

(** *** The job of a run that fails *)

Lemma keeps_sret {A : Type} I (a : A) : keeps I (sret a).
Proof. by intros s Hs. Qed.

Lemma keeps_slift {A : Type} I (o : outcome A) : keeps I (slift o).
Proof. intros s Hs. rewrite wp_slift. by destruct o. Qed.

Lemma keeps_sbind {A B : Type} I (m : SM A) (k : A -> SM B) :
  keeps I m -> (forall a, keeps I (k a)) -> keeps I (sbind m k).
Proof.
  intros Hm Hk s Hs. rewrite wp_sbind. eapply wp_mono; [| |by apply Hm].
  - intros a s' Hs'. by apply Hk.
  - done.
Qed.

Lemma keeps_sfor_each {A B : Type} I (f : A -> B -> SM A) l :
  (forall acc x, keeps I (f acc x)) -> forall acc, keeps I (sfor_each f l acc).
Proof.
  intros Hf. induction l as [|x l IH]; intros acc; [apply keeps_sret|].
  apply keeps_sbind; [apply Hf|apply IH].
Qed.

Section Same_Jobs.
Variable s0 : sworld.

Lemma keeps_logger lvl msg : keeps (same_jobs s0) (srun (logger lvl msg)).
Proof. by intros s Hs. Qed.

Lemma keeps_issue_staging c : keeps (same_jobs s0) (issue_staging c).
Proof.
  intros s Hs. rewrite wp_issue_staging. by destruct (faults (store (app s))).
Qed.

Lemma keeps_select_college name : keeps (same_jobs s0) (select_st_college name).
Proof.
  apply keeps_sbind; [apply keeps_issue_staging|]. by intros [|msg|] s Hs.
Qed.

Lemma keeps_select_course name : keeps (same_jobs s0) (select_st_course name).
Proof.
  apply keeps_sbind; [apply keeps_issue_staging|]. by intros [|msg|] s Hs.
Qed.

Lemma keeps_select_mapping college_id course_id :
  keeps (same_jobs s0) (select_st_mapping college_id course_id).
Proof.
  apply keeps_sbind; [apply keeps_issue_staging|]. by intros [|msg|] s Hs.
Qed.

Lemma keeps_insert_college name description city type :
  keeps (same_jobs s0) (insert_st_college name description city type).
Proof.
  apply keeps_sbind; [apply keeps_issue_staging|]. by intros [|msg|] s Hs.
Qed.

Lemma keeps_insert_course name description duration degree_level annual_fees :
  keeps (same_jobs s0) (insert_st_course name description duration degree_level annual_fees).
Proof.
  apply keeps_sbind; [apply keeps_issue_staging|]. by intros [|msg|] s Hs.
Qed.

Lemma keeps_insert_mapping college_id course_id :
  keeps (same_jobs s0) (insert_st_mapping college_id course_id).
Proof.
  apply keeps_sbind; [apply keeps_issue_staging|]. by intros [|msg|] s Hs.
Qed.

End Same_Jobs.

End Staging_Logic.

(** Takes apart a computation that keeps [same_jobs]. *)
Ltac keeps_step :=
  first
    [ apply keeps_sret | apply keeps_slift | apply keeps_logger
    | apply keeps_select_college | apply keeps_select_course | apply keeps_select_mapping
    | apply keeps_insert_college | apply keeps_insert_course | apply keeps_insert_mapping
    | apply keeps_sbind; [|intros ?]
    | match goal with
      | |- keeps _ (if ?b then _ else _) => destruct b
      | |- keeps _ (match ?x with _ => _ end) => destruct x
      end ].

Section Staging_Jobs.

Lemma wp_create_client Q E s :
  Q tt s -> (forall e, E e s) -> wp (srun create_client) Q E s.
Proof.
  intros HQ HE. unfold wp, srun, create_client. destruct s as [w db]. simpl.
  destruct (client_error (store w)); [apply HE|apply HQ].
Qed.

Lemma keeps_stage_course s0 college_id t course :
  keeps (same_jobs s0) (stage_course college_id t course).
Proof. unfold stage_course. repeat keeps_step. Qed.

Lemma keeps_stage_college s0 t college : keeps (same_jobs s0) (stage_college t college).
Proof.
  unfold stage_college. repeat keeps_step;
    apply keeps_sfor_each; intros; apply keeps_stage_course.
Qed.

(** X29. A run that fails does not touch the job. When
    [save_to_staging_tables] returns failure, for want of credentials or of
    colleges or after an exception, the table [scrape_jobs] is as it was and
    no call on it was issued: the job status is written on success only.
    Without credentials no call is issued on the staging tables either. *)
Theorem save_to_staging_tables_failure_leaves_job s json_data job_id :
  let r := save_to_staging_tables json_data job_id s in
  (forall msg, fst r = Return (false, msg) -> same_jobs s (snd r)) /\
  (truthy_opt (SUPABASE_URL (cfg (app s))) = false \/
   truthy_opt (SUPABASE_KEY (cfg (app s))) = false ->
   fst r = Return (false, "Supabase credentials not found. Skipping staging table save.") /\
   staging_db (snd r) = staging_db s).
Proof.
  intros r. split.
  - assert (Hwp : wp (save_to_staging_tables json_data job_id)
                    (fun r s' => fst r = false -> same_jobs s s') (fun _ _ => False) s).
    { unfold save_to_staging_tables. rewrite wp_stry.
      apply wp_mono with (Q := fun (r : bool * string) s' => fst r = false -> same_jobs s s')
                         (E := fun _ s' => same_jobs s s').
      { done. }
      { intros e s' Hs'. by rewrite wp_sbind, wp_logger, wp_sret. }
      assert (Hs : same_jobs s s) by (by repeat split).
      rewrite wp_sbind, wp_read_config.
      destruct (_ || _); [by rewrite wp_sbind, wp_logger, wp_sret|].
      rewrite wp_sbind. apply wp_create_client; [|done].
      rewrite wp_sbind, wp_slift. destruct (as_dict json_data) as [d|e]; [|done].
      destruct (negb (truthy (get d "colleges" (PList [])))).
      { by rewrite wp_sbind, wp_logger, wp_sret. }
      rewrite wp_sbind, wp_slift. destruct (py_len _) as [n|e]; [|done].
      rewrite wp_sbind, wp_logger, wp_sbind, wp_slift.
      destruct (py_iter _) as [colleges|e]; [|done].
      rewrite wp_sbind.
      eapply wp_mono; [| |apply (keeps_sfor_each (same_jobs s) stage_college colleges)].
      - intros t s1 Hs1. cbv beta. rewrite wp_sbind, wp_logger, wp_sbind.
        destruct (truthy_opt job_id).
        + rewrite wp_stry. apply wp_srun_any.
          * intros [] w. rewrite !wp_sret. by intros [=].
          * intros e w. cbv beta. rewrite wp_logger, !wp_sret. by intros [=].
        + rewrite !wp_sret. by intros [=].
      - done.
      - intros acc x. apply keeps_stage_college.
      - done. }
    subst r. unfold wp in Hwp.
    destruct (save_to_staging_tables json_data job_id s) as [[[ok msg']|e] s']; [|done].
    simpl. intros msg [= -> _]. by apply Hwp.
  - intros Hoff. subst r. unfold save_to_staging_tables, stry, sbind, srun, read_config.
    destruct s as [w db]. simpl in *.
    destruct Hoff as [->| ->]; simpl; [done|].
    by destruct (truthy_opt (SUPABASE_URL (cfg w))).
Qed.

End Staging_Jobs.

Lemma demo_sworld_answering : answering demo_sworld.
Proof. by repeat split. Qed.

Lemma save_to_staging_tables_appends_witness :
  let r := save_to_staging_tables demo_described_doc None demo_sworld in
  (exists ok msg, fst r = Return (ok, msg)) /\
  grown demo_sworld (snd r) /\
  fst r = Return (true, "Staging tables updated: 2 colleges inserted, 0 skipped, 4 courses, 4 mappings") /\
  (fun row => (cg_name row, cg_city row, cg_type row, cg_description row))
    <$> st_college (staging_db (snd r))
  = [("ABC College", "Pune", "Private", "ABC College is located in Pune, . Type: Private");
     ("XYZ College", "", "", "XYZ College is located in , . Type: ")] /\
  (fun row => (cs_name row, cs_degree_level row, cs_description row))
    <$> st_course (staging_db (snd r))
  = [("B.Tech", PStr "UG", PStr "UG"); ("MBA", PNone, PStr "");
     ("B.A.", PStr "", PStr ""); ("M.Sc", PStr "", PStr "")].
Proof.
  destruct (save_to_staging_tables_appends demo_sworld demo_described_doc None)
    as [Hreturns Hgrown].
  split; [exact Hreturns|]. split; [exact Hgrown|].
  split; [vm_compute; reflexivity|]. split; vm_compute; reflexivity.
Defined.

Lemma save_to_staging_tables_keeps_names_unique_witness :
  answering demo_sworld /\
  unique_names (staging_db demo_sworld) /\
  let r := save_to_staging_tables demo_staging_doc None demo_sworld in
  unique_names (staging_db (snd r)) /\
  cs_name <$> st_course (staging_db (snd r)) = ["B.Tech"; "MBA"].
Proof.
  assert (Hu : unique_names (staging_db demo_sworld)).
  { repeat split; apply NoDup_nil_2. }
  split; [exact demo_sworld_answering|]. split; [exact Hu|].
  destruct (save_to_staging_tables_keeps_names_unique
              demo_sworld demo_staging_doc None demo_sworld_answering Hu) as [_ Hunique].
  split; [exact Hunique|]. vm_compute. reflexivity.
Defined.

Lemma save_to_staging_tables_second_run_witness :
  answering demo_sworld /\
  let r1 := save_to_staging_tables demo_staging_doc None
              demo_sworld in
  fst r1
  = Return (true, "Staging tables updated: 2 colleges inserted, 0 skipped, 2 courses, 3 mappings") /\
  let r2 := save_to_staging_tables demo_staging_doc None (snd r1) in
  same_staging (snd r1) (snd r2) /\
  exists k, fst r2 = Return (true, settled_message k).
Proof.
  split; [exact demo_sworld_answering|].
  assert (H1 : fst (save_to_staging_tables demo_staging_doc None
                      demo_sworld)
               = Return (true, "Staging tables updated: 2 colleges inserted, 0 skipped, 2 courses, 3 mappings"))
    by (vm_compute; reflexivity).
  split; [exact H1|].
  exact (save_to_staging_tables_second_run demo_sworld
           demo_staging_doc None _ demo_sworld_answering H1).
Defined.
